(** * user-management-models: storage adapters, query engine and hook pipeline

    A shallow embedding of the TypeScript sources

    - [adapters/MemoryAdapter.ts] and [adapters/FileSystemAdapter.ts]
      (the two storage back ends, their query code and transactions),
    - [hooks/HookManager.ts] (the interceptor registry),
    - [models/UserManager.ts], [models/RoleManager.ts] and
      [UserManagement.ts] (the hook-wrapped operations),
    - [utils/validation.ts], [utils/idGenerator.ts] and
      [plugins/PluginManager.ts],

    followed by the properties of the specification that concern them
    and by further properties of the code.

    Modelling conventions.

    - A JavaScript object is an insertion-ordered property list with
      unique keys ([OMap.t Value]); a JavaScript [Map<string, V>] is the
      same structure over [V].  Spread, [Map.set], [Map.delete] and
      iteration order are those of the language.
    - Numbers are integers ([Z]); a [Date] is its millisecond time value.
    - [IdGenerator.generate()] and [new Date()] are inputs of the
      operation that calls them.
    - A [Validator] is a parameter of both adapters; the one of
      [utils/validation.ts] is the instance [Validation.checks].
    - A thrown [Error] is the [Throw] case of [Result]; adapter state is
      threaded explicitly, so that the state left behind by a throwing
      call is visible.
    - The disk is a parameter of the file-system adapter
      ([FileSystemAdapter.Disk]): it accepts a write or refuses it, and
      a refused write makes [saveData] throw after the data have
      changed.  A statement that names no disk is about the disk that
      accepts every write ([FileSystemAdapter.reliable]).
    - A call of a hook is what it does with the context it is handed
      ([HookManager.Run]): the objects it wrote into, as it left them,
      the properties it set on the context, what its writes make of
      the adapter, which shares objects with the context, and what its
      promise settles to.  [executeHooks] follows the objects of its
      [data] by reference; an object of a hook's own that it puts under
      two keys is held as two copies.  A hook is a function of the
      context it reads: hooks that keep state between calls, or that
      write after they have settled, are outside the model.
    - A plugin is what its [initialize] and [shutdown] settle to.
    - [FileSystemAdapter.initialize] (which reads the data file) and
      [HookManager.removeHook] (which compares callbacks by identity)
      are not modelled. *)

From Stdlib Require Import List String Ascii ZArith Lia Bool Permutation.
From Stdlib Require Import Sorted DecimalString DecimalZ DecimalPos Decimal.
Import ListNotations.
Local Open Scope string_scope.
Local Open Scope Z_scope.

Set Implicit Arguments.

(* ================================================================== *)
(** ** Insertion-ordered maps with string keys *)

Module OMap.

Definition t (V : Type) : Type := list (string * V).

Definition empty {V} : t V := [].

Fixpoint get {V} (m : t V) (k : string) : option V :=
  match m with
  | [] => None
  | (k', v) :: m' => if String.eqb k' k then Some v else get m' k
  end.

Definition has {V} (m : t V) (k : string) : bool :=
  match get m k with Some _ => true | None => false end.

(** [set] overwrites the value of an existing key where it stands and
    appends a new key at the end. *)
Fixpoint set {V} (m : t V) (k : string) (v : V) : t V :=
  match m with
  | [] => [(k, v)]
  | (k', v') :: m' =>
      if String.eqb k' k then (k, v) :: m' else (k', v') :: set m' k v
  end.

Definition delete {V} (m : t V) (k : string) : t V :=
  filter (fun e => negb (String.eqb (fst e) k)) m.

Definition keys {V} (m : t V) : list string := map fst m.
Definition values {V} (m : t V) : list V := map snd m.
Definition entries {V} (m : t V) : list (string * V) := m.

(** [{...a, ...b}]: every property of [b] is set on a copy of [a]. *)
Definition spread {V} (a b : t V) : t V :=
  fold_left (fun acc e => set acc (fst e) (snd e)) b a.

End OMap.

(* ================================================================== *)
(** ** Values and objects *)

(** The members of a [Tag] map: [string | number | boolean]. *)
Inductive Prim : Type :=
| PBool (b : bool)
| PNum (n : Z)
| PStr (s : string).

(** The values an entity field can hold at run time. *)
Inductive Value : Type :=
| VUndefined
| VNull
| VBool (b : bool)
| VNum (n : Z)
| VStr (s : string)
| VDate (ms : Z)
| VTag (tags : OMap.t Prim).

Definition Obj : Type := OMap.t Value.

(** Property read [o[k]]: an absent property reads as [undefined]. *)
Definition prop (o : Obj) (k : string) : Value :=
  match OMap.get o k with Some v => v | None => VUndefined end.

(** [a === b].  Primitives compare by value.  A [Date] or a tag object is
    only identical to itself by reference; the values compared with
    [===] in this code base are a stored field and a caller-supplied
    literal or identifier, which are never the same object. *)
Definition strict_eq (a b : Value) : bool :=
  match a, b with
  | VUndefined, VUndefined => true
  | VNull, VNull => true
  | VBool x, VBool y => Bool.eqb x y
  | VNum x, VNum y => Z.eqb x y
  | VStr x, VStr y => String.eqb x y
  | _, _ => false
  end.

(** ** Dates and JSON *)

Definition digit (n : Z) : string :=
  String (ascii_of_nat (48 + Z.to_nat (n mod 10))) EmptyString.

(** [n] written with [w] decimal digits, zero padded. *)
Fixpoint pad (w : nat) (n : Z) : string :=
  match w with
  | O => EmptyString
  | S w' => pad w' (n / 10) ++ digit n
  end.

(** Proleptic Gregorian date of a day count since 1970-01-01. *)
Definition civil_from_days (days : Z) : Z * Z * Z :=
  let z := days + 719468 in
  let era := z / 146097 in
  let doe := z mod 146097 in
  let yoe := (doe - doe / 1460 + doe / 36524 - doe / 146096) / 365 in
  let doy := doe - (365 * yoe + yoe / 4 - yoe / 100) in
  let mp := (5 * doy + 2) / 153 in
  let d := doy - (153 * mp + 2) / 5 + 1 in
  let m := if mp <? 10 then mp + 3 else mp - 9 in
  let y := yoe + era * 400 + (if m <=? 2 then 1 else 0) in
  (y, m, d).

(** [Date.prototype.toISOString]: [YYYY-MM-DDTHH:mm:ss.sssZ], with the
    signed six digit year outside 0..9999. *)
Definition toISOString (ms : Z) : string :=
  let days := ms / 86400000 in
  let rest := ms mod 86400000 in
  let '(y, m, d) := civil_from_days days in
  let year :=
    if (0 <=? y) && (y <=? 9999) then pad 4 y
    else if y <? 0 then "-" ++ pad 6 (- y) else "+" ++ pad 6 y in
  year ++ "-" ++ pad 2 m ++ "-" ++ pad 2 d ++ "T"
       ++ pad 2 (rest / 3600000) ++ ":" ++ pad 2 (rest / 60000 mod 60) ++ ":"
       ++ pad 2 (rest / 1000 mod 60) ++ "." ++ pad 3 (rest mod 1000) ++ "Z".

(** What [JSON.parse(JSON.stringify(v))] gives back for a property value:
    [None] when [JSON.stringify] leaves the property out. *)
Definition json_value (v : Value) : option Value :=
  match v with
  | VUndefined => None
  | VDate ms => Some (VStr (toISOString ms))
  | _ => Some v
  end.

Fixpoint json_obj (o : Obj) : Obj :=
  match o with
  | [] => []
  | (k, v) :: o' =>
      match json_value v with
      | Some v' => (k, v') :: json_obj o'
      | None => json_obj o'
      end
  end.

(* ================================================================== *)
(** ** Errors and state *)

(** The outcome of a call: a value, or a thrown [Error] with its message. *)
Inductive Result (A : Type) : Type :=
| Ok (a : A)
| Throw (message : string).

Arguments Ok {A} a.
Arguments Throw {A} message.

(** A method of an object whose fields are a value of type [S]. *)
Definition M (S A : Type) : Type := S -> Result A * S.

Definition ret {S A} (a : A) : M S A := fun s => (Ok a, s).

Definition throw {S A} (message : string) : M S A := fun s => (Throw message, s).

Definition bind {S A B} (c : M S A) (k : A -> M S B) : M S B :=
  fun s =>
    match c s with
    | (Ok a, s') => k a s'
    | (Throw e, s') => (Throw e, s')
    end.

Definition gets {S A} (f : S -> A) : M S A := fun s => (Ok (f s), s).

Definition modify {S} (f : S -> S) : M S unit := fun s => (Ok tt, f s).

(** The state a call leaves behind, and its outcome. *)
Definition stateAfter {S A} (c : M S A) (s : S) : S := snd (c s).
Definition outcome {S A} (c : M S A) (s : S) : Result A := fst (c s).

Declare Scope js_scope.
Delimit Scope js_scope with js.
Notation "x <- c ;; k" := (bind c (fun x => k))
  (at level 61, c at next level, right associativity) : js_scope.
Notation "c ;; k" := (bind c (fun _ => k))
  (at level 61, right associativity) : js_scope.

(** [xs.join(sep)] *)
Fixpoint join (sep : string) (xs : list string) : string :=
  match xs with
  | [] => ""
  | [x] => x
  | x :: xs' => x ++ sep ++ join sep xs'
  end.

(* ================================================================== *)
(** ** Types of [types/index.ts] *)

Record ValidationError : Type := {
  field : string;
  message : string;
}.

Inductive SortOrder : Type := asc | desc.

Record QueryOptions : Type := {
  filter : option (OMap.t Value);
  sort : option (OMap.t SortOrder);
  limit : option Z;
  offset : option Z;
  include : option (list string);
}.

(** The result of a list operation, [{ items, total }]. *)
Record Page : Type := {
  items : list Obj;
  total : Z;
}.

(** [utils/validation.ts]: the four checks the adapters call. *)
Class Validator : Type := {
  validateUser : Obj -> list ValidationError;
  validateRole : Obj -> list ValidationError;
  validateId : string -> option ValidationError;
  validateQueryOptions : option QueryOptions -> option ValidationError;
}.

(** A validator that accepts every input. *)
Definition acceptAll : Validator := {|
  validateUser := fun _ => [];
  validateRole := fun _ => [];
  validateId := fun _ => None;
  validateQueryOptions := fun _ => None;
|}.

(** [throw new Error(`Validation failed: ${errors.map(e => e.message).join(', ')}`)]
    when [errors] is not empty. *)
Definition failIfAny {S} (errors : list ValidationError) : M S unit :=
  match errors with
  | [] => ret tt
  | _ => throw ("Validation failed: " ++ join ", " (map message errors))
  end.

(** [throw new Error(`Validation failed: ${error.message}`)] when there
    is an error. *)
Definition failIfSome {S} (error : option ValidationError) : M S unit :=
  match error with
  | None => ret tt
  | Some e => throw ("Validation failed: " ++ message e)
  end.

(** The check that opens [assignRole] and [removeRole]:
    [[userIdError, roleIdError].filter(Boolean)], joined. *)
Definition failIfEither {S} (e1 e2 : option ValidationError) : M S unit :=
  match e1, e2 with
  | None, None => ret tt
  | _, _ =>
      let present := fun e => match e with Some x => [x] | None => [] end in
      throw ("Validation failed: "
               ++ join ", " (map message (present e1 ++ present e2)))
  end.

(* ================================================================== *)
(** ** Array methods *)

(** [Array.prototype.sort(cmp)]: a stable sort; [cmp a b <= 0] keeps
    [a] before [b]. *)
Fixpoint insert {A} (cmp : A -> A -> Z) (x : A) (l : list A) : list A :=
  match l with
  | [] => [x]
  | y :: l' => if cmp x y <=? 0 then x :: y :: l' else y :: insert cmp x l'
  end.

Fixpoint Array_sort {A} (cmp : A -> A -> Z) (l : list A) : list A :=
  match l with
  | [] => []
  | x :: l' => insert cmp x (Array_sort cmp l')
  end.

(** [Array.prototype.slice(start, end)] for integer arguments. *)
Definition slice {A} (l : list A) (first last : Z) : list A :=
  let len := Z.of_nat (List.length l) in
  let k := if first <? 0 then Z.max (len + first) 0 else Z.min first len in
  let final := if last <? 0 then Z.max (len + last) 0 else Z.min last len in
  firstn (Z.to_nat (final - k)) (skipn (Z.to_nat k) l).

(* ================================================================== *)
(** ** The query code shared by the four list operations *)

Module Query.

(** [StringToNumber], for the decimal integer literals; any other
    text is [NaN] ([None]). *)
Fixpoint digits_value (s : string) (acc : Z) : option Z :=
  match s with
  | EmptyString => Some acc
  | String c s' =>
      let n := Z.of_nat (nat_of_ascii c) in
      if (48 <=? n) && (n <=? 57)
      then digits_value s' (10 * acc + (n - 48))
      else None
  end.

Definition string_to_number (s : string) : option Z :=
  match s with
  | EmptyString => Some 0
  | String "-" (String _ _ as s') => option_map Z.opp (digits_value s' 0)
  | String "+" (String _ _ as s') => digits_value s' 0
  | String "-" EmptyString | String "+" EmptyString => None
  | _ => digits_value s 0
  end.

(** [ToPrimitive] with hint number: a [Date] gives its time value, a
    plain object its default string. *)
Definition to_primitive (v : Value) : Value :=
  match v with
  | VDate ms => VNum ms
  | VTag _ => VStr "[object Object]"
  | _ => v
  end.

(** [ToNumber] of a primitive; [None] is [NaN]. *)
Definition to_number (v : Value) : option Z :=
  match v with
  | VUndefined => None
  | VNull => Some 0
  | VBool b => Some (if b then 1 else 0)
  | VNum n => Some n
  | VStr s => string_to_number s
  | VDate ms => Some ms
  | VTag _ => None
  end.

(** [a < b] *)
Definition less_than (a b : Value) : bool :=
  match to_primitive a, to_primitive b with
  | VStr x, VStr y => String.ltb x y
  | x, y =>
      match to_number x, to_number y with
      | Some n, Some m => n <? m
      | _, _ => false
      end
  end.

(** [a > b] *)
Definition greater_than (a b : Value) : bool := less_than b a.

Definition is_undefined (v : Value) : bool :=
  match v with VUndefined => true | _ => false end.

(** The callback of [filter]:
    [Object.entries(options.filter).every(([key, value]) => record[key] === value)] *)
Definition matches (f : OMap.t Value) (record : Obj) : bool :=
  forallb (fun e => strict_eq (prop record (fst e)) (snd e)) (OMap.entries f).

(** The comparator of [sort]: the first key on which both records are
    defined and differ decides. *)
Fixpoint compareBy (spec : list (string * SortOrder)) (a b : Obj) : Z :=
  match spec with
  | [] => 0
  | (key, order) :: spec' =>
      let aValue := prop a key in
      let bValue := prop b key in
      if negb (is_undefined aValue) && negb (is_undefined bValue) then
        if less_than aValue bValue
        then (match order with asc => -1 | desc => 1 end)
        else if greater_than aValue bValue
        then (match order with asc => 1 | desc => -1 end)
        else compareBy spec' a b
      else compareBy spec' a b
  end.

(** [if (options?.filter) { records = records.filter(...) }] *)
Definition applyFilter (options : option QueryOptions) (records : list Obj)
  : list Obj :=
  match options with
  | Some {| filter := Some f |} => List.filter (matches f) records
  | _ => records
  end.

(** [if (options?.sort) { records.sort(...) }] *)
Definition applySort (options : option QueryOptions) (records : list Obj)
  : list Obj :=
  match options with
  | Some {| sort := Some s |} => Array_sort (compareBy (OMap.entries s)) records
  | _ => records
  end.

(** [options.offset || 0] *)
Definition offsetOrZero (o : QueryOptions) : Z :=
  match offset o with Some n => n | None => 0 end.

(** A number is truthy unless it is zero. *)
Definition truthy (n : option Z) : bool :=
  match n with Some n => negb (n =? 0) | None => false end.

(** [if (options?.limit) { const offset = options.offset || 0;
       records = records.slice(offset, offset + options.limit) }] *)
Definition applyPagination (options : option QueryOptions) (records : list Obj)
  : list Obj :=
  match options with
  | Some o =>
      match limit o with
      | Some l =>
          if truthy (Some l)
          then slice records (offsetOrZero o) (offsetOrZero o + l)
          else records
      | None => records
      end
  | None => records
  end.

(** The body of [getUsers] and [getRoles] after validation, the same
    text in both adapters: count, filter, sort, paginate. *)
Definition run (all : list Obj) (options : option QueryOptions) : Page :=
  let records := all in
  let total := Z.of_nat (List.length records) in
  let records := applyFilter options records in
  let records := applySort options records in
  let records := applyPagination options records in
  {| items := records; total := total |}.

End Query.

(* ================================================================== *)
(** ** Object literals written alike in both adapters *)

(** [{ ...data, id, createdAt: now, updatedAt: now }] *)
Definition stamped (data : Obj) (id : string) (now : Z) : Obj :=
  OMap.set (OMap.set (OMap.set data "id" (VStr id))
                     "createdAt" (VDate now))
           "updatedAt" (VDate now).

(** [{ ...record, ...data, updatedAt: new Date() }] *)
Definition merged (record data : Obj) (now : Z) : Obj :=
  OMap.set (OMap.spread record data) "updatedAt" (VDate now).

(** [{ userId, roleId, createdAt: now }] *)
Definition association (userId roleId : string) (now : Z) : Obj :=
  [("userId", VStr userId); ("roleId", VStr roleId); ("createdAt", VDate now)].

Local Open Scope js_scope.

(* ================================================================== *)
(** ** [adapters/MemoryAdapter.ts] *)

Module MemoryAdapter.

(** The type of the [transactionData] field. *)
Record TransactionData : Type := {
  tx_users : OMap.t Obj;
  tx_roles : OMap.t Obj;
  tx_userRoles : OMap.t Obj;
}.

(** The private fields of a [MemoryAdapter]. *)
Record State : Type := {
  users : OMap.t Obj;
  roles : OMap.t Obj;
  userRoles : OMap.t Obj;
  inTransaction : bool;
  transactionData : option TransactionData;
}.

(** [new MemoryAdapter()] *)
Definition create : State := {|
  users := OMap.empty;
  roles := OMap.empty;
  userRoles := OMap.empty;
  inTransaction := false;
  transactionData := None;
|}.

Definition initialize : M State unit := ret tt.

Definition shutdown : M State unit := ret tt.

Definition beginTransaction : M State unit :=
  st <- gets (fun st => st) ;;
  if inTransaction st then throw "Transaction already in progress"
  else
    modify (fun st => {|
      users := users st;
      roles := roles st;
      userRoles := userRoles st;
      inTransaction := true;
      transactionData := Some {|
        tx_users := users st;
        tx_roles := roles st;
        tx_userRoles := userRoles st;
      |};
    |}).

Definition commit : M State unit :=
  st <- gets (fun st => st) ;;
  match inTransaction st, transactionData st with
  | true, Some td =>
      modify (fun _ => {|
        users := tx_users td;
        roles := tx_roles td;
        userRoles := tx_userRoles td;
        inTransaction := false;
        transactionData := None;
      |})
  | _, _ => throw "No transaction in progress"
  end.

Definition rollback : M State unit :=
  st <- gets (fun st => st) ;;
  match inTransaction st, transactionData st with
  | true, Some _ =>
      modify (fun st => {|
        users := users st;
        roles := roles st;
        userRoles := userRoles st;
        inTransaction := false;
        transactionData := None;
      |})
  | _, _ => throw "No transaction in progress"
  end.

(** [getUserMap()], [getRoleMap()], [getUserRoleMap()]: the map of the
    open transaction if there is one, the live map otherwise. *)
Definition getUserMap (st : State) : OMap.t Obj :=
  match inTransaction st, transactionData st with
  | true, Some td => tx_users td
  | _, _ => users st
  end.

Definition getRoleMap (st : State) : OMap.t Obj :=
  match inTransaction st, transactionData st with
  | true, Some td => tx_roles td
  | _, _ => roles st
  end.

Definition getUserRoleMap (st : State) : OMap.t Obj :=
  match inTransaction st, transactionData st with
  | true, Some td => tx_userRoles td
  | _, _ => userRoles st
  end.

(** A mutation of the map that [getUserMap()] returned. *)
Definition onUserMap (f : OMap.t Obj -> OMap.t Obj) (st : State) : State :=
  match inTransaction st, transactionData st with
  | true, Some td => {|
      users := users st;
      roles := roles st;
      userRoles := userRoles st;
      inTransaction := inTransaction st;
      transactionData := Some {|
        tx_users := f (tx_users td);
        tx_roles := tx_roles td;
        tx_userRoles := tx_userRoles td;
      |};
    |}
  | _, _ => {|
      users := f (users st);
      roles := roles st;
      userRoles := userRoles st;
      inTransaction := inTransaction st;
      transactionData := transactionData st;
    |}
  end.

Definition onRoleMap (f : OMap.t Obj -> OMap.t Obj) (st : State) : State :=
  match inTransaction st, transactionData st with
  | true, Some td => {|
      users := users st;
      roles := roles st;
      userRoles := userRoles st;
      inTransaction := inTransaction st;
      transactionData := Some {|
        tx_users := tx_users td;
        tx_roles := f (tx_roles td);
        tx_userRoles := tx_userRoles td;
      |};
    |}
  | _, _ => {|
      users := users st;
      roles := f (roles st);
      userRoles := userRoles st;
      inTransaction := inTransaction st;
      transactionData := transactionData st;
    |}
  end.

Definition onUserRoleMap (f : OMap.t Obj -> OMap.t Obj) (st : State) : State :=
  match inTransaction st, transactionData st with
  | true, Some td => {|
      users := users st;
      roles := roles st;
      userRoles := userRoles st;
      inTransaction := inTransaction st;
      transactionData := Some {|
        tx_users := tx_users td;
        tx_roles := tx_roles td;
        tx_userRoles := f (tx_userRoles td);
      |};
    |}
  | _, _ => {|
      users := users st;
      roles := roles st;
      userRoles := f (userRoles st);
      inTransaction := inTransaction st;
      transactionData := transactionData st;
    |}
  end.

(** The loop of [deleteUser] and [deleteRole]:
    [for (const [key, userRole] of userRoles.entries())
       if (userRole[field] === id) userRoles.delete(key)] *)
Definition purge (field id : string) (userRoles : OMap.t Obj) : OMap.t Obj :=
  fold_left
    (fun m e =>
       if strict_eq (prop (snd e) field) (VStr id)
       then OMap.delete m (fst e) else m)
    (OMap.entries userRoles) userRoles.

(** [set.add(v)] on an insertion-ordered [Set]. *)
Definition Set_add (s : list Value) (v : Value) : list Value :=
  if existsb (strict_eq v) s then s else (s ++ [v])%list.

(** [map.get(v)] for a key read from a record: the keys of the map are
    strings, so that only a string can find an entry. *)
Definition getByValue (m : OMap.t Obj) (v : Value) : option Obj :=
  match v with
  | VStr k => OMap.get m k
  | _ => None
  end.

(** The id set built by [getUserRoles] and [getRoleUsers]: the [other]
    field of every association whose [field] is [id]. *)
Definition linkedIds (field other id : string) (userRoles : OMap.t Obj)
  : list Value :=
  fold_left
    (fun ids userRole =>
       if strict_eq (prop userRole field) (VStr id)
       then Set_add ids (prop userRole other) else ids)
    (OMap.values userRoles) [].

(** [Array.from(ids).map(id => m.get(id)).filter(x => x !== undefined)] *)
Definition lookupAll (m : OMap.t Obj) (ids : list Value) : list Obj :=
  flat_map
    (fun id => match getByValue m id with Some r => [r] | None => [] end)
    ids.

Section Operations.

Context {V : Validator}.

Definition createUser (userData : Obj) (id : string) (now : Z)
  : M State Obj :=
  failIfAny (validateUser userData) ;;
  let user := stamped userData id now in
  modify (onUserMap (fun m => OMap.set m id user)) ;;
  ret user.

Definition getUserById (id : string) : M State (option Obj) :=
  failIfSome (validateId id) ;;
  m <- gets getUserMap ;;
  ret (OMap.get m id).

Definition getUsers (options : option QueryOptions) : M State Page :=
  failIfSome (validateQueryOptions options) ;;
  m <- gets getUserMap ;;
  ret (Query.run (OMap.values m) options).

Definition updateUser (id : string) (userData : Obj) (now : Z)
  : M State (option Obj) :=
  failIfSome (validateId id) ;;
  users <- gets getUserMap ;;
  match OMap.get users id with
  | None => ret None
  | Some user =>
      failIfAny (validateUser (OMap.spread user userData)) ;;
      let updatedUser := merged user userData now in
      modify (onUserMap (fun m => OMap.set m id updatedUser)) ;;
      ret (Some updatedUser)
  end.

Definition deleteUser (id : string) : M State bool :=
  failIfSome (validateId id) ;;
  modify (onUserRoleMap (purge "userId" id)) ;;
  users <- gets getUserMap ;;
  modify (onUserMap (fun m => OMap.delete m id)) ;;
  ret (OMap.has users id).

Definition createRole (roleData : Obj) (id : string) (now : Z)
  : M State Obj :=
  failIfAny (validateRole roleData) ;;
  let role := stamped roleData id now in
  modify (onRoleMap (fun m => OMap.set m id role)) ;;
  ret role.

Definition getRoleById (id : string) : M State (option Obj) :=
  failIfSome (validateId id) ;;
  m <- gets getRoleMap ;;
  ret (OMap.get m id).

Definition getRoles (options : option QueryOptions) : M State Page :=
  failIfSome (validateQueryOptions options) ;;
  m <- gets getRoleMap ;;
  ret (Query.run (OMap.values m) options).

Definition updateRole (id : string) (roleData : Obj) (now : Z)
  : M State (option Obj) :=
  failIfSome (validateId id) ;;
  roles <- gets getRoleMap ;;
  match OMap.get roles id with
  | None => ret None
  | Some role =>
      failIfAny (validateRole (OMap.spread role roleData)) ;;
      let updatedRole := merged role roleData now in
      modify (onRoleMap (fun m => OMap.set m id updatedRole)) ;;
      ret (Some updatedRole)
  end.

Definition deleteRole (id : string) : M State bool :=
  failIfSome (validateId id) ;;
  modify (onUserRoleMap (purge "roleId" id)) ;;
  roles <- gets getRoleMap ;;
  modify (onRoleMap (fun m => OMap.delete m id)) ;;
  ret (OMap.has roles id).

(** [this.users.has(userId) || (this.transactionData?.users.has(userId) ?? false)] *)
Definition userExists (st : State) (userId : string) : bool :=
  OMap.has (users st) userId
  || match transactionData st with
     | Some td => OMap.has (tx_users td) userId
     | None => false
     end.

Definition roleExists (st : State) (roleId : string) : bool :=
  OMap.has (roles st) roleId
  || match transactionData st with
     | Some td => OMap.has (tx_roles td) roleId
     | None => false
     end.

Definition assignRole (userId roleId : string) (now : Z) : M State Obj :=
  failIfEither (validateId userId) (validateId roleId) ;;
  st <- gets (fun st => st) ;;
  (* Check in both main data and transaction data *)
  if negb (userExists st userId) || negb (roleExists st roleId)
  then throw "User or role not found"
  else
    let key := userId ++ ":" ++ roleId in
    userRoles <- gets getUserRoleMap ;;
    match OMap.get userRoles key with
    | Some existing => ret existing
    | None =>
        let userRole := association userId roleId now in
        modify (onUserRoleMap (fun m => OMap.set m key userRole)) ;;
        ret userRole
    end.

Definition removeRole (userId roleId : string) : M State bool :=
  failIfEither (validateId userId) (validateId roleId) ;;
  let key := userId ++ ":" ++ roleId in
  userRoles <- gets getUserRoleMap ;;
  modify (onUserRoleMap (fun m => OMap.delete m key)) ;;
  ret (OMap.has userRoles key).

Definition getUserRoles (userId : string) : M State (list Obj) :=
  failIfSome (validateId userId) ;;
  userRoles <- gets getUserRoleMap ;;
  roles <- gets getRoleMap ;;
  ret (lookupAll roles (linkedIds "userId" "roleId" userId userRoles)).

Definition getRoleUsers (roleId : string) : M State (list Obj) :=
  failIfSome (validateId roleId) ;;
  userRoles <- gets getUserRoleMap ;;
  users <- gets getUserMap ;;
  ret (lookupAll users (linkedIds "roleId" "userId" roleId userRoles)).

End Operations.

End MemoryAdapter.

(* ================================================================== *)
(** ** [adapters/FileSystemAdapter.ts] *)

Module FileSystemAdapter.

(** [interface FileSystemData] *)
Record FileSystemData : Type := {
  users : list Obj;
  roles : list Obj;
  userRoles : list Obj;
}.

(** The private fields of a [FileSystemAdapter], and the files it
    writes: a path is mapped to the document that parsing the file
    yields. *)
Record State : Type := {
  dataDir : string;
  dataPath : string;
  data : FileSystemData;
  inTransaction : bool;
  transactionData : option FileSystemData;
  files : OMap.t FileSystemData;
}.

Definition emptyData : FileSystemData :=
  {| users := []; roles := []; userRoles := [] |}.

(** [new FileSystemAdapter({ dataDir })] over the given files. *)
Definition create (dir : string) (fs : OMap.t FileSystemData) : State := {|
  dataDir := dir;
  dataPath := dir ++ "/data.json";
  data := emptyData;
  inTransaction := false;
  transactionData := None;
  files := fs;
|}.

(** [JSON.parse(JSON.stringify(data))] *)
Definition jsonCopy (d : FileSystemData) : FileSystemData := {|
  users := map json_obj (users d);
  roles := map json_obj (roles d);
  userRoles := map json_obj (userRoles d);
|}.

Definition withData (f : FileSystemData -> FileSystemData) (st : State)
  : State := {|
  dataDir := dataDir st;
  dataPath := dataPath st;
  data := f (data st);
  inTransaction := inTransaction st;
  transactionData := transactionData st;
  files := files st;
|}.

Definition withUsers (f : list Obj -> list Obj) (d : FileSystemData)
  : FileSystemData :=
  {| users := f (users d); roles := roles d; userRoles := userRoles d |}.

Definition withRoles (f : list Obj -> list Obj) (d : FileSystemData)
  : FileSystemData :=
  {| users := users d; roles := f (roles d); userRoles := userRoles d |}.

Definition withUserRoles (f : list Obj -> list Obj) (d : FileSystemData)
  : FileSystemData :=
  {| users := users d; roles := roles d; userRoles := f (userRoles d) |}.

(** The disk, as it answers a write of a document to a path over the
    files it holds: it accepts it ([None]), or it refuses it with an
    error and leaves files of its own choosing, since a refused write
    can have emptied the file it was to replace. *)
Class Disk : Type := {
  refuses : string -> FileSystemData -> OMap.t FileSystemData
            -> option (string * OMap.t FileSystemData);
}.

(** A disk that accepts every write. *)
#[global] Instance reliable : Disk := {| refuses := fun _ _ _ => None |}.

(** [await fs.writeFile(path, text, 'utf-8')], for the text of a
    document: the file holds it afterwards, or the call throws. *)
Definition writeFile {D : Disk} (path : string) (document : FileSystemData)
  : M (OMap.t FileSystemData) unit :=
  fun fs =>
    match refuses path document fs with
    | None => (Ok tt, OMap.set fs path document)
    | Some (error, fs') => (Throw error, fs')
    end.

(** [saveData()]: the whole of [this.data] is written to [dataPath]. *)
Definition saveData {D : Disk} : M State unit :=
  fun st =>
    let (r, fs) := writeFile (dataPath st) (jsonCopy (data st)) (files st) in
    (r, {|
       dataDir := dataDir st;
       dataPath := dataPath st;
       data := data st;
       inTransaction := inTransaction st;
       transactionData := transactionData st;
       files := fs;
     |}).

(** [if (!this.inTransaction) { await this.saveData() }] *)
Definition saveUnlessInTransaction {D : Disk} : M State unit :=
  inTx <- gets inTransaction ;;
  if inTx then ret tt else saveData.

Definition shutdown {D : Disk} : M State unit := saveData.

Definition beginTransaction : M State unit :=
  st <- gets (fun st => st) ;;
  if inTransaction st then throw "Transaction already in progress"
  else
    modify (fun st => {|
      dataDir := dataDir st;
      dataPath := dataPath st;
      data := data st;
      inTransaction := true;
      transactionData := Some (jsonCopy (data st));
      files := files st;
    |}).

Definition commit {D : Disk} : M State unit :=
  st <- gets (fun st => st) ;;
  if negb (inTransaction st) then throw "No transaction in progress"
  else
    saveData ;;
    modify (fun st => {|
      dataDir := dataDir st;
      dataPath := dataPath st;
      data := data st;
      inTransaction := false;
      transactionData := None;
      files := files st;
    |}).

Definition rollback : M State unit :=
  st <- gets (fun st => st) ;;
  match inTransaction st, transactionData st with
  | true, Some td =>
      modify (fun st => {|
        dataDir := dataDir st;
        dataPath := dataPath st;
        data := td;
        inTransaction := false;
        transactionData := None;
        files := files st;
      |})
  | _, _ => throw "No transaction in progress"
  end.

Definition _getUsers (st : State) : list Obj := users (data st).
Definition _getRoles (st : State) : list Obj := roles (data st).
Definition _getUserRoles (st : State) : list Obj := userRoles (data st).

(** [record.id === id] *)
Definition hasId (id : string) (record : Obj) : bool :=
  strict_eq (prop record "id") (VStr id).

(** [userRole.userId === userId && userRole.roleId === roleId] *)
Definition links (userId roleId : string) (userRole : Obj) : bool :=
  strict_eq (prop userRole "userId") (VStr userId)
  && strict_eq (prop userRole "roleId") (VStr roleId).

(** [xs.findIndex(p)], [None] for [-1]. *)
Fixpoint findIndex {A} (p : A -> bool) (xs : list A) : option nat :=
  match xs with
  | [] => None
  | x :: xs' =>
      if p x then Some O
      else match findIndex p xs' with Some i => Some (S i) | None => None end
  end.

(** [xs[i] = x] for an index inside the array. *)
Fixpoint assignAt {A} (xs : list A) (i : nat) (x : A) : list A :=
  match xs, i with
  | [], _ => []
  | _ :: xs', O => x :: xs'
  | y :: xs', S i' => y :: assignAt xs' i' x
  end.

(** [xs.splice(i, 1)] *)
Fixpoint spliceOne {A} (xs : list A) (i : nat) : list A :=
  match xs, i with
  | [], _ => []
  | _ :: xs', O => xs'
  | y :: xs', S i' => y :: spliceOne xs' i'
  end.

(** [new Set(userRoles.filter(ur => ur[field] === id).map(ur => ur[other]))],
    as the list of its members tested by [has]. *)
Definition linkedIds (field other id : string) (userRoles : list Obj)
  : list Value :=
  map (fun userRole => prop userRole other)
      (List.filter (fun userRole => strict_eq (prop userRole field) (VStr id))
                   userRoles).

(** [records.filter(record => ids.has(record.id))] *)
Definition selectByIds (ids : list Value) (records : list Obj) : list Obj :=
  List.filter (fun record => existsb (strict_eq (prop record "id")) ids) records.

Section Operations.

Context {V : Validator} {D : Disk}.

Definition createUser (userData : Obj) (id : string) (now : Z)
  : M State Obj :=
  failIfAny (validateUser userData) ;;
  let user := stamped userData id now in
  modify (withData (withUsers (fun us => (us ++ [user])%list))) ;;
  saveUnlessInTransaction ;;
  ret user.

Definition getUserById (id : string) : M State (option Obj) :=
  failIfSome (validateId id) ;;
  us <- gets _getUsers ;;
  ret (find (hasId id) us).

Definition getUsers (options : option QueryOptions) : M State Page :=
  failIfSome (validateQueryOptions options) ;;
  us <- gets _getUsers ;;
  ret (Query.run us options).

Definition updateUser (id : string) (userData : Obj) (now : Z)
  : M State (option Obj) :=
  failIfSome (validateId id) ;;
  us <- gets (fun st => users (data st)) ;;
  match findIndex (hasId id) us with
  | None => ret None
  | Some userIndex =>
      let updatedUser :=
        merged (nth userIndex us []) userData now in
      failIfAny (validateUser updatedUser) ;;
      modify (withData (withUsers (fun us => assignAt us userIndex updatedUser))) ;;
      saveUnlessInTransaction ;;
      ret (Some updatedUser)
  end.

Definition deleteUser (id : string) : M State bool :=
  failIfSome (validateId id) ;;
  us <- gets (fun st => users (data st)) ;;
  match findIndex (hasId id) us with
  | None => ret false
  | Some userIndex =>
      modify (withData (withUserRoles
        (List.filter (fun userRole =>
           negb (strict_eq (prop userRole "userId") (VStr id)))))) ;;
      modify (withData (withUsers (fun us => spliceOne us userIndex))) ;;
      saveUnlessInTransaction ;;
      ret true
  end.

Definition createRole (roleData : Obj) (id : string) (now : Z)
  : M State Obj :=
  failIfAny (validateRole roleData) ;;
  let role := stamped roleData id now in
  modify (withData (withRoles (fun rs => (rs ++ [role])%list))) ;;
  saveUnlessInTransaction ;;
  ret role.

Definition getRoleById (id : string) : M State (option Obj) :=
  failIfSome (validateId id) ;;
  rs <- gets _getRoles ;;
  ret (find (hasId id) rs).

Definition getRoles (options : option QueryOptions) : M State Page :=
  failIfSome (validateQueryOptions options) ;;
  rs <- gets _getRoles ;;
  ret (Query.run rs options).

Definition updateRole (id : string) (roleData : Obj) (now : Z)
  : M State (option Obj) :=
  failIfSome (validateId id) ;;
  rs <- gets (fun st => roles (data st)) ;;
  match findIndex (hasId id) rs with
  | None => ret None
  | Some roleIndex =>
      let updatedRole :=
        merged (nth roleIndex rs []) roleData now in
      failIfAny (validateRole updatedRole) ;;
      modify (withData (withRoles (fun rs => assignAt rs roleIndex updatedRole))) ;;
      saveUnlessInTransaction ;;
      ret (Some updatedRole)
  end.

Definition deleteRole (id : string) : M State bool :=
  failIfSome (validateId id) ;;
  rs <- gets (fun st => roles (data st)) ;;
  match findIndex (hasId id) rs with
  | None => ret false
  | Some roleIndex =>
      modify (withData (withUserRoles
        (List.filter (fun userRole =>
           negb (strict_eq (prop userRole "roleId") (VStr id)))))) ;;
      modify (withData (withRoles (fun rs => spliceOne rs roleIndex))) ;;
      saveUnlessInTransaction ;;
      ret true
  end.

Definition assignRole (userId roleId : string) (now : Z) : M State Obj :=
  failIfEither (validateId userId) (validateId roleId) ;;
  us <- gets _getUsers ;;
  rs <- gets _getRoles ;;
  let userExists := existsb (hasId userId) us in
  let roleExists := existsb (hasId roleId) rs in
  if negb userExists || negb roleExists
  then throw "User or role not found"
  else
    urs <- gets _getUserRoles ;;
    match find (links userId roleId) urs with
    | Some existingUserRole => ret existingUserRole
    | None =>
        let userRole := association userId roleId now in
        modify (withData (withUserRoles (fun urs => (urs ++ [userRole])%list))) ;;
        saveUnlessInTransaction ;;
        ret userRole
    end.

Definition removeRole (userId roleId : string) : M State bool :=
  failIfEither (validateId userId) (validateId roleId) ;;
  before <- gets (fun st => userRoles (data st)) ;;
  let initialLength := List.length before in
  modify (withData (withUserRoles
    (List.filter (fun userRole => negb (links userId roleId userRole))))) ;;
  after <- gets (fun st => userRoles (data st)) ;;
  let removed := Nat.ltb (List.length after) initialLength in
  inTx <- gets inTransaction ;;
  (if removed && negb inTx then saveData else ret tt) ;;
  ret removed.

Definition getUserRoles (userId : string) : M State (list Obj) :=
  failIfSome (validateId userId) ;;
  urs <- gets _getUserRoles ;;
  rs <- gets _getRoles ;;
  ret (selectByIds (linkedIds "userId" "roleId" userId urs) rs).

Definition getRoleUsers (roleId : string) : M State (list Obj) :=
  failIfSome (validateId roleId) ;;
  urs <- gets _getUserRoles ;;
  us <- gets _getUsers ;;
  ret (selectByIds (linkedIds "roleId" "userId" roleId urs) us).

End Operations.

End FileSystemAdapter.

(* ================================================================== *)
(** ** [interface StorageAdapter] *)

Module StorageAdapter.

(** An implementation of the interface over a state of type [S]. *)
Record t (S : Type) : Type := {
  createUser : Obj -> string -> Z -> M S Obj;
  getUserById : string -> M S (option Obj);
  getUsers : option QueryOptions -> M S Page;
  updateUser : string -> Obj -> Z -> M S (option Obj);
  deleteUser : string -> M S bool;
  createRole : Obj -> string -> Z -> M S Obj;
  getRoleById : string -> M S (option Obj);
  getRoles : option QueryOptions -> M S Page;
  updateRole : string -> Obj -> Z -> M S (option Obj);
  deleteRole : string -> M S bool;
  assignRole : string -> string -> Z -> M S Obj;
  removeRole : string -> string -> M S bool;
  getUserRoles : string -> M S (list Obj);
  getRoleUsers : string -> M S (list Obj);
  beginTransaction : M S unit;
  commit : M S unit;
  rollback : M S unit;
  shutdown : M S unit;
}.

(** [class MemoryAdapter implements StorageAdapter] *)
Definition memory {V : Validator} : t MemoryAdapter.State := {|
  createUser := MemoryAdapter.createUser;
  getUserById := MemoryAdapter.getUserById;
  getUsers := MemoryAdapter.getUsers;
  updateUser := MemoryAdapter.updateUser;
  deleteUser := MemoryAdapter.deleteUser;
  createRole := MemoryAdapter.createRole;
  getRoleById := MemoryAdapter.getRoleById;
  getRoles := MemoryAdapter.getRoles;
  updateRole := MemoryAdapter.updateRole;
  deleteRole := MemoryAdapter.deleteRole;
  assignRole := MemoryAdapter.assignRole;
  removeRole := MemoryAdapter.removeRole;
  getUserRoles := MemoryAdapter.getUserRoles;
  getRoleUsers := MemoryAdapter.getRoleUsers;
  beginTransaction := MemoryAdapter.beginTransaction;
  commit := MemoryAdapter.commit;
  rollback := MemoryAdapter.rollback;
  shutdown := MemoryAdapter.shutdown;
|}.

(** [class FileSystemAdapter implements StorageAdapter] *)
Definition file {V : Validator} {D : FileSystemAdapter.Disk}
  : t FileSystemAdapter.State := {|
  createUser := FileSystemAdapter.createUser;
  getUserById := FileSystemAdapter.getUserById;
  getUsers := FileSystemAdapter.getUsers;
  updateUser := FileSystemAdapter.updateUser;
  deleteUser := FileSystemAdapter.deleteUser;
  createRole := FileSystemAdapter.createRole;
  getRoleById := FileSystemAdapter.getRoleById;
  getRoles := FileSystemAdapter.getRoles;
  updateRole := FileSystemAdapter.updateRole;
  deleteRole := FileSystemAdapter.deleteRole;
  assignRole := FileSystemAdapter.assignRole;
  removeRole := FileSystemAdapter.removeRole;
  getUserRoles := FileSystemAdapter.getUserRoles;
  getRoleUsers := FileSystemAdapter.getRoleUsers;
  beginTransaction := FileSystemAdapter.beginTransaction;
  commit := FileSystemAdapter.commit;
  rollback := FileSystemAdapter.rollback;
  shutdown := FileSystemAdapter.shutdown;
|}.

End StorageAdapter.

(* ================================================================== *)
(** ** [hooks/HookManager.ts] *)

(** The values carried by a hook context ([HookEvent] is
    [{ [key: string]: any }]): the arguments and results of the wrapped
    operations. *)
Inductive Any : Type :=
| AValue (v : Value)
| ARecord (o : Obj)
| ARecords (l : list Obj)
| AOptions (o : option QueryOptions)
| APage (p : Page).

Definition HookEvent : Type := OMap.t Any.

(** [try { body } catch { handler }] *)
Definition tryCatch {S A} (body : M S A) (handler : string -> M S A) : M S A :=
  fun s =>
    match body s with
    | (Ok a, s') => (Ok a, s')
    | (Throw e, s') => handler e s'
    end.

Module HookManager.

(** A value that a hook puts into the context, by an assignment or in
    the fragment it returns: one of the objects it was handed, named by
    the key under which the context held it, or a value of its own. *)
Inductive Ref : Type :=
| Handed (key : string)
| Fresh (value : Any).

(** What a call [hook.callback(result)] does.  The context [result] is
    an object whose properties refer to objects that others hold too:
    the argument of the caller, the record that the adapter keeps.  A
    hook can

    - write into the objects it is handed ([d.role.name = 'Root']):
      [written] holds the objects it wrote into, as it left them, under
      the keys that held them, and [shows] is what these writes make of
      the world [W] that shares the objects (the adapter);
    - set properties of the context itself ([d.role = other]):
      [assigned];
    - and then throw (its promise rejects), or resolve to [undefined]
      ([None]) or to a context fragment: [settled]. *)
Record Run (W : Type) : Type := {
  written : HookEvent;
  assigned : OMap.t Ref;
  shows : W -> W;
  settled : Result (option (OMap.t Ref));
}.

(** [interface Hook] *)
Record Hook (W : Type) : Type := {
  name : string;
  callback : HookEvent -> Run W;
  priority : option Z;
}.

Arguments name {W} h.
Arguments callback {W} h.
Arguments priority {W} h.

(** The private field [hooks: Map<string, Hook[]>]. *)
Definition State (W : Type) : Type := OMap.t (list (Hook W)).

(** A value that is an object, to which a context refers; the other
    values are primitives, which it holds. *)
Definition isObject (a : Any) : bool :=
  match a with
  | ARecord _ | ARecords _ | APage _ | AOptions (Some _) => true
  | AValue (VDate _) | AValue (VTag _) => true
  | _ => false
  end.

(** What writing in place makes of [given]: an object stays what it
    is, a record, an array, a page, a [Date] or a tag object, whatever
    it comes to hold; a primitive cannot be written into. *)
Definition rewritten (given left : Any) : Any :=
  match given, left with
  | ARecord _, ARecord _ => left
  | ARecords _, ARecords _ => left
  | APage _, APage _ => left
  | AOptions (Some _), AOptions (Some _) => left
  | AValue (VDate _), AValue (VDate _) => left
  | AValue (VTag _), AValue (VTag _) => left
  | _, _ => given
  end.

(** A property of the running context: a reference to one of the
    objects of [data], named by its key there, or a value that only the
    context holds. *)
Inductive Slot : Type :=
| Shared (key : string)
| Own (value : Any).

(** A run of [executeHooks(event, data)] at some point of its loop: the
    objects of [data] as they are now, and the running context
    [result]. *)
Record Walk : Type := {
  objects : HookEvent;
  context : OMap.t Slot;
}.

(** The value that a property of the context reads as. *)
Definition deref (objects : HookEvent) (slot : Slot) : Any :=
  match slot with
  | Shared key =>
      match OMap.get objects key with Some v => v | None => AValue VUndefined end
  | Own value => value
  end.

(** The running context, as a hook or the caller reads it. *)
Definition view (walk : Walk) : HookEvent :=
  map (fun e => (fst e, deref (objects walk) (snd e))) (context walk).

(** [let result = { ...data }]: a copy whose properties refer to the
    objects of [data]. *)
Definition start (data : HookEvent) : Walk := {|
  objects := OMap.spread [] data;
  context :=
    map (fun e => (fst e, if isObject (snd e) then Shared (fst e) else Own (snd e)))
        (OMap.spread [] data);
|}.

(** A write into the object handed under a key: it is one of [data],
    which everyone who holds it sees changed, or the context's own. *)
Definition write (walk : Walk) (e : string * Any) : Walk :=
  match OMap.get (context walk) (fst e) with
  | Some (Shared key) => {|
      objects := OMap.set (objects walk) key
                   (rewritten (deref (objects walk) (Shared key)) (snd e));
      context := context walk;
    |}
  | Some (Own value) => {|
      objects := objects walk;
      context := OMap.set (context walk) (fst e) (Own (rewritten value (snd e)));
    |}
  | None => walk
  end.

(** What a hook puts into the context, given the context [handed] to
    it: the very object it found under a key, or a value of its own. *)
Definition resolve (handed : OMap.t Slot) (r : Ref) : Slot :=
  match r with
  | Handed key =>
      match OMap.get handed key with
      | Some slot => slot
      | None => Own (AValue VUndefined)
      end
  | Fresh value => Own value
  end.

Definition place (handed : OMap.t Slot) (props : OMap.t Ref) : OMap.t Slot :=
  map (fun e => (fst e, resolve handed (snd e))) props.

Section Methods.

Context {W : Type}.

Definition create : State W := OMap.empty.

(** [hook.priority || 0] *)
Definition priorityOrZero (h : Hook W) : Z :=
  match priority h with Some n => n | None => 0 end.

Definition registerHook (event : string)
    (cb : HookEvent -> Run W) (prio : Z) : M (State W) unit :=
  modify (fun hooks =>
    let hooks := if OMap.has hooks event then hooks else OMap.set hooks event [] in
    let hook := {| name := event; callback := cb; priority := Some prio |} in
    let registered :=
      match OMap.get hooks event with Some l => l | None => [] end in
    OMap.set hooks event
      (Array_sort (fun a b => priorityOrZero b - priorityOrZero a)
                  (registered ++ [hook])%list)).

(** The body of the loop of [executeHooks]:
    [try { const hookResult = await hook.callback(result);
           if (hookResult !== undefined) result = { ...result, ...hookResult } }
     catch { }].
    What the hook wrote and assigned before it settled stays, whether
    it resolved or threw: nothing is restored in the [catch]. *)
Definition runHook (walk : Walk) (h : Hook W) : Walk :=
  let run := callback h (view walk) in
  let wrote := fold_left write (written run) walk in
  let handed := context wrote in
  let result := OMap.spread handed (place handed (assigned run)) in
  {|
    objects := objects wrote;
    context :=
      match settled run with
      | Ok (Some hookResult) => OMap.spread result (place handed hookResult)
      | Ok None => result
      | Throw _ => result
      end;
  |}.

Fixpoint runHooks (hooks : list (Hook W)) (walk : Walk) : Walk :=
  match hooks with
  | [] => walk
  | h :: hooks' => runHooks hooks' (runHook walk h)
  end.

(** What the writes of the hooks, one after the other, make of the
    world that shares the objects they were handed. *)
Fixpoint showHooks (hooks : list (Hook W)) (walk : Walk) (world : W) : W :=
  match hooks with
  | [] => world
  | h :: hooks' =>
      showHooks hooks' (runHook walk h) (shows (callback h (view walk)) world)
  end.

Definition executeHooks (event : string) (data : HookEvent)
  : M (State W) HookEvent :=
  registry <- gets (fun hooks => hooks) ;;
  let hooks := match OMap.get registry event with Some l => l | None => [] end in
  ret (view (runHooks hooks (start data))).

(** [removeAllHooks(event?)] *)
Definition removeAllHooks (event : option string) : M (State W) unit :=
  match event with
  | Some e => if String.eqb e "" then modify (fun _ => OMap.empty)
              else modify (fun hooks => OMap.delete hooks e)
  | None => modify (fun _ => OMap.empty)
  end.

(** [getHooks(event)] for a given event. *)
Definition getHooks (event : string) : M (State W) (list (Hook W)) :=
  registry <- gets (fun hooks => hooks) ;;
  ret (match OMap.get registry event with Some l => l | None => [] end).

End Methods.

End HookManager.

(* ================================================================== *)
(** ** The hook-wrapped operations *)

(** What the managers and the facade share: the hook manager and the
    adapter, both held by reference.  The world that the hooks share
    objects with is the adapter. *)
Record Env (S : Type) : Type := {
  hookManager : HookManager.State S;
  adapter : S;
}.

Arguments hookManager {S} e.
Arguments adapter {S} e.

(** A call on [this.hookManager]. *)
Definition onHooks {S A} (c : M (HookManager.State S) A) : M (Env S) A :=
  fun env =>
    let (r, h) := c (hookManager env) in
    (r, {| hookManager := h; adapter := adapter env |}).

(** A call on [this.adapter]. *)
Definition onAdapter {S A} (c : M S A) : M (Env S) A :=
  fun env =>
    let (r, a) := c (adapter env) in
    (r, {| hookManager := hookManager env; adapter := a |}).

(** What [await this.hookManager.executeHooks(event, data)] hands to the
    method that makes the call: the context it returns, and the objects
    that the method put into [data], as the hooks left them. *)
Record Hooked : Type := {
  returned : HookEvent;
  handedBack : HookEvent;
}.

(** [await this.hookManager.executeHooks(event, data)] in a manager: the
    adapter is afterwards as the writes of the hooks show it. *)
Definition awaitHooks {S} (event : string) (data : HookEvent)
  : M (Env S) Hooked :=
  result <- onHooks (HookManager.executeHooks event data) ;;
  fun env =>
    let hooks :=
      match OMap.get (hookManager env) event with Some l => l | None => [] end in
    let first := HookManager.start data in
    (Ok {| returned := result;
           handedBack := HookManager.objects (HookManager.runHooks hooks first) |},
     {| hookManager := hookManager env;
        adapter := HookManager.showHooks hooks first (adapter env) |}).

(** A property of a hook context, read at the type the adapter method
    declares for its parameter.  A context is typed [any]; what an
    adapter does with an argument outside its declared type is not
    modelled, and such a call is taken to throw. *)
Definition asRecord {S} (ctx : HookEvent) (key : string) : M S Obj :=
  match OMap.get ctx key with
  | Some (ARecord o) => ret o
  | _ => throw ("TypeError: " ++ key)
  end.

Definition asString {S} (ctx : HookEvent) (key : string) : M S string :=
  match OMap.get ctx key with
  | Some (AValue (VStr s)) => ret s
  | _ => throw ("TypeError: " ++ key)
  end.

Definition asOptions {S} (ctx : HookEvent) (key : string)
  : M S (option QueryOptions) :=
  match OMap.get ctx key with
  | Some (AOptions o) => ret o
  | Some (AValue VUndefined) | None => ret None
  | _ => throw ("TypeError: " ++ key)
  end.

(** A value of type [T | null]. *)
Definition nullable (o : option Obj) : Any :=
  match o with Some r => ARecord r | None => AValue VNull end.

(** The variable that a method put into the context of its post-hooks
    under [key], read when the method returns it: the same object, as
    the hooks left it. *)
Definition theRecord (post : Hooked) (key : string) (record : Obj) : Obj :=
  match OMap.get (handedBack post) key with
  | Some (ARecord o) => o
  | _ => record
  end.

Definition theNullable (post : Hooked) (key : string) (record : option Obj)
  : option Obj :=
  match record with
  | Some r => Some (theRecord post key r)
  | None => None
  end.

Definition theRecords (post : Hooked) (key : string) (records : list Obj)
  : list Obj :=
  match OMap.get (handedBack post) key with
  | Some (ARecords l) => l
  | _ => records
  end.

Definition thePage (post : Hooked) (key : string) (page : Page) : Page :=
  match OMap.get (handedBack post) key with
  | Some (APage p) => p
  | _ => page
  end.

Module UserManager.

Section Methods.

Context {S : Type} (A : StorageAdapter.t S).

Definition createUser (userData : Obj) (id : string) (now : Z)
  : M (Env S) Obj :=
  pre <- awaitHooks "user.preCreate"
           [("userData", ARecord userData)] ;;
  input <- asRecord (returned pre) "userData" ;;
  user <- onAdapter (StorageAdapter.createUser A input id now) ;;
  post <- awaitHooks "user.postCreate"
            [("user", ARecord user)] ;;
  ret (theRecord post "user" user).

Definition getUserById (id : string) : M (Env S) (option Obj) :=
  pre <- awaitHooks "user.preGet"
           [("id", AValue (VStr id))] ;;
  id' <- asString (returned pre) "id" ;;
  user <- onAdapter (StorageAdapter.getUserById A id') ;;
  post <- awaitHooks "user.postGet"
            [("user", nullable user)] ;;
  ret (theNullable post "user" user).

Definition getUsers (options : option QueryOptions) : M (Env S) Page :=
  pre <- awaitHooks "user.preGetAll"
           [("options", AOptions options)] ;;
  options' <- asOptions (returned pre) "options" ;;
  result <- onAdapter (StorageAdapter.getUsers A options') ;;
  post <- awaitHooks "user.postGetAll"
            [("result", APage result)] ;;
  ret (thePage post "result" result).

Definition updateUser (id : string) (userData : Obj) (now : Z)
  : M (Env S) (option Obj) :=
  pre <- awaitHooks "user.preUpdate"
           [("id", AValue (VStr id));
            ("userData", ARecord userData)] ;;
  id' <- asString (returned pre) "id" ;;
  input <- asRecord (returned pre) "userData" ;;
  user <- onAdapter (StorageAdapter.updateUser A id' input now) ;;
  post <- awaitHooks "user.postUpdate"
            [("user", nullable user)] ;;
  ret (theNullable post "user" user).

Definition deleteUser (id : string) : M (Env S) bool :=
  pre <- awaitHooks "user.preDelete"
           [("id", AValue (VStr id))] ;;
  id' <- asString (returned pre) "id" ;;
  result <- onAdapter (StorageAdapter.deleteUser A id') ;;
  awaitHooks "user.postDelete"
            [("id", AValue (VStr id));
             ("result", AValue (VBool result))] ;;
  ret result.

Definition getUserRoles (userId : string) : M (Env S) (list Obj) :=
  pre <- awaitHooks "user.preGetRoles"
           [("userId", AValue (VStr userId))] ;;
  userId' <- asString (returned pre) "userId" ;;
  roles <- onAdapter (StorageAdapter.getUserRoles A userId') ;;
  post <- awaitHooks "user.postGetRoles"
            [("userId", AValue (VStr userId'));
             ("roles", ARecords roles)] ;;
  ret (theRecords post "roles" roles).

End Methods.

End UserManager.

Module RoleManager.

Section Methods.

Context {S : Type} (A : StorageAdapter.t S).

Definition createRole (roleData : Obj) (id : string) (now : Z)
  : M (Env S) Obj :=
  pre <- awaitHooks "role.preCreate"
           [("roleData", ARecord roleData)] ;;
  input <- asRecord (returned pre) "roleData" ;;
  role <- onAdapter (StorageAdapter.createRole A input id now) ;;
  post <- awaitHooks "role.postCreate"
            [("role", ARecord role)] ;;
  ret (theRecord post "role" role).

Definition getRoleById (id : string) : M (Env S) (option Obj) :=
  pre <- awaitHooks "role.preGet"
           [("id", AValue (VStr id))] ;;
  id' <- asString (returned pre) "id" ;;
  role <- onAdapter (StorageAdapter.getRoleById A id') ;;
  post <- awaitHooks "role.postGet"
            [("role", nullable role)] ;;
  ret (theNullable post "role" role).

Definition getRoles (options : option QueryOptions) : M (Env S) Page :=
  pre <- awaitHooks "role.preGetAll"
           [("options", AOptions options)] ;;
  options' <- asOptions (returned pre) "options" ;;
  result <- onAdapter (StorageAdapter.getRoles A options') ;;
  post <- awaitHooks "role.postGetAll"
            [("result", APage result)] ;;
  ret (thePage post "result" result).

Definition updateRole (id : string) (roleData : Obj) (now : Z)
  : M (Env S) (option Obj) :=
  pre <- awaitHooks "role.preUpdate"
           [("id", AValue (VStr id));
            ("roleData", ARecord roleData)] ;;
  id' <- asString (returned pre) "id" ;;
  input <- asRecord (returned pre) "roleData" ;;
  role <- onAdapter (StorageAdapter.updateRole A id' input now) ;;
  post <- awaitHooks "role.postUpdate"
            [("role", nullable role)] ;;
  ret (theNullable post "role" role).

Definition deleteRole (id : string) : M (Env S) bool :=
  pre <- awaitHooks "role.preDelete"
           [("id", AValue (VStr id))] ;;
  id' <- asString (returned pre) "id" ;;
  result <- onAdapter (StorageAdapter.deleteRole A id') ;;
  awaitHooks "role.postDelete"
            [("id", AValue (VStr id));
             ("result", AValue (VBool result))] ;;
  ret result.

Definition getRoleUsers (roleId : string) : M (Env S) (list Obj) :=
  pre <- awaitHooks "role.preGetUsers"
           [("roleId", AValue (VStr roleId))] ;;
  roleId' <- asString (returned pre) "roleId" ;;
  users <- onAdapter (StorageAdapter.getRoleUsers A roleId') ;;
  post <- awaitHooks "role.postGetUsers"
            [("roleId", AValue (VStr roleId'));
             ("users", ARecords users)] ;;
  ret (theRecords post "users" users).

End Methods.

End RoleManager.

Module UserManagement.

(** The fields of the facade that its operations read: the
    [initialized] flag and, through the managers, the hook manager and
    the adapter. *)
Record State (S : Type) : Type := {
  initialized : bool;
  env : Env S;
}.

Arguments initialized {S} s.
Arguments env {S} s.

(** A call on a manager or on the shared hook manager and adapter. *)
Definition onEnv {S A} (c : M (Env S) A) : M (State S) A :=
  fun st =>
    let (r, e) := c (env st) in
    (r, {| initialized := initialized st; env := e |}).

Definition ensureInitialized {S} : M (State S) unit :=
  ok <- gets (fun st => initialized st) ;;
  if ok then ret tt
  else throw "UserManagement not initialized. Call initialize() first.".

Section Methods.

Context {S : Type} (A : StorageAdapter.t S).

Definition assignRole (userId roleId : string) (now : Z)
  : M (State S) Obj :=
  ensureInitialized ;;
  pre <- onEnv (awaitHooks "userRole.preAssign"
           [("userId", AValue (VStr userId));
            ("roleId", AValue (VStr roleId))]) ;;
  userId' <- asString (returned pre) "userId" ;;
  roleId' <- asString (returned pre) "roleId" ;;
  userRole <- onEnv (onAdapter (StorageAdapter.assignRole A userId' roleId' now)) ;;
  post <- onEnv (awaitHooks "userRole.postAssign"
            [("userRole", ARecord userRole)]) ;;
  ret (theRecord post "userRole" userRole).

Definition removeRole (userId roleId : string) : M (State S) bool :=
  ensureInitialized ;;
  pre <- onEnv (awaitHooks "userRole.preRemove"
           [("userId", AValue (VStr userId));
            ("roleId", AValue (VStr roleId))]) ;;
  userId' <- asString (returned pre) "userId" ;;
  roleId' <- asString (returned pre) "roleId" ;;
  result <- onEnv (onAdapter (StorageAdapter.removeRole A userId' roleId')) ;;
  onEnv (awaitHooks "userRole.postRemove"
            [("userId", AValue (VStr userId'));
             ("roleId", AValue (VStr roleId'));
             ("result", AValue (VBool result))]) ;;
  ret result.

Definition beginTransaction : M (State S) unit :=
  ensureInitialized ;;
  onEnv (onAdapter (StorageAdapter.beginTransaction A)).

Definition commit : M (State S) unit :=
  ensureInitialized ;;
  onEnv (onAdapter (StorageAdapter.commit A)).

Definition rollback : M (State S) unit :=
  ensureInitialized ;;
  onEnv (onAdapter (StorageAdapter.rollback A)).

Definition registerHook (event : string)
    (cb : HookEvent -> HookManager.Run S) (prio : Z)
  : M (State S) unit :=
  onEnv (onHooks (HookManager.registerHook event cb prio)).

Definition removeAllHooks (event : option string) : M (State S) unit :=
  onEnv (onHooks (HookManager.removeAllHooks event)).

(** [this.users.createUser(...)] and [this.roles.createRole(...)]:
    the getters check [initialized] before handing out the manager. *)
Definition users_createUser (userData : Obj) (id : string) (now : Z)
  : M (State S) Obj :=
  ensureInitialized ;;
  onEnv (UserManager.createUser A userData id now).

Definition roles_createRole (roleData : Obj) (id : string) (now : Z)
  : M (State S) Obj :=
  ensureInitialized ;;
  onEnv (RoleManager.createRole A roleData id now).

End Methods.

End UserManagement.

(* ================================================================== *)
(** * Sample data *)

(** [{ username: 'alice', email: 'alice@example.com' }] and the like. *)
Definition alice : Obj :=
  [("username", VStr "alice"); ("email", VStr "alice@example.com")].

Definition bob : Obj :=
  [("username", VStr "bob"); ("email", VStr "bob@example.com")].

Definition carol : Obj :=
  [("username", VStr "carol"); ("email", VStr "carol@example.com")].

Definition admin : Obj :=
  [("name", VStr "Admin"); ("description", VStr "Administrator role")].

(** A memory adapter holding alice, bob and carol under the ids [u1],
    [u2] and [u3], created at times 1000, 2000 and 3000. *)
Definition threeUsers : MemoryAdapter.State :=
  stateAfter
    (MemoryAdapter.createUser (V := acceptAll) alice "u1" 1000 ;;
     MemoryAdapter.createUser (V := acceptAll) bob "u2" 2000 ;;
     MemoryAdapter.createUser (V := acceptAll) carol "u3" 3000)
    MemoryAdapter.create.

(** The same three users in a file-system adapter, on a disk that
    accepts every write. *)
Definition threeUsersOnDisk : FileSystemAdapter.State :=
  stateAfter
    (FileSystemAdapter.createUser (V := acceptAll) alice "u1" 1000 ;;
     FileSystemAdapter.createUser (V := acceptAll) bob "u2" 2000 ;;
     FileSystemAdapter.createUser (V := acceptAll) carol "u3" 3000)
    (FileSystemAdapter.create "/data" OMap.empty).

(** [{ filter: { username: 'alice' } }] *)
Definition onlyAlice : option QueryOptions :=
  Some {| filter := Some [("username", VStr "alice")]; sort := None;
          limit := None; offset := None; include := None |}.

(** [{ offset: 1 }] *)
Definition fromSecond : option QueryOptions :=
  Some {| filter := None; sort := None;
          limit := None; offset := Some 1; include := None |}.

(** [{ limit: 0 }] *)
Definition limitZero : option QueryOptions :=
  Some {| filter := None; sort := None;
          limit := Some 0; offset := None; include := None |}.

(** [{ limit: 2, offset: 1 }], the page the repository's test asks for. *)
Definition secondPage : option QueryOptions :=
  Some {| filter := None; sort := None;
          limit := Some 2; offset := Some 1; include := None |}.

(* ================================================================== *)
(** * Vocabulary of the statements *)

(** The records of [all] that a list operation hands back when it does
    not paginate: those the filter keeps, in the order the sort gives. *)
Definition unpaginated (options : option QueryOptions) (all : list Obj)
  : list Obj :=
  Query.applySort options (Query.applyFilter options all).

(** The number of records of [all] that match the filter of [options]. *)
Definition matchCount (options : option QueryOptions) (all : list Obj) : Z :=
  Z.of_nat (List.length (Query.applyFilter options all)).

(** The list operation [op], reading the collection [visible], succeeds
    without changing the state and reports the size of that collection
    as its total. *)
Definition totalIsSize {S} (op : option QueryOptions -> M S Page)
    (visible : S -> list Obj) (options : option QueryOptions) : Prop :=
  forall st, exists page,
    op options st = (Ok page, st)
    /\ total page = Z.of_nat (List.length (visible st)).

(** The list operation [op] succeeds and returns every matching record. *)
Definition returnsEveryMatch {S} (op : option QueryOptions -> M S Page)
    (visible : S -> list Obj) (options : option QueryOptions) : Prop :=
  forall st, exists page,
    op options st = (Ok page, st)
    /\ items page = unpaginated options (visible st)
    /\ Permutation (items page) (Query.applyFilter options (visible st))
    /\ Z.of_nat (List.length (items page)) = matchCount options (visible st).


(** A call of a mutating operation of the adapter interface, with the
    identifier and the time it draws where it draws them. *)
Inductive Call : Type :=
| CreateUser (userData : Obj) (id : string) (now : Z)
| UpdateUser (id : string) (userData : Obj) (now : Z)
| DeleteUser (id : string)
| CreateRole (roleData : Obj) (id : string) (now : Z)
| UpdateRole (id : string) (roleData : Obj) (now : Z)
| DeleteRole (id : string)
| AssignRole (userId roleId : string) (now : Z)
| RemoveRole (userId roleId : string).

(** The call made on the adapter [A], its result dropped. *)
Definition perform {S} (A : StorageAdapter.t S) (c : Call) : M S unit :=
  match c with
  | CreateUser d i n => StorageAdapter.createUser A d i n ;; ret tt
  | UpdateUser i d n => StorageAdapter.updateUser A i d n ;; ret tt
  | DeleteUser i => StorageAdapter.deleteUser A i ;; ret tt
  | CreateRole d i n => StorageAdapter.createRole A d i n ;; ret tt
  | UpdateRole i d n => StorageAdapter.updateRole A i d n ;; ret tt
  | DeleteRole i => StorageAdapter.deleteRole A i ;; ret tt
  | AssignRole u r n => StorageAdapter.assignRole A u r n ;; ret tt
  | RemoveRole u r => StorageAdapter.removeRole A u r ;; ret tt
  end.

(** The state after a sequence of calls, each made whether or not the
    one before it threw. *)
Definition performAll {S} (A : StorageAdapter.t S) (calls : list Call) (s : S)
  : S :=
  fold_left (fun s c => stateAfter (perform A c) s) calls s.

(** [c] keeps the property [I] of the state, whether it returns or
    throws. *)
Definition preserves {S A} (I : S -> Prop) (c : M S A) : Prop :=
  forall s, I s -> I (snd (c s)).


(** In the memory adapter, a transaction is open and the live maps are
    those of [st0]. *)
Definition liveKept (st0 st : MemoryAdapter.State) : Prop :=
  MemoryAdapter.users st = MemoryAdapter.users st0
  /\ MemoryAdapter.roles st = MemoryAdapter.roles st0
  /\ MemoryAdapter.userRoles st = MemoryAdapter.userRoles st0
  /\ MemoryAdapter.inTransaction st = true
  /\ MemoryAdapter.transactionData st <> None.

(** In the file-system adapter, a transaction is open that was begun in
    [st0], and nothing was written to the files since. *)
Definition snapshotKept (st0 st : FileSystemAdapter.State) : Prop :=
  FileSystemAdapter.inTransaction st = true
  /\ FileSystemAdapter.transactionData st
     = Some (FileSystemAdapter.jsonCopy (FileSystemAdapter.data st0))
  /\ FileSystemAdapter.files st = FileSystemAdapter.files st0
  /\ FileSystemAdapter.dataDir st = FileSystemAdapter.dataDir st0
  /\ FileSystemAdapter.dataPath st = FileSystemAdapter.dataPath st0.

(** [st] with [d] as its data and no transaction. *)
Definition restoredTo (d : FileSystemAdapter.FileSystemData)
    (st : FileSystemAdapter.State) : FileSystemAdapter.State := {|
  FileSystemAdapter.dataDir := FileSystemAdapter.dataDir st;
  FileSystemAdapter.dataPath := FileSystemAdapter.dataPath st;
  FileSystemAdapter.data := d;
  FileSystemAdapter.inTransaction := false;
  FileSystemAdapter.transactionData := None;
  FileSystemAdapter.files := FileSystemAdapter.files st;
|}.

(** [createdAt] of the record that [getUserById(id)] returns. *)
Definition createdAtOf {S} (A : StorageAdapter.t S) (id : string) (st : S)
  : option Value :=
  match outcome (StorageAdapter.getUserById A id) st with
  | Ok (Some user) => Some (prop user "createdAt")
  | _ => None
  end.


(** A renamed copy of the role that [createRole] makes of [admin]. *)
Definition renamed : Obj :=
  OMap.set (stamped admin "r1" 4000) "name" (VStr "Root").

(** A call of a hook that writes into nothing and sets no property of
    the context: it reads the context and settles. *)
Definition reading {W} (settled : Result (option (OMap.t HookManager.Ref)))
  : HookManager.Run W := {|
  HookManager.written := [];
  HookManager.assigned := [];
  HookManager.shows := fun world => world;
  HookManager.settled := settled;
|}.

(** A post-hook that answers with a replacement for the [role]. *)
Definition renameRole (data : HookEvent) : HookManager.Run MemoryAdapter.State :=
  reading (Ok (Some [("role", HookManager.Fresh (ARecord renamed))])).

(** A hook that always throws. *)
Definition broken (data : HookEvent) : HookManager.Run MemoryAdapter.State :=
  reading (Throw "broken interceptor").

(** A pre-hook that replaces the [userData] by [bob]. *)
Definition swapForBob (data : HookEvent) : HookManager.Run MemoryAdapter.State :=
  reading (Ok (Some [("userData", HookManager.Fresh (ARecord bob))])).

(** A fresh session over the memory adapter after [registerHook(event, cb)]. *)
Definition sessionWith (event : string)
    (cb : HookEvent -> HookManager.Run MemoryAdapter.State)
  : Env MemoryAdapter.State := {|
  hookManager := stateAfter (HookManager.registerHook event cb 0) HookManager.create;
  adapter := MemoryAdapter.create;
|}.

(** The hooks registered for [event]. *)
Definition hooksFor {W} (registry : HookManager.State W) (event : string)
  : list (HookManager.Hook W) :=
  match OMap.get registry event with Some l => l | None => [] end.

(** The hook reads what it is handed and leaves it as it is, and the
    world with it, whatever properties it sets on the context and
    whatever it returns. *)
Definition readsOnly {W} (h : HookManager.Hook W) : Prop :=
  forall data,
    HookManager.written (HookManager.callback h data) = []
    /\ forall world, HookManager.shows (HookManager.callback h data) world = world.

(** The hook registry of the facade. *)
Definition registryOf {S} (st : UserManagement.State S) : HookManager.State S :=
  hookManager (UserManagement.env st).

(** The call leaves the hook registry as it is; the same for a call on
    the facade. *)
Definition keepsHooks {S A} (c : M (Env S) A) : Prop :=
  forall env, hookManager (snd (c env)) = hookManager env.

Definition keepsRegistry {S A} (c : M (UserManagement.State S) A) : Prop :=
  forall st, registryOf (snd (c st)) = registryOf st.

(** When the hooks registered for the event [post] only read, [op] does
    what [upToAdapter] does: it returns what the adapter call that ends
    [upToAdapter] returned and leaves the same state. *)
Definition returnsAdapterResult {T W A} (registry : T -> HookManager.State W)
    (post : string) (op upToAdapter : M T A) : Prop :=
  forall s,
    Forall readsOnly (hooksFor (registry s) post) -> op s = upToAdapter s.

(** A post-hook that writes a name into the [role] it is handed, the
    record that the memory adapter keeps under [r1]. *)
Definition engrave (data : HookEvent) : HookManager.Run MemoryAdapter.State := {|
  HookManager.written :=
    match OMap.get data "role" with
    | Some (ARecord role) => [("role", ARecord (OMap.set role "name" (VStr "Root")))]
    | _ => []
    end;
  HookManager.assigned := [];
  HookManager.shows :=
    MemoryAdapter.onRoleMap (fun roles =>
      match OMap.get roles "r1" with
      | Some role => OMap.set roles "r1" (OMap.set role "name" (VStr "Root"))
      | None => roles
      end);
  HookManager.settled := Ok None;
|}.

(** The hook that does what [h] does and resolves to [undefined] where
    [h] throws. *)
Definition swallowed {W} (h : HookManager.Hook W) : HookManager.Hook W := {|
  HookManager.name := HookManager.name h;
  HookManager.callback := fun data =>
    let run := HookManager.callback h data in {|
      HookManager.written := HookManager.written run;
      HookManager.assigned := HookManager.assigned run;
      HookManager.shows := HookManager.shows run;
      HookManager.settled :=
        match HookManager.settled run with
        | Throw _ => Ok None
        | settled => settled
        end;
    |};
  HookManager.priority := HookManager.priority h;
|}.

(** Called on [data], the hook throws, and it has written into nothing
    and set no property of the context before. *)
Definition throwsUntouched {W} (data : HookEvent) (h : HookManager.Hook W)
  : Prop :=
  let run := HookManager.callback h data in
  (exists e, HookManager.settled run = Throw e)
  /\ HookManager.written run = []
  /\ HookManager.assigned run = []
  /\ forall world, HookManager.shows run world = world.

(** What the pre-hook of the README does with a user name that passes
    its check:
    [data.userData.tags = data.userData.tags || {};
     data.userData.tags.source = 'registration'; return data]. *)
Definition tagSource (data : HookEvent) : HookManager.Run MemoryAdapter.State := {|
  HookManager.written :=
    match OMap.get data "userData" with
    | Some (ARecord userData) =>
        let tags :=
          match prop userData "tags" with
          | VTag tags => tags
          | _ => []
          end in
        [("userData",
          ARecord (OMap.set userData "tags"
                     (VTag (OMap.set tags "source" (PStr "registration")))))]
    | _ => []
    end;
  HookManager.assigned := [];
  HookManager.shows := fun world => world;
  HookManager.settled :=
    Ok (Some (map (fun e => (fst e, HookManager.Handed (fst e))) data));
|}.

(** [alice] under the user name [mallory]. *)
Definition mallory : Obj := OMap.set alice "username" (VStr "mallory").

(** A pre-hook that writes a user name into the [userData] it is handed,
    [d.userData.username = 'mallory'], and then throws. *)
Definition scribble (data : HookEvent) : HookManager.Run MemoryAdapter.State := {|
  HookManager.written :=
    match OMap.get data "userData" with
    | Some (ARecord userData) =>
        [("userData", ARecord (OMap.set userData "username" (VStr "mallory")))]
    | _ => []
    end;
  HookManager.assigned := [];
  HookManager.shows := fun world => world;
  HookManager.settled := Throw "broken interceptor";
|}.



(** After [update(id, data)] the record found under [id] is the updated
    one, and it carries [id]. *)
Definition keepsId {S} (update : string -> Obj -> Z -> M S (option Obj))
    (getById : string -> M S (option Obj))
    (id : string) (data : Obj) (now : Z) (st : S) : Prop :=
  exists updated st',
    update id data now st = (Ok (Some updated), st')
    /\ getById id st' = (Ok (Some updated), st')
    /\ prop updated "id" = VStr id.

(** [{ id: 'u9' }], an update that names another identifier. *)
Definition otherId : Obj := [("id", VStr "u9")].


(** [{ email: 'alice@example.org' }], an update without an [id]. *)
Definition newEmail : Obj := [("email", VStr "alice@example.org")].

(** The three users and the role "Admin" under the id [r1], in the
    memory adapter and in the file-system adapter. *)
Definition usersAndAdmin : MemoryAdapter.State :=
  stateAfter (MemoryAdapter.createRole (V := acceptAll) admin "r1" 4000) threeUsers.

Definition usersAndAdminOnDisk : FileSystemAdapter.State :=
  stateAfter (FileSystemAdapter.createRole (V := acceptAll) admin "r1" 4000)
             threeUsersOnDisk.

(** No two records of the array carry the same [id]. *)
Definition uniqueIds (records : list Obj) : Prop :=
  NoDup (map (fun record => prop record "id") records).

(** The call succeeds. *)
Definition succeeds {S A} (c : M S A) (s : S) : Prop :=
  exists a s', c s = (Ok a, s').


(** Every record of the map is stored under the [id] it carries. *)
Definition keyed (m : OMap.t Obj) : Prop :=
  forall k record, OMap.get m k = Some record -> prop record "id" = VStr k.

(** Deleting the entity [id] succeeds and cascades: afterwards nothing is
    found under [id], no association names [id] in its [field], and no
    list of the entities linked to another entity holds a record that
    carries [id]. *)
Definition cascades {V : Validator} {S}
    (delete : string -> M S bool)
    (getById : string -> M S (option Obj))
    (linkedTo : string -> M S (list Obj))
    (associations : S -> list Obj)
    (field id : string) (st : S) : Prop :=
  exists st',
    delete id st = (Ok true, st')
    /\ getById id st' = (Ok None, st')
    /\ (forall userRole,
          In userRole (associations st') -> prop userRole field <> VStr id)
    /\ (forall other,
          validateId other = None ->
          exists records,
            linkedTo other st' = (Ok records, st')
            /\ forall record, In record records -> prop record "id" <> VStr id).


(** [s] holds no colon. *)
Fixpoint noColon (s : string) : bool :=
  match s with
  | EmptyString => true
  | String c s' => negb (Ascii.eqb c ":") && noColon s'
  end.

(** The association map of a memory adapter as [assignRole] builds it:
    no key twice, and every association stored under the key made of its
    [userId], a colon and its [roleId], the [userId] holding no colon. *)
Definition linked (m : OMap.t Obj) : Prop :=
  NoDup (OMap.keys m)
  /\ forall k userRole,
       In (k, userRole) m ->
       exists u r,
         noColon u = true
         /\ prop userRole "userId" = VStr u
         /\ prop userRole "roleId" = VStr r
         /\ k = u ++ ":" ++ r.

(** At most one association per pair of a user and a role. *)
Definition pairsUnique (userRoles : list Obj) : Prop :=
  forall u r,
    (List.length (List.filter (FileSystemAdapter.links u r) userRoles) <= 1)%nat.

(** [assignRole(u, r)] is idempotent: it succeeds, a second call returns
    the record the first one returned and changes nothing, one
    association is stored for the pair and at most one for any pair,
    and the roles of [u] hold exactly one record that carries [r]. *)
Definition idempotent {S} (assign : string -> string -> Z -> M S Obj)
    (rolesOf : string -> M S (list Obj)) (associations : S -> list Obj)
    (u r : string) (st : S) : Prop :=
  forall now1 now2,
  exists userRole st1,
    assign u r now1 st = (Ok userRole, st1)
    /\ assign u r now2 st1 = (Ok userRole, st1)
    /\ pairsUnique (associations st1)
    /\ List.length (List.filter (FileSystemAdapter.links u r) (associations st1))
       = 1%nat
    /\ exists roles,
         rolesOf u st1 = (Ok roles, st1)
         /\ List.length (List.filter (FileSystemAdapter.hasId r) roles) = 1%nat.

(** The state with the three users and the role in which [u1] was
    given the role [r1] at time 5000. *)
Definition aliceIsAdmin : MemoryAdapter.State :=
  stateAfter (MemoryAdapter.assignRole (V := acceptAll) "u1" "r1" 5000)
             usersAndAdmin.

Definition aliceIsAdminOnDisk : FileSystemAdapter.State :=
  stateAfter (FileSystemAdapter.assignRole (V := acceptAll) "u1" "r1" 5000)
             usersAndAdminOnDisk.

(** [{ id: 'u2' }], an update that names the identifier of another
    user, and [{ id: 'r1' }], one that names that of another role. *)
Definition idOfBob : Obj := [("id", VStr "u2")].

Definition idOfAdmin : Obj := [("id", VStr "r1")].

Definition editor : Obj :=
  [("name", VStr "Editor"); ("description", VStr "Editor role")].

(** The three users on disk after [updateUser('u1', { id: 'u2' })]: the
    records of alice and of bob both carry [u2]. *)
Definition namesakesOnDisk : FileSystemAdapter.State :=
  stateAfter (FileSystemAdapter.updateUser (V := acceptAll) "u1" idOfBob 5000)
             threeUsersOnDisk.

(** The memory adapter after the same update and [assignRole('u1', 'r1')]:
    the record under the key [u1] carries [u2]. *)
Definition namesakes : MemoryAdapter.State :=
  stateAfter
    (MemoryAdapter.updateUser (V := acceptAll) "u1" idOfBob 5000 ;;
     MemoryAdapter.assignRole (V := acceptAll) "u1" "r1" 6000)
    usersAndAdmin.

(** The users and two roles on disk, "Admin" under [r1] and "Editor"
    created under [r2], after [updateRole('r2', { id: 'r1' })]: both
    roles carry [r1]. *)
Definition twoAdminsOnDisk : FileSystemAdapter.State :=
  stateAfter
    (FileSystemAdapter.createRole (V := acceptAll) editor "r2" 4500 ;;
     FileSystemAdapter.updateRole (V := acceptAll) "r2" idOfAdmin 4600)
    usersAndAdminOnDisk.

(** [keyed], as a test. *)
Definition keyedb (m : OMap.t Obj) : bool :=
  forallb (fun e => strict_eq (prop (snd e) "id") (VStr (fst e))) m.


(** No key of the map holds a colon. *)
Definition colonFree (m : OMap.t Obj) : Prop :=
  forall k, OMap.has m k = true -> noColon k = true.

(** The three maps of a memory adapter as its operations build them. *)
Definition wellFormedMaps (us rs urs : OMap.t Obj) : Prop :=
  keyed us /\ colonFree us /\ keyed rs /\ linked urs.

(** A memory adapter whose live maps and whose transaction maps, if it
    has any, are well formed. *)
Definition wellFormed (st : MemoryAdapter.State) : Prop :=
  wellFormedMaps (MemoryAdapter.users st) (MemoryAdapter.roles st)
                 (MemoryAdapter.userRoles st)
  /\ forall td,
       MemoryAdapter.transactionData st = Some td ->
       wellFormedMaps (MemoryAdapter.tx_users td) (MemoryAdapter.tx_roles td)
                      (MemoryAdapter.tx_userRoles td).

(** The calls an application makes through the documented interface:
    identifiers come from the generator, which yields no colon, and an
    update does not name an [id]. *)
Definition admissible (c : Call) : Prop :=
  match c with
  | CreateUser _ id _ => noColon id = true
  | UpdateUser _ d _ => OMap.get d "id" = None
  | UpdateRole _ d _ => OMap.get d "id" = None
  | _ => True
  end.

(** The data of a file-system adapter as its operations build it. *)
Definition wellFormedData (d : FileSystemAdapter.FileSystemData) : Prop :=
  uniqueIds (FileSystemAdapter.users d)
  /\ uniqueIds (FileSystemAdapter.roles d)
  /\ pairsUnique (FileSystemAdapter.userRoles d).

(** The same for a file-system adapter: moreover a created entity gets
    an identifier that no stored entity of its kind carries. *)
Definition admissibleOnDisk (c : Call) (d : FileSystemAdapter.FileSystemData)
  : Prop :=
  match c with
  | CreateUser _ id _ =>
      existsb (FileSystemAdapter.hasId id) (FileSystemAdapter.users d) = false
  | CreateRole _ id _ =>
      existsb (FileSystemAdapter.hasId id) (FileSystemAdapter.roles d) = false
  | UpdateUser _ p _ => OMap.get p "id" = None
  | UpdateRole _ p _ => OMap.get p "id" = None
  | _ => True
  end.


(** An initialized facade over a new memory adapter, without hooks. *)
Definition session : UserManagement.State MemoryAdapter.State := {|
  UserManagement.initialized := true;
  UserManagement.env := {|
    hookManager := HookManager.create;
    adapter := MemoryAdapter.create;
  |};
|}.

(** The set-up of the transaction tests of the repository: a user and
    the role "Admin", created through the facade. *)
Definition prepared : UserManagement.State MemoryAdapter.State :=
  let A := StorageAdapter.memory (V := acceptAll) in
  stateAfter
    (UserManagement.users_createUser A alice "u1" 1000 ;;
     UserManagement.roles_createRole A admin "r1" 2000)
    session.

(** [userMgmt.users.getUserRoles(id)] *)
Definition users_getUserRoles (id : string)
  : M (UserManagement.State MemoryAdapter.State) (list Obj) :=
  UserManagement.ensureInitialized ;;
  UserManagement.onEnv
    (UserManager.getUserRoles (StorageAdapter.memory (V := acceptAll)) id).


(* ================================================================== *)
(** * The rest of the sources *)

(** ** Regular expressions, as [RegExp.prototype.test] decides them *)

Module RegExp.

(** A pattern between [^] and [$]. *)
Inductive t : Type :=
| Never
| Empty
| Class (p : ascii -> bool)
| Cat (r s : t)
| Alt (r s : t)
| Star (r : t).

(** [r+] *)
Definition Plus (r : t) : t := Cat r (Star r).

Fixpoint nullable (r : t) : bool :=
  match r with
  | Never => false
  | Empty => true
  | Class _ => false
  | Cat r s => nullable r && nullable s
  | Alt r s => nullable r || nullable s
  | Star _ => true
  end.

(** The pattern of what may follow the character [c]. *)
Fixpoint derive (c : ascii) (r : t) : t :=
  match r with
  | Never => Never
  | Empty => Never
  | Class p => if p c then Empty else Never
  | Cat r s =>
      if nullable r
      then Alt (Cat (derive c r) s) (derive c s)
      else Cat (derive c r) s
  | Alt r s => Alt (derive c r) (derive c s)
  | Star r => Cat (derive c r) (Star r)
  end.

(** [/^r$/.test(s)] *)
Fixpoint test (r : t) (s : string) : bool :=
  match s with
  | EmptyString => nullable r
  | String c s' => test (derive c r) s'
  end.

End RegExp.

(* ================================================================== *)
(** ** [utils/validation.ts] *)

Module Validation.

(** [!!v] *)
Definition truthy (v : Value) : bool :=
  match v with
  | VUndefined | VNull => false
  | VBool b => b
  | VNum n => negb (n =? 0)
  | VStr s => negb (String.eqb s "")
  | VDate _ | VTag _ => true
  end.

(** [typeof v] *)
Definition typeof (v : Value) : string :=
  match v with
  | VUndefined => "undefined"
  | VNull => "object"
  | VBool _ => "boolean"
  | VNum _ => "number"
  | VStr _ => "string"
  | VDate _ | VTag _ => "object"
  end.

(** The class [\s] among the code units below 256: tab, line feed,
    vertical tab, form feed, carriage return, space, no-break space. *)
Definition whitespace (c : ascii) : bool :=
  let n := nat_of_ascii c in
  (Nat.leb 9 n && Nat.leb n 13) || Nat.eqb n 32 || Nat.eqb n 160.

(** The class [[^\s@]]. *)
Definition plain (c : ascii) : bool :=
  negb (whitespace c) && negb (Ascii.eqb c "@").

(** [/^[^\s@]+@[^\s@]+\.[^\s@]+$/] *)
Definition emailPattern : RegExp.t :=
  RegExp.Cat (RegExp.Plus (RegExp.Class plain))
    (RegExp.Cat (RegExp.Class (Ascii.eqb "@"))
       (RegExp.Cat (RegExp.Plus (RegExp.Class plain))
          (RegExp.Cat (RegExp.Class (Ascii.eqb "."))
             (RegExp.Plus (RegExp.Class plain))))).

Definition error (f m : string) : ValidationError :=
  {| field := f; message := m |}.

(** The check of [username] in [validateUser] and of [name] in
    [validateRole]. *)
Definition requiredString (v : Value) (f required notString : string)
  : list ValidationError :=
  if negb (truthy v) then [error f required]
  else if negb (String.eqb (typeof v) "string") then [error f notString]
  else [].

Definition checkEmail (v : Value) : list ValidationError :=
  if negb (truthy v) then [error "email" "Email is required"]
  else
    match v with
    | VStr s =>
        if negb (RegExp.test emailPattern s)
        then [error "email" "Email is not valid"] else []
    | _ => [error "email" "Email must be a string"]
    end.

(** [if (x.tags && typeof x.tags !== 'object')] *)
Definition checkTags (v : Value) : list ValidationError :=
  if truthy v && negb (String.eqb (typeof v) "object")
  then [error "tags" "Tags must be an object"] else [].

Definition validateUser (user : Obj) : list ValidationError :=
  (requiredString (prop user "username") "username"
     "Username is required" "Username must be a string"
   ++ checkEmail (prop user "email")
   ++ checkTags (prop user "tags"))%list.

Definition validateRole (role : Obj) : list ValidationError :=
  (requiredString (prop role "name") "name"
     "Role name is required" "Role name must be a string"
   ++ (let d := prop role "description" in
       if truthy d && negb (String.eqb (typeof d) "string")
       then [error "description" "Description must be a string"] else [])
   ++ checkTags (prop role "tags"))%list.

(** [validateId(id: string)]: the second test, [typeof id !== 'string'],
    never holds of a string. *)
Definition validateId (id : string) : option ValidationError :=
  if String.eqb id "" then Some (error "id" "ID is required") else None.

(** [validateQueryOptions]: the options are [undefined] or an object,
    and neither is rejected. *)
Definition validateQueryOptions (options : option QueryOptions)
  : option ValidationError :=
  match options with
  | None => None
  | Some _ => None
  end.

(** The class [Validator] of the sources, as the adapters use it. *)
Definition checks : Validator :=
  Build_Validator validateUser validateRole validateId validateQueryOptions.

End Validation.

(* ================================================================== *)
(** ** [utils/idGenerator.ts] *)

(** [String(n)] for an integer [n] (of less than 22 digits). *)
Definition Number_toString (n : Z) : string :=
  DecimalString.NilZero.string_of_int (Z.to_int n).

Module IdGenerator.

(** The static field [counter]. *)
Definition State : Type := Z.

Definition create : State := 0.

(** [generate()], given what [Date.now()] and
    [Math.floor(Math.random() * 1000)] return. *)
Definition generate (timestamp random : Z) : M State string :=
  modify (fun counter => counter + 1) ;;
  counter <- gets (fun counter => counter) ;;
  ret (Number_toString timestamp ++ "-" ++ Number_toString random ++ "-"
       ++ Number_toString counter).

Definition reset : M State unit := modify (fun _ => 0).

End IdGenerator.

(* ================================================================== *)
(** ** [plugins/PluginManager.ts] *)

(** The double quote of the messages. *)
Definition quote : string := String (ascii_of_nat 34) EmptyString.

(** [`${error}`] for a thrown [Error]: [Error.prototype.toString] gives
    the name alone when the message is empty. *)
Definition Error_toString (message : string) : string :=
  if String.eqb message EmptyString then "Error" else "Error: " ++ message.

Module PluginManager.

(** [interface Plugin]: [initialize] and [shutdown] are what the calls
    settle to. *)
Record Plugin : Type := {
  name : string;
  version : string;
  initialize : Result unit;
  shutdown : Result unit;
}.

(** The private fields, for adapter classes of type [C]. *)
Record State (C : Type) : Type := {
  plugins : OMap.t Plugin;
  adapters : OMap.t C;
}.

Arguments plugins {C} s.
Arguments adapters {C} s.

Section Methods.

Context {C : Type}.

Definition registerPlugin (plugin : Plugin) : M (State C) unit :=
  registered <- gets plugins ;;
  if OMap.has registered (name plugin)
  then throw ("Plugin " ++ quote ++ name plugin ++ quote ++ " already registered")
  else
    modify (fun st => {|
      plugins := OMap.set (plugins st) (name plugin) plugin;
      adapters := adapters st;
    |}).

(** [await plugin.initialize()] and [await plugin.shutdown()] *)
Definition settle (r : Result unit) : M (State C) unit := fun st => (r, st).

Definition loadPlugin (pluginName : string) : M (State C) unit :=
  registered <- gets plugins ;;
  match OMap.get registered pluginName with
  | None => throw ("Plugin " ++ quote ++ pluginName ++ quote ++ " not found")
  | Some plugin =>
      tryCatch (settle (initialize plugin))
        (fun error =>
           throw ("Failed to initialize plugin " ++ quote ++ pluginName ++ quote
                  ++ ": " ++ Error_toString error))
  end.

Definition unloadPlugin (pluginName : string) : M (State C) unit :=
  registered <- gets plugins ;;
  match OMap.get registered pluginName with
  | None => throw ("Plugin " ++ quote ++ pluginName ++ quote ++ " not found")
  | Some plugin =>
      tryCatch
        (settle (shutdown plugin) ;;
         modify (fun st => {|
           plugins := OMap.delete (plugins st) pluginName;
           adapters := adapters st;
         |}))
        (fun error =>
           throw ("Failed to unload plugin " ++ quote ++ pluginName ++ quote
                  ++ ": " ++ Error_toString error))
  end.

Definition registerAdapter (adapterName : string) (adapter : C)
  : M (State C) unit :=
  registered <- gets adapters ;;
  if OMap.has registered adapterName
  then throw ("Adapter " ++ quote ++ adapterName ++ quote ++ " already registered")
  else
    modify (fun st => {|
      plugins := plugins st;
      adapters := OMap.set (adapters st) adapterName adapter;
    |}).

Definition getAdapter (adapterName : string) : M (State C) C :=
  registered <- gets adapters ;;
  match OMap.get registered adapterName with
  | None => throw ("Adapter " ++ quote ++ adapterName ++ quote ++ " not found")
  | Some adapter => ret adapter
  end.

(** [for (const x of xs) { await step(x) }] *)
Fixpoint forEach {A} (step : A -> M (State C) unit) (xs : list A)
  : M (State C) unit :=
  match xs with
  | [] => ret tt
  | x :: xs' => step x ;; forEach step xs'
  end.

Definition loadAllPlugins : M (State C) unit :=
  registered <- gets plugins ;;
  forEach (fun plugin => loadPlugin (name plugin)) (OMap.values registered).

Definition unloadAllPlugins : M (State C) unit :=
  registered <- gets plugins ;;
  forEach unloadPlugin (OMap.keys registered).

Definition getRegisteredPlugins : M (State C) (list string) :=
  registered <- gets plugins ;; ret (OMap.keys registered).

Definition getRegisteredAdapters : M (State C) (list string) :=
  registered <- gets adapters ;; ret (OMap.keys registered).

(** [new PluginManager()], which registers the two built-in adapter
    classes. *)
Definition create (memoryAdapter fileSystemAdapter : C) : State C :=
  stateAfter
    (registerAdapter "memory" memoryAdapter ;;
     registerAdapter "file" fileSystemAdapter)
    {| plugins := OMap.empty; adapters := OMap.empty |}.

End Methods.

End PluginManager.

(* ================================================================== *)
(** ** [UserManagement.ts]: the life cycle of the facade *)

(** An adapter class whose instances have fields of type [S]: what
    [new AdapterClass(options)] makes, and what [initialize(options)]
    and [shutdown()] of an instance do. *)
Record AdapterClass (S : Type) : Type := {
  construct : Obj -> S;
  adapterInitialize : Obj -> M S unit;
  adapterShutdown : M S unit;
}.

(** An adapter object: its class and its fields. *)
Record Adapter (S : Type) : Type := {
  classOf : AdapterClass S;
  instance : S;
}.

Module Facade.

Section Methods.

Context {S : Type}.

(** The private fields of a [UserManagement]; [managers] tells whether
    [userManager] and [roleManager] are set: they hold the adapter and
    the hook manager by reference. *)
Record State : Type := {
  config : Obj;
  pluginManager : PluginManager.State (AdapterClass S);
  hookManager : HookManager.State S;
  adapter : option (Adapter S);
  managers : bool;
  initialized : bool;
}.

(** [new UserManagement(config)], with the two classes that
    [PluginManager] imports. *)
Definition create (config : Obj)
    (memoryAdapter fileSystemAdapter : AdapterClass S) : State := {|
  config := config;
  pluginManager := PluginManager.create memoryAdapter fileSystemAdapter;
  hookManager := HookManager.create;
  adapter := None;
  managers := false;
  initialized := false;
|}.

(** A call on [this.pluginManager]. *)
Definition onPlugins {A} (c : M (PluginManager.State (AdapterClass S)) A)
  : M State A :=
  fun st =>
    let (r, pm) := c (pluginManager st) in
    (r, {| config := config st; pluginManager := pm;
           hookManager := hookManager st; adapter := adapter st;
           managers := managers st; initialized := initialized st |}).

(** A call of a method of [this.adapter!]. *)
Definition onAdapter {A} (method : AdapterClass S -> M S A) : M State A :=
  fun st =>
    match adapter st with
    | Some a =>
        let (r, fields) := method (classOf a) (instance a) in
        (r, {| config := config st; pluginManager := pluginManager st;
               hookManager := hookManager st;
               adapter := Some {| classOf := classOf a; instance := fields |};
               managers := managers st; initialized := initialized st |})
    | None => (Throw "TypeError: Cannot read properties of null", st)
    end.

(** [this.config.adapter || 'memory'], for a [Config]: its [adapter] is
    a string or undefined. *)
Definition adapterName (config : Obj) : string :=
  match prop config "adapter" with
  | VStr name => if String.eqb name "" then "memory" else name
  | _ => "memory"
  end.

Definition loadAdapter : M State unit :=
  cfg <- gets config ;;
  adapterClass <- onPlugins (PluginManager.getAdapter (adapterName cfg)) ;;
  modify (fun st => {|
    config := config st; pluginManager := pluginManager st;
    hookManager := hookManager st;
    adapter := Some {| classOf := adapterClass;
                       instance := construct adapterClass cfg |};
    managers := managers st; initialized := initialized st |}).

Definition initialize : M State unit :=
  done <- gets initialized ;;
  if done then ret tt
  else
    loadAdapter ;;
    onPlugins PluginManager.loadAllPlugins ;;
    cfg <- gets config ;;
    onAdapter (fun c => adapterInitialize c cfg) ;;
    modify (fun st => {|
      config := config st; pluginManager := pluginManager st;
      hookManager := hookManager st; adapter := adapter st;
      managers := true; initialized := true |}).

Definition shutdown : M State unit :=
  done <- gets initialized ;;
  if negb done then ret tt
  else
    onAdapter (fun c => adapterShutdown c) ;;
    onPlugins PluginManager.unloadAllPlugins ;;
    modify (fun st => {|
      config := config st; pluginManager := pluginManager st;
      hookManager := hookManager st; adapter := None;
      managers := false; initialized := false |}).

Definition registerPlugin (plugin : PluginManager.Plugin) : M State unit :=
  onPlugins (PluginManager.registerPlugin plugin).

Definition registerAdapter (name : string) (adapter : AdapterClass S)
  : M State unit :=
  onPlugins (PluginManager.registerAdapter name adapter).

Definition updateConfig (config' : Obj) : M State unit :=
  modify (fun st => {|
    config := OMap.spread (config st) config';
    pluginManager := pluginManager st;
    hookManager := hookManager st; adapter := adapter st;
    managers := managers st; initialized := initialized st |}).

Definition getConfig : M State Obj :=
  cfg <- gets config ;; ret (OMap.spread [] cfg).

Definition ensureInitialized : M State unit :=
  ok <- gets initialized ;;
  if ok then ret tt
  else throw "UserManagement not initialized. Call initialize() first.".

Definition getRegisteredPlugins : M State (list string) :=
  onPlugins PluginManager.getRegisteredPlugins.

Definition getRegisteredAdapters : M State (list string) :=
  onPlugins PluginManager.getRegisteredAdapters.

End Methods.

Arguments State S : clear implicits.

End Facade.

(** An object of one of the two built-in adapter classes. *)
Inductive BuiltIn : Type :=
| OfMemory (fields : MemoryAdapter.State)
| OfFile (fields : FileSystemAdapter.State).

(** A method of [MemoryAdapter], and one of [FileSystemAdapter], as a
    method of such an object; it is not a method of an object of the
    other class. *)
Definition asMemory {A} (method : M MemoryAdapter.State A) : M BuiltIn A :=
  fun object =>
    match object with
    | OfMemory fields =>
        let (r, fields') := method fields in (r, OfMemory fields')
    | OfFile _ => (Throw "TypeError: not a function", object)
    end.

Definition asFile {A} (method : M FileSystemAdapter.State A) : M BuiltIn A :=
  fun object =>
    match object with
    | OfFile fields =>
        let (r, fields') := method fields in (r, OfFile fields')
    | OfMemory _ => (Throw "TypeError: not a function", object)
    end.

(** [class MemoryAdapter], which has no constructor of its own. *)
Definition memoryClass : AdapterClass BuiltIn := {|
  construct := fun _ => OfMemory MemoryAdapter.create;
  adapterInitialize := fun _ => asMemory MemoryAdapter.initialize;
  adapterShutdown := asMemory MemoryAdapter.shutdown;
|}.

(** [options?.dataDir || path.join(process.cwd(), '.user-management-data')] *)
Definition dataDirOf (cwd : string) (options : Obj) : string :=
  match prop options "dataDir" with
  | VStr dir => if String.eqb dir "" then cwd ++ "/.user-management-data" else dir
  | _ => cwd ++ "/.user-management-data"
  end.

(** [class FileSystemAdapter], in the working directory [cwd] and over
    the files [fs] of a disk that accepts every write, given what its
    [initialize] does: that method reads the data file, which is not
    modelled. *)
Definition fileSystemClass (cwd : string)
    (fs : OMap.t FileSystemAdapter.FileSystemData)
    (initialize : Obj -> M FileSystemAdapter.State unit)
  : AdapterClass BuiltIn := {|
  construct := fun options =>
    OfFile (FileSystemAdapter.create (dataDirOf cwd options) fs);
  adapterInitialize := fun options => asFile (initialize options);
  adapterShutdown := asFile FileSystemAdapter.shutdown;
|}.

(** [FileSystemAdapter.initialize] where no data file exists yet:
    reading it fails with [ENOENT], and the empty data are saved. *)
Definition initializeWithoutFile (options : Obj)
  : M FileSystemAdapter.State unit :=
  match prop options "dataDir" with
  | VStr dir =>
      if String.eqb dir "" then ret tt
      else modify (fun st => {|
             FileSystemAdapter.dataDir := dir;
             FileSystemAdapter.dataPath := dir ++ "/data.json";
             FileSystemAdapter.data := FileSystemAdapter.data st;
             FileSystemAdapter.inTransaction := FileSystemAdapter.inTransaction st;
             FileSystemAdapter.transactionData :=
               FileSystemAdapter.transactionData st;
             FileSystemAdapter.files := FileSystemAdapter.files st;
           |})
  | _ => ret tt
  end ;;
  FileSystemAdapter.saveData.

(* ================================================================== *)
(** * Vocabulary of the further statements *)

(** The two adapters with the validator of the sources, the second on
    a disk that accepts every write. *)
Definition memoryAdapter : StorageAdapter.t MemoryAdapter.State :=
  StorageAdapter.memory (V := Validation.checks).

Definition fileSystemAdapter : StorageAdapter.t FileSystemAdapter.State :=
  StorageAdapter.file (V := Validation.checks).

(** The list operation [op] succeeds, changes nothing, and returns the
    [size] records that follow the first [start] of the matching ones. *)
Definition returnsWindow {S} (op : option QueryOptions -> M S Page)
    (visible : S -> list Obj) (options : option QueryOptions)
    (start size : Z) : Prop :=
  forall st, exists page,
    op options st = (Ok page, st)
    /\ items page
       = firstn (Z.to_nat size)
           (skipn (Z.to_nat start) (unpaginated options (visible st)))
    /\ Z.of_nat (List.length (items page))
       = Z.max 0 (Z.min size (matchCount options (visible st) - start)).

(** The record holds a number or a date under [key]; [timeValue] is
    that number. *)
Definition timeValue (key : string) (record : Obj) : Z :=
  match prop record key with
  | VNum n => n
  | VDate ms => ms
  | _ => 0
  end.

Definition numericAt (key : string) (record : Obj) : bool :=
  match prop record key with
  | VNum _ | VDate _ => true
  | _ => false
  end.

(** [{ sort: { [key]: order }, limit, offset }] with the given filter. *)
Definition sortedBy (key : string) (order : SortOrder)
    (f : option (OMap.t Value)) (l o : option Z) : option QueryOptions :=
  Some {| filter := f; sort := Some [(key, order)];
          limit := l; offset := o; include := None |}.

(** The list operation [op] succeeds, changes nothing, and returns
    items that are in the order [ordered]. *)
Definition returnsOrdered {S} (op : option QueryOptions -> M S Page)
    (options : option QueryOptions) (ordered : Obj -> Obj -> Prop)
    (st : S) : Prop :=
  exists page,
    op options st = (Ok page, st) /\ StronglySorted ordered (items page).


(** The hook that [registerHook(event, cb, prio)] makes. *)
Definition hookOf {W} (event : string)
    (cb : HookEvent -> HookManager.Run W) (prio : Z)
  : HookManager.Hook W :=
  {| HookManager.name := event; HookManager.callback := cb;
     HookManager.priority := Some prio |}.


(** The record has, under every key of the filter of the options, the
    value the filter gives. *)
Definition satisfies (options : option QueryOptions) (record : Obj) : Prop :=
  forall o f, options = Some o -> filter o = Some f ->
  forall k v, In (k, v) f -> strict_eq (prop record k) v = true.

(** The options do not paginate. *)
Definition unlimited (options : option QueryOptions) : Prop :=
  match options with
  | Some o => Query.truthy (limit o) = false
  | None => True
  end.

(** The list operation [op] succeeds, changes nothing, returns only
    stored records that satisfy the filter, and returns every one of
    them when it does not paginate. *)
Definition returnsMatches {S} (op : option QueryOptions -> M S Page)
    (visible : S -> list Obj) (options : option QueryOptions) : Prop :=
  forall st, exists page,
    op options st = (Ok page, st)
    /\ (forall item, In item (items page) ->
          In item (visible st) /\ satisfies options item)
    /\ (unlimited options ->
        forall record, In record (visible st) -> satisfies options record ->
                       In record (items page)).


(** The words of a pattern. *)
Inductive Matches : RegExp.t -> string -> Prop :=
| MatchesEmpty : Matches RegExp.Empty ""
| MatchesClass p c : p c = true -> Matches (RegExp.Class p) (String c "")
| MatchesCat r s u v :
    Matches r u -> Matches s v -> Matches (RegExp.Cat r s) (u ++ v)
| MatchesAltL r s u : Matches r u -> Matches (RegExp.Alt r s) u
| MatchesAltR r s u : Matches s u -> Matches (RegExp.Alt r s) u
| MatchesStarNil r : Matches (RegExp.Star r) ""
| MatchesStarCons r u v :
    Matches r u -> Matches (RegExp.Star r) v -> Matches (RegExp.Star r) (u ++ v).

(** Every character of [s] is in the class [p]. *)
Fixpoint allChars (p : ascii -> bool) (s : string) : bool :=
  match s with
  | EmptyString => true
  | String c s' => p c && allChars p s'
  end.

(** A non-empty string without white space and without [@]. *)
Definition plainWord (s : string) : Prop :=
  s <> "" /\ allChars Validation.plain s = true.

(** [local@domain.tld], each part a plain word; the domain may itself
    hold dots. *)
Definition emailForm (s : string) : Prop :=
  exists a b c,
    s = a ++ "@" ++ b ++ "." ++ c
    /\ plainWord a /\ plainWord b /\ plainWord c.

(** A value that is a non-empty string. *)
Definition nonEmptyString (v : Value) : Prop :=
  exists s, v = VStr s /\ s <> "".

(** A value that [tags] may hold: a falsy value or an object. *)
Definition acceptableTags (v : Value) : Prop :=
  Validation.truthy v = false \/ Validation.typeof v = "object".


(** [Number.MAX_SAFE_INTEGER]: up to it, [++counter] is exact. *)
Definition maxSafeInteger : Z := 9007199254740991.

(** [generate()] called once for every pair of the list, which gives
    what [Date.now()] and [Math.floor(Math.random() * 1000)] return at
    that call. *)
Fixpoint generateAll (inputs : list (Z * Z))
  : M IdGenerator.State (list string) :=
  match inputs with
  | [] => ret []
  | (timestamp, random) :: rest =>
      id <- IdGenerator.generate timestamp random ;;
      ids <- generateAll rest ;;
      ret (id :: ids)
  end.

(** [s] holds no hyphen. *)
Fixpoint noHyphen (s : string) : bool :=
  match s with
  | EmptyString => true
  | String c s' => negb (Ascii.eqb c "-") && noHyphen s'
  end.

(** The identifier ends with a hyphen and the decimal digits of [k]. *)
Definition numbered (k : Z) (id : string) : Prop :=
  exists front, id = front ++ "-" ++ Number_toString k.


(** The call returns, or it throws and leaves the state as it found it. *)
Definition atomic {S A} (c : M S A) : Prop :=
  forall s,
    (exists a s', c s = (Ok a, s')) \/ (exists e, c s = (Throw e, s)).


(** The data file holds what [JSON.stringify] makes of the data. *)
Definition synced (st : FileSystemAdapter.State) : Prop :=
  OMap.get (FileSystemAdapter.files st) (FileSystemAdapter.dataPath st)
  = Some (FileSystemAdapter.jsonCopy (FileSystemAdapter.data st)).

(** No transaction is open and the data file is up to date. *)
Definition settled (st : FileSystemAdapter.State) : Prop :=
  FileSystemAdapter.inTransaction st = false /\ synced st.

(** The disk accepts every write. *)
Definition accepting (D : FileSystemAdapter.Disk) : Prop :=
  forall path document fs, FileSystemAdapter.refuses path document fs = None.

(** The disk refused with the error [e] to write the data of [st'] over
    the files of [st], and left the files of [st']; apart from its data
    and its files, [st'] is [st]. *)
Definition writeRefused {D : FileSystemAdapter.Disk} (e : string)
    (st st' : FileSystemAdapter.State) : Prop :=
  FileSystemAdapter.refuses (FileSystemAdapter.dataPath st)
    (FileSystemAdapter.jsonCopy (FileSystemAdapter.data st'))
    (FileSystemAdapter.files st)
  = Some (e, FileSystemAdapter.files st')
  /\ FileSystemAdapter.dataDir st' = FileSystemAdapter.dataDir st
  /\ FileSystemAdapter.dataPath st' = FileSystemAdapter.dataPath st
  /\ FileSystemAdapter.inTransaction st' = FileSystemAdapter.inTransaction st
  /\ FileSystemAdapter.transactionData st' = FileSystemAdapter.transactionData st.

(** The call returns, or it throws and leaves the state as it found it,
    or it throws the error with which the disk refused to write the
    data as the call had changed them. *)
Definition atomicUpToWrite {D : FileSystemAdapter.Disk} {A}
    (c : M FileSystemAdapter.State A) : Prop :=
  forall st,
    (exists a st', c st = (Ok a, st'))
    \/ (exists e, c st = (Throw e, st))
    \/ (exists e st', c st = (Throw e, st') /\ writeRefused e st st').

(** A disk that is full: it refuses every write and leaves the files as
    they are. *)
Definition fullDisk : FileSystemAdapter.Disk := {|
  FileSystemAdapter.refuses := fun _ _ fs =>
    Some ("ENOSPC: no space left on device", fs);
|}.

(** What the read operations of a memory adapter show. *)
Definition shown (st : MemoryAdapter.State)
  : OMap.t Obj * OMap.t Obj * OMap.t Obj :=
  (MemoryAdapter.getUserMap st, MemoryAdapter.getRoleMap st,
   MemoryAdapter.getUserRoleMap st).


(** [create(data)], drawing the identifier [id] at time [now], returns
    the record [{ ...data, id, createdAt: now, updatedAt: now }];
    [getById(id)] then finds that record, and under any other
    identifier it finds what it found before. *)
Definition createsAndFinds {S} (create : Obj -> string -> Z -> M S Obj)
    (getById : string -> M S (option Obj))
    (data : Obj) (id : string) (now : Z) (st : S) : Prop :=
  exists st',
    create data id now st = (Ok (stamped data id now), st')
    /\ getById id st' = (Ok (Some (stamped data id now)), st')
    /\ forall other,
         other <> id ->
         outcome (getById other) st' = outcome (getById other) st.

(** [update(id, data)] at time [now], of the record [old]: it returns a
    record whose [updatedAt] is [now], that has every property of the
    payload, and every other property as [old] has it. *)
Definition mergesInto {S} (update : string -> Obj -> Z -> M S (option Obj))
    (id : string) (data old : Obj) (now : Z) (st : S) : Prop :=
  exists updated st',
    update id data now st = (Ok (Some updated), st')
    /\ prop updated "updatedAt" = VDate now
    /\ (forall k v,
          k <> "updatedAt" -> OMap.get data k = Some v -> prop updated k = v)
    /\ (forall k,
          k <> "updatedAt" -> OMap.get data k = None ->
          prop updated k = prop old k).

(** The memory adapter [st'] holds the users and the roles of [st]. *)
Definition sameRecords (st st' : MemoryAdapter.State) : Prop :=
  MemoryAdapter.getUserMap st' = MemoryAdapter.getUserMap st
  /\ MemoryAdapter.getRoleMap st' = MemoryAdapter.getRoleMap st.

(** Nothing is stored under [id]: [update] returns [null] and changes
    nothing, [delete] returns [false] and leaves a state that is
    [kept]. *)
Definition unknownIsIgnored {S}
    (update : string -> Obj -> Z -> M S (option Obj))
    (delete : string -> M S bool) (kept : S -> S -> Prop)
    (id : string) (st : S) : Prop :=
  (forall data now, update id data now st = (Ok None, st))
  /\ exists st', delete id st = (Ok false, st') /\ kept st st'.

(** [assignRole(u, r)] makes a new association, and [removeRole(u, r)]
    then returns [true] and leaves a state that [restores] the first
    one, in which [removeRole(u, r)] returns [false] and changes
    nothing. *)
Definition undoes {S} (assign : string -> string -> Z -> M S Obj)
    (remove : string -> string -> M S bool) (restores : S -> S -> Prop)
    (u r : string) (now : Z) (st : S) : Prop :=
  exists st1 st2,
    assign u r now st = (Ok (association u r now), st1)
    /\ remove u r st1 = (Ok true, st2)
    /\ restores st st2
    /\ remove u r st = (Ok false, st).

(** The file-system adapter [st'] holds the data of [st], and the open
    transaction of [st] if it has one. *)
Definition sameData (st st' : FileSystemAdapter.State) : Prop :=
  FileSystemAdapter.data st' = FileSystemAdapter.data st
  /\ FileSystemAdapter.inTransaction st' = FileSystemAdapter.inTransaction st
  /\ FileSystemAdapter.transactionData st' = FileSystemAdapter.transactionData st.


(** The names of the registered plugins, in the order of registration. *)
Definition pluginNames {C} (st : PluginManager.State C) : list string :=
  OMap.keys (PluginManager.plugins st).

(** The plugin manager after the calls [registerAdapter(name, adapter)]
    of the list, made on a new manager one after the other, each
    whether or not the one before it threw. *)
Definition registerAll {C} (memoryAdapter fileSystemAdapter : C)
    (calls : list (string * C)) : PluginManager.State C :=
  fold_left
    (fun st call =>
       stateAfter (PluginManager.registerAdapter (fst call) (snd call)) st)
    calls (PluginManager.create memoryAdapter fileSystemAdapter).

(** The first adapter class that the calls give for [name]. *)
Definition firstRegistered {C} (calls : list (string * C)) (name : string)
  : option C :=
  OMap.get calls name.

(** A plugin whose [shutdown] resolves. *)
Definition shutsDown (plugin : PluginManager.Plugin) : bool :=
  match PluginManager.shutdown plugin with Ok _ => true | Throw _ => false end.



(** Every plugin is registered once, under its name: what
    [registerPlugin] keeps true. *)
Definition named {C} (st : PluginManager.State C) : Prop :=
  NoDup (pluginNames st)
  /\ Forall (fun e => fst e = PluginManager.name (snd e))
            (PluginManager.plugins st).

(** [st] with [ps] as its plugins. *)
Definition withPlugins {C} (ps : OMap.t PluginManager.Plugin)
    (st : PluginManager.State C) : PluginManager.State C := {|
  PluginManager.plugins := ps;
  PluginManager.adapters := PluginManager.adapters st;
|}.

(** [`Failed to ${what} plugin "${name}": ${error}`] *)
Definition failure (what name error : string) : string :=
  "Failed to " ++ what ++ " plugin " ++ quote ++ name ++ quote ++ ": "
  ++ Error_toString error.


(** Three plugins: the second one can neither be initialized nor shut
    down. *)
Definition auditPlugin : PluginManager.Plugin := {|
  PluginManager.name := "audit"; PluginManager.version := "1.0.0";
  PluginManager.initialize := Ok tt; PluginManager.shutdown := Ok tt;
|}.

Definition brokenPlugin : PluginManager.Plugin := {|
  PluginManager.name := "broken"; PluginManager.version := "0.1.0";
  PluginManager.initialize := Throw "no disk";
  PluginManager.shutdown := Throw "busy";
|}.

Definition cachePlugin : PluginManager.Plugin := {|
  PluginManager.name := "cache"; PluginManager.version := "2.3.1";
  PluginManager.initialize := Ok tt; PluginManager.shutdown := Ok tt;
|}.

(** A plugin manager, its adapter classes known by their names, on
    which the three plugins were registered. *)
Definition threePlugins : PluginManager.State string :=
  stateAfter
    (PluginManager.registerPlugin auditPlugin ;;
     PluginManager.registerPlugin brokenPlugin ;;
     PluginManager.registerPlugin cachePlugin)
    (PluginManager.create "MemoryAdapter" "FileSystemAdapter").


(** No hook is registered for any of the events. *)
Definition unhooked {W} (registry : HookManager.State W)
    (events : list string) : Prop :=
  forall event, In event events -> hooksFor registry event = [].

(** With no hook registered for its [events], the wrapped operation
    [op] is the adapter's [call]: same result, thrown errors included,
    same adapter state, and the hook registry untouched. *)
Definition transparent {S A} (events : list string) (op : M (Env S) A)
    (call : M S A) : Prop :=
  forall env, unhooked (hookManager env) events -> op env = onAdapter call env.

(** A facade on which [initialize()] was not called. *)
Definition dormant : UserManagement.State MemoryAdapter.State := {|
  UserManagement.initialized := false;
  UserManagement.env := {|
    hookManager := HookManager.create;
    adapter := MemoryAdapter.create;
  |};
|}.

(** The operation throws the error of [ensureInitialized] and changes
    nothing. *)
Definition refused {S A} (op : M (UserManagement.State S) A)
    (st : UserManagement.State S) : Prop :=
  op st = (Throw "UserManagement not initialized. Call initialize() first.", st).


(** A step of a session with an adapter: a mutating call or a
    transaction operation. *)
Inductive Step : Type :=
| Do (c : Call)
| Begin
| Commit
| Rollback.

Definition step {S} (A : StorageAdapter.t S) (s : Step) : M S unit :=
  match s with
  | Do c => perform A c
  | Begin => StorageAdapter.beginTransaction A
  | Commit => StorageAdapter.commit A
  | Rollback => StorageAdapter.rollback A
  end.

(** The state after the steps, each made whether or not the one before
    it threw. *)
Definition stepAll {S} (A : StorageAdapter.t S) (steps : list Step) (s : S) : S :=
  fold_left (fun s x => stateAfter (step A x) s) steps s.

Definition admissibleStep (s : Step) : Prop :=
  match s with
  | Do c => admissible c
  | _ => True
  end.

(** Every record that [getById] finds carries the identifier it was
    asked for. *)
Definition findsById {S} (getById : string -> M S (option Obj)) (st : S) : Prop :=
  forall id record,
    getById id st = (Ok (Some record), st) -> prop record "id" = VStr id.

(** The calls of the list are admissible for a file-system adapter,
    each in the state that the calls before it leave. *)
Fixpoint admissibleFrom {V : Validator} (calls : list Call)
    (st : FileSystemAdapter.State) : Prop :=
  match calls with
  | [] => True
  | c :: calls' =>
      admissibleOnDisk c (FileSystemAdapter.data st)
      /\ admissibleFrom calls' (stateAfter (perform StorageAdapter.file c) st)
  end.


(** Some association of the list has [id] in its [field] and [key] in
    its [other] field. *)
Definition associated (field other id : string) (userRoles : list Obj)
    (key : Value) : Prop :=
  exists userRole,
    In userRole userRoles
    /\ prop userRole field = VStr id
    /\ strict_eq key (prop userRole other) = true.

(** [linkedTo(id)] returns, and changes nothing; the records it returns
    are those that pass [chosen]. *)
Definition returnsThe {S} (linkedTo : string -> M S (list Obj)) (id : string)
    (chosen : Obj -> Prop) (st : S) : Prop :=
  exists records,
    linkedTo id st = (Ok records, st)
    /\ forall record, In record records <-> chosen record.


(** The facade [st] holding an object of the class [c] with the given
    fields. *)
Definition holding {S} (c : AdapterClass S) (fields : S)
    (st : Facade.State S) : Facade.State S := {|
  Facade.config := Facade.config st;
  Facade.pluginManager := Facade.pluginManager st;
  Facade.hookManager := Facade.hookManager st;
  Facade.adapter := Some {| classOf := c; instance := fields |};
  Facade.managers := Facade.managers st;
  Facade.initialized := Facade.initialized st;
|}.

(** The facade [st] once initialized, holding that object and its two
    managers. *)
Definition ready {S} (c : AdapterClass S) (fields : S)
    (st : Facade.State S) : Facade.State S := {|
  Facade.config := Facade.config st;
  Facade.pluginManager := Facade.pluginManager st;
  Facade.hookManager := Facade.hookManager st;
  Facade.adapter := Some {| classOf := c; instance := fields |};
  Facade.managers := true;
  Facade.initialized := true;
|}.

(** The facade [st] once shut down: no plugin, no adapter object, no
    manager; its configuration, its hooks and its adapter classes are
    kept. *)
Definition stopped {S} (st : Facade.State S) : Facade.State S := {|
  Facade.config := Facade.config st;
  Facade.pluginManager := withPlugins [] (Facade.pluginManager st);
  Facade.hookManager := Facade.hookManager st;
  Facade.adapter := None;
  Facade.managers := false;
  Facade.initialized := false;
|}.

(** The facade [st] with [ps] as its plugins. *)
Definition keeping {S} (ps : OMap.t PluginManager.Plugin)
    (st : Facade.State S) : Facade.State S := {|
  Facade.config := Facade.config st;
  Facade.pluginManager := withPlugins ps (Facade.pluginManager st);
  Facade.hookManager := Facade.hookManager st;
  Facade.adapter := Facade.adapter st;
  Facade.managers := Facade.managers st;
  Facade.initialized := Facade.initialized st;
|}.

(** The plugins of the facade. *)
Definition pluginsOf {S} (st : Facade.State S) : OMap.t PluginManager.Plugin :=
  PluginManager.plugins (Facade.pluginManager st).


(** A plugin that cannot be shut down. *)
Definition stuckPlugin : PluginManager.Plugin := {|
  PluginManager.name := "stuck"; PluginManager.version := "0.0.1";
  PluginManager.initialize := Ok tt; PluginManager.shutdown := Throw "busy";
|}.

(** The built-in [FileSystemAdapter] on a machine without data file. *)
Definition fileClass : AdapterClass BuiltIn :=
  fileSystemClass "/app" OMap.empty initializeWithoutFile.

(** [new UserManagement()] on which the plugins of the list were
    registered. *)
Definition facadeWith (plugins : list PluginManager.Plugin)
  : Facade.State BuiltIn :=
  fold_left (fun st plugin => stateAfter (Facade.registerPlugin plugin) st)
            plugins (Facade.create [] memoryClass fileClass).


(* ================================================================== *)
(** * Properties *)

(** ** Dates *)

Example toISOString_epoch : toISOString 0 = "1970-01-01T00:00:00.000Z".
Proof. reflexivity. Qed.

Example toISOString_2023 :
  toISOString 1700000000123 = "2023-11-14T22:13:20.123Z".
Proof. vm_compute. reflexivity. Qed.

Example toISOString_leap : toISOString 951782400000 = "2000-02-29T00:00:00.000Z".
Proof. vm_compute. reflexivity. Qed.

Example toISOString_before_epoch : toISOString (-1) = "1969-12-31T23:59:59.999Z".
Proof. vm_compute. reflexivity. Qed.

(** ** Arrays *)

Lemma insert_perm {A} (cmp : A -> A -> Z) (x : A) (l : list A) :
  Permutation (insert cmp x l) (x :: l).
Proof.
  induction l as [|y l IH]; simpl.
  - apply Permutation_refl.
  - destruct (cmp x y <=? 0).
    + apply Permutation_refl.
    + eapply perm_trans; [apply perm_skip, IH | apply perm_swap].
Qed.

Lemma Array_sort_perm {A} (cmp : A -> A -> Z) (l : list A) :
  Permutation (Array_sort cmp l) l.
Proof.
  induction l as [|x l IH]; simpl.
  - constructor.
  - eapply perm_trans; [apply insert_perm | apply perm_skip, IH].
Qed.

Lemma Array_sort_length {A} (cmp : A -> A -> Z) (l : list A) :
  List.length (Array_sort cmp l) = List.length l.
Proof. apply Permutation_length, Array_sort_perm. Qed.

Lemma slice_length {A} (l : list A) (first last : Z) :
  0 <= first -> 0 <= last ->
  Z.of_nat (List.length (slice l first last))
  = Z.max 0 (Z.min last (Z.of_nat (List.length l)) - first).
Proof.
  intros Hf Hl. unfold slice.
  destruct (Z.ltb_spec first 0); [lia|].
  destruct (Z.ltb_spec last 0); [lia|].
  rewrite length_firstn, length_skipn. lia.
Qed.

(** ** The query code *)

Lemma applySort_perm options records :
  Permutation (Query.applySort options records) records.
Proof.
  unfold Query.applySort.
  destruct options as [[f [s|] l o i]|]; try apply Permutation_refl.
  apply Array_sort_perm.
Qed.

Lemma applyPagination_no_limit options records :
  match options with
  | Some o => Query.truthy (limit o) = false
  | None => True
  end ->
  Query.applyPagination options records = records.
Proof.
  unfold Query.applyPagination.
  destruct options as [o|]; [|reflexivity].
  destruct (limit o) as [l|]; [|reflexivity].
  intros ->. reflexivity.
Qed.

(** The repository's own test: five records, [{ limit: 2, offset: 1 }]
    gives two items starting at the second record, and a total of 5. *)
Example run_secondPage (r0 r1 r2 r3 r4 : Obj) :
  Query.run [r0; r1; r2; r3; r4] secondPage
  = {| items := [r1; r2]; total := 5 |}.
Proof. reflexivity. Qed.

Section ListOperations.

Context {V : Validator}.

Variable options : option QueryOptions.
Hypothesis valid : validateQueryOptions options = None.

Lemma memory_getUsers_run st :
  MemoryAdapter.getUsers options st
  = (Ok (Query.run (OMap.values (MemoryAdapter.getUserMap st)) options), st).
Proof.
  unfold MemoryAdapter.getUsers, bind, failIfSome. rewrite valid. reflexivity.
Qed.

Lemma memory_getRoles_run st :
  MemoryAdapter.getRoles options st
  = (Ok (Query.run (OMap.values (MemoryAdapter.getRoleMap st)) options), st).
Proof.
  unfold MemoryAdapter.getRoles, bind, failIfSome. rewrite valid. reflexivity.
Qed.

Lemma file_getUsers_run st :
  FileSystemAdapter.getUsers options st
  = (Ok (Query.run (FileSystemAdapter._getUsers st) options), st).
Proof.
  unfold FileSystemAdapter.getUsers, bind, failIfSome. rewrite valid. reflexivity.
Qed.

Lemma file_getRoles_run st :
  FileSystemAdapter.getRoles options st
  = (Ok (Query.run (FileSystemAdapter._getRoles st) options), st).
Proof.
  unfold FileSystemAdapter.getRoles, bind, failIfSome. rewrite valid. reflexivity.
Qed.

End ListOperations.

Lemma run_total all options :
  total (Query.run all options) = Z.of_nat (List.length all).
Proof. reflexivity. Qed.

Lemma run_items_no_limit all options :
  match options with
  | Some o => Query.truthy (limit o) = false
  | None => True
  end ->
  items (Query.run all options) = unpaginated options all.
Proof.
  intros H. unfold Query.run, unpaginated. simpl.
  now apply applyPagination_no_limit.
Qed.

Lemma unpaginated_perm options all :
  Permutation (unpaginated options all) (Query.applyFilter options all).
Proof. apply applySort_perm. Qed.

Lemma unpaginated_length options all :
  Z.of_nat (List.length (unpaginated options all)) = matchCount options all.
Proof.
  unfold matchCount. f_equal. apply Permutation_length, unpaginated_perm.
Qed.

Lemma matchCount_no_filter o all :
  filter o = None -> matchCount (Some o) all = Z.of_nat (List.length all).
Proof.
  intros H. unfold matchCount, Query.applyFilter.
  destruct o as [f s l off i]; simpl in *. now rewrite H.
Qed.

(** *** The total of a list operation *)

(** C1, as stated, fails: with alice, bob and carol stored and the
    filter [{ username: 'alice' }], exactly one record matches and one
    item comes back, but the total is 3. *)
Lemma total_ignores_filter :
  exists page,
    MemoryAdapter.getUsers (V := acceptAll) onlyAlice threeUsers
    = (Ok page, threeUsers)
    /\ List.length (items page) = 1%nat
    /\ matchCount onlyAlice (OMap.values (MemoryAdapter.getUserMap threeUsers)) = 1
    /\ total page = 3
    /\ total page
       <> matchCount onlyAlice (OMap.values (MemoryAdapter.getUserMap threeUsers)).
Proof.
  eexists. split; [reflexivity|].
  repeat split; vm_compute; congruence.
Qed.

(** C1 (amended): whenever the query options pass validation, the
    [total] that [getUsers] and [getRoles] return, in both adapters, is
    the number of records of the whole collection the adapter shows,
    counted before filtering and before pagination; limit, offset and
    filter do not change it, and it is the number of matching records
    when the options carry no filter. *)
Theorem total_is_collection_size (V : Validator) (options : option QueryOptions) :
  validateQueryOptions options = None ->
  totalIsSize MemoryAdapter.getUsers
    (fun st => OMap.values (MemoryAdapter.getUserMap st)) options
  /\ totalIsSize MemoryAdapter.getRoles
       (fun st => OMap.values (MemoryAdapter.getRoleMap st)) options
  /\ totalIsSize FileSystemAdapter.getUsers FileSystemAdapter._getUsers options
  /\ totalIsSize FileSystemAdapter.getRoles FileSystemAdapter._getRoles options
  /\ (forall o all, options = Some o -> filter o = None ->
      total (Query.run all options) = matchCount options all).
Proof.
  intros valid. unfold totalIsSize.
  repeat split; intros.
  - eexists; split; [apply memory_getUsers_run, valid | apply run_total].
  - eexists; split; [apply memory_getRoles_run, valid | apply run_total].
  - eexists; split; [apply file_getUsers_run, valid | apply run_total].
  - eexists; split; [apply file_getRoles_run, valid | apply run_total].
  - subst. rewrite run_total. symmetry. now apply matchCount_no_filter.
Qed.

Lemma total_is_collection_size_witness :
  validateQueryOptions (Validator := acceptAll) onlyAlice = None
  /\ exists page,
       MemoryAdapter.getUsers (V := acceptAll) onlyAlice threeUsers
       = (Ok page, threeUsers)
       /\ total page = 3.
Proof.
  split; [reflexivity|].
  destruct (total_is_collection_size acceptAll onlyAlice eq_refl) as [H _].
  destruct (H threeUsers) as [page [Hrun Htotal]].
  exists page. split; [exact Hrun | exact Htotal].
Defined.

(** *** An offset without a limit *)

(** C6, as stated, fails: with three users stored, [{ offset: 1 }]
    returns all three records, not the two from position 1 on. *)
Lemma offset_alone_is_ignored :
  let all := OMap.values (MemoryAdapter.getUserMap threeUsers) in
  exists page,
    MemoryAdapter.getUsers (V := acceptAll) fromSecond threeUsers
    = (Ok page, threeUsers)
    /\ items page = all
    /\ List.length (items page) = 3%nat
    /\ items page <> skipn 1 all.
Proof.
  eexists. split; [reflexivity|].
  repeat split; vm_compute; congruence.
Qed.

(** C6 (amended): for options that pass validation and give no limit,
    whatever offset they give, [getUsers] and [getRoles] return all N
    filter-matching records, sorted if a sort is given: the offset is
    not applied.  Offset and limit are applied together, and only when a
    limit is given. *)
Theorem no_limit_returns_every_match (V : Validator) (o : QueryOptions) :
  validateQueryOptions (Some o) = None ->
  limit o = None ->
  returnsEveryMatch MemoryAdapter.getUsers
    (fun st => OMap.values (MemoryAdapter.getUserMap st)) (Some o)
  /\ returnsEveryMatch MemoryAdapter.getRoles
       (fun st => OMap.values (MemoryAdapter.getRoleMap st)) (Some o)
  /\ returnsEveryMatch FileSystemAdapter.getUsers FileSystemAdapter._getUsers (Some o)
  /\ returnsEveryMatch FileSystemAdapter.getRoles FileSystemAdapter._getRoles (Some o).
Proof.
  intros valid nolimit. unfold returnsEveryMatch.
  assert (Hrun : forall all,
             items (Query.run all (Some o)) = unpaginated (Some o) all).
  { intros all. apply run_items_no_limit. now rewrite nolimit. }
  repeat split; intros;
    (eexists; split;
     [ first [ apply memory_getUsers_run, valid | apply memory_getRoles_run, valid
             | apply file_getUsers_run, valid | apply file_getRoles_run, valid ]
     | rewrite Hrun; repeat split;
       [ apply unpaginated_perm | apply unpaginated_length ] ]).
Qed.

Lemma no_limit_returns_every_match_witness :
  exists page,
    MemoryAdapter.getUsers (V := acceptAll) fromSecond threeUsers
    = (Ok page, threeUsers)
    /\ Z.of_nat (List.length (items page)) = 3.
Proof.
  destruct (no_limit_returns_every_match acceptAll
              {| filter := None; sort := None; limit := None;
                 offset := Some 1; include := None |} eq_refl eq_refl)
    as [H _].
  destruct (H threeUsers) as [page [Hrun [_ [_ Hlen]]]].
  exists page. split; [exact Hrun | exact Hlen].
Defined.

(** *** A limit of zero *)

(** C10: for options that pass validation and whose limit is exactly 0,
    [getUsers] and [getRoles] do not paginate: they return every
    filter-matching record, sorted if a sort is given, because the
    pagination branch tests the truthiness of the limit. *)
Theorem limit_zero_returns_every_match (V : Validator) (o : QueryOptions) :
  validateQueryOptions (Some o) = None ->
  limit o = Some 0 ->
  returnsEveryMatch MemoryAdapter.getUsers
    (fun st => OMap.values (MemoryAdapter.getUserMap st)) (Some o)
  /\ returnsEveryMatch MemoryAdapter.getRoles
       (fun st => OMap.values (MemoryAdapter.getRoleMap st)) (Some o)
  /\ returnsEveryMatch FileSystemAdapter.getUsers FileSystemAdapter._getUsers (Some o)
  /\ returnsEveryMatch FileSystemAdapter.getRoles FileSystemAdapter._getRoles (Some o).
Proof.
  intros valid zero. unfold returnsEveryMatch.
  assert (Hrun : forall all,
             items (Query.run all (Some o)) = unpaginated (Some o) all).
  { intros all. apply run_items_no_limit. now rewrite zero. }
  repeat split; intros;
    (eexists; split;
     [ first [ apply memory_getUsers_run, valid | apply memory_getRoles_run, valid
             | apply file_getUsers_run, valid | apply file_getRoles_run, valid ]
     | rewrite Hrun; repeat split;
       [ apply unpaginated_perm | apply unpaginated_length ] ]).
Qed.

Lemma limit_zero_returns_every_match_witness :
  exists page,
    MemoryAdapter.getUsers (V := acceptAll) limitZero threeUsers
    = (Ok page, threeUsers)
    /\ items page = OMap.values (MemoryAdapter.getUserMap threeUsers)
    /\ Z.of_nat (List.length (items page)) = 3.
Proof.
  destruct (limit_zero_returns_every_match acceptAll
              {| filter := None; sort := None; limit := Some 0;
                 offset := None; include := None |} eq_refl eq_refl)
    as [H _].
  destruct (H threeUsers) as [page [Hrun [Hitems [_ Hlen]]]].
  exists page. split; [exact Hrun | split; [exact Hitems | exact Hlen]].
Defined.

(** ** Properties kept by every step of a method *)

Section Preservation.

Context {S : Type} (I : S -> Prop).

Lemma preserves_ret {A} (a : A) : preserves I (ret a).
Proof. intros s H. exact H. Qed.

Lemma preserves_throw {A} (e : string) : preserves I (throw (A := A) e).
Proof. intros s H. exact H. Qed.

Lemma preserves_gets {A} (f : S -> A) : preserves I (gets f).
Proof. intros s H. exact H. Qed.

Lemma preserves_bind {A B} (c : M S A) (k : A -> M S B) :
  preserves I c -> (forall a, preserves I (k a)) -> preserves I (bind c k).
Proof.
  intros Hc Hk s H. unfold bind.
  specialize (Hc s H). destruct (c s) as [[a|e] s']; simpl in *.
  - now apply Hk.
  - exact Hc.
Qed.

Lemma preserves_modify (f : S -> S) :
  (forall s, I s -> I (f s)) -> preserves I (modify f).
Proof. intros Hf s H. now apply Hf. Qed.

Lemma preserves_failIfAny errors : preserves I (failIfAny errors).
Proof. destruct errors; intros s H; exact H. Qed.

Lemma preserves_failIfSome error : preserves I (failIfSome error).
Proof. destruct error; intros s H; exact H. Qed.

Lemma preserves_failIfEither e1 e2 : preserves I (failIfEither e1 e2).
Proof. destruct e1, e2; intros s H; exact H. Qed.

End Preservation.

(** Splits a method into its steps. *)
Ltac steps_with known :=
  repeat first
    [ known
    | apply preserves_bind; [|intro]
    | apply preserves_ret | apply preserves_throw | apply preserves_gets
    | apply preserves_failIfAny | apply preserves_failIfSome
    | apply preserves_failIfEither
    | match goal with
      | |- preserves _ (match ?x with _ => _ end) => destruct x
      | |- preserves _ (let _ := _ in _) => cbv zeta
      end ].

Ltac steps := steps_with fail.

(** ** Transactions of the memory adapter *)

Section MemoryTransactions.

Context {V : Validator}.

Variable st0 : MemoryAdapter.State.

Lemma liveKept_onUserMap f st :
  liveKept st0 st -> liveKept st0 (MemoryAdapter.onUserMap f st).
Proof.
  unfold liveKept, MemoryAdapter.onUserMap.
  intros (Hu & Hr & Hur & Hin & Htd). rewrite Hin.
  destruct (MemoryAdapter.transactionData st); [|congruence].
  simpl. repeat split; auto; congruence.
Qed.

Lemma liveKept_onRoleMap f st :
  liveKept st0 st -> liveKept st0 (MemoryAdapter.onRoleMap f st).
Proof.
  unfold liveKept, MemoryAdapter.onRoleMap.
  intros (Hu & Hr & Hur & Hin & Htd). rewrite Hin.
  destruct (MemoryAdapter.transactionData st); [|congruence].
  simpl. repeat split; auto; congruence.
Qed.

Lemma liveKept_onUserRoleMap f st :
  liveKept st0 st -> liveKept st0 (MemoryAdapter.onUserRoleMap f st).
Proof.
  unfold liveKept, MemoryAdapter.onUserRoleMap.
  intros (Hu & Hr & Hur & Hin & Htd). rewrite Hin.
  destruct (MemoryAdapter.transactionData st); [|congruence].
  simpl. repeat split; auto; congruence.
Qed.

Ltac memory_steps :=
  steps;
  try (apply preserves_modify; intros;
       first [ now apply liveKept_onUserMap | now apply liveKept_onRoleMap
             | now apply liveKept_onUserRoleMap ]).

Lemma memory_perform_keeps_live (c : Call) :
  preserves (liveKept st0) (perform StorageAdapter.memory c).
Proof.
  destruct c; simpl;
    unfold MemoryAdapter.createUser, MemoryAdapter.updateUser,
      MemoryAdapter.deleteUser, MemoryAdapter.createRole,
      MemoryAdapter.updateRole, MemoryAdapter.deleteRole,
      MemoryAdapter.assignRole, MemoryAdapter.removeRole;
    memory_steps.
Qed.

Lemma memory_performAll_keeps_live (calls : list Call) st :
  liveKept st0 st -> liveKept st0 (performAll StorageAdapter.memory calls st).
Proof.
  revert st. induction calls as [|c calls IH]; intros st H; simpl.
  - exact H.
  - apply IH. now apply memory_perform_keeps_live.
Qed.

End MemoryTransactions.

(** In the memory adapter, [rollback] after [beginTransaction] and any
    sequence of mutations gives back the very state [beginTransaction]
    found: the part of C2 that the code meets. *)
Lemma memory_rollback_restores {V : Validator} (st : MemoryAdapter.State)
    (calls : list Call) :
  MemoryAdapter.inTransaction st = false ->
  MemoryAdapter.transactionData st = None ->
  let opened := stateAfter MemoryAdapter.beginTransaction st in
  let worked := performAll StorageAdapter.memory calls opened in
  MemoryAdapter.rollback worked = (Ok tt, st).
Proof.
  intros Hin Htd opened worked.
  assert (Hopen : liveKept st opened).
  { unfold opened, stateAfter, MemoryAdapter.beginTransaction, bind, gets.
    rewrite Hin. simpl. unfold liveKept. simpl. repeat split; congruence. }
  pose proof (memory_performAll_keeps_live calls Hopen) as H.
  fold worked in H. destruct H as (Hu & Hr & Hur & Hin' & Htd').
  unfold MemoryAdapter.rollback, bind, gets. rewrite Hin'.
  destruct (MemoryAdapter.transactionData worked); [|congruence].
  unfold modify. f_equal. destruct st; simpl in *. congruence.
Qed.

(** ** Transactions of the file-system adapter *)

Section FileTransactions.

Context {V : Validator} {D : FileSystemAdapter.Disk}.

Variable st0 : FileSystemAdapter.State.

Lemma snapshotKept_withData f st :
  snapshotKept st0 st -> snapshotKept st0 (FileSystemAdapter.withData f st).
Proof. intros H. exact H. Qed.

Lemma snapshotKept_saveUnless :
  preserves (snapshotKept st0) FileSystemAdapter.saveUnlessInTransaction.
Proof.
  intros st H. pose proof H as (Hin & _).
  unfold FileSystemAdapter.saveUnlessInTransaction, bind, gets.
  rewrite Hin. exact H.
Qed.

Lemma snapshotKept_removeRole userId roleId :
  preserves (snapshotKept st0) (FileSystemAdapter.removeRole userId roleId).
Proof.
  intros st H. unfold FileSystemAdapter.removeRole, bind, gets, modify.
  destruct (failIfEither (validateId userId) (validateId roleId) st)
    as [[[]|e] st'] eqn:E.
  - assert (st' = st) as ->.
    { unfold failIfEither in E.
      destruct (validateId userId), (validateId roleId); inversion E; auto. }
    simpl. pose proof H as (Hin & _). rewrite Hin.
    rewrite andb_false_r. simpl. exact H.
  - assert (st' = st) as ->.
    { unfold failIfEither in E.
      destruct (validateId userId), (validateId roleId); inversion E; auto. }
    exact H.
Qed.

Ltac file_steps :=
  steps_with ltac:(apply snapshotKept_saveUnless);
  try (apply preserves_modify; intros; now apply snapshotKept_withData).

Lemma file_perform_keeps_snapshot (c : Call) :
  preserves (snapshotKept st0) (perform StorageAdapter.file c).
Proof.
  destruct c; simpl;
    try (apply preserves_bind; [apply snapshotKept_removeRole
                               | intro; apply preserves_ret]);
    unfold FileSystemAdapter.createUser, FileSystemAdapter.updateUser,
      FileSystemAdapter.deleteUser, FileSystemAdapter.createRole,
      FileSystemAdapter.updateRole, FileSystemAdapter.deleteRole,
      FileSystemAdapter.assignRole;
    file_steps.
Qed.

Lemma file_performAll_keeps_snapshot (calls : list Call) st :
  snapshotKept st0 st -> snapshotKept st0 (performAll StorageAdapter.file calls st).
Proof.
  revert st. induction calls as [|c calls IH]; intros st H; simpl.
  - exact H.
  - apply IH. now apply file_perform_keeps_snapshot.
Qed.

End FileTransactions.

(** In the file-system adapter, [rollback] after [beginTransaction] and
    any sequence of mutations leaves the files as they were and, as the
    data, what [JSON.parse(JSON.stringify(...))] made of the data that
    [beginTransaction] found. *)
Lemma file_rollback_restores_json_copy {V : Validator}
    (st : FileSystemAdapter.State) (calls : list Call) :
  FileSystemAdapter.inTransaction st = false ->
  let opened := stateAfter FileSystemAdapter.beginTransaction st in
  let worked := performAll StorageAdapter.file calls opened in
  FileSystemAdapter.rollback worked
  = (Ok tt, restoredTo (FileSystemAdapter.jsonCopy (FileSystemAdapter.data st)) st).
Proof.
  intros Hin opened worked.
  assert (Hopen : snapshotKept st opened).
  { unfold opened, stateAfter, FileSystemAdapter.beginTransaction, bind, gets.
    rewrite Hin. simpl. unfold snapshotKept. simpl. repeat split. }
  pose proof (file_performAll_keeps_snapshot calls Hopen) as H.
  fold worked in H. destruct H as (Hin' & Htd & Hf & Hd & Hp).
  unfold FileSystemAdapter.rollback, bind, gets. rewrite Hin', Htd.
  unfold modify, restoredTo. rewrite Hf, Hd, Hp. reflexivity.
Qed.

(** *** Rollback *)

(** C2 fails in the file-system adapter.  With alice, bob and carol
    stored, [beginTransaction], [createRole] of "Admin", [rollback]:
    the role is gone and the three users are back, but their timestamps
    are no longer dates: [createdAt] of [u1] was the date of time value
    1000 and is now the string "1970-01-01T00:00:01.000Z", so the state
    is not the one that [beginTransaction] found.  The same calls on the
    memory adapter give back that state exactly. *)
Theorem file_rollback_rewrites_timestamps :
  let before := threeUsersOnDisk in
  let after :=
    stateAfter
      (FileSystemAdapter.beginTransaction ;;
       FileSystemAdapter.createRole (V := acceptAll) admin "r1" 4000 ;;
       FileSystemAdapter.rollback)
      before in
  outcome (FileSystemAdapter.getRoles (V := acceptAll) None) after
    = Ok {| items := []; total := 0 |}
  /\ createdAtOf (StorageAdapter.file (V := acceptAll)) "u1" before
     = Some (VDate 1000)
  /\ createdAtOf (StorageAdapter.file (V := acceptAll)) "u1" after
     = Some (VStr "1970-01-01T00:00:01.000Z")
  /\ FileSystemAdapter.data after <> FileSystemAdapter.data before
  /\ stateAfter
       (MemoryAdapter.beginTransaction ;;
        MemoryAdapter.createRole (V := acceptAll) admin "r1" 4000 ;;
        MemoryAdapter.rollback)
       threeUsers
     = threeUsers.
Proof.
  repeat split; try (vm_compute; reflexivity).
  vm_compute. intros H. discriminate H.
Qed.

(** ** The hook manager *)

Lemma executeHooks_ok {W} (event : string) (data : HookEvent)
    (registry : HookManager.State W) :
  exists result,
    HookManager.executeHooks event data registry = (Ok result, registry).
Proof.
  unfold HookManager.executeHooks, bind, gets, ret. eexists. reflexivity.
Qed.

Lemma runHooks_app {W} (before after : list (HookManager.Hook W)) walk :
  HookManager.runHooks (before ++ after) walk
  = HookManager.runHooks after (HookManager.runHooks before walk).
Proof.
  revert walk. induction before as [|h before IH]; intros walk; simpl; auto.
Qed.

Lemma runHook_swallowed {W} (h : HookManager.Hook W) walk :
  HookManager.runHook walk h = HookManager.runHook walk (swallowed h).
Proof.
  unfold HookManager.runHook, swallowed. simpl.
  destruct (HookManager.settled (HookManager.callback h (HookManager.view walk)))
    as [[fragment|]|e]; reflexivity.
Qed.

Lemma runHook_untouched {W} (h : HookManager.Hook W) walk :
  throwsUntouched (HookManager.view walk) h -> HookManager.runHook walk h = walk.
Proof.
  intros ([e He] & Hw & Ha & _). unfold HookManager.runHook.
  rewrite He, Hw, Ha. simpl. destruct walk; reflexivity.
Qed.

Lemma runHooks_untouched {W} (hooks : list (HookManager.Hook W)) walk :
  Forall (throwsUntouched (HookManager.view walk)) hooks ->
  HookManager.runHooks hooks walk = walk.
Proof.
  induction 1 as [|h hooks Hh _ IH]; simpl; [reflexivity|].
  rewrite (@runHook_untouched _ _ _ Hh). exact IH.
Qed.

Lemma showHooks_untouched {W} (hooks : list (HookManager.Hook W)) walk world :
  Forall (throwsUntouched (HookManager.view walk)) hooks ->
  HookManager.showHooks hooks walk world = world.
Proof.
  induction 1 as [|h hooks Hh _ IH]; simpl; [reflexivity|].
  rewrite (@runHook_untouched _ _ _ Hh).
  destruct Hh as (_ & _ & _ & Hs). rewrite Hs. exact IH.
Qed.

(** Hooks that only read leave the objects they are handed, and the
    world, as they are. *)
Lemma runHook_reads {W} (h : HookManager.Hook W) walk :
  readsOnly h ->
  HookManager.objects (HookManager.runHook walk h) = HookManager.objects walk.
Proof.
  intros H. destruct (H (HookManager.view walk)) as [Hw _].
  unfold HookManager.runHook. rewrite Hw. reflexivity.
Qed.

Lemma runHooks_read {W} (hooks : list (HookManager.Hook W)) walk :
  Forall readsOnly hooks ->
  HookManager.objects (HookManager.runHooks hooks walk) = HookManager.objects walk.
Proof.
  intros H. revert walk. induction H as [|h hooks Hh _ IH]; intros walk; simpl.
  - reflexivity.
  - rewrite IH. now apply runHook_reads.
Qed.

Lemma showHooks_read {W} (hooks : list (HookManager.Hook W)) walk world :
  Forall readsOnly hooks -> HookManager.showHooks hooks walk world = world.
Proof.
  intros H. revert walk world.
  induction H as [|h hooks Hh _ IH]; intros walk world; simpl.
  - reflexivity.
  - destruct (Hh (HookManager.view walk)) as [_ Hs]. rewrite Hs. apply IH.
Qed.

Lemma awaitHooks_reads {S} (event : string) (data : HookEvent) (env : Env S) :
  Forall readsOnly (hooksFor (hookManager env) event) ->
  exists result,
    awaitHooks event data env
    = (Ok {| returned := result; handedBack := OMap.spread [] data |}, env).
Proof.
  intros H. unfold awaitHooks, bind, onHooks.
  destruct (executeHooks_ok event data (hookManager env)) as [r ->].
  exists r. unfold hooksFor in H. simpl.
  rewrite (@runHooks_read _ _ _ H), (@showHooks_read _ _ _ _ H).
  destruct env; reflexivity.
Qed.

Lemma awaitHooks_keepsHooks {S} event data : keepsHooks (@awaitHooks S event data).
Proof.
  intros env. unfold awaitHooks, bind, onHooks.
  destruct (executeHooks_ok event data (hookManager env)) as [r ->].
  reflexivity.
Qed.

Lemma onAdapter_keepsHooks {S A} (c : M S A) : keepsHooks (onAdapter c).
Proof.
  intros env. unfold onAdapter. destruct (c (adapter env)). reflexivity.
Qed.

Lemma asRecord_keepsHooks {S} ctx key : keepsHooks (@asRecord (Env S) ctx key).
Proof.
  intros env. unfold asRecord.
  destruct (OMap.get ctx key) as [[]|]; reflexivity.
Qed.

Lemma asString_keepsHooks {S} ctx key : keepsHooks (@asString (Env S) ctx key).
Proof.
  intros env. unfold asString.
  destruct (OMap.get ctx key) as [[[]| | | |]|]; reflexivity.
Qed.

Lemma asOptions_keepsHooks {S} ctx key : keepsHooks (@asOptions (Env S) ctx key).
Proof.
  intros env. unfold asOptions.
  destruct (OMap.get ctx key) as [[[]| | | |]|]; reflexivity.
Qed.

Lemma bind_assoc {S A B C} (c : M S A) (k : A -> M S B) (k' : B -> M S C) s :
  (y <- (x <- c ;; k x) ;; k' y) s = (x <- c ;; y <- k x ;; k' y) s.
Proof.
  unfold bind. destruct (c s) as [[x|e] s']; reflexivity.
Qed.

Lemma bind_ext {S A B} (c : M S A) (k k' : A -> M S B) s :
  (forall x s', k x s' = k' x s') -> bind c k s = bind c k' s.
Proof.
  intros H. unfold bind. destruct (c s) as [[x|e] s']; auto.
Qed.

(** The continuations of a call that keeps the registry need only agree
    where the registry is the one the call started from. *)
Lemma bind_keepsHooks {S A B} (c : M (Env S) A) (k k' : A -> M (Env S) B) env :
  keepsHooks c ->
  (forall x env', hookManager env' = hookManager env -> k x env' = k' x env') ->
  bind c k env = bind c k' env.
Proof.
  intros Hc H. unfold bind. specialize (Hc env).
  destruct (c env) as [[x|e] env']; [|reflexivity]. now apply H.
Qed.

(** Running post-hooks that only read on a result and then returning
    the result is returning the result. *)
Lemma post_hooks_read {S A} (c : M (Env S) A) (event : string)
    (context : A -> HookEvent) (back : Hooked -> A -> A) (env : Env S) :
  keepsHooks c ->
  Forall readsOnly (hooksFor (hookManager env) event) ->
  (forall x result,
     back {| returned := result; handedBack := OMap.spread [] (context x) |} x
     = x) ->
  (x <- c ;; post <- awaitHooks event (context x) ;; ret (back post x)) env
  = c env.
Proof.
  intros Hc Hread Hback. unfold bind. specialize (Hc env).
  destruct (c env) as [[x|e] env']; [|reflexivity]. simpl in Hc.
  rewrite <- Hc in Hread.
  destruct (awaitHooks_reads event (context x) env' Hread) as [r ->].
  unfold ret. now rewrite Hback.
Qed.

Lemma post_hooks_read_drop {S A} (c : M (Env S) A) (event : string)
    (context : A -> HookEvent) (env : Env S) :
  keepsHooks c ->
  Forall readsOnly (hooksFor (hookManager env) event) ->
  (x <- c ;; awaitHooks event (context x) ;; ret x) env = c env.
Proof.
  intros Hc Hread. unfold bind. specialize (Hc env).
  destruct (c env) as [[x|e] env']; [|reflexivity]. simpl in Hc.
  rewrite <- Hc in Hread.
  destruct (awaitHooks_reads event (context x) env' Hread) as [r ->].
  reflexivity.
Qed.

Lemma onEnv_keepsRegistry {S A} (c : M (Env S) A) :
  keepsHooks c -> keepsRegistry (UserManagement.onEnv c).
Proof.
  intros Hc st. unfold UserManagement.onEnv, registryOf. specialize (Hc (UserManagement.env st)).
  destruct (c (UserManagement.env st)). exact Hc.
Qed.

Lemma ensureInitialized_keepsRegistry {S} :
  keepsRegistry (@UserManagement.ensureInitialized S).
Proof.
  intros st. unfold UserManagement.ensureInitialized, bind, gets.
  destruct (UserManagement.initialized st); reflexivity.
Qed.

Lemma facade_asString_keepsRegistry {S} ctx key :
  keepsRegistry (@asString (UserManagement.State S) ctx key).
Proof.
  intros st. unfold asString.
  destruct (OMap.get ctx key) as [[[]| | | |]|]; reflexivity.
Qed.

Lemma bind_keepsRegistry {S A B} (c : M (UserManagement.State S) A)
    (k k' : A -> M (UserManagement.State S) B) st :
  keepsRegistry c ->
  (forall x st', registryOf st' = registryOf st -> k x st' = k' x st') ->
  bind c k st = bind c k' st.
Proof.
  intros Hc H. unfold bind. specialize (Hc st).
  destruct (c st) as [[x|e] st']; [|reflexivity]. now apply H.
Qed.

Lemma facade_post_hooks_read {S A} (c : M (UserManagement.State S) A)
    (event : string) (context : A -> HookEvent) (back : Hooked -> A -> A) st :
  keepsRegistry c ->
  Forall readsOnly (hooksFor (registryOf st) event) ->
  (forall x result,
     back {| returned := result; handedBack := OMap.spread [] (context x) |} x
     = x) ->
  (x <- c ;;
   post <- UserManagement.onEnv (awaitHooks event (context x)) ;;
   ret (back post x)) st
  = c st.
Proof.
  intros Hc Hread Hback. unfold bind. specialize (Hc st).
  destruct (c st) as [[x|e] st']; [|reflexivity]. simpl in Hc.
  rewrite <- Hc in Hread. unfold UserManagement.onEnv.
  destruct (awaitHooks_reads event (context x) (UserManagement.env st') Hread)
    as [r ->].
  unfold ret. rewrite Hback. destruct st'; reflexivity.
Qed.

Lemma facade_post_hooks_read_drop {S A} (c : M (UserManagement.State S) A)
    (event : string) (context : A -> HookEvent) st :
  keepsRegistry c ->
  Forall readsOnly (hooksFor (registryOf st) event) ->
  (x <- c ;; UserManagement.onEnv (awaitHooks event (context x)) ;; ret x) st
  = c st.
Proof.
  intros Hc Hread. unfold bind. specialize (Hc st).
  destruct (c st) as [[x|e] st']; [|reflexivity]. simpl in Hc.
  rewrite <- Hc in Hread. unfold UserManagement.onEnv.
  destruct (awaitHooks_reads event (context x) (UserManagement.env st') Hread)
    as [r ->].
  destruct st'; reflexivity.
Qed.

Lemma theNullable_back key (x : option Obj) result :
  theNullable {| returned := result;
                 handedBack := OMap.spread [] [(key, nullable x)] |} key x
  = x.
Proof.
  destruct x as [r|]; [|reflexivity].
  unfold theNullable, theRecord. simpl. now rewrite String.eqb_refl.
Qed.

Create HintDb hooks.

#[local] Hint Resolve awaitHooks_keepsHooks onAdapter_keepsHooks
  asRecord_keepsHooks asString_keepsHooks asOptions_keepsHooks
  onEnv_keepsRegistry ensureInitialized_keepsRegistry
  facade_asString_keepsRegistry : hooks.

(** Walks down a hook-wrapped method to its post-hook phase, the
    registry being the one whose post-hooks only read. *)
Ltac to_post_hooks :=
  repeat first
    [ apply post_hooks_read;
      [ auto with hooks
      | assumption
      | intros; first [ apply theNullable_back | reflexivity ] ]
    | apply post_hooks_read_drop; [ auto with hooks | assumption ]
    | apply facade_post_hooks_read;
      [ auto with hooks | assumption | intros; reflexivity ]
    | apply facade_post_hooks_read_drop; [ auto with hooks | assumption ]
    | apply bind_keepsHooks;
      [ auto with hooks
      | let H := fresh "Hreg" in
        intros ? ? H;
        match goal with
        | Hread : Forall readsOnly (hooksFor (hookManager _) _) |- _ =>
            rewrite <- H in Hread
        end ]
    | apply bind_keepsRegistry;
      [ auto with hooks
      | let H := fresh "Hreg" in
        intros ? ? H;
        match goal with
        | Hread : Forall readsOnly (hooksFor (registryOf _) _) |- _ =>
            rewrite <- H in Hread
        end ] ].

(** Hooks that throw and have touched nothing leave the context, the
    objects and the adapter as they were. *)
Lemma awaitHooks_untouched {S} (event : string) (data : HookEvent) (env : Env S) :
  Forall (throwsUntouched (HookManager.view (HookManager.start data)))
         (hooksFor (hookManager env) event) ->
  awaitHooks event data env
  = (Ok {| returned := HookManager.view (HookManager.start data);
           handedBack := OMap.spread [] data |}, env).
Proof.
  intros H. unfold awaitHooks, bind, onHooks, HookManager.executeHooks, gets, ret.
  unfold hooksFor in H. simpl.
  rewrite (@runHooks_untouched _ _ _ H), (@showHooks_untouched _ _ _ _ H).
  destruct env; reflexivity.
Qed.

(** *** What a hook-wrapped operation returns *)

(** C3, as stated, fails: with a post-hook on [role.postCreate] that
    answers [{ role: renamed }], the hooks turn the context of the
    created role into one that holds [renamed], but [createRole] returns
    the role as the adapter made it. *)
Lemma post_hook_answer_is_not_returned :
  let env := sessionWith "role.postCreate" renameRole in
  let created := stamped admin "r1" 4000 in
  outcome (HookManager.executeHooks "role.postCreate" [("role", ARecord created)])
          (hookManager env)
    = Ok [("role", ARecord renamed)]
  /\ outcome (RoleManager.createRole (StorageAdapter.memory (V := acceptAll))
                admin "r1" 4000) env
     = Ok created
  /\ created <> renamed.
Proof.
  repeat split; try (vm_compute; reflexivity).
  vm_compute. intros H. discriminate H.
Qed.

(** A post-hook changes what the operation returns in one way only: by
    writing into the object it is handed, which is the adapter's own.
    With [d.role.name = 'Root'] on [role.postCreate], [createRole]
    returns the role under that name, and the adapter keeps it under
    that name. *)
Example post_hook_write_is_returned_and_stored :
  let A := StorageAdapter.memory (V := acceptAll) in
  let env := sessionWith "role.postCreate" engrave in
  RoleManager.createRole A admin "r1" 4000 env
  = (Ok renamed,
     {| hookManager := hookManager env;
        adapter := stateAfter (MemoryAdapter.createRole (V := acceptAll)
                                 (OMap.set admin "name" (VStr "Root")) "r1" 4000)
                              MemoryAdapter.create |}).
Proof. vm_compute. reflexivity. Qed.

(** The pre-hook of the README writes into the [userData] of the
    caller and returns the context it was handed: the user is created
    with the tag. *)
Example readme_pre_hook_tags_the_user :
  outcome (UserManager.createUser (StorageAdapter.memory (V := acceptAll))
             alice "u1" 1000)
          (sessionWith "user.preCreate" tagSource)
  = Ok (stamped (OMap.set alice "tags" (VTag [("source", PStr "registration")]))
                "u1" 1000).
Proof. vm_compute. reflexivity. Qed.

(** C3 (amended): a hook-wrapped operation returns the object that the
    adapter call returned, made on the input as the pre-hooks left it.
    The post-hooks are handed that object; the context they return, the
    fragments they answer with and the properties they set on the
    context are dropped.  So whenever the post-hooks only read what they
    are handed, each operation is equal, in result and in state, to its
    own text cut after the adapter call. *)
Theorem wrapped_operations_return_adapter_result
    {S : Type} (A : StorageAdapter.t S) :
  (forall userData id now,
     returnsAdapterResult hookManager "user.postCreate"
       (UserManager.createUser A userData id now)
       (pre <- awaitHooks "user.preCreate" [("userData", ARecord userData)] ;;
        input <- asRecord (returned pre) "userData" ;;
        onAdapter (StorageAdapter.createUser A input id now)))
  /\ (forall id,
        returnsAdapterResult hookManager "user.postGet"
          (UserManager.getUserById A id)
          (pre <- awaitHooks "user.preGet" [("id", AValue (VStr id))] ;;
           id' <- asString (returned pre) "id" ;;
           onAdapter (StorageAdapter.getUserById A id')))
  /\ (forall options,
        returnsAdapterResult hookManager "user.postGetAll"
          (UserManager.getUsers A options)
          (pre <- awaitHooks "user.preGetAll" [("options", AOptions options)] ;;
           options' <- asOptions (returned pre) "options" ;;
           onAdapter (StorageAdapter.getUsers A options')))
  /\ (forall id userData now,
        returnsAdapterResult hookManager "user.postUpdate"
          (UserManager.updateUser A id userData now)
          (pre <- awaitHooks "user.preUpdate"
                    [("id", AValue (VStr id)); ("userData", ARecord userData)] ;;
           id' <- asString (returned pre) "id" ;;
           input <- asRecord (returned pre) "userData" ;;
           onAdapter (StorageAdapter.updateUser A id' input now)))
  /\ (forall id,
        returnsAdapterResult hookManager "user.postDelete"
          (UserManager.deleteUser A id)
          (pre <- awaitHooks "user.preDelete" [("id", AValue (VStr id))] ;;
           id' <- asString (returned pre) "id" ;;
           onAdapter (StorageAdapter.deleteUser A id')))
  /\ (forall userId,
        returnsAdapterResult hookManager "user.postGetRoles"
          (UserManager.getUserRoles A userId)
          (pre <- awaitHooks "user.preGetRoles" [("userId", AValue (VStr userId))] ;;
           userId' <- asString (returned pre) "userId" ;;
           onAdapter (StorageAdapter.getUserRoles A userId')))
  /\ (forall roleData id now,
        returnsAdapterResult hookManager "role.postCreate"
          (RoleManager.createRole A roleData id now)
          (pre <- awaitHooks "role.preCreate" [("roleData", ARecord roleData)] ;;
           input <- asRecord (returned pre) "roleData" ;;
           onAdapter (StorageAdapter.createRole A input id now)))
  /\ (forall id,
        returnsAdapterResult hookManager "role.postGet"
          (RoleManager.getRoleById A id)
          (pre <- awaitHooks "role.preGet" [("id", AValue (VStr id))] ;;
           id' <- asString (returned pre) "id" ;;
           onAdapter (StorageAdapter.getRoleById A id')))
  /\ (forall options,
        returnsAdapterResult hookManager "role.postGetAll"
          (RoleManager.getRoles A options)
          (pre <- awaitHooks "role.preGetAll" [("options", AOptions options)] ;;
           options' <- asOptions (returned pre) "options" ;;
           onAdapter (StorageAdapter.getRoles A options')))
  /\ (forall id roleData now,
        returnsAdapterResult hookManager "role.postUpdate"
          (RoleManager.updateRole A id roleData now)
          (pre <- awaitHooks "role.preUpdate"
                    [("id", AValue (VStr id)); ("roleData", ARecord roleData)] ;;
           id' <- asString (returned pre) "id" ;;
           input <- asRecord (returned pre) "roleData" ;;
           onAdapter (StorageAdapter.updateRole A id' input now)))
  /\ (forall id,
        returnsAdapterResult hookManager "role.postDelete"
          (RoleManager.deleteRole A id)
          (pre <- awaitHooks "role.preDelete" [("id", AValue (VStr id))] ;;
           id' <- asString (returned pre) "id" ;;
           onAdapter (StorageAdapter.deleteRole A id')))
  /\ (forall roleId,
        returnsAdapterResult hookManager "role.postGetUsers"
          (RoleManager.getRoleUsers A roleId)
          (pre <- awaitHooks "role.preGetUsers" [("roleId", AValue (VStr roleId))] ;;
           roleId' <- asString (returned pre) "roleId" ;;
           onAdapter (StorageAdapter.getRoleUsers A roleId')))
  /\ (forall userId roleId now,
        returnsAdapterResult registryOf "userRole.postAssign"
          (UserManagement.assignRole A userId roleId now)
          (UserManagement.ensureInitialized ;;
           pre <- UserManagement.onEnv
                    (awaitHooks "userRole.preAssign"
                       [("userId", AValue (VStr userId));
                        ("roleId", AValue (VStr roleId))]) ;;
           userId' <- asString (returned pre) "userId" ;;
           roleId' <- asString (returned pre) "roleId" ;;
           UserManagement.onEnv
             (onAdapter (StorageAdapter.assignRole A userId' roleId' now))))
  /\ (forall userId roleId,
        returnsAdapterResult registryOf "userRole.postRemove"
          (UserManagement.removeRole A userId roleId)
          (UserManagement.ensureInitialized ;;
           pre <- UserManagement.onEnv
                    (awaitHooks "userRole.preRemove"
                       [("userId", AValue (VStr userId));
                        ("roleId", AValue (VStr roleId))]) ;;
           userId' <- asString (returned pre) "userId" ;;
           roleId' <- asString (returned pre) "roleId" ;;
           UserManagement.onEnv
             (onAdapter (StorageAdapter.removeRole A userId' roleId')))).
Proof.
  unfold returnsAdapterResult.
  repeat apply conj; intros;
    unfold UserManager.createUser, UserManager.getUserById, UserManager.getUsers,
      UserManager.updateUser, UserManager.deleteUser, UserManager.getUserRoles,
      RoleManager.createRole, RoleManager.getRoleById, RoleManager.getRoles,
      RoleManager.updateRole, RoleManager.deleteRole, RoleManager.getRoleUsers,
      UserManagement.assignRole, UserManagement.removeRole;
    to_post_hooks.
Qed.

Lemma wrapped_operations_return_adapter_result_witness :
  let A := StorageAdapter.memory (V := acceptAll) in
  let env := sessionWith "role.postCreate" renameRole in
  Forall readsOnly (hooksFor (hookManager env) "role.postCreate")
  /\ RoleManager.createRole A admin "r1" 4000 env
     = (pre <- awaitHooks "role.preCreate" [("roleData", ARecord admin)] ;;
        input <- asRecord (returned pre) "roleData" ;;
        onAdapter (StorageAdapter.createRole A input "r1" 4000)) env.
Proof.
  intros A env.
  assert (H : Forall readsOnly (hooksFor (hookManager env) "role.postCreate")).
  { repeat constructor. }
  split; [exact H|].
  destruct (wrapped_operations_return_adapter_result A)
    as (_ & _ & _ & _ & _ & _ & Hcreate & _).
  exact (Hcreate admin "r1" 4000 env H).
Defined.

(** *** A throwing interceptor *)

(** C9, as stated, fails: nothing restores what an interceptor wrote
    before it threw.  With a pre-hook on [user.preCreate] that writes
    [d.userData.username = 'mallory'] and then throws, [executeHooks]
    returns a context that holds the changed [userData], and
    [createUser], called with [alice], creates the user [mallory]. *)
Lemma throwing_interceptor_keeps_its_writes :
  let A := StorageAdapter.memory (V := acceptAll) in
  let env := sessionWith "user.preCreate" scribble in
  HookManager.settled (scribble [("userData", ARecord alice)])
    = Throw "broken interceptor"
  /\ HookManager.executeHooks "user.preCreate" [("userData", ARecord alice)]
       (hookManager env)
     = (Ok [("userData", ARecord mallory)], hookManager env)
  /\ UserManager.createUser A alice "u1" 1000 env
     = (Ok (stamped mallory "u1" 1000),
        {| hookManager := hookManager env;
           adapter := stateAfter (MemoryAdapter.createUser (V := acceptAll)
                                    mallory "u1" 1000) MemoryAdapter.create |})
  /\ stamped mallory "u1" 1000 <> stamped alice "u1" 1000.
Proof.
  repeat split; try (vm_compute; reflexivity).
  vm_compute. intros H. discriminate H.
Qed.

(** C9 (amended): [executeHooks] never throws and leaves the registry as
    it is.  An interceptor that throws is run as one that does the same
    and resolves to [undefined]: what it wrote into the objects it was
    handed and what it set on the context before it threw stays, and the
    interceptors registered after it are run from there.  When it has
    touched nothing, the context after it is the context before it.  In
    particular, when the interceptors on [user.preCreate] throw and have
    touched nothing, [createUser] calls the adapter on the caller's own
    input and goes on as without them. *)
Theorem throwing_interceptor_is_skipped {S : Type} (A : StorageAdapter.t S) :
  (forall event data (registry : HookManager.State S),
     exists result,
       HookManager.executeHooks event data registry = (Ok result, registry))
  /\ (forall (h : HookManager.Hook S) walk,
        HookManager.runHook walk h = HookManager.runHook walk (swallowed h))
  /\ (forall event data (registry : HookManager.State S) before h after,
        OMap.get registry event = Some (before ++ h :: after)%list ->
        let reached := HookManager.runHooks before (HookManager.start data) in
        HookManager.executeHooks event data registry
        = (Ok (HookManager.view
                 (HookManager.runHooks after (HookManager.runHook reached h))),
           registry)
        /\ (throwsUntouched (HookManager.view reached) h ->
            HookManager.runHook reached h = reached))
  /\ (forall env userData id now,
        Forall (throwsUntouched [("userData", ARecord userData)])
               (hooksFor (hookManager env) "user.preCreate") ->
        UserManager.createUser A userData id now env
        = (user <- onAdapter (StorageAdapter.createUser A userData id now) ;;
           post <- awaitHooks "user.postCreate" [("user", ARecord user)] ;;
           ret (theRecord post "user" user)) env).
Proof.
  split; [|split; [|split]].
  - intros. apply executeHooks_ok.
  - intros. apply runHook_swallowed.
  - intros event data registry before h after Hget reached. split.
    + unfold HookManager.executeHooks, bind, gets, ret. rewrite Hget.
      rewrite runHooks_app. reflexivity.
    + apply runHook_untouched.
  - intros env userData id now Hthrow.
    unfold UserManager.createUser. unfold bind at 1.
    rewrite awaitHooks_untouched by exact Hthrow. reflexivity.
Qed.

Lemma throwing_interceptor_is_skipped_witness :
  let A := StorageAdapter.memory (V := acceptAll) in
  let env := sessionWith "user.preCreate" broken in
  let both :=
    stateAfter (HookManager.registerHook "user.preCreate" swapForBob 0)
               (hookManager env) in
  (HookManager.executeHooks "user.preCreate" [("userData", ARecord alice)] both
   = (Ok [("userData", ARecord bob)], both))
  /\ UserManager.createUser A alice "u1" 1000 env
     = (Ok (stamped alice "u1" 1000),
        {| hookManager := hookManager env;
           adapter := stateAfter (MemoryAdapter.createUser (V := acceptAll)
                                    alice "u1" 1000) MemoryAdapter.create |}).
Proof.
  intros A env both.
  destruct (throwing_interceptor_is_skipped A) as (_ & _ & Hchain & Hcreate).
  split.
  - destruct (Hchain "user.preCreate" [("userData", ARecord alice)] both []
                (hookOf "user.preCreate" broken 0)
                [hookOf "user.preCreate" swapForBob 0] eq_refl) as [Hrest _].
    rewrite Hrest. reflexivity.
  - rewrite (Hcreate env alice "u1" 1000).
    + reflexivity.
    + repeat constructor. exists "broken interceptor". reflexivity.
Defined.

(** ** Insertion-ordered maps *)

Section OMapFacts.

Context {V : Type}.

Implicit Types (m : OMap.t V) (k : string) (v : V).

Lemma get_set_same m k v : OMap.get (OMap.set m k v) k = Some v.
Proof.
  induction m as [|[k' v'] m IH]; simpl.
  - now rewrite String.eqb_refl.
  - destruct (String.eqb k' k) eqn:E; simpl.
    + now rewrite String.eqb_refl.
    + now rewrite E.
Qed.

Lemma get_set_other m k k' v :
  k <> k' -> OMap.get (OMap.set m k v) k' = OMap.get m k'.
Proof.
  intros Hne. induction m as [|[k0 v0] m IH]; simpl.
  - destruct (String.eqb_spec k k'); [contradiction | reflexivity].
  - destruct (String.eqb_spec k0 k) as [->|Hk]; simpl.
    + destruct (String.eqb_spec k k'); [contradiction | reflexivity].
    + now rewrite IH.
Qed.

Lemma get_delete_same m k : OMap.get (OMap.delete m k) k = None.
Proof.
  induction m as [|[k' v'] m IH]; simpl; [reflexivity|].
  destruct (String.eqb k' k) eqn:E; simpl; [exact IH|].
  now rewrite E.
Qed.

Lemma get_delete_other m k k' :
  k <> k' -> OMap.get (OMap.delete m k) k' = OMap.get m k'.
Proof.
  intros Hne. induction m as [|[k0 v0] m IH]; simpl; [reflexivity|].
  destruct (String.eqb_spec k0 k) as [->|Hk]; simpl.
  - rewrite IH. destruct (String.eqb_spec k k'); [contradiction | reflexivity].
  - now rewrite IH.
Qed.

Lemma get_delete_some m k k' v :
  OMap.get (OMap.delete m k) k' = Some v -> k <> k' /\ OMap.get m k' = Some v.
Proof.
  intros H. destruct (string_dec k k') as [->|Hne].
  - now rewrite get_delete_same in H.
  - split; [exact Hne|]. now rewrite get_delete_other in H.
Qed.

Lemma get_In m k v : OMap.get m k = Some v -> In (k, v) m.
Proof.
  induction m as [|[k' v'] m IH]; simpl; [discriminate|].
  destruct (String.eqb_spec k' k) as [->|Hk].
  - intros [= ->]. now left.
  - intros H. right. now apply IH.
Qed.

Lemma In_get m k v : NoDup (OMap.keys m) -> In (k, v) m -> OMap.get m k = Some v.
Proof.
  induction m as [|[k' v'] m IH]; simpl; [contradiction|].
  intros Hnd [[= -> ->]|Hin].
  - now rewrite String.eqb_refl.
  - inversion Hnd as [|? ? Hnotin Hnd']; subst.
    destruct (String.eqb_spec k' k) as [->|Hk].
    + exfalso. apply Hnotin. apply (in_map fst) in Hin. exact Hin.
    + now apply IH.
Qed.

Lemma has_get m k : OMap.has m k = true <-> exists v, OMap.get m k = Some v.
Proof.
  unfold OMap.has. destruct (OMap.get m k); split; eauto; try discriminate.
  intros [v [=]].
Qed.

Lemma get_spread_absent (a b : OMap.t V) k :
  OMap.get b k = None -> OMap.get (OMap.spread a b) k = OMap.get a k.
Proof.
  unfold OMap.spread. revert a.
  induction b as [|[k' v'] b IH]; intros a H; simpl in *; [reflexivity|].
  destruct (String.eqb_spec k' k) as [->|Hk]; [discriminate|].
  rewrite IH by exact H. now apply get_set_other.
Qed.

Lemma keys_set_In m k v k' :
  In k' (OMap.keys (OMap.set m k v)) <-> k' = k \/ In k' (OMap.keys m).
Proof.
  induction m as [|[k0 v0] m IH]; simpl.
  - intuition.
  - destruct (String.eqb_spec k0 k) as [->|Hk]; simpl.
    + intuition.
    + rewrite IH. intuition.
Qed.

Lemma NoDup_keys_set m k v :
  NoDup (OMap.keys m) -> NoDup (OMap.keys (OMap.set m k v)).
Proof.
  induction m as [|[k0 v0] m IH]; simpl; intros Hnd.
  - constructor; [intros [] | constructor].
  - inversion Hnd as [|? ? Hnotin Hnd']; subst.
    destruct (String.eqb_spec k0 k) as [->|Hk]; simpl.
    + constructor; assumption.
    + constructor; [|now apply IH].
      rewrite keys_set_In. intros [->|Hin]; [now apply Hk | now apply Hnotin].
Qed.

Lemma NoDup_keys_delete m k :
  NoDup (OMap.keys m) -> NoDup (OMap.keys (OMap.delete m k)).
Proof.
  induction m as [|[k0 v0] m IH]; simpl; intros Hnd; [constructor|].
  inversion Hnd as [|? ? Hnotin Hnd']; subst.
  destruct (String.eqb k0 k); simpl; [now apply IH|].
  constructor; [|now apply IH].
  intros Hin. apply Hnotin. unfold OMap.keys, OMap.delete in *.
  apply in_map_iff in Hin as [[k1 v1] [Hk1 Hin]]. apply filter_In in Hin as [Hin _].
  simpl in Hk1. subst. apply (in_map fst) in Hin. exact Hin.
Qed.

Lemma In_delete m k e : In e (OMap.delete m k) <-> In e m /\ fst e <> k.
Proof.
  unfold OMap.delete. rewrite filter_In.
  destruct (String.eqb_spec (fst e) k); simpl; intuition congruence.
Qed.

End OMapFacts.

Lemma strict_eq_str v s : strict_eq v (VStr s) = true <-> v = VStr s.
Proof.
  destruct v; simpl; split; try discriminate.
  - intros H. apply String.eqb_eq in H. now subst.
  - intros [= ->]. apply String.eqb_refl.
Qed.

Lemma prop_get (o : Obj) k v : OMap.get o k = Some v -> prop o k = v.
Proof. unfold prop. now intros ->. Qed.

Lemma prop_stamped_id data id now : prop (stamped data id now) "id" = VStr id.
Proof.
  unfold stamped, prop.
  rewrite !get_set_other by discriminate. now rewrite get_set_same.
Qed.

Lemma prop_merged_id record data now :
  OMap.get data "id" = None -> prop (merged record data now) "id" = prop record "id".
Proof.
  intros H. unfold merged, prop.
  rewrite get_set_other by discriminate. now rewrite get_spread_absent.
Qed.

(** ** The maps a memory adapter shows *)

Lemma getUserMap_onUserMap f st :
  MemoryAdapter.getUserMap (MemoryAdapter.onUserMap f st)
  = f (MemoryAdapter.getUserMap st).
Proof.
  unfold MemoryAdapter.getUserMap, MemoryAdapter.onUserMap.
  destruct (MemoryAdapter.inTransaction st) eqn:Hin;
    destruct (MemoryAdapter.transactionData st) eqn:Htd; simpl;
    rewrite ?Hin, ?Htd; reflexivity.
Qed.

Lemma getRoleMap_onRoleMap f st :
  MemoryAdapter.getRoleMap (MemoryAdapter.onRoleMap f st)
  = f (MemoryAdapter.getRoleMap st).
Proof.
  unfold MemoryAdapter.getRoleMap, MemoryAdapter.onRoleMap.
  destruct (MemoryAdapter.inTransaction st) eqn:Hin;
    destruct (MemoryAdapter.transactionData st) eqn:Htd; simpl;
    rewrite ?Hin, ?Htd; reflexivity.
Qed.

Lemma getUserRoleMap_onUserRoleMap f st :
  MemoryAdapter.getUserRoleMap (MemoryAdapter.onUserRoleMap f st)
  = f (MemoryAdapter.getUserRoleMap st).
Proof.
  unfold MemoryAdapter.getUserRoleMap, MemoryAdapter.onUserRoleMap.
  destruct (MemoryAdapter.inTransaction st) eqn:Hin;
    destruct (MemoryAdapter.transactionData st) eqn:Htd; simpl;
    rewrite ?Hin, ?Htd; reflexivity.
Qed.

Lemma getUserMap_onUserRoleMap f st :
  MemoryAdapter.getUserMap (MemoryAdapter.onUserRoleMap f st)
  = MemoryAdapter.getUserMap st.
Proof.
  unfold MemoryAdapter.getUserMap, MemoryAdapter.onUserRoleMap.
  destruct (MemoryAdapter.inTransaction st) eqn:Hin;
    destruct (MemoryAdapter.transactionData st) eqn:Htd; simpl;
    rewrite ?Hin, ?Htd; reflexivity.
Qed.

Lemma getRoleMap_onUserRoleMap f st :
  MemoryAdapter.getRoleMap (MemoryAdapter.onUserRoleMap f st)
  = MemoryAdapter.getRoleMap st.
Proof.
  unfold MemoryAdapter.getRoleMap, MemoryAdapter.onUserRoleMap.
  destruct (MemoryAdapter.inTransaction st) eqn:Hin;
    destruct (MemoryAdapter.transactionData st) eqn:Htd; simpl;
    rewrite ?Hin, ?Htd; reflexivity.
Qed.

Lemma getUserRoleMap_onUserMap f st :
  MemoryAdapter.getUserRoleMap (MemoryAdapter.onUserMap f st)
  = MemoryAdapter.getUserRoleMap st.
Proof.
  unfold MemoryAdapter.getUserRoleMap, MemoryAdapter.onUserMap.
  destruct (MemoryAdapter.inTransaction st) eqn:Hin;
    destruct (MemoryAdapter.transactionData st) eqn:Htd; simpl;
    rewrite ?Hin, ?Htd; reflexivity.
Qed.

Lemma getUserRoleMap_onRoleMap f st :
  MemoryAdapter.getUserRoleMap (MemoryAdapter.onRoleMap f st)
  = MemoryAdapter.getUserRoleMap st.
Proof.
  unfold MemoryAdapter.getUserRoleMap, MemoryAdapter.onRoleMap.
  destruct (MemoryAdapter.inTransaction st) eqn:Hin;
    destruct (MemoryAdapter.transactionData st) eqn:Htd; simpl;
    rewrite ?Hin, ?Htd; reflexivity.
Qed.

Lemma getRoleMap_onUserMap f st :
  MemoryAdapter.getRoleMap (MemoryAdapter.onUserMap f st)
  = MemoryAdapter.getRoleMap st.
Proof.
  unfold MemoryAdapter.getRoleMap, MemoryAdapter.onUserMap.
  destruct (MemoryAdapter.inTransaction st) eqn:Hin;
    destruct (MemoryAdapter.transactionData st) eqn:Htd; simpl;
    rewrite ?Hin, ?Htd; reflexivity.
Qed.

Lemma getUserMap_onRoleMap f st :
  MemoryAdapter.getUserMap (MemoryAdapter.onRoleMap f st)
  = MemoryAdapter.getUserMap st.
Proof.
  unfold MemoryAdapter.getUserMap, MemoryAdapter.onRoleMap.
  destruct (MemoryAdapter.inTransaction st) eqn:Hin;
    destruct (MemoryAdapter.transactionData st) eqn:Htd; simpl;
    rewrite ?Hin, ?Htd; reflexivity.
Qed.

(** ** Arrays of records *)

Section ArrayFacts.

Context {A : Type} (p : A -> bool).

Lemma findIndex_find xs i d :
  FileSystemAdapter.findIndex p xs = Some i ->
  find p xs = Some (nth i xs d) /\ p (nth i xs d) = true.
Proof.
  revert i. induction xs as [|x xs IH]; simpl; intros i H; [discriminate|].
  destruct (p x) eqn:E.
  - inversion H; subst. simpl. auto.
  - destruct (FileSystemAdapter.findIndex p xs) as [j|]; [|discriminate].
    inversion H; subst. simpl. now apply IH.
Qed.

Lemma find_findIndex xs x :
  find p xs = Some x ->
  exists i, FileSystemAdapter.findIndex p xs = Some i /\ forall d, nth i xs d = x.
Proof.
  induction xs as [|y xs IH]; simpl; intros H; [discriminate|].
  destruct (p y) eqn:E.
  - inversion H; subst. exists O. split; auto.
  - destruct (IH H) as [i [Hi Hn]]. exists (Datatypes.S i). rewrite Hi. split; auto.
Qed.

Lemma findIndex_none xs :
  FileSystemAdapter.findIndex p xs = None <-> existsb p xs = false.
Proof.
  induction xs as [|x xs IH]; simpl; [tauto|].
  destruct (p x); simpl.
  - split; discriminate.
  - rewrite <- IH. destruct (FileSystemAdapter.findIndex p xs); split;
      congruence.
Qed.

Lemma find_existsb xs : existsb p xs = true <-> exists x, find p xs = Some x.
Proof.
  induction xs as [|x xs IH]; simpl.
  - split; [discriminate | intros [x [=]]].
  - destruct (p x); simpl; [split; eauto | exact IH].
Qed.

Lemma find_assignAt xs i x :
  FileSystemAdapter.findIndex p xs = Some i -> p x = true ->
  find p (FileSystemAdapter.assignAt xs i x) = Some x.
Proof.
  revert i. induction xs as [|y xs IH]; simpl; intros i H Hx; [discriminate|].
  destruct (p y) eqn:E.
  - inversion H; subst. simpl. now rewrite Hx.
  - destruct (FileSystemAdapter.findIndex p xs) as [j|]; [|discriminate].
    inversion H; subst. simpl. rewrite E. now apply IH.
Qed.

Lemma In_spliceOne (xs : list A) (i : nat) (x : A) :
  In x (FileSystemAdapter.spliceOne xs i) -> In x xs.
Proof.
  revert i. induction xs as [|y xs IH]; simpl; intros [|i] H; auto.
  destruct H as [->|H]; [now left | right; now apply (IH i)].
Qed.

End ArrayFacts.

(** ** Running a method *)

(** Unfolds the steps of a method applied to a state. *)
Ltac run :=
  unfold failIfSome, failIfAny, failIfEither,
    FileSystemAdapter.saveUnlessInTransaction, FileSystemAdapter.saveData,
    FileSystemAdapter._getUsers, FileSystemAdapter._getRoles,
    FileSystemAdapter._getUserRoles;
  unfold bind, gets, modify, ret, throw;
  simpl.

(** *** Identifiers under update *)

(** C5, as stated, fails: an update whose payload is [{ id: 'u9' }]
    changes the identifier the record carries.  In the memory adapter
    the record found under [u1] then carries [u9]; in the file-system
    adapter nothing is found under [u1] any more, and the record is
    found under [u9]. *)
Lemma update_can_change_id :
  let A := StorageAdapter.memory (V := acceptAll) in
  let F := StorageAdapter.file (V := acceptAll) in
  let st' := stateAfter (StorageAdapter.updateUser A "u1" otherId 5000) threeUsers in
  let fs' :=
    stateAfter (StorageAdapter.updateUser F "u1" otherId 5000) threeUsersOnDisk in
  (exists user,
     outcome (StorageAdapter.getUserById A "u1") st' = Ok (Some user)
     /\ prop user "id" = VStr "u9"
     /\ prop user "id" <> VStr "u1")
  /\ outcome (StorageAdapter.getUserById F "u1") threeUsersOnDisk
     = Ok (Some (stamped alice "u1" 1000))
  /\ outcome (StorageAdapter.getUserById F "u1") fs' = Ok None
  /\ outcome (StorageAdapter.getUserById F "u9") fs'
     = Ok (Some (merged (stamped alice "u1" 1000) otherId 5000)).
Proof.
  repeat split; try (vm_compute; reflexivity).
  eexists. repeat split; try (vm_compute; reflexivity).
  vm_compute. intros H. discriminate H.
Qed.

(** C5 (amended): for every stored entity that carries the identifier
    it is stored under, and every update payload without an [id] field
    that passes validation, [updateUser] and [updateRole] succeed and
    leave the identifier as it is: the record found under the original
    id after the update is the updated one and carries that id.  (A
    payload with an [id] field replaces the identifier of the record.) *)
Theorem update_without_id_keeps_id (V : Validator) :
  (forall st id userData now user,
     OMap.get (MemoryAdapter.getUserMap st) id = Some user ->
     prop user "id" = VStr id ->
     OMap.get userData "id" = None ->
     validateId id = None ->
     validateUser (OMap.spread user userData) = [] ->
     keepsId MemoryAdapter.updateUser MemoryAdapter.getUserById id userData now st)
  /\ (forall st id roleData now role,
        OMap.get (MemoryAdapter.getRoleMap st) id = Some role ->
        prop role "id" = VStr id ->
        OMap.get roleData "id" = None ->
        validateId id = None ->
        validateRole (OMap.spread role roleData) = [] ->
        keepsId MemoryAdapter.updateRole MemoryAdapter.getRoleById id roleData now st)
  /\ (forall st id userData now user,
        find (FileSystemAdapter.hasId id) (FileSystemAdapter._getUsers st) = Some user ->
        OMap.get userData "id" = None ->
        validateId id = None ->
        validateUser (merged user userData now) = [] ->
        keepsId FileSystemAdapter.updateUser FileSystemAdapter.getUserById
                id userData now st)
  /\ (forall st id roleData now role,
        find (FileSystemAdapter.hasId id) (FileSystemAdapter._getRoles st) = Some role ->
        OMap.get roleData "id" = None ->
        validateId id = None ->
        validateRole (merged role roleData now) = [] ->
        keepsId FileSystemAdapter.updateRole FileSystemAdapter.getRoleById
                id roleData now st).
Proof.
  unfold keepsId. repeat split.
  - intros st id userData now user Hget Hid Hno Hvid Hvu.
    unfold MemoryAdapter.updateUser, MemoryAdapter.getUserById. run.
    rewrite Hvid, Hget. simpl. rewrite Hvu. simpl.
    do 2 eexists. split; [reflexivity|].
    rewrite getUserMap_onUserMap, get_set_same. split; [reflexivity|].
    now rewrite prop_merged_id.
  - intros st id roleData now role Hget Hid Hno Hvid Hvr.
    unfold MemoryAdapter.updateRole, MemoryAdapter.getRoleById. run.
    rewrite Hvid, Hget. simpl. rewrite Hvr. simpl.
    do 2 eexists. split; [reflexivity|].
    rewrite getRoleMap_onRoleMap, get_set_same. split; [reflexivity|].
    now rewrite prop_merged_id.
  - intros st id userData now user Hfind Hno Hvid Hvu.
    destruct (find_findIndex _ _ Hfind) as [i [Hi Hnth]].
    destruct (findIndex_find _ _ [] Hi) as [_ Hp]. rewrite Hnth in Hp.
    unfold FileSystemAdapter.updateUser, FileSystemAdapter.getUserById. run.
    unfold FileSystemAdapter._getUsers in Hi.
    rewrite Hvid. simpl. rewrite Hi, Hnth. simpl. rewrite Hvu. simpl.
    assert (Hid : prop (merged user userData now) "id" = VStr id).
    { rewrite prop_merged_id by exact Hno. now apply strict_eq_str. }
    assert (Hfound :
              find (FileSystemAdapter.hasId id)
                (FileSystemAdapter.assignAt
                   (FileSystemAdapter.users (FileSystemAdapter.data st)) i
                   (merged user userData now))
              = Some (merged user userData now)).
    { apply find_assignAt; [exact Hi|]. now apply strict_eq_str. }
    destruct (FileSystemAdapter.inTransaction st); simpl;
      (do 2 eexists; split; [reflexivity|]; simpl; rewrite Hfound;
       split; [reflexivity | exact Hid]).
  - intros st id roleData now role Hfind Hno Hvid Hvr.
    destruct (find_findIndex _ _ Hfind) as [i [Hi Hnth]].
    destruct (findIndex_find _ _ [] Hi) as [_ Hp]. rewrite Hnth in Hp.
    unfold FileSystemAdapter.updateRole, FileSystemAdapter.getRoleById. run.
    unfold FileSystemAdapter._getRoles in Hi.
    rewrite Hvid. simpl. rewrite Hi, Hnth. simpl. rewrite Hvr. simpl.
    assert (Hid : prop (merged role roleData now) "id" = VStr id).
    { rewrite prop_merged_id by exact Hno. now apply strict_eq_str. }
    assert (Hfound :
              find (FileSystemAdapter.hasId id)
                (FileSystemAdapter.assignAt
                   (FileSystemAdapter.roles (FileSystemAdapter.data st)) i
                   (merged role roleData now))
              = Some (merged role roleData now)).
    { apply find_assignAt; [exact Hi|]. now apply strict_eq_str. }
    destruct (FileSystemAdapter.inTransaction st); simpl;
      (do 2 eexists; split; [reflexivity|]; simpl; rewrite Hfound;
       split; [reflexivity | exact Hid]).
Qed.

Lemma update_without_id_keeps_id_witness :
  keepsId (MemoryAdapter.updateUser (V := acceptAll))
          (MemoryAdapter.getUserById (V := acceptAll)) "u1" newEmail 5000 threeUsers
  /\ keepsId (FileSystemAdapter.updateUser (V := acceptAll))
             (FileSystemAdapter.getUserById (V := acceptAll))
             "u1" newEmail 5000 threeUsersOnDisk.
Proof.
  destruct (update_without_id_keeps_id acceptAll) as [Hmemory [_ [Hfile _]]].
  split.
  - apply (Hmemory threeUsers "u1" newEmail 5000 (stamped alice "u1" 1000));
      reflexivity.
  - apply (Hfile threeUsersOnDisk "u1" newEmail 5000 (stamped alice "u1" 1000));
      reflexivity.
Defined.

(** *** The two ends of an association *)

Lemma hasId_true id record :
  FileSystemAdapter.hasId id record = true <-> prop record "id" = VStr id.
Proof. apply strict_eq_str. Qed.

Lemma uniqueIds_spliceOne records id i :
  uniqueIds records ->
  FileSystemAdapter.findIndex (FileSystemAdapter.hasId id) records = Some i ->
  existsb (FileSystemAdapter.hasId id) (FileSystemAdapter.spliceOne records i) = false.
Proof.
  unfold uniqueIds. revert i.
  induction records as [|x xs IH]; simpl; intros i Hnd Hi; [discriminate|].
  inversion Hnd as [|? ? Hnotin Hnd']; subst.
  destruct (FileSystemAdapter.hasId id x) eqn:E.
  - inversion Hi; subst. simpl.
    destruct (existsb (FileSystemAdapter.hasId id) xs) eqn:Ex; [|reflexivity].
    apply existsb_exists in Ex as [y [Hy Hpy]].
    exfalso. apply Hnotin. apply hasId_true in E, Hpy. rewrite E, <- Hpy.
    now apply (in_map (fun record => prop record "id")).
  - destruct (FileSystemAdapter.findIndex (FileSystemAdapter.hasId id) xs) as [j|];
      [|discriminate].
    inversion Hi; subst. simpl. rewrite E. simpl. now apply IH.
Qed.

(** C4, as stated, fails in the memory adapter: in an open transaction
    in which the user [u1] was deleted, [u1] is not found in the working
    copy, and yet [assignRole] of [u1] succeeds, because [u1] is still
    in the live map. *)
Lemma assignRole_accepts_deleted_user :
  let A := StorageAdapter.memory (V := acceptAll) in
  let st :=
    stateAfter (StorageAdapter.beginTransaction A ;;
                StorageAdapter.deleteUser A "u1") usersAndAdmin in
  MemoryAdapter.inTransaction st = true
  /\ outcome (StorageAdapter.getUserById A "u1") st = Ok None
  /\ OMap.has (MemoryAdapter.users st) "u1" = true
  /\ outcome (StorageAdapter.assignRole A "u1" "r1" 6000) st
     = Ok (association "u1" "r1" 6000).
Proof. repeat split; vm_compute; reflexivity. Qed.

(** C4 (amended): with identifiers that pass validation, [assignRole]
    succeeds exactly when it finds both the user and the role, and
    throws 'User or role not found' otherwise.  The file-system adapter
    looks in the data it holds, which is the working copy while a
    transaction is open: once a user was deleted there, [assignRole] for
    that user throws.  The memory adapter looks in the live maps and in
    the maps of the open transaction: after a user that is in the live
    map was deleted inside a transaction, [assignRole] for that user
    still succeeds if the role is found. *)
Theorem assignRole_requires_both_ends (V : Validator) (userId roleId : string)
    (now : Z) :
  validateId userId = None ->
  validateId roleId = None ->
  (forall st,
     (succeeds (MemoryAdapter.assignRole userId roleId now) st
      <-> MemoryAdapter.userExists st userId = true
          /\ MemoryAdapter.roleExists st roleId = true)
     /\ (~ succeeds (MemoryAdapter.assignRole userId roleId now) st ->
         MemoryAdapter.assignRole userId roleId now st
         = (Throw "User or role not found", st)))
  /\ (forall st td,
        MemoryAdapter.inTransaction st = true ->
        MemoryAdapter.transactionData st = Some td ->
        OMap.has (MemoryAdapter.users st) userId = true ->
        MemoryAdapter.roleExists st roleId = true ->
        let st' := stateAfter (MemoryAdapter.deleteUser userId) st in
        OMap.get (MemoryAdapter.getUserMap st') userId = None
        /\ succeeds (MemoryAdapter.assignRole userId roleId now) st')
  /\ (forall st,
        (succeeds (FileSystemAdapter.assignRole userId roleId now) st
         <-> (exists user, find (FileSystemAdapter.hasId userId)
                             (FileSystemAdapter._getUsers st) = Some user)
             /\ (exists role, find (FileSystemAdapter.hasId roleId)
                                (FileSystemAdapter._getRoles st) = Some role))
        /\ (~ succeeds (FileSystemAdapter.assignRole userId roleId now) st ->
            FileSystemAdapter.assignRole userId roleId now st
            = (Throw "User or role not found", st)))
  /\ (forall st st',
        uniqueIds (FileSystemAdapter._getUsers st) ->
        FileSystemAdapter.deleteUser userId st = (Ok true, st') ->
        FileSystemAdapter.assignRole userId roleId now st'
        = (Throw "User or role not found", st')).
Proof.
  intros Hu Hr.
  assert (Hmem : forall st,
    MemoryAdapter.assignRole userId roleId now st
    = if negb (MemoryAdapter.userExists st userId)
         || negb (MemoryAdapter.roleExists st roleId)
      then (Throw "User or role not found", st)
      else match OMap.get (MemoryAdapter.getUserRoleMap st)
                          (userId ++ ":" ++ roleId) with
           | Some existing => (Ok existing, st)
           | None =>
               (Ok (association userId roleId now),
                MemoryAdapter.onUserRoleMap
                  (fun m => OMap.set m (userId ++ ":" ++ roleId)
                                     (association userId roleId now)) st)
           end).
  { intros st. unfold MemoryAdapter.assignRole. run. rewrite Hu, Hr. simpl.
    destruct (negb (MemoryAdapter.userExists st userId)
              || negb (MemoryAdapter.roleExists st roleId)); [reflexivity|].
    simpl. destruct (OMap.get _ _); reflexivity. }
  assert (Hfile : forall st,
    FileSystemAdapter.assignRole userId roleId now st
    = if negb (existsb (FileSystemAdapter.hasId userId) (FileSystemAdapter._getUsers st))
         || negb (existsb (FileSystemAdapter.hasId roleId) (FileSystemAdapter._getRoles st))
      then (Throw "User or role not found", st)
      else match find (FileSystemAdapter.links userId roleId)
                      (FileSystemAdapter._getUserRoles st) with
           | Some existing => (Ok existing, st)
           | None =>
               (Ok (association userId roleId now),
                stateAfter FileSystemAdapter.saveUnlessInTransaction
                  (FileSystemAdapter.withData
                     (FileSystemAdapter.withUserRoles
                        (fun urs => (urs ++ [association userId roleId now])%list))
                     st))
           end).
  { intros st. unfold FileSystemAdapter.assignRole. run. rewrite Hu, Hr. simpl.
    destruct (negb _ || negb _); [reflexivity|]. simpl.
    destruct (find _ _); [reflexivity|].
    unfold stateAfter. simpl.
    destruct (FileSystemAdapter.inTransaction st); reflexivity. }
  split; [|split; [|split]].
  - intros st. unfold succeeds. rewrite Hmem.
    destruct (MemoryAdapter.userExists st userId),
             (MemoryAdapter.roleExists st roleId); simpl;
      first
        [ (* both found *)
          split; [split; [intros _; split; reflexivity|]|];
          [ intros _; destruct (OMap.get _ _); do 2 eexists; reflexivity
          | intros H; exfalso; apply H;
            destruct (OMap.get _ _); do 2 eexists; reflexivity ]
        | (* one is missing *)
          split; [split|];
          [ intros [a [s' H]]; discriminate H
          | intros [H1 H2]; discriminate
          | intros _; reflexivity ] ].
  - intros st td Hin Htd Hlive Hrole st'.
    assert (Hst' : st' = MemoryAdapter.onUserMap (fun m => OMap.delete m userId)
                           (MemoryAdapter.onUserRoleMap
                              (MemoryAdapter.purge "userId" userId) st)).
    { unfold st', stateAfter, MemoryAdapter.deleteUser. run. now rewrite Hu. }
    split.
    + rewrite Hst', getUserMap_onUserMap. apply get_delete_same.
    + unfold succeeds. rewrite Hmem.
      assert (Hue : MemoryAdapter.userExists st' userId = true).
      { rewrite Hst'. unfold MemoryAdapter.userExists, MemoryAdapter.onUserMap,
          MemoryAdapter.onUserRoleMap. rewrite Hin, Htd. simpl.
        now rewrite Hlive. }
      assert (Hre : MemoryAdapter.roleExists st' roleId = true).
      { rewrite Hst'. unfold MemoryAdapter.roleExists, MemoryAdapter.onUserMap,
          MemoryAdapter.onUserRoleMap in *. rewrite Hin, Htd in *. simpl.
        exact Hrole. }
      rewrite Hue, Hre. simpl. destruct (OMap.get _ _); eauto.
  - intros st. unfold succeeds. rewrite Hfile.
    rewrite <- !find_existsb.
    destruct (existsb (FileSystemAdapter.hasId userId) _),
             (existsb (FileSystemAdapter.hasId roleId) _); simpl;
      first
        [ (* both found *)
          split; [split; [intros _; split; reflexivity|]|];
          [ intros _; destruct (find _ _); do 2 eexists; reflexivity
          | intros H; exfalso; apply H;
            destruct (find _ _); do 2 eexists; reflexivity ]
        | (* one is missing *)
          split; [split|];
          [ intros [a [s' H]]; discriminate H
          | intros [H1 H2]; discriminate
          | intros _; reflexivity ] ].
  - intros st st' Huniq Hdel. rewrite Hfile.
    assert (Hgone : existsb (FileSystemAdapter.hasId userId)
                            (FileSystemAdapter._getUsers st') = false).
    { unfold FileSystemAdapter.deleteUser in Hdel. revert Hdel. run.
      rewrite Hu. simpl.
      destruct (FileSystemAdapter.findIndex _ _) as [i|] eqn:Hi; simpl;
        [|discriminate].
      destruct (FileSystemAdapter.inTransaction st); simpl;
        intros [= <-]; simpl; now apply uniqueIds_spliceOne. }
    now rewrite Hgone.
Qed.

Lemma uniqueIds_usersAndAdminOnDisk :
  uniqueIds (FileSystemAdapter._getUsers
               (stateAfter FileSystemAdapter.beginTransaction usersAndAdminOnDisk)).
Proof.
  unfold uniqueIds. vm_compute.
  repeat constructor; simpl; intuition discriminate.
Qed.

Lemma assignRole_requires_both_ends_witness :
  let opened := stateAfter MemoryAdapter.beginTransaction usersAndAdmin in
  let deleted := stateAfter (MemoryAdapter.deleteUser (V := acceptAll) "u1") opened in
  let openedOnDisk :=
    stateAfter FileSystemAdapter.beginTransaction usersAndAdminOnDisk in
  let deletedOnDisk :=
    stateAfter (FileSystemAdapter.deleteUser (V := acceptAll) "u1") openedOnDisk in
  succeeds (MemoryAdapter.assignRole (V := acceptAll) "u1" "r1" 6000) deleted
  /\ FileSystemAdapter.assignRole (V := acceptAll) "u1" "r1" 6000 deletedOnDisk
     = (Throw "User or role not found", deletedOnDisk).
Proof.
  intros opened deleted openedOnDisk deletedOnDisk.
  destruct (assignRole_requires_both_ends acceptAll "u1" "r1" 6000 eq_refl eq_refl)
    as [_ [Hmemory [_ Hfile]]].
  split.
  - destruct (Hmemory opened
                {| MemoryAdapter.tx_users := MemoryAdapter.users usersAndAdmin;
                   MemoryAdapter.tx_roles := MemoryAdapter.roles usersAndAdmin;
                   MemoryAdapter.tx_userRoles := MemoryAdapter.userRoles usersAndAdmin |}
                eq_refl eq_refl eq_refl eq_refl) as [_ Hok].
    exact Hok.
  - apply (Hfile openedOnDisk deletedOnDisk).
    + exact uniqueIds_usersAndAdminOnDisk.
    + reflexivity.
Defined.

(** *** Cascading deletes *)

Lemma purge_In field id (m : OMap.t Obj) e :
  In e (MemoryAdapter.purge field id m) ->
  In e m /\ strict_eq (prop (snd e) field) (VStr id) = false.
Proof.
  unfold MemoryAdapter.purge, OMap.entries.
  assert (Hgen : forall (l m : OMap.t Obj),
    In e (fold_left
            (fun m e => if strict_eq (prop (snd e) field) (VStr id)
                        then OMap.delete m (fst e) else m) l m) ->
    In e m /\ (In e l -> strict_eq (prop (snd e) field) (VStr id) = false)).
  { clear m. induction l as [|x l IH]; simpl; intros m H.
    - split; [exact H | contradiction].
    - destruct (IH _ H) as [Hin Hl].
      destruct (strict_eq (prop (snd x) field) (VStr id)) eqn:E.
      + apply In_delete in Hin as [Hin Hne].
        split; [exact Hin|]. intros [->|Hel]; [congruence | now apply Hl].
      + split; [exact Hin|]. intros [->|Hel]; [exact E | now apply Hl]. }
  intros H. destruct (Hgen m m H) as [Hin Hm]. split; [exact Hin | now apply Hm].
Qed.

Lemma purge_values field id (m : OMap.t Obj) userRole :
  In userRole (OMap.values (MemoryAdapter.purge field id m)) ->
  prop userRole field <> VStr id.
Proof.
  unfold OMap.values. intros H. apply in_map_iff in H as [e [<- He]].
  apply purge_In in He as [_ He]. intros Heq.
  apply strict_eq_str in Heq. congruence.
Qed.

Lemma lookupAll_In (m : OMap.t Obj) ids record :
  In record (MemoryAdapter.lookupAll m ids) ->
  exists k, In (VStr k) ids /\ OMap.get m k = Some record.
Proof.
  unfold MemoryAdapter.lookupAll. intros H.
  apply in_flat_map in H as [v [Hv Hr]].
  destruct v; simpl in Hr; try contradiction.
  destruct (OMap.get m s) eqn:E; simpl in Hr; [|contradiction].
  destruct Hr as [->|[]]. eauto.
Qed.

Lemma lookupAll_deleted (m : OMap.t Obj) id ids record :
  keyed m ->
  In record (MemoryAdapter.lookupAll (OMap.delete m id) ids) ->
  prop record "id" <> VStr id.
Proof.
  intros Hkeyed H. apply lookupAll_In in H as [k [_ Hget]].
  apply get_delete_some in Hget as [Hne Hget].
  rewrite (Hkeyed _ _ Hget). congruence.
Qed.

Lemma selectByIds_In ids records record :
  In record (FileSystemAdapter.selectByIds ids records) -> In record records.
Proof. unfold FileSystemAdapter.selectByIds. intros H. now apply filter_In in H. Qed.

Lemma spliceOne_none_left records id i record :
  uniqueIds records ->
  FileSystemAdapter.findIndex (FileSystemAdapter.hasId id) records = Some i ->
  In record (FileSystemAdapter.spliceOne records i) ->
  prop record "id" <> VStr id.
Proof.
  intros Huniq Hi Hin Heq.
  pose proof (@uniqueIds_spliceOne records id i Huniq Hi) as Hnone.
  assert (existsb (FileSystemAdapter.hasId id)
                  (FileSystemAdapter.spliceOne records i) = true); [|congruence].
  apply existsb_exists. exists record. split; [exact Hin | now apply hasId_true].
Qed.

Lemma find_none_existsb {A} (p : A -> bool) xs :
  existsb p xs = false -> find p xs = None.
Proof.
  intros H. destruct (find p xs) eqn:E; [|reflexivity].
  assert (existsb p xs = true) by (apply find_existsb; eauto). congruence.
Qed.

Lemma filter_not_referencing field id userRoles userRole :
  In userRole
     (List.filter (fun ur => negb (strict_eq (prop ur field) (VStr id))) userRoles) ->
  prop userRole field <> VStr id.
Proof.
  intros H Heq. apply filter_In in H as [_ H].
  apply strict_eq_str in Heq. rewrite Heq in H. discriminate.
Qed.

Lemma file_deleteUser_found {V : Validator} id st i :
  validateId id = None ->
  FileSystemAdapter.findIndex (FileSystemAdapter.hasId id)
    (FileSystemAdapter.users (FileSystemAdapter.data st)) = Some i ->
  exists st',
    FileSystemAdapter.deleteUser id st = (Ok true, st')
    /\ FileSystemAdapter.data st'
       = FileSystemAdapter.withUsers
           (fun us => FileSystemAdapter.spliceOne us i)
           (FileSystemAdapter.withUserRoles
              (List.filter (fun userRole =>
                 negb (strict_eq (prop userRole "userId") (VStr id))))
              (FileSystemAdapter.data st)).
Proof.
  intros Hid Hi. unfold FileSystemAdapter.deleteUser. run.
  rewrite Hid. simpl. rewrite Hi. simpl.
  destruct (FileSystemAdapter.inTransaction st); simpl;
    eexists; split; reflexivity.
Qed.

Lemma file_deleteRole_found {V : Validator} id st i :
  validateId id = None ->
  FileSystemAdapter.findIndex (FileSystemAdapter.hasId id)
    (FileSystemAdapter.roles (FileSystemAdapter.data st)) = Some i ->
  exists st',
    FileSystemAdapter.deleteRole id st = (Ok true, st')
    /\ FileSystemAdapter.data st'
       = FileSystemAdapter.withRoles
           (fun rs => FileSystemAdapter.spliceOne rs i)
           (FileSystemAdapter.withUserRoles
              (List.filter (fun userRole =>
                 negb (strict_eq (prop userRole "roleId") (VStr id))))
              (FileSystemAdapter.data st)).
Proof.
  intros Hid Hi. unfold FileSystemAdapter.deleteRole. run.
  rewrite Hid. simpl. rewrite Hi. simpl.
  destruct (FileSystemAdapter.inTransaction st); simpl;
    eexists; split; reflexivity.
Qed.

(** C7, as stated, fails where an update has given two records the same
    identifier.  In the file-system adapter, [deleteUser('u2')] returns
    true and [getUserById('u2')] still finds a user.  In the memory
    adapter, [deleteUser('u2')] returns true and [getRoleUsers('r1')]
    still lists a record that carries [u2]. *)
Lemma delete_leaves_a_namesake :
  (exists user,
     find (FileSystemAdapter.hasId "u2") (FileSystemAdapter._getUsers namesakesOnDisk)
     = Some user)
  /\ (exists st' left,
        FileSystemAdapter.deleteUser (V := acceptAll) "u2" namesakesOnDisk
        = (Ok true, st')
        /\ FileSystemAdapter.getUserById (V := acceptAll) "u2" st'
           = (Ok (Some left), st'))
  /\ OMap.has (MemoryAdapter.getUserMap namesakes) "u2" = true
  /\ (exists st' listed,
        MemoryAdapter.deleteUser (V := acceptAll) "u2" namesakes = (Ok true, st')
        /\ MemoryAdapter.getRoleUsers (V := acceptAll) "r1" st'
           = (Ok [listed], st')
        /\ prop listed "id" = VStr "u2").
Proof.
  split; [eexists; vm_compute; reflexivity|].
  split; [do 2 eexists; split; vm_compute; reflexivity|].
  split; [reflexivity|].
  do 2 eexists. split; [vm_compute; reflexivity|].
  split; vm_compute; reflexivity.
Qed.

(** C7 (amended): in a state in which the user [u] exists, in which
    records are stored under the identifier they carry (memory adapter)
    or no two records carry the same identifier (file-system adapter),
    as every call leaves them whose update names no [id], [deleteUser]
    of [u] succeeds and removes every association that references [u]:
    afterwards [getUserById(u)] is null, no association has [u] as its
    [userId], and [getRoleUsers(r)] holds no record that carries [u],
    for any role [r].  The same holds for [deleteRole], [getRoleById],
    [roleId] and [getUserRoles]. *)
Theorem delete_cascades (V : Validator) (id : string) :
  validateId id = None ->
  (forall st,
     OMap.has (MemoryAdapter.getUserMap st) id = true ->
     keyed (MemoryAdapter.getUserMap st) ->
     cascades MemoryAdapter.deleteUser MemoryAdapter.getUserById
       MemoryAdapter.getRoleUsers
       (fun st => OMap.values (MemoryAdapter.getUserRoleMap st)) "userId" id st)
  /\ (forall st,
        OMap.has (MemoryAdapter.getRoleMap st) id = true ->
        keyed (MemoryAdapter.getRoleMap st) ->
        cascades MemoryAdapter.deleteRole MemoryAdapter.getRoleById
          MemoryAdapter.getUserRoles
          (fun st => OMap.values (MemoryAdapter.getUserRoleMap st)) "roleId" id st)
  /\ (forall st user,
        find (FileSystemAdapter.hasId id) (FileSystemAdapter._getUsers st) = Some user ->
        uniqueIds (FileSystemAdapter._getUsers st) ->
        cascades FileSystemAdapter.deleteUser FileSystemAdapter.getUserById
          FileSystemAdapter.getRoleUsers FileSystemAdapter._getUserRoles
          "userId" id st)
  /\ (forall st role,
        find (FileSystemAdapter.hasId id) (FileSystemAdapter._getRoles st) = Some role ->
        uniqueIds (FileSystemAdapter._getRoles st) ->
        cascades FileSystemAdapter.deleteRole FileSystemAdapter.getRoleById
          FileSystemAdapter.getUserRoles FileSystemAdapter._getUserRoles
          "roleId" id st).
Proof.
  intros Hid. unfold cascades. split; [|split; [|split]].
  - intros st Hhas Hkeyed.
    exists (MemoryAdapter.onUserMap (fun m => OMap.delete m id)
              (MemoryAdapter.onUserRoleMap (MemoryAdapter.purge "userId" id) st)).
    split; [|split; [|split]].
    + unfold MemoryAdapter.deleteUser. run. rewrite Hid. simpl.
      now rewrite getUserMap_onUserRoleMap, Hhas.
    + unfold MemoryAdapter.getUserById. run. rewrite Hid. simpl.
      now rewrite getUserMap_onUserMap, get_delete_same.
    + intros userRole.
      rewrite getUserRoleMap_onUserMap, getUserRoleMap_onUserRoleMap.
      apply purge_values.
    + intros other Hother. eexists. split.
      * unfold MemoryAdapter.getRoleUsers. run. rewrite Hother. reflexivity.
      * intros record.
        rewrite getUserMap_onUserMap, getUserMap_onUserRoleMap.
        now apply lookupAll_deleted.
  - intros st Hhas Hkeyed.
    exists (MemoryAdapter.onRoleMap (fun m => OMap.delete m id)
              (MemoryAdapter.onUserRoleMap (MemoryAdapter.purge "roleId" id) st)).
    split; [|split; [|split]].
    + unfold MemoryAdapter.deleteRole. run. rewrite Hid. simpl.
      now rewrite getRoleMap_onUserRoleMap, Hhas.
    + unfold MemoryAdapter.getRoleById. run. rewrite Hid. simpl.
      now rewrite getRoleMap_onRoleMap, get_delete_same.
    + intros userRole.
      rewrite getUserRoleMap_onRoleMap, getUserRoleMap_onUserRoleMap.
      apply purge_values.
    + intros other Hother. eexists. split.
      * unfold MemoryAdapter.getUserRoles. run. rewrite Hother. reflexivity.
      * intros record.
        rewrite getRoleMap_onRoleMap, getRoleMap_onUserRoleMap.
        now apply lookupAll_deleted.
  - intros st user Hfind Huniq.
    destruct (find_findIndex _ _ Hfind) as [i [Hi _]].
    unfold FileSystemAdapter._getUsers in Hi, Huniq.
    destruct (file_deleteUser_found id st Hid Hi) as [st' [Hdel Hdata]].
    exists st'. split; [exact Hdel|]. split; [|split].
    + unfold FileSystemAdapter.getUserById. run. rewrite Hid, Hdata. simpl.
      rewrite find_none_existsb; auto using uniqueIds_spliceOne.
    + intros userRole. unfold FileSystemAdapter._getUserRoles.
      rewrite Hdata. simpl. apply filter_not_referencing.
    + intros other Hother. eexists. split.
      * unfold FileSystemAdapter.getRoleUsers. run. rewrite Hother. reflexivity.
      * intros record Hin. apply selectByIds_In in Hin.
        rewrite Hdata in Hin. simpl in Hin.
        eapply spliceOne_none_left; eauto.
  - intros st role Hfind Huniq.
    destruct (find_findIndex _ _ Hfind) as [i [Hi _]].
    unfold FileSystemAdapter._getRoles in Hi, Huniq.
    destruct (file_deleteRole_found id st Hid Hi) as [st' [Hdel Hdata]].
    exists st'. split; [exact Hdel|]. split; [|split].
    + unfold FileSystemAdapter.getRoleById. run. rewrite Hid, Hdata. simpl.
      rewrite find_none_existsb; auto using uniqueIds_spliceOne.
    + intros userRole. unfold FileSystemAdapter._getUserRoles.
      rewrite Hdata. simpl. apply filter_not_referencing.
    + intros other Hother. eexists. split.
      * unfold FileSystemAdapter.getUserRoles. run. rewrite Hother. reflexivity.
      * intros record Hin. apply selectByIds_In in Hin.
        rewrite Hdata in Hin. simpl in Hin.
        eapply spliceOne_none_left; eauto.
Qed.

Lemma keyedb_keyed m : keyedb m = true -> keyed m.
Proof.
  unfold keyedb, keyed. intros H k record Hget.
  apply get_In in Hget. rewrite forallb_forall in H.
  specialize (H _ Hget). simpl in H. now apply strict_eq_str.
Qed.

Lemma delete_cascades_witness :
  cascades (V := acceptAll)
    (@MemoryAdapter.deleteUser acceptAll) (@MemoryAdapter.getUserById acceptAll)
    (@MemoryAdapter.getRoleUsers acceptAll)
    (fun st => OMap.values (MemoryAdapter.getUserRoleMap st)) "userId" "u1"
    aliceIsAdmin
  /\ cascades (V := acceptAll)
       (FileSystemAdapter.deleteRole (V := acceptAll))
       (@FileSystemAdapter.getRoleById acceptAll)
       (@FileSystemAdapter.getUserRoles acceptAll)
       FileSystemAdapter._getUserRoles "roleId" "r1" aliceIsAdminOnDisk.
Proof.
  destruct (delete_cascades acceptAll "u1" eq_refl) as [Hmemory _].
  destruct (delete_cascades acceptAll "r1" eq_refl) as [_ [_ [_ Hfile]]].
  split.
  - apply (Hmemory aliceIsAdmin).
    + reflexivity.
    + apply keyedb_keyed. reflexivity.
  - apply (Hfile aliceIsAdminOnDisk (stamped admin "r1" 4000)).
    + reflexivity.
    + unfold uniqueIds. vm_compute. repeat constructor. simpl. tauto.
Defined.

(** *** Assigning a role twice *)

Lemma key_injective u u' r r' :
  noColon u = true -> noColon u' = true ->
  u ++ ":" ++ r = u' ++ ":" ++ r' -> u = u' /\ r = r'.
Proof.
  revert u'. induction u as [|c u IH]; intros [|c' u'] Hu Hu' H; simpl in *.
  - inversion H. auto.
  - inversion H; subst. rewrite Ascii.eqb_refl in Hu'. discriminate.
  - inversion H; subst. rewrite Ascii.eqb_refl in Hu. discriminate.
  - inversion H; subst.
    apply andb_true_iff in Hu as [_ Hu]. apply andb_true_iff in Hu' as [_ Hu'].
    destruct (IH u' Hu Hu' H2) as [-> ->]. auto.
Qed.

Lemma links_true u r userRole :
  FileSystemAdapter.links u r userRole = true
  <-> prop userRole "userId" = VStr u /\ prop userRole "roleId" = VStr r.
Proof.
  unfold FileSystemAdapter.links. rewrite andb_true_iff, !strict_eq_str. tauto.
Qed.

Lemma links_association u r now u' r' :
  FileSystemAdapter.links u' r' (association u r now) = true <-> u' = u /\ r' = r.
Proof.
  rewrite links_true. unfold association, prop. simpl.
  split; [intros [[= ->] [= ->]] | intros [-> ->]]; auto.
Qed.

Lemma linked_set m u r now :
  linked m -> noColon u = true ->
  linked (OMap.set m (u ++ ":" ++ r) (association u r now)).
Proof.
  intros [Hnd Hall] Hu. split; [now apply NoDup_keys_set|].
  intros k userRole Hin.
  assert (Hcases : (k, userRole) = (u ++ ":" ++ r, association u r now)
                   \/ In (k, userRole) m).
  { clear Hnd Hall. revert Hin. generalize (u ++ ":" ++ r) as key.
    intros key. induction m as [|[k0 v0] m IH]; simpl.
    - intros [H|[]]; auto.
    - destruct (String.eqb k0 key); simpl; intros [H|H]; auto.
      destruct (IH H); auto. }
  destruct Hcases as [[= -> ->]|Hold]; [|now apply Hall].
  exists u, r. repeat split; auto.
Qed.

Lemma linked_pairsUnique m : linked m -> pairsUnique (OMap.values m).
Proof.
  intros [Hnd Hall] u r. unfold OMap.values.
  induction m as [|[k userRole] m IH]; simpl; [lia|].
  inversion Hnd as [|? ? Hnotin Hnd']; subst.
  assert (Hall' : forall k userRole, In (k, userRole) m ->
            exists u r, noColon u = true /\ prop userRole "userId" = VStr u
                        /\ prop userRole "roleId" = VStr r /\ k = u ++ ":" ++ r).
  { intros. apply Hall. now right. }
  specialize (IH Hnd' Hall').
  destruct (FileSystemAdapter.links u r userRole) eqn:E; [|exact IH].
  simpl.
  assert (Hnone : List.filter (FileSystemAdapter.links u r) (map snd m) = []).
  { destruct (List.filter _ _) as [|other rest] eqn:Ef; [reflexivity|].
    exfalso. assert (Hin : In other (List.filter (FileSystemAdapter.links u r)
                                                 (map snd m)))
      by (rewrite Ef; now left).
    apply filter_In in Hin as [Hin Hlinks].
    apply in_map_iff in Hin as [[k' other'] [Heq Hin]]. simpl in Heq. subst.
    apply links_true in E as [Eu Er], Hlinks as [Lu Lr].
    destruct (Hall k userRole (or_introl eq_refl)) as (u1 & r1 & _ & Hu1 & Hr1 & ->).
    destruct (Hall' k' other Hin) as (u2 & r2 & _ & Hu2 & Hr2 & ->).
    assert (u1 = u2) by congruence. assert (r1 = r2) by congruence. subst.
    apply Hnotin. apply (in_map fst) in Hin. exact Hin. }
  rewrite Hnone. simpl. lia.
Qed.

(** How often [v] is a member of [ids]. *)
Lemma Set_add_count v ids x :
  List.length (List.filter (strict_eq x) (MemoryAdapter.Set_add ids v))
  = if existsb (strict_eq v) ids
    then List.length (List.filter (strict_eq x) ids)
    else (List.length (List.filter (strict_eq x) ids)
          + if strict_eq x v then 1 else 0)%nat.
Proof.
  unfold MemoryAdapter.Set_add.
  destruct (existsb (strict_eq v) ids); [reflexivity|].
  rewrite filter_app, length_app. simpl.
  destruct (strict_eq x v); reflexivity.
Qed.

Lemma existsb_filter_length {A} (p : A -> bool) xs :
  existsb p xs = false -> List.length (List.filter p xs) = 0%nat.
Proof.
  induction xs as [|x xs IH]; simpl; [reflexivity|].
  destruct (p x); simpl; [discriminate | exact IH].
Qed.

Lemma filter_length_existsb {A} (p : A -> bool) xs :
  (1 <= List.length (List.filter p xs))%nat <-> existsb p xs = true.
Proof.
  induction xs as [|x xs IH]; simpl.
  - split; [lia | discriminate].
  - destruct (p x); simpl; [split; [reflexivity | lia] | exact IH].
Qed.

(** The set that [getUserRoles] builds holds an identifier once if an
    association of the user names it. *)
Lemma linkedIds_count field other id r (m : OMap.t Obj) :
  (exists userRole, In userRole (OMap.values m)
                    /\ prop userRole field = VStr id
                    /\ prop userRole other = VStr r) ->
  List.length (List.filter (strict_eq (VStr r))
                 (MemoryAdapter.linkedIds field other id m)) = 1%nat.
Proof.
  unfold MemoryAdapter.linkedIds. generalize (OMap.values m) as l. clear m.
  intros l Hex.
  set (step := fun ids userRole =>
         if strict_eq (prop userRole field) (VStr id)
         then MemoryAdapter.Set_add ids (prop userRole other) else ids).
  set (count := fun ids => List.length (List.filter (strict_eq (VStr r)) ids)).
  assert (Hle : forall l ids, (count ids <= 1)%nat ->
                              (count (fold_left step l ids) <= 1)%nat).
  { clear. induction l as [|x l IH]; intros ids H; simpl; [exact H|].
    apply IH. unfold step. destruct (strict_eq (prop x field) (VStr id)); [|exact H].
    unfold count in *. rewrite Set_add_count.
    destruct (existsb (strict_eq (prop x other)) ids) eqn:E; [exact H|].
    destruct (strict_eq (VStr r) (prop x other)) eqn:Er; [|lia].
    assert (prop x other = VStr r) as Heq.
    { destruct (prop x other); simpl in Er; try discriminate.
      apply String.eqb_eq in Er. now subst. }
    rewrite Heq in E. rewrite (existsb_filter_length _ _ E). lia. }
  assert (Hmono : forall l ids, (1 <= count ids)%nat ->
                                (1 <= count (fold_left step l ids))%nat).
  { clear. induction l as [|x l IH]; intros ids H; simpl; [exact H|].
    apply IH. unfold step. destruct (strict_eq (prop x field) (VStr id)); [|exact H].
    unfold count in *. rewrite Set_add_count.
    destruct (existsb (strict_eq (prop x other)) ids); lia. }
  assert (Hge : forall l ids,
            (exists userRole, In userRole l /\ prop userRole field = VStr id
                              /\ prop userRole other = VStr r) ->
            (1 <= count (fold_left step l ids))%nat).
  { clear - Hmono. induction l as [|x l IH]; intros ids [ur [Hin [Hf Ho]]];
      [contradiction|]. simpl. destruct Hin as [->|Hin].
    - apply Hmono. unfold step. rewrite Hf. simpl. rewrite String.eqb_refl.
      unfold count. rewrite Set_add_count, Ho.
      destruct (existsb (strict_eq (VStr r)) ids) eqn:E.
      + now apply filter_length_existsb.
      + simpl. rewrite String.eqb_refl. lia.
    - apply IH. eauto. }
  specialize (Hle l [] ltac:(unfold count; simpl; lia)).
  specialize (Hge l [] Hex). unfold count in *. lia.
Qed.

(** Looking the identifiers up in a map of records stored under their
    own [id] yields a record that carries [r] for every [r] among them. *)
Lemma lookupAll_count (m : OMap.t Obj) r role ids :
  keyed m -> OMap.get m r = Some role ->
  List.length (List.filter (FileSystemAdapter.hasId r) (MemoryAdapter.lookupAll m ids))
  = List.length (List.filter (strict_eq (VStr r)) ids).
Proof.
  intros Hkeyed Hget. unfold MemoryAdapter.lookupAll.
  induction ids as [|v ids IH]; simpl; [reflexivity|].
  rewrite filter_app, length_app, IH.
  destruct v; simpl; try reflexivity.
  destruct (OMap.get m s) as [record|] eqn:E; simpl.
  - unfold FileSystemAdapter.hasId. rewrite (Hkeyed _ _ E). simpl.
    rewrite (String.eqb_sym r s). destruct (String.eqb s r); reflexivity.
  - destruct (String.eqb_spec r s) as [->|_]; [congruence | reflexivity].
Qed.

Lemma memory_assignRole_eq {V : Validator} userId roleId now st :
  validateId userId = None -> validateId roleId = None ->
  MemoryAdapter.assignRole userId roleId now st
  = if negb (MemoryAdapter.userExists st userId)
       || negb (MemoryAdapter.roleExists st roleId)
    then (Throw "User or role not found", st)
    else match OMap.get (MemoryAdapter.getUserRoleMap st)
                        (userId ++ ":" ++ roleId) with
         | Some existing => (Ok existing, st)
         | None =>
             (Ok (association userId roleId now),
              MemoryAdapter.onUserRoleMap
                (fun m => OMap.set m (userId ++ ":" ++ roleId)
                                   (association userId roleId now)) st)
         end.
Proof.
  intros Hu Hr. unfold MemoryAdapter.assignRole. run. rewrite Hu, Hr. simpl.
  destruct (negb (MemoryAdapter.userExists st userId)
            || negb (MemoryAdapter.roleExists st roleId)); [reflexivity|].
  simpl. destruct (OMap.get _ _); reflexivity.
Qed.

Lemma userExists_visible st u :
  OMap.has (MemoryAdapter.getUserMap st) u = true ->
  MemoryAdapter.userExists st u = true.
Proof.
  unfold MemoryAdapter.getUserMap, MemoryAdapter.userExists.
  destruct (MemoryAdapter.inTransaction st),
           (MemoryAdapter.transactionData st); intros ->;
    auto using orb_true_r.
Qed.

Lemma roleExists_visible st r :
  OMap.has (MemoryAdapter.getRoleMap st) r = true ->
  MemoryAdapter.roleExists st r = true.
Proof.
  unfold MemoryAdapter.getRoleMap, MemoryAdapter.roleExists.
  destruct (MemoryAdapter.inTransaction st),
           (MemoryAdapter.transactionData st); intros ->;
    auto using orb_true_r.
Qed.

Lemma userExists_onUserRoleMap f st u :
  MemoryAdapter.userExists (MemoryAdapter.onUserRoleMap f st) u
  = MemoryAdapter.userExists st u.
Proof.
  unfold MemoryAdapter.userExists, MemoryAdapter.onUserRoleMap.
  destruct (MemoryAdapter.inTransaction st),
           (MemoryAdapter.transactionData st); reflexivity.
Qed.

Lemma roleExists_onUserRoleMap f st r :
  MemoryAdapter.roleExists (MemoryAdapter.onUserRoleMap f st) r
  = MemoryAdapter.roleExists st r.
Proof.
  unfold MemoryAdapter.roleExists, MemoryAdapter.onUserRoleMap.
  destruct (MemoryAdapter.inTransaction st),
           (MemoryAdapter.transactionData st); reflexivity.
Qed.

Section MemoryAssign.

Context {V : Validator}.

Variables u r : string.
Hypothesis valid_u : validateId u = None.
Hypothesis valid_r : validateId r = None.

(** The memory adapter once the association of [u] and [r] is stored. *)
Lemma memory_assigned st userRole role now :
  MemoryAdapter.userExists st u = true ->
  MemoryAdapter.roleExists st r = true ->
  linked (MemoryAdapter.getUserRoleMap st) ->
  OMap.get (MemoryAdapter.getUserRoleMap st) (u ++ ":" ++ r) = Some userRole ->
  FileSystemAdapter.links u r userRole = true ->
  keyed (MemoryAdapter.getRoleMap st) ->
  OMap.get (MemoryAdapter.getRoleMap st) r = Some role ->
  MemoryAdapter.assignRole u r now st = (Ok userRole, st)
  /\ pairsUnique (OMap.values (MemoryAdapter.getUserRoleMap st))
  /\ List.length (List.filter (FileSystemAdapter.links u r)
                    (OMap.values (MemoryAdapter.getUserRoleMap st))) = 1%nat
  /\ exists roles,
       MemoryAdapter.getUserRoles u st = (Ok roles, st)
       /\ List.length (List.filter (FileSystemAdapter.hasId r) roles) = 1%nat.
Proof.
  intros Hue Hre Hlinked Hget Hlinks Hkeyed Hrole.
  pose proof (linked_pairsUnique Hlinked) as Hunique.
  assert (Hin : In userRole (OMap.values (MemoryAdapter.getUserRoleMap st))).
  { apply get_In in Hget. apply (in_map snd) in Hget. exact Hget. }
  split; [|split; [|split]].
  - rewrite memory_assignRole_eq by assumption.
    rewrite Hue, Hre, Hget. reflexivity.
  - exact Hunique.
  - specialize (Hunique u r).
    assert (1 <= List.length (List.filter (FileSystemAdapter.links u r)
                   (OMap.values (MemoryAdapter.getUserRoleMap st))))%nat; [|lia].
    apply filter_length_existsb, existsb_exists. eauto.
  - eexists. split.
    + unfold MemoryAdapter.getUserRoles. run. rewrite valid_u. reflexivity.
    + rewrite (@lookupAll_count _ _ _ _ Hkeyed Hrole).
      apply linkedIds_count. exists userRole.
      apply links_true in Hlinks as [Hu Hr]. auto.
Qed.

Lemma memory_assign_idempotent st :
  noColon u = true ->
  OMap.has (MemoryAdapter.getUserMap st) u = true ->
  OMap.has (MemoryAdapter.getRoleMap st) r = true ->
  keyed (MemoryAdapter.getRoleMap st) ->
  linked (MemoryAdapter.getUserRoleMap st) ->
  idempotent MemoryAdapter.assignRole MemoryAdapter.getUserRoles
    (fun st => OMap.values (MemoryAdapter.getUserRoleMap st)) u r st.
Proof.
  intros Hcolon Hu Hr Hkeyed Hlinked now1 now2.
  apply userExists_visible in Hu. pose proof Hr as Hrole.
  apply roleExists_visible in Hr. apply has_get in Hrole as [role Hrole].
  rewrite memory_assignRole_eq by assumption. rewrite Hu, Hr.
  destruct (OMap.get (MemoryAdapter.getUserRoleMap st) (u ++ ":" ++ r))
    as [existing|] eqn:Hget; cbn [negb orb].
  - exists existing, st. split; [reflexivity|].
    apply memory_assigned with (role := role); auto.
    pose proof Hlinked as [_ Hall].
    destruct (Hall _ _ (get_In _ _ Hget)) as (u' & r' & Hc' & Hu' & Hr' & Hkey).
    apply key_injective in Hkey as [<- <-]; auto.
    now apply links_true.
  - eexists. eexists. split; [reflexivity|].
    apply memory_assigned with (role := role).
    + now rewrite userExists_onUserRoleMap.
    + now rewrite roleExists_onUserRoleMap.
    + rewrite getUserRoleMap_onUserRoleMap. now apply linked_set.
    + rewrite getUserRoleMap_onUserRoleMap. apply get_set_same.
    + now apply links_association.
    + now rewrite getRoleMap_onUserRoleMap.
    + now rewrite getRoleMap_onUserRoleMap.
Qed.

End MemoryAssign.

Lemma uniqueIds_one records r role :
  uniqueIds records ->
  find (FileSystemAdapter.hasId r) records = Some role ->
  List.length (List.filter (FileSystemAdapter.hasId r) records) = 1%nat.
Proof.
  unfold uniqueIds. induction records as [|x xs IH]; simpl; intros Hnd Hfind;
    [discriminate|].
  inversion Hnd as [|? ? Hnotin Hnd']; subst.
  destruct (FileSystemAdapter.hasId r x) eqn:E; [|now apply IH].
  simpl. rewrite existsb_filter_length; [reflexivity|].
  destruct (existsb (FileSystemAdapter.hasId r) xs) eqn:Ex; [|reflexivity].
  apply existsb_exists in Ex as [y [Hy Hpy]].
  exfalso. apply Hnotin. apply hasId_true in E, Hpy. rewrite E, <- Hpy.
  now apply (in_map (fun record => prop record "id")).
Qed.

Lemma selectByIds_carrying ids records r :
  existsb (strict_eq (VStr r)) ids = true ->
  List.filter (FileSystemAdapter.hasId r) (FileSystemAdapter.selectByIds ids records)
  = List.filter (FileSystemAdapter.hasId r) records.
Proof.
  intros Hin. unfold FileSystemAdapter.selectByIds.
  induction records as [|x xs IH]; simpl; [reflexivity|].
  destruct (FileSystemAdapter.hasId r x) eqn:E.
  - pose proof E as Hid. apply hasId_true in Hid. rewrite Hid, Hin.
    simpl. rewrite E. now rewrite IH.
  - destruct (existsb (strict_eq (prop x "id")) ids); simpl; rewrite ?E; exact IH.
Qed.

Lemma file_linkedIds_member u r userRoles userRole :
  In userRole userRoles ->
  FileSystemAdapter.links u r userRole = true ->
  existsb (strict_eq (VStr r))
          (FileSystemAdapter.linkedIds "userId" "roleId" u userRoles) = true.
Proof.
  intros Hin Hlinks. apply links_true in Hlinks as [Hu Hr].
  apply existsb_exists. exists (VStr r). split; [|apply String.eqb_refl].
  unfold FileSystemAdapter.linkedIds. rewrite <- Hr.
  apply (in_map (fun userRole => prop userRole "roleId")).
  apply filter_In. split; [exact Hin | now apply strict_eq_str].
Qed.

Lemma file_assignRole_eq {V : Validator} userId roleId now st :
  validateId userId = None -> validateId roleId = None ->
  FileSystemAdapter.assignRole userId roleId now st
  = if negb (existsb (FileSystemAdapter.hasId userId) (FileSystemAdapter._getUsers st))
       || negb (existsb (FileSystemAdapter.hasId roleId) (FileSystemAdapter._getRoles st))
    then (Throw "User or role not found", st)
    else match find (FileSystemAdapter.links userId roleId)
                    (FileSystemAdapter._getUserRoles st) with
         | Some existing => (Ok existing, st)
         | None =>
             (Ok (association userId roleId now),
              stateAfter FileSystemAdapter.saveUnlessInTransaction
                (FileSystemAdapter.withData
                   (FileSystemAdapter.withUserRoles
                      (fun urs => (urs ++ [association userId roleId now])%list))
                   st))
         end.
Proof.
  intros Hu Hr. unfold FileSystemAdapter.assignRole. run. rewrite Hu, Hr. simpl.
  destruct (negb _ || negb _); [reflexivity|]. simpl.
  destruct (find _ _); [reflexivity|].
  unfold stateAfter. simpl.
  destruct (FileSystemAdapter.inTransaction st); reflexivity.
Qed.

Lemma data_saveUnlessInTransaction st :
  FileSystemAdapter.data (stateAfter FileSystemAdapter.saveUnlessInTransaction st)
  = FileSystemAdapter.data st.
Proof.
  unfold stateAfter. run. destruct (FileSystemAdapter.inTransaction st); reflexivity.
Qed.

Lemma pairsUnique_push userRoles u r now :
  pairsUnique userRoles ->
  find (FileSystemAdapter.links u r) userRoles = None ->
  pairsUnique (userRoles ++ [association u r now]).
Proof.
  intros Hunique Hnone u' r'. rewrite filter_app, length_app. simpl.
  destruct (FileSystemAdapter.links u' r' (association u r now)) eqn:E;
    simpl; [|specialize (Hunique u' r'); lia].
  apply links_association in E as [-> ->].
  rewrite existsb_filter_length; [lia|].
  destruct (existsb (FileSystemAdapter.links u r) userRoles) eqn:Ex; [|reflexivity].
  apply find_existsb in Ex as [x Hx]. congruence.
Qed.

Lemma find_push {A} (p : A -> bool) xs x :
  find p xs = None -> p x = true -> find p (xs ++ [x]) = Some x.
Proof.
  induction xs as [|y xs IH]; simpl; intros Hnone Hx.
  - now rewrite Hx.
  - destruct (p y); [discriminate | now apply IH].
Qed.

Section FileAssign.

Context {V : Validator}.

Variables u r : string.
Hypothesis valid_u : validateId u = None.
Hypothesis valid_r : validateId r = None.

(** The file-system adapter once the association of [u] and [r] is
    stored. *)
Lemma file_assigned st userRole role now :
  existsb (FileSystemAdapter.hasId u) (FileSystemAdapter._getUsers st) = true ->
  find (FileSystemAdapter.hasId r) (FileSystemAdapter._getRoles st) = Some role ->
  uniqueIds (FileSystemAdapter._getRoles st) ->
  pairsUnique (FileSystemAdapter._getUserRoles st) ->
  find (FileSystemAdapter.links u r) (FileSystemAdapter._getUserRoles st)
    = Some userRole ->
  FileSystemAdapter.assignRole u r now st = (Ok userRole, st)
  /\ pairsUnique (FileSystemAdapter._getUserRoles st)
  /\ List.length (List.filter (FileSystemAdapter.links u r)
                    (FileSystemAdapter._getUserRoles st)) = 1%nat
  /\ exists roles,
       FileSystemAdapter.getUserRoles u st = (Ok roles, st)
       /\ List.length (List.filter (FileSystemAdapter.hasId r) roles) = 1%nat.
Proof.
  intros Huser Hrole Huniq Hpairs Hfind.
  assert (Hre : existsb (FileSystemAdapter.hasId r)
                        (FileSystemAdapter._getRoles st) = true)
    by (apply find_existsb; eauto).
  assert (Hin : In userRole (FileSystemAdapter._getUserRoles st)
                /\ FileSystemAdapter.links u r userRole = true)
    by (now apply find_some in Hfind).
  destruct Hin as [Hin Hlinks].
  split; [|split; [|split]].
  - rewrite file_assignRole_eq by assumption.
    rewrite Huser, Hre, Hfind. reflexivity.
  - exact Hpairs.
  - specialize (Hpairs u r).
    assert (1 <= List.length (List.filter (FileSystemAdapter.links u r)
                   (FileSystemAdapter._getUserRoles st)))%nat; [|lia].
    apply filter_length_existsb, existsb_exists. eauto.
  - eexists. split.
    + unfold FileSystemAdapter.getUserRoles. run. rewrite valid_u. reflexivity.
    + rewrite selectByIds_carrying.
      * eapply uniqueIds_one; eauto.
      * eapply file_linkedIds_member; eauto.
Qed.

Lemma file_assign_idempotent st user role :
  find (FileSystemAdapter.hasId u) (FileSystemAdapter._getUsers st) = Some user ->
  find (FileSystemAdapter.hasId r) (FileSystemAdapter._getRoles st) = Some role ->
  uniqueIds (FileSystemAdapter._getRoles st) ->
  pairsUnique (FileSystemAdapter._getUserRoles st) ->
  idempotent FileSystemAdapter.assignRole FileSystemAdapter.getUserRoles
    FileSystemAdapter._getUserRoles u r st.
Proof.
  intros Huser Hrole Huniq Hpairs now1 now2.
  assert (Hue : existsb (FileSystemAdapter.hasId u)
                        (FileSystemAdapter._getUsers st) = true)
    by (apply find_existsb; eauto).
  assert (Hre : existsb (FileSystemAdapter.hasId r)
                        (FileSystemAdapter._getRoles st) = true)
    by (apply find_existsb; eauto).
  rewrite file_assignRole_eq by assumption. rewrite Hue, Hre.
  destruct (find (FileSystemAdapter.links u r) (FileSystemAdapter._getUserRoles st))
    as [existing|] eqn:Hfind; cbn [negb orb].
  - exists existing, st. split; [reflexivity|].
    now apply file_assigned with (role := role).
  - eexists. eexists. split; [reflexivity|].
    apply file_assigned with (role := role);
      unfold FileSystemAdapter._getUsers, FileSystemAdapter._getRoles,
        FileSystemAdapter._getUserRoles in *;
      rewrite data_saveUnlessInTransaction; simpl; auto.
    + now apply pairsUnique_push.
    + apply find_push; [exact Hfind | now apply links_association].
Qed.

End FileAssign.

(** C8, as stated, fails where an update has given two roles the same
    identifier: in the file-system adapter, after [assignRole('u1', 'r1')],
    which stores one association, [getUserRoles('u1')] holds two
    records that carry [r1]. *)
Lemma assigned_role_is_listed_twice :
  (exists user role,
     find (FileSystemAdapter.hasId "u1") (FileSystemAdapter._getUsers twoAdminsOnDisk)
     = Some user
     /\ find (FileSystemAdapter.hasId "r1") (FileSystemAdapter._getRoles twoAdminsOnDisk)
        = Some role)
  /\ exists userRole st' roles,
       FileSystemAdapter.assignRole (V := acceptAll) "u1" "r1" 5000 twoAdminsOnDisk
       = (Ok userRole, st')
       /\ FileSystemAdapter._getUserRoles st' = [userRole]
       /\ FileSystemAdapter.getUserRoles (V := acceptAll) "u1" st' = (Ok roles, st')
       /\ List.length (List.filter (FileSystemAdapter.hasId "r1") roles) = 2%nat.
Proof.
  split; [do 2 eexists; split; vm_compute; reflexivity|].
  do 3 eexists. split; [vm_compute; reflexivity|].
  split; [reflexivity|]. split; vm_compute; reflexivity.
Qed.

(** C8 (amended): in a state in which the user [u] and the role [r]
    exist and which is built as the adapters build it with updates that
    name no [id] (memory adapter: roles
    stored under the id they carry, associations stored under the key
    of their pair, identifiers of users without a colon; file-system
    adapter: no two roles with the same id, at most one association per
    pair), [assignRole(u, r)] is idempotent: it succeeds, a second call
    returns the very record the first one returned, with its creation
    time, and changes nothing; at most one association is stored per
    pair, exactly one for [(u, r)]; and [getUserRoles(u)] holds exactly
    one record that carries [r]. *)
Theorem assignRole_is_idempotent (V : Validator) (u r : string) :
  validateId u = None ->
  validateId r = None ->
  (forall st,
     noColon u = true ->
     OMap.has (MemoryAdapter.getUserMap st) u = true ->
     OMap.has (MemoryAdapter.getRoleMap st) r = true ->
     keyed (MemoryAdapter.getRoleMap st) ->
     linked (MemoryAdapter.getUserRoleMap st) ->
     idempotent MemoryAdapter.assignRole MemoryAdapter.getUserRoles
       (fun st => OMap.values (MemoryAdapter.getUserRoleMap st)) u r st)
  /\ (forall st user role,
        find (FileSystemAdapter.hasId u) (FileSystemAdapter._getUsers st) = Some user ->
        find (FileSystemAdapter.hasId r) (FileSystemAdapter._getRoles st) = Some role ->
        uniqueIds (FileSystemAdapter._getRoles st) ->
        pairsUnique (FileSystemAdapter._getUserRoles st) ->
        idempotent FileSystemAdapter.assignRole FileSystemAdapter.getUserRoles
          FileSystemAdapter._getUserRoles u r st).
Proof.
  intros Hu Hr. split.
  - intros st. now apply memory_assign_idempotent.
  - intros st user role. now apply file_assign_idempotent.
Qed.

Lemma assignRole_is_idempotent_witness :
  idempotent (@MemoryAdapter.assignRole acceptAll)
    (@MemoryAdapter.getUserRoles acceptAll)
    (fun st => OMap.values (MemoryAdapter.getUserRoleMap st)) "u1" "r1"
    usersAndAdmin
  /\ idempotent (FileSystemAdapter.assignRole (V := acceptAll))
       (@FileSystemAdapter.getUserRoles acceptAll)
       FileSystemAdapter._getUserRoles "u1" "r1" aliceIsAdminOnDisk.
Proof.
  destruct (assignRole_is_idempotent acceptAll "u1" "r1" eq_refl eq_refl)
    as [Hmemory Hfile].
  split.
  - apply (Hmemory usersAndAdmin).
    + reflexivity.
    + reflexivity.
    + reflexivity.
    + apply keyedb_keyed. reflexivity.
    + split; [constructor | intros k userRole []].
  - apply (Hfile aliceIsAdminOnDisk (stamped alice "u1" 1000)
                 (stamped admin "r1" 4000)).
    + reflexivity.
    + reflexivity.
    + unfold uniqueIds. vm_compute. repeat constructor. simpl. tauto.
    + intros u r. vm_compute FileSystemAdapter._getUserRoles. simpl.
      match goal with
      | |- context [if ?b then _ else _] => destruct b
      end; simpl; lia.
Defined.

(** ** The states the adapters build

    The hypotheses of the two theorems above on the shape of the state
    hold in a new adapter and are kept by every call that draws its
    identifiers from the generator and does not name an [id] in an
    update. *)

Lemma linked_sub (m m' : OMap.t Obj) :
  linked m -> NoDup (OMap.keys m') -> (forall e, In e m' -> In e m) -> linked m'.
Proof.
  intros [_ Hall] Hnd Hsub. split; [exact Hnd|].
  intros k userRole Hin. apply Hall. now apply Hsub.
Qed.

Lemma linked_delete m k : linked m -> linked (OMap.delete m k).
Proof.
  intros H. eapply linked_sub; [exact H | |].
  - apply NoDup_keys_delete. apply H.
  - intros e He. now apply In_delete in He.
Qed.

Lemma NoDup_keys_purge field id (m : OMap.t Obj) :
  NoDup (OMap.keys m) -> NoDup (OMap.keys (MemoryAdapter.purge field id m)).
Proof.
  unfold MemoryAdapter.purge. generalize (OMap.entries m) as l.
  intros l. revert m. induction l as [|x l IH]; intros m H; simpl; [exact H|].
  apply IH. destruct (strict_eq _ _); [now apply NoDup_keys_delete | exact H].
Qed.

Lemma linked_purge field id m : linked m -> linked (MemoryAdapter.purge field id m).
Proof.
  intros H. eapply linked_sub; [exact H | |].
  - apply NoDup_keys_purge. apply H.
  - intros e He. now apply purge_In in He.
Qed.

Lemma keyed_set m id record :
  keyed m -> prop record "id" = VStr id -> keyed (OMap.set m id record).
Proof.
  intros Hkeyed Hid k r. destruct (string_dec id k) as [<-|Hne].
  - rewrite get_set_same. now intros [= <-].
  - rewrite get_set_other by exact Hne. apply Hkeyed.
Qed.

Lemma keyed_delete m id : keyed m -> keyed (OMap.delete m id).
Proof.
  intros Hkeyed k r H. apply get_delete_some in H as [_ H]. now apply Hkeyed.
Qed.

Lemma colonFree_set m id (record : Obj) :
  colonFree m -> noColon id = true -> colonFree (OMap.set m id record).
Proof.
  intros Hfree Hid k. unfold OMap.has. destruct (string_dec id k) as [<-|Hne].
  - auto.
  - rewrite get_set_other by exact Hne. apply Hfree.
Qed.

Lemma colonFree_delete m id : colonFree m -> colonFree (OMap.delete m id).
Proof.
  intros Hfree k. unfold OMap.has.
  destruct (OMap.get (OMap.delete m id) k) eqn:E; [|discriminate].
  apply get_delete_some in E as [_ E]. intros _. apply Hfree.
  unfold OMap.has. now rewrite E.
Qed.

Lemma wellFormed_visible st :
  wellFormed st ->
  wellFormedMaps (MemoryAdapter.getUserMap st) (MemoryAdapter.getRoleMap st)
                 (MemoryAdapter.getUserRoleMap st).
Proof.
  intros [Hlive Htx].
  unfold MemoryAdapter.getUserMap, MemoryAdapter.getRoleMap,
    MemoryAdapter.getUserRoleMap.
  destruct (MemoryAdapter.inTransaction st);
    destruct (MemoryAdapter.transactionData st) as [td|]; auto.
Qed.

Lemma wellFormed_onUserMap f st :
  wellFormed st ->
  (forall m, keyed m -> colonFree m -> keyed (f m) /\ colonFree (f m)) ->
  wellFormed (MemoryAdapter.onUserMap f st).
Proof.
  intros [(Hu & Hc & Hr & Hl) Htx] Hf. unfold MemoryAdapter.onUserMap.
  destruct (MemoryAdapter.inTransaction st);
    destruct (MemoryAdapter.transactionData st) as [td|] eqn:Etd;
    split; simpl; try (intros td' [= <-]);
    try (destruct (Htx td eq_refl) as (Hu' & Hc' & Hr' & Hl'));
    try (intros ? [=]);
    unfold wellFormedMaps; simpl;
    try (destruct (Hf _ Hu Hc)); try (destruct (Hf _ Hu' Hc')); auto.
Qed.

Lemma wellFormed_onRoleMap f st :
  wellFormed st ->
  (forall m, keyed m -> keyed (f m)) ->
  wellFormed (MemoryAdapter.onRoleMap f st).
Proof.
  intros [(Hu & Hc & Hr & Hl) Htx] Hf. unfold MemoryAdapter.onRoleMap.
  destruct (MemoryAdapter.inTransaction st);
    destruct (MemoryAdapter.transactionData st) as [td|] eqn:Etd;
    split; simpl; try (intros td' [= <-]);
    try (destruct (Htx td eq_refl) as (Hu' & Hc' & Hr' & Hl'));
    try (intros ? [=]);
    unfold wellFormedMaps; simpl; auto 6.
Qed.

Lemma wellFormed_onUserRoleMap f st :
  wellFormed st ->
  (forall m, linked m -> linked (f m)) ->
  wellFormed (MemoryAdapter.onUserRoleMap f st).
Proof.
  intros [(Hu & Hc & Hr & Hl) Htx] Hf. unfold MemoryAdapter.onUserRoleMap.
  destruct (MemoryAdapter.inTransaction st);
    destruct (MemoryAdapter.transactionData st) as [td|] eqn:Etd;
    split; simpl; try (intros td' [= <-]);
    try (destruct (Htx td eq_refl) as (Hu' & Hc' & Hr' & Hl'));
    try (intros ? [=]);
    unfold wellFormedMaps; simpl; auto 6.
Qed.

Lemma userExists_noColon st u :
  wellFormed st -> MemoryAdapter.userExists st u = true -> noColon u = true.
Proof.
  intros [(_ & Hc & _) Htx]. unfold MemoryAdapter.userExists.
  intros H. apply orb_true_iff in H as [H|H]; [now apply Hc|].
  destruct (MemoryAdapter.transactionData st) as [td|]; [|discriminate].
  destruct (Htx td eq_refl) as (_ & Hc' & _). now apply Hc'.
Qed.

Lemma wellFormed_create : wellFormed MemoryAdapter.create.
Proof.
  split; [|intros td [=]].
  repeat split; try constructor; intros k; unfold OMap.has; simpl;
    try discriminate; intros ? [].
Qed.

Section MemoryWellFormed.

Context {V : Validator}.

Lemma memory_call_wellFormed (c : Call) st :
  wellFormed st -> admissible c ->
  wellFormed (stateAfter (perform StorageAdapter.memory c) st).
Proof.
  intros Hwf Hadm. pose proof (wellFormed_visible Hwf) as (Hku & Hcu & Hkr & Hl).
  destruct c; simpl in *; unfold stateAfter.
  - (* createUser *)
    unfold MemoryAdapter.createUser. run.
    destruct (validateUser userData); simpl; [|exact Hwf].
    apply wellFormed_onUserMap; [exact Hwf|]. intros m Hk Hc. split.
    + apply keyed_set; [exact Hk | apply prop_stamped_id].
    + now apply colonFree_set.
  - (* updateUser *)
    unfold MemoryAdapter.updateUser. run.
    destruct (validateId id); simpl; [exact Hwf|].
    destruct (OMap.get (MemoryAdapter.getUserMap st) id) as [user|] eqn:Hget;
      simpl; [|exact Hwf].
    destruct (validateUser _); simpl; [|exact Hwf].
    apply wellFormed_onUserMap; [exact Hwf|]. intros m Hk Hc. split.
    + apply keyed_set; [exact Hk|].
      rewrite prop_merged_id by exact Hadm. now apply Hku.
    + apply colonFree_set; [exact Hc|]. apply Hcu.
      unfold OMap.has. now rewrite Hget.
  - (* deleteUser *)
    unfold MemoryAdapter.deleteUser. run.
    destruct (validateId id); simpl; [exact Hwf|].
    apply wellFormed_onUserMap.
    + apply wellFormed_onUserRoleMap; [exact Hwf|].
      intros m. apply linked_purge.
    + intros m Hk Hc. split; [now apply keyed_delete | now apply colonFree_delete].
  - (* createRole *)
    unfold MemoryAdapter.createRole. run.
    destruct (validateRole roleData); simpl; [|exact Hwf].
    apply wellFormed_onRoleMap; [exact Hwf|]. intros m Hk.
    apply keyed_set; [exact Hk | apply prop_stamped_id].
  - (* updateRole *)
    unfold MemoryAdapter.updateRole. run.
    destruct (validateId id); simpl; [exact Hwf|].
    destruct (OMap.get (MemoryAdapter.getRoleMap st) id) as [role|] eqn:Hget;
      simpl; [|exact Hwf].
    destruct (validateRole _); simpl; [|exact Hwf].
    apply wellFormed_onRoleMap; [exact Hwf|]. intros m Hk.
    apply keyed_set; [exact Hk|].
    rewrite prop_merged_id by exact Hadm. now apply Hkr.
  - (* deleteRole *)
    unfold MemoryAdapter.deleteRole. run.
    destruct (validateId id); simpl; [exact Hwf|].
    apply wellFormed_onRoleMap.
    + apply wellFormed_onUserRoleMap; [exact Hwf|].
      intros m. apply linked_purge.
    + intros m. apply keyed_delete.
  - (* assignRole *)
    unfold MemoryAdapter.assignRole. run.
    destruct (validateId userId), (validateId roleId); simpl; try exact Hwf.
    destruct (MemoryAdapter.userExists st userId) eqn:Hue; simpl; [|exact Hwf].
    destruct (MemoryAdapter.roleExists st roleId); simpl; [|exact Hwf].
    destruct (OMap.get _ _); simpl; [exact Hwf|].
    apply wellFormed_onUserRoleMap; [exact Hwf|]. intros m Hm.
    apply linked_set; [exact Hm|]. eapply userExists_noColon; eauto.
  - (* removeRole *)
    unfold MemoryAdapter.removeRole. run.
    destruct (validateId userId), (validateId roleId); simpl; try exact Hwf.
    apply wellFormed_onUserRoleMap; [exact Hwf|]. intros m. apply linked_delete.
Qed.

Lemma memory_performAll_wellFormed (calls : list Call) st :
  wellFormed st -> Forall admissible calls ->
  wellFormed (performAll StorageAdapter.memory calls st).
Proof.
  intros Hwf Hall. revert st Hwf.
  induction Hall as [|c calls Hc _ IH]; intros st Hwf; simpl; [exact Hwf|].
  apply IH. now apply memory_call_wellFormed.
Qed.

Lemma memory_transactions_wellFormed st :
  wellFormed st ->
  wellFormed (stateAfter MemoryAdapter.beginTransaction st)
  /\ wellFormed (stateAfter MemoryAdapter.commit st)
  /\ wellFormed (stateAfter MemoryAdapter.rollback st).
Proof.
  intros [Hlive Htx]. unfold stateAfter, MemoryAdapter.beginTransaction,
    MemoryAdapter.commit, MemoryAdapter.rollback. run.
  split; [|split];
    destruct (MemoryAdapter.inTransaction st);
    destruct (MemoryAdapter.transactionData st) as [data|] eqn:E; simpl;
    first
      [ (* the call threw *)
        split; [exact Hlive | rewrite E; exact Htx]
      | (* beginTransaction *)
        split; [exact Hlive | intros td' [= <-]; exact Hlive]
      | (* commit *)
        split; [exact (Htx data eq_refl) | intros td' [=]]
      | (* rollback *)
        split; [exact Hlive | intros td' [=]] ].
Qed.

End MemoryWellFormed.

Lemma uniqueIds_push records record id :
  uniqueIds records ->
  existsb (FileSystemAdapter.hasId id) records = false ->
  prop record "id" = VStr id ->
  uniqueIds (records ++ [record]).
Proof.
  unfold uniqueIds. induction records as [|x xs IH]; simpl; intros Hnd Hfresh Hid.
  - constructor; [intros [] | constructor].
  - apply orb_false_iff in Hfresh as [Hx Hxs].
    inversion Hnd as [|? ? Hnotin Hnd']; subst.
    constructor; [|now apply IH].
    rewrite map_app, in_app_iff. simpl. intros [Hin|[Heq|[]]]; [now apply Hnotin|].
    rewrite Hid in Heq. symmetry in Heq. apply hasId_true in Heq. congruence.
Qed.

Lemma ids_assignAt records id i record :
  FileSystemAdapter.findIndex (FileSystemAdapter.hasId id) records = Some i ->
  prop record "id" = VStr id ->
  map (fun r => prop r "id") (FileSystemAdapter.assignAt records i record)
  = map (fun r => prop r "id") records.
Proof.
  revert i. induction records as [|x xs IH]; simpl; intros i Hi Hid; [reflexivity|].
  destruct (FileSystemAdapter.hasId id x) eqn:E.
  - inversion Hi; subst. simpl. apply hasId_true in E. congruence.
  - destruct (FileSystemAdapter.findIndex _ xs) as [j|]; [|discriminate].
    inversion Hi; subst. simpl. f_equal. now apply IH.
Qed.

Lemma uniqueIds_spliceOne_kept records i :
  uniqueIds records -> uniqueIds (FileSystemAdapter.spliceOne records i).
Proof.
  unfold uniqueIds. revert i.
  induction records as [|x xs IH]; simpl; intros i Hnd; [destruct i; constructor|].
  inversion Hnd as [|? ? Hnotin Hnd']; subst.
  destruct i as [|i]; [exact Hnd'|]. simpl. constructor; [|now apply IH].
  intros Hin. apply Hnotin. apply in_map_iff in Hin as [y [Hy Hin]].
  apply In_spliceOne in Hin. rewrite <- Hy.
  now apply (in_map (fun r => prop r "id")).
Qed.

Lemma filter_filter_length {A} (p q : A -> bool) xs :
  (List.length (List.filter q (List.filter p xs))
   <= List.length (List.filter q xs))%nat.
Proof.
  induction xs as [|x xs IH]; simpl; [lia|].
  destruct (p x), (q x) eqn:E; simpl; rewrite ?E; simpl; lia.
Qed.

Lemma pairsUnique_filter p userRoles :
  pairsUnique userRoles -> pairsUnique (List.filter p userRoles).
Proof.
  intros H u r. specialize (H u r).
  pose proof (filter_filter_length p (FileSystemAdapter.links u r) userRoles). lia.
Qed.

Lemma wellFormedData_empty : wellFormedData FileSystemAdapter.emptyData.
Proof.
  split; [constructor | split; [constructor | intros u r; simpl; lia]].
Qed.

Section FileWellFormed.

Context {V : Validator}.

Lemma file_call_wellFormed (c : Call) st :
  wellFormedData (FileSystemAdapter.data st) ->
  admissibleOnDisk c (FileSystemAdapter.data st) ->
  wellFormedData
    (FileSystemAdapter.data (stateAfter (perform StorageAdapter.file c) st)).
Proof.
  intros Hwf Hadm. pose proof Hwf as (Hu & Hr & Hp).
  destruct c; simpl in *; unfold stateAfter.
  - (* createUser *)
    unfold FileSystemAdapter.createUser. run.
    destruct (validateUser userData); simpl; [|exact Hwf].
    destruct (FileSystemAdapter.inTransaction st); simpl;
      (split; [|split]; simpl; auto;
       eapply uniqueIds_push; eauto using prop_stamped_id).
  - (* updateUser *)
    unfold FileSystemAdapter.updateUser. run.
    destruct (validateId id); simpl; [exact Hwf|].
    destruct (FileSystemAdapter.findIndex _ _) as [i|] eqn:Hi; simpl; [|exact Hwf].
    destruct (validateUser _); simpl; [|exact Hwf].
    destruct (findIndex_find _ _ [] Hi) as [_ Hcarries].
    apply hasId_true in Hcarries.
    destruct (FileSystemAdapter.inTransaction st); simpl;
      (split; [|split]; simpl; auto; unfold uniqueIds;
       rewrite (@ids_assignAt _ id); auto;
       rewrite prop_merged_id; auto).
  - (* deleteUser *)
    unfold FileSystemAdapter.deleteUser. run.
    destruct (validateId id); simpl; [exact Hwf|].
    destruct (FileSystemAdapter.findIndex _ _) as [i|] eqn:Hi; simpl; [|exact Hwf].
    destruct (FileSystemAdapter.inTransaction st); simpl;
      (split; [|split]; simpl; auto using uniqueIds_spliceOne_kept,
         pairsUnique_filter).
  - (* createRole *)
    unfold FileSystemAdapter.createRole. run.
    destruct (validateRole roleData); simpl; [|exact Hwf].
    destruct (FileSystemAdapter.inTransaction st); simpl;
      (split; [|split]; simpl; auto;
       eapply uniqueIds_push; eauto using prop_stamped_id).
  - (* updateRole *)
    unfold FileSystemAdapter.updateRole. run.
    destruct (validateId id); simpl; [exact Hwf|].
    destruct (FileSystemAdapter.findIndex _ _) as [i|] eqn:Hi; simpl; [|exact Hwf].
    destruct (validateRole _); simpl; [|exact Hwf].
    destruct (findIndex_find _ _ [] Hi) as [_ Hcarries].
    apply hasId_true in Hcarries.
    destruct (FileSystemAdapter.inTransaction st); simpl;
      (split; [|split]; simpl; auto; unfold uniqueIds;
       rewrite (@ids_assignAt _ id); auto;
       rewrite prop_merged_id; auto).
  - (* deleteRole *)
    unfold FileSystemAdapter.deleteRole. run.
    destruct (validateId id); simpl; [exact Hwf|].
    destruct (FileSystemAdapter.findIndex _ _) as [i|] eqn:Hi; simpl; [|exact Hwf].
    destruct (FileSystemAdapter.inTransaction st); simpl;
      (split; [|split]; simpl; auto using uniqueIds_spliceOne_kept,
         pairsUnique_filter).
  - (* assignRole *)
    unfold FileSystemAdapter.assignRole. run.
    destruct (validateId userId), (validateId roleId); simpl; try exact Hwf.
    destruct (existsb (FileSystemAdapter.hasId userId) _); simpl; [|exact Hwf].
    destruct (existsb (FileSystemAdapter.hasId roleId) _); simpl; [|exact Hwf].
    destruct (find _ _) eqn:Hfind; simpl; [exact Hwf|].
    destruct (FileSystemAdapter.inTransaction st); simpl;
      (split; [|split]; simpl; auto using pairsUnique_push).
  - (* removeRole *)
    unfold FileSystemAdapter.removeRole. run.
    destruct (validateId userId), (validateId roleId); simpl; try exact Hwf.
    destruct (FileSystemAdapter.inTransaction st); simpl;
      rewrite ?andb_false_r, ?andb_true_r;
      try match goal with
          | |- context [if ?b then _ else _] => destruct b
          end; simpl;
      (split; [|split]; simpl; auto using pairsUnique_filter).
Qed.

End FileWellFormed.

(** ** The tests of the repository *)

(** 'should rollback transaction on error': inside the transaction the
    user has the role, after [rollback] it has none. *)
Example test_rollback :
  let A := StorageAdapter.memory (V := acceptAll) in
  let assigned :=
    stateAfter (UserManagement.beginTransaction A ;;
                UserManagement.assignRole A "u1" "r1" 3000) prepared in
  outcome (users_getUserRoles "u1") assigned = Ok [stamped admin "r1" 2000]
  /\ outcome (users_getUserRoles "u1")
             (stateAfter (UserManagement.rollback A) assigned) = Ok [].
Proof. split; vm_compute; reflexivity. Qed.

(** 'should commit transaction': after [commit] the user has the role. *)
Example test_commit :
  let A := StorageAdapter.memory (V := acceptAll) in
  outcome (users_getUserRoles "u1")
          (stateAfter (UserManagement.beginTransaction A ;;
                       UserManagement.assignRole A "u1" "r1" 3000 ;;
                       UserManagement.commit A) prepared)
  = Ok [stamped admin "r1" 2000].
Proof. vm_compute. reflexivity. Qed.

(** A pre-hook that answers with other [userData] changes what is
    stored: the input of the adapter is the context the pre-hooks leave. *)
Example pre_hook_changes_input :
  outcome (UserManager.createUser (StorageAdapter.memory (V := acceptAll))
             alice "u1" 1000)
          (sessionWith "user.preCreate" swapForBob)
  = Ok (stamped bob "u1" 1000).
Proof. vm_compute. reflexivity. Qed.

(** Hooks run by descending priority, and in the order of registration
    among equal priorities. *)
Example hooks_by_priority :
  let registry :=
    stateAfter (HookManager.registerHook "e" broken 0 ;;
                HookManager.registerHook "e" swapForBob 5 ;;
                HookManager.registerHook "e" renameRole 5)
               HookManager.create in
  outcome (hooks <- HookManager.getHooks "e" ;;
           ret (map HookManager.priority hooks)) registry
  = Ok [Some 5; Some 5; Some 0]
  /\ outcome (HookManager.executeHooks "e" []) registry
     = Ok [("userData", ARecord bob); ("role", ARecord renamed)].
Proof. split; vm_compute; reflexivity. Qed.

(* ================================================================== *)
(** * Further properties *)

(** ** Sorting *)

Section SortByKey.

Context {A : Type} (cmp : A -> A -> Z) (key : A -> Z).

Lemma insert_In (x y : A) (l : list A) :
  In y (insert cmp x l) <-> y = x \/ In y l.
Proof.
  split; intros H.
  - apply (Permutation_in _ (insert_perm cmp x l)) in H.
    destruct H; auto.
  - apply (Permutation_in _ (Permutation_sym (insert_perm cmp x l))).
    destruct H; [left | right]; auto.
Qed.

Lemma insert_sorted (x : A) (l : list A) :
  (forall y, In y l -> (cmp x y <= 0 <-> key x <= key y)) ->
  StronglySorted (fun a b => key a <= key b) l ->
  StronglySorted (fun a b => key a <= key b) (insert cmp x l).
Proof.
  induction l as [|y l IH]; simpl; intros Hcmp Hsorted.
  - constructor; constructor.
  - inversion Hsorted as [|? ? Hl Hy]; subst.
    destruct (Z.leb_spec (cmp x y) 0) as [Hle|Hgt].
    + constructor; [exact Hsorted|].
      assert (key x <= key y) by (apply Hcmp; auto).
      constructor; [assumption|].
      rewrite Forall_forall in *. intros z Hz. specialize (Hy z Hz). lia.
    + assert (key y < key x).
      { destruct (Z.le_gt_cases (key x) (key y)) as [Hk|Hk]; [|lia].
        apply Hcmp in Hk; [lia | now left]. }
      constructor.
      * apply IH; [|exact Hl]. intros z Hz. apply Hcmp. now right.
      * rewrite Forall_forall in *. intros z Hz.
        apply insert_In in Hz as [->|Hz]; [lia | now apply Hy].
Qed.

(** A sort whose comparator orders by [key] yields a list in the order
    of [key]. *)
Lemma Array_sort_sorted (l : list A) :
  (forall x y, In x l -> In y l -> (cmp x y <= 0 <-> key x <= key y)) ->
  StronglySorted (fun a b => key a <= key b) (Array_sort cmp l).
Proof.
  induction l as [|x l IH]; simpl; intros Hcmp.
  - constructor.
  - apply insert_sorted.
    + intros y Hy. apply Hcmp; [now left|]. right.
      now apply (Permutation_in _ (Array_sort_perm cmp l)).
    + apply IH. intros a b Ha Hb. apply Hcmp; now right.
Qed.

Lemma insert_stable (x : A) (l : list A) (k : Z) :
  (forall y, In y l -> (cmp x y <= 0 <-> key x <= key y)) ->
  StronglySorted (fun a b => key a <= key b) l ->
  List.filter (fun a => key a =? k) (insert cmp x l)
  = List.filter (fun a => key a =? k) (x :: l).
Proof.
  induction l as [|y l IH]; intros Hcmp Hsorted; [reflexivity|].
  simpl insert. destruct (Z.leb_spec (cmp x y) 0) as [Hle|Hgt]; [reflexivity|].
  inversion Hsorted as [|? ? Hl Hy]; subst.
  assert (key y < key x).
  { destruct (Z.le_gt_cases (key x) (key y)) as [Hk|Hk]; [|lia].
    apply Hcmp in Hk; [lia | now left]. }
  assert (IH' : List.filter (fun a => key a =? k) (insert cmp x l)
                = List.filter (fun a => key a =? k) (x :: l)).
  { apply IH; [|exact Hl]. intros z Hz. apply Hcmp. now right. }
  simpl in *. rewrite IH'.
  destruct (Z.eqb_spec (key y) k), (Z.eqb_spec (key x) k); try reflexivity. lia.
Qed.

(** The sort is stable: records of equal [key] keep their order. *)
Lemma Array_sort_stable (l : list A) (k : Z) :
  (forall x y, In x l -> In y l -> (cmp x y <= 0 <-> key x <= key y)) ->
  List.filter (fun a => key a =? k) (Array_sort cmp l)
  = List.filter (fun a => key a =? k) l.
Proof.
  induction l as [|x l IH]; intros Hcmp; [reflexivity|].
  simpl Array_sort. rewrite insert_stable.
  - simpl. rewrite IH; [reflexivity|]. intros a b Ha Hb. apply Hcmp; now right.
  - intros y Hy. apply Hcmp; [now left|]. right.
    now apply (Permutation_in _ (Array_sort_perm cmp l)).
  - apply Array_sort_sorted. intros a b Ha Hb. apply Hcmp; now right.
Qed.

End SortByKey.

Lemma StronglySorted_weaken {A} (R R' : A -> A -> Prop) (l : list A) :
  (forall a b, R a b -> R' a b) -> StronglySorted R l -> StronglySorted R' l.
Proof.
  intros Himp. induction 1 as [|x l Hl IH Hx]; constructor; auto.
  rewrite Forall_forall in *. auto.
Qed.

(** ** The hook registry *)

Lemma NoDup_keys_spread {V} (a b : OMap.t V) :
  NoDup (OMap.keys a) -> NoDup (OMap.keys (OMap.spread a b)).
Proof.
  unfold OMap.spread. revert a.
  induction b as [|e b IH]; intros a H; simpl; [exact H|].
  apply IH. now apply NoDup_keys_set.
Qed.

(** The copy that [executeHooks] starts from reads as its [data]. *)
Lemma view_start (data : HookEvent) :
  HookManager.view (HookManager.start data) = OMap.spread [] data.
Proof.
  unfold HookManager.view, HookManager.start. simpl.
  assert (Hkeys : NoDup (OMap.keys (OMap.spread [] data)))
    by (apply NoDup_keys_spread; constructor).
  set (m := OMap.spread [] data) in *.
  rewrite map_map.
  transitivity (map (fun e : string * Any => e) m); [|apply map_id].
  apply map_ext_in. intros [k v] Hin. simpl.
  destruct (HookManager.isObject v); [|reflexivity].
  unfold HookManager.deref. now rewrite (In_get _ _ _ Hkeys Hin).
Qed.

Section HookRegistry.

Context {W : Type}.

Implicit Types registry r : HookManager.State W.
Implicit Types cb : HookEvent -> HookManager.Run W.

Lemma hooksFor_registerHook registry event cb prio :
  hooksFor (stateAfter (HookManager.registerHook event cb prio) registry) event
  = Array_sort (fun a b => HookManager.priorityOrZero b
                           - HookManager.priorityOrZero a)
               (hooksFor registry event ++ [hookOf event cb prio]).
Proof.
  unfold hooksFor, stateAfter, HookManager.registerHook, modify. simpl.
  rewrite get_set_same. unfold OMap.has.
  destruct (OMap.get registry event) as [l|] eqn:E.
  - rewrite E. reflexivity.
  - rewrite get_set_same. reflexivity.
Qed.

Lemma hooksFor_registerHook_other registry event cb prio other :
  event <> other ->
  hooksFor (stateAfter (HookManager.registerHook event cb prio) registry) other
  = hooksFor registry other.
Proof.
  intros Hne. unfold hooksFor, stateAfter, HookManager.registerHook, modify.
  simpl. rewrite get_set_other by exact Hne.
  destruct (OMap.has registry event); [reflexivity|].
  now rewrite get_set_other.
Qed.

(** X1.  After [registerHook(event, cb, prio)] the hooks of the event,
    which [getHooks(event)] returns for a non-empty name, are the
    former ones and the new one, by descending priority; hooks of equal
    priority are in the order of their registration, the new one last;
    the hooks of every other event are as before. *)
Theorem registerHook_orders_by_priority registry event cb prio :
  let registry' := stateAfter (HookManager.registerHook event cb prio) registry in
  let former := hooksFor registry event in
  (event <> "" ->
   HookManager.getHooks event registry' = (Ok (hooksFor registry' event), registry'))
  /\ Permutation (hooksFor registry' event) (former ++ [hookOf event cb prio])
  /\ StronglySorted
       (fun a b => HookManager.priorityOrZero a >= HookManager.priorityOrZero b)
       (hooksFor registry' event)
  /\ (forall p,
        List.filter (fun h => HookManager.priorityOrZero h =? p)
                    (hooksFor registry' event)
        = List.filter (fun h => HookManager.priorityOrZero h =? p)
                      (former ++ [hookOf event cb prio]))
  /\ (forall other, event <> other ->
        hooksFor registry' other = hooksFor registry other).
Proof.
  intros registry' former. unfold registry'.
  split; [intros _; reflexivity|]. rewrite hooksFor_registerHook. fold former.
  set (cmp := fun a b : HookManager.Hook W =>
                HookManager.priorityOrZero b - HookManager.priorityOrZero a).
  set (key := fun h : HookManager.Hook W => - HookManager.priorityOrZero h).
  assert (Hcmp : forall x y : HookManager.Hook W, cmp x y <= 0 <-> key x <= key y)
    by (intros; unfold cmp, key; lia).
  split; [apply Array_sort_perm|]. split; [|split].
  - apply StronglySorted_weaken with (R := fun a b => key a <= key b).
    + unfold key. intros; lia.
    + apply Array_sort_sorted. auto.
  - intros p.
    pose proof (@Array_sort_stable _ cmp key (former ++ [hookOf event cb prio])
                  (- p) (fun x y _ _ => Hcmp x y)) as Hstable.
    assert (Hsame : forall l : list (HookManager.Hook W),
              List.filter (fun h => HookManager.priorityOrZero h =? p) l
              = List.filter (fun a => key a =? - p) l).
    { intros l. apply filter_ext. intros h. unfold key.
      destruct (Z.eqb_spec (HookManager.priorityOrZero h) p),
               (Z.eqb_spec (- HookManager.priorityOrZero h) (- p));
        try reflexivity; lia. }
    rewrite !Hsame. exact Hstable.
  - intros other Hne. now apply hooksFor_registerHook_other.
Qed.

Lemma executeHooks_hooksFor event data registry :
  HookManager.executeHooks event data registry
  = (Ok (HookManager.view
           (HookManager.runHooks (hooksFor registry event) (HookManager.start data))),
     registry).
Proof. reflexivity. Qed.

(** What [executeHooks] returns depends on the hooks of the event alone. *)
Lemma executeHooks_same_hooks event data r1 r2 :
  hooksFor r1 event = hooksFor r2 event ->
  outcome (HookManager.executeHooks event data) r1
  = outcome (HookManager.executeHooks event data) r2.
Proof.
  intros H. unfold outcome. rewrite !executeHooks_hooksFor, H. reflexivity.
Qed.

(** X2.  [removeAllHooks(event)] removes the hooks of that event and of
    no other: afterwards [executeHooks] of the event returns a copy of its
    input, and returns for every other event what it returned before.
    [removeAllHooks()] and [removeAllHooks('')], the empty name being
    falsy, remove the hooks of every event. *)
Theorem removeAllHooks_scope registry event data :
  (event <> "" ->
   let registry' := stateAfter (HookManager.removeAllHooks (Some event)) registry in
   HookManager.executeHooks event data registry'
     = (Ok (OMap.spread [] data), registry')
   /\ forall other, other <> event ->
        hooksFor registry' other = hooksFor registry other
        /\ outcome (HookManager.executeHooks other data) registry'
           = outcome (HookManager.executeHooks other data) registry)
  /\ (forall cleared any,
        cleared = None \/ cleared = Some "" ->
        let registry' := stateAfter (HookManager.removeAllHooks cleared) registry in
        HookManager.executeHooks any data registry'
        = (Ok (OMap.spread [] data), registry')).
Proof.
  split.
  - intros Hne registry'.
    assert (Hr : registry' = OMap.delete registry event).
    { unfold registry', stateAfter, HookManager.removeAllHooks.
      destruct (String.eqb_spec event ""); [contradiction | reflexivity]. }
    split.
    + rewrite executeHooks_hooksFor. unfold hooksFor.
      rewrite Hr, get_delete_same. simpl. now rewrite view_start.
    + intros other Hother.
      assert (Hsame : hooksFor registry' other = hooksFor registry other).
      { unfold hooksFor. rewrite Hr, get_delete_other; auto. }
      split; [exact Hsame | now apply executeHooks_same_hooks].
  - intros cleared any Hcleared registry'.
    assert (Hr : registry' = OMap.empty).
    { unfold registry', stateAfter.
      destruct Hcleared as [->| ->]; reflexivity. }
    rewrite executeHooks_hooksFor, Hr. unfold hooksFor. simpl.
    now rewrite view_start.
Qed.

End HookRegistry.

Lemma removeAllHooks_scope_witness :
  let registry :=
    stateAfter (HookManager.registerHook "user.preCreate" broken 0 ;;
                HookManager.registerHook "role.postCreate" renameRole 0)
               HookManager.create in
  let registry' :=
    stateAfter (HookManager.removeAllHooks (Some "role.postCreate")) registry in
  HookManager.executeHooks "role.postCreate" [("role", ARecord admin)] registry'
    = (Ok [("role", ARecord admin)], registry')
  /\ hooksFor registry' "user.preCreate" = hooksFor registry "user.preCreate".
Proof.
  intros registry registry'.
  destruct (removeAllHooks_scope registry "role.postCreate" [("role", ARecord admin)])
    as [Hone _].
  destruct (Hone ltac:(discriminate)) as [Hevent Hother].
  split; [exact Hevent|].
  apply (Hother "user.preCreate"). discriminate.
Defined.

(** ** Pages *)

Lemma slice_window {A} (l : list A) (start size : Z) :
  0 <= start -> 0 < size ->
  slice l start (start + size)
  = firstn (Z.to_nat size) (skipn (Z.to_nat start) l).
Proof.
  intros Hstart Hsize. unfold slice.
  destruct (Z.ltb_spec start 0); [lia|].
  destruct (Z.ltb_spec (start + size) 0); [lia|].
  set (len := Z.of_nat (List.length l)).
  destruct (Z.le_gt_cases len start) as [Hout|Hin].
  - rewrite (skipn_all2 l) by (apply Nat2Z.inj_le; rewrite Z2Nat.id; lia).
    rewrite (skipn_all2 l) by (apply Nat2Z.inj_le; rewrite Z2Nat.id; lia).
    now rewrite !firstn_nil.
  - replace (Z.min start len) with start by lia.
    destruct (Z.le_gt_cases (start + size) len) as [Hfit|Hcut].
    + f_equal. lia.
    + replace (Z.min (start + size) len - start) with (len - start) by lia.
      rewrite !firstn_all2; [reflexivity | |];
        rewrite length_skipn; apply Nat2Z.inj_le;
        rewrite Nat2Z.inj_sub by (apply Nat2Z.inj_le; rewrite Z2Nat.id; lia);
        rewrite !Z2Nat.id; fold len; lia.
Qed.

Lemma run_items_window all (o : QueryOptions) (size : Z) :
  limit o = Some size -> 0 < size -> 0 <= Query.offsetOrZero o ->
  items (Query.run all (Some o))
  = firstn (Z.to_nat size)
      (skipn (Z.to_nat (Query.offsetOrZero o)) (unpaginated (Some o) all)).
Proof.
  intros Hlimit Hsize Hoffset. unfold Query.run, unpaginated. simpl.
  unfold Query.applyPagination. rewrite Hlimit. simpl.
  destruct (Z.eqb_spec size 0); [lia|]. simpl.
  now apply slice_window.
Qed.

Lemma window_length {A} (l : list A) (start size : Z) :
  0 <= start -> 0 < size ->
  Z.of_nat (List.length (firstn (Z.to_nat size) (skipn (Z.to_nat start) l)))
  = Z.max 0 (Z.min size (Z.of_nat (List.length l) - start)).
Proof.
  intros Hstart Hsize. rewrite length_firstn, length_skipn. lia.
Qed.

Lemma checks_accept_options (options : option QueryOptions) :
  validateQueryOptions (Validator := Validation.checks) options = None.
Proof. destruct options; reflexivity. Qed.

(** X3.  With a limit [size > 0] and an offset [start >= 0] (0 when
    none is given), [getUsers] and [getRoles] return the [size] matching records
    that follow the first [start] ones, in the order of the sort:
    [max(0, min(size, N - start))] items of the [N] that match. *)
Theorem limit_and_offset_select_a_window (o : QueryOptions) (start size : Z) :
  limit o = Some size -> 0 < size ->
  Query.offsetOrZero o = start -> 0 <= start ->
  returnsWindow (StorageAdapter.getUsers memoryAdapter)
    (fun st => OMap.values (MemoryAdapter.getUserMap st)) (Some o) start size
  /\ returnsWindow (StorageAdapter.getRoles memoryAdapter)
       (fun st => OMap.values (MemoryAdapter.getRoleMap st)) (Some o) start size
  /\ returnsWindow (StorageAdapter.getUsers fileSystemAdapter)
       FileSystemAdapter._getUsers (Some o) start size
  /\ returnsWindow (StorageAdapter.getRoles fileSystemAdapter)
       FileSystemAdapter._getRoles (Some o) start size.
Proof.
  intros Hlimit Hsize <- Hstart. unfold returnsWindow.
  assert (Hrun : forall all,
    items (Query.run all (Some o))
    = firstn (Z.to_nat size)
        (skipn (Z.to_nat (Query.offsetOrZero o)) (unpaginated (Some o) all))
    /\ Z.of_nat (List.length (items (Query.run all (Some o))))
       = Z.max 0 (Z.min size (matchCount (Some o) all - Query.offsetOrZero o))).
  { intros all. rewrite (@run_items_window all o size Hlimit) by assumption.
    split; [reflexivity|].
    rewrite window_length by assumption. now rewrite unpaginated_length. }
  repeat split; intros st; eexists; (split; [|apply Hrun]); simpl.
  - apply memory_getUsers_run, checks_accept_options.
  - apply memory_getRoles_run, checks_accept_options.
  - apply file_getUsers_run, checks_accept_options.
  - apply file_getRoles_run, checks_accept_options.
Qed.

Lemma limit_and_offset_select_a_window_witness :
  exists page,
    StorageAdapter.getUsers memoryAdapter secondPage threeUsers
    = (Ok page, threeUsers)
    /\ items page = [stamped bob "u2" 2000; stamped carol "u3" 3000].
Proof.
  destruct (@limit_and_offset_select_a_window
              {| filter := None; sort := None; limit := Some 2;
                 offset := Some 1; include := None |} 1 2
              eq_refl ltac:(lia) eq_refl ltac:(lia)) as [H _].
  destruct (H threeUsers) as [page [Hrun [Hitems _]]].
  exists page. split; [exact Hrun | exact Hitems].
Defined.

(** ** Filters *)

Lemma In_firstn {A} (n : nat) (l : list A) (x : A) :
  In x (firstn n l) -> In x l.
Proof.
  intros H. rewrite <- (firstn_skipn n l). apply in_or_app. now left.
Qed.

Lemma In_skipn {A} (n : nat) (l : list A) (x : A) :
  In x (skipn n l) -> In x l.
Proof.
  intros H. rewrite <- (firstn_skipn n l). apply in_or_app. now right.
Qed.

Lemma slice_In {A} (l : list A) (first last : Z) (x : A) :
  In x (slice l first last) -> In x l.
Proof.
  unfold slice. intros H. apply In_firstn in H. now apply In_skipn in H.
Qed.

Lemma applyPagination_In options records record :
  In record (Query.applyPagination options records) -> In record records.
Proof.
  unfold Query.applyPagination. destruct options as [o|]; [|auto].
  destruct (limit o); [|auto]. destruct (Query.truthy _); [|auto].
  apply slice_In.
Qed.

Lemma applyFilter_In options records record :
  In record (Query.applyFilter options records)
  <-> In record records /\ satisfies options record.
Proof.
  unfold Query.applyFilter, satisfies.
  destruct options as [[f s l off i]|]; simpl.
  - destruct f as [f|].
    + rewrite filter_In. unfold Query.matches, OMap.entries.
      rewrite forallb_forall. split.
      * intros [Hin Hall]. split; [exact Hin|].
        intros o f' [= <-] [= <-] k v Hkv. apply (Hall (k, v) Hkv).
      * intros [Hin Hall]. split; [exact Hin|].
        intros [k v] Hkv. now apply (Hall _ f eq_refl eq_refl).
    + split; [intros H; split; [exact H | intros o f [= <-] [=]] | tauto].
  - split; [intros H; split; [exact H | intros o f [=]] | tauto].
Qed.

Lemma run_items_matches all options :
  (forall item, In item (items (Query.run all options)) ->
     In item all /\ satisfies options item)
  /\ (unlimited options ->
      forall record, In record all -> satisfies options record ->
                     In record (items (Query.run all options))).
Proof.
  split.
  - intros item H. unfold Query.run in H. simpl in H.
    apply applyPagination_In in H.
    apply (Permutation_in _ (applySort_perm options _)) in H.
    now apply applyFilter_In.
  - intros Hunlimited record Hin Hsat.
    rewrite run_items_no_limit by exact Hunlimited.
    apply (Permutation_in _ (Permutation_sym (unpaginated_perm options all))).
    now apply applyFilter_In.
Qed.

(** X4.  [getUsers] and [getRoles] never throw and change nothing;
    every item they return is a stored record that has, under each key of the
    filter, the value given there; and when no (non-zero) limit is
    given, every such record is returned. *)
Theorem list_returns_the_matching_records (options : option QueryOptions) :
  returnsMatches (StorageAdapter.getUsers memoryAdapter)
    (fun st => OMap.values (MemoryAdapter.getUserMap st)) options
  /\ returnsMatches (StorageAdapter.getRoles memoryAdapter)
       (fun st => OMap.values (MemoryAdapter.getRoleMap st)) options
  /\ returnsMatches (StorageAdapter.getUsers fileSystemAdapter)
       FileSystemAdapter._getUsers options
  /\ returnsMatches (StorageAdapter.getRoles fileSystemAdapter)
       FileSystemAdapter._getRoles options.
Proof.
  unfold returnsMatches.
  repeat split; intros st; eexists; (split; [|apply run_items_matches]); simpl.
  - apply memory_getUsers_run, checks_accept_options.
  - apply memory_getRoles_run, checks_accept_options.
  - apply file_getUsers_run, checks_accept_options.
  - apply file_getRoles_run, checks_accept_options.
Qed.

(** ** Sorted lists of records *)

Lemma compareBy_numeric key order a b :
  numericAt key a = true -> numericAt key b = true ->
  Query.compareBy [(key, order)] a b
  = if timeValue key a <? timeValue key b
    then (match order with asc => -1 | desc => 1 end)
    else if timeValue key b <? timeValue key a
    then (match order with asc => 1 | desc => -1 end)
    else 0.
Proof.
  unfold numericAt, timeValue. simpl.
  destruct (prop a key), (prop b key); try discriminate; intros _ _; reflexivity.
Qed.

Lemma StronglySorted_firstn {A} (R : A -> A -> Prop) (n : nat) (l : list A) :
  StronglySorted R l -> StronglySorted R (firstn n l).
Proof.
  revert n. induction l as [|x l IH]; intros [|n] H; simpl; try constructor.
  - inversion H; subst. now apply IH.
  - inversion H as [|? ? _ Hx]; subst. rewrite Forall_forall in *.
    intros y Hy. apply Hx. now apply In_firstn in Hy.
Qed.

Lemma StronglySorted_skipn {A} (R : A -> A -> Prop) (n : nat) (l : list A) :
  StronglySorted R l -> StronglySorted R (skipn n l).
Proof.
  revert n. induction l as [|x l IH]; intros [|n] H; simpl; auto.
  inversion H; subst. now apply IH.
Qed.

Lemma applyPagination_sorted (R : Obj -> Obj -> Prop) options records :
  StronglySorted R records ->
  StronglySorted R (Query.applyPagination options records).
Proof.
  intros H. unfold Query.applyPagination. destruct options as [o|]; [|auto].
  destruct (limit o); [|auto]. destruct (Query.truthy _); [|auto].
  unfold slice. now apply StronglySorted_firstn, StronglySorted_skipn.
Qed.

(** The order that [{ [key]: order }] asks for. *)
Lemma run_sortedBy key order f l o all :
  (forall record, In record all -> numericAt key record = true) ->
  StronglySorted
    (fun a b => match order with
                | asc => timeValue key a <= timeValue key b
                | desc => timeValue key a >= timeValue key b
                end)
    (items (Query.run all (sortedBy key order f l o))).
Proof.
  intros Hnum. unfold Query.run. cbn [items].
  apply applyPagination_sorted.
  change (Query.applySort (sortedBy key order f l o)
            (Query.applyFilter (sortedBy key order f l o) all))
    with (Array_sort (Query.compareBy [(key, order)])
            (Query.applyFilter (sortedBy key order f l o) all)).
  set (kept := Query.applyFilter _ all).
  assert (Hkept : forall record, In record kept -> numericAt key record = true).
  { intros record H. apply Hnum. unfold kept in H.
    now apply applyFilter_In in H. }
  set (rank := fun record => match order with
                             | asc => timeValue key record
                             | desc => - timeValue key record
                             end).
  apply StronglySorted_weaken with (R := fun a b => rank a <= rank b).
  - unfold rank. destruct order; intros; lia.
  - apply Array_sort_sorted. intros x y Hx Hy.
    rewrite compareBy_numeric by auto. unfold rank.
    destruct (Z.ltb_spec (timeValue key x) (timeValue key y)),
             (Z.ltb_spec (timeValue key y) (timeValue key x)), order; lia.
Qed.

(** X5.  When every stored record holds a number or a date under
    [key], [getUsers] and [getRoles] with the sort [{ [key]: 'asc' }] return
    their items by ascending value of [key], and with 'desc' by
    descending value, whatever the filter, the limit and the offset. *)
Theorem sort_orders_the_items key order f l o :
  let ordered := fun a b =>
    match order with
    | asc => timeValue key a <= timeValue key b
    | desc => timeValue key a >= timeValue key b
    end in
  (forall st,
     (forall record, In record (OMap.values (MemoryAdapter.getUserMap st)) ->
                     numericAt key record = true) ->
     returnsOrdered (StorageAdapter.getUsers memoryAdapter)
       (sortedBy key order f l o) ordered st)
  /\ (forall st,
        (forall record, In record (OMap.values (MemoryAdapter.getRoleMap st)) ->
                        numericAt key record = true) ->
        returnsOrdered (StorageAdapter.getRoles memoryAdapter)
          (sortedBy key order f l o) ordered st)
  /\ (forall st,
        (forall record, In record (FileSystemAdapter._getUsers st) ->
                        numericAt key record = true) ->
        returnsOrdered (StorageAdapter.getUsers fileSystemAdapter)
          (sortedBy key order f l o) ordered st)
  /\ (forall st,
        (forall record, In record (FileSystemAdapter._getRoles st) ->
                        numericAt key record = true) ->
        returnsOrdered (StorageAdapter.getRoles fileSystemAdapter)
          (sortedBy key order f l o) ordered st).
Proof.
  intros ordered. unfold returnsOrdered.
  repeat split; intros st Hnum; eexists;
    (split; [|apply run_sortedBy; exact Hnum]); simpl.
  - apply memory_getUsers_run, checks_accept_options.
  - apply memory_getRoles_run, checks_accept_options.
  - apply file_getUsers_run, checks_accept_options.
  - apply file_getRoles_run, checks_accept_options.
Qed.

Lemma sort_orders_the_items_witness :
  returnsOrdered (StorageAdapter.getUsers memoryAdapter)
    (sortedBy "createdAt" desc None None None)
    (fun a b => timeValue "createdAt" a >= timeValue "createdAt" b)
    threeUsers.
Proof.
  destruct (sort_orders_the_items "createdAt" desc None None None) as [H _].
  apply (H threeUsers).
  intros record Hin. vm_compute in Hin.
  destruct Hin as [<-|[<-|[<-|[]]]]; reflexivity.
Defined.

(** ** Patterns *)

Lemma append_nil_r (s : string) : s ++ "" = s.
Proof. induction s as [|c s IH]; simpl; [reflexivity | now rewrite IH]. Qed.

Lemma append_assoc (s t u : string) : (s ++ t) ++ u = s ++ (t ++ u).
Proof. induction s as [|c s IH]; simpl; [reflexivity | now rewrite IH]. Qed.

Lemma nullable_Matches r : RegExp.nullable r = true <-> Matches r "".
Proof.
  split.
  - induction r; simpl; intros H; try discriminate.
    + constructor.
    + apply andb_true_iff in H as [H1 H2].
      change "" with ("" ++ ""). constructor; auto.
    + apply orb_true_iff in H as [H|H];
        [apply MatchesAltL | apply MatchesAltR]; auto.
    + constructor.
  - intros H. remember "" as w eqn:Hw.
    induction H; simpl; try discriminate; auto.
    + destruct u; [|discriminate]. simpl in Hw. subst.
      now rewrite IHMatches1, IHMatches2.
    + now rewrite IHMatches.
    + rewrite IHMatches by exact Hw. apply orb_true_r.
Qed.

Lemma Matches_Star_cons r c w :
  Matches (RegExp.Star r) (String c w) ->
  exists u v, w = u ++ v /\ Matches r (String c u) /\ Matches (RegExp.Star r) v.
Proof.
  intros H. remember (RegExp.Star r) as star eqn:Hstar.
  remember (String c w) as word eqn:Hword.
  revert c w Hword.
  induction H; try discriminate; intros c w Hword.
  inversion Hstar; subst.
  destruct u as [|c' u].
  - simpl in Hword. now apply IHMatches2.
  - simpl in Hword. inversion Hword; subst. eauto.
Qed.

Lemma Matches_Cat_inv r s w :
  Matches (RegExp.Cat r s) w ->
  exists u v, w = u ++ v /\ Matches r u /\ Matches s v.
Proof. intros H. inversion H; subst. eauto. Qed.

Lemma Matches_Alt_inv r s w :
  Matches (RegExp.Alt r s) w -> Matches r w \/ Matches s w.
Proof. intros H. inversion H; subst; auto. Qed.

Lemma Matches_Class_inv p w :
  Matches (RegExp.Class p) w -> exists c, w = String c "" /\ p c = true.
Proof. intros H. inversion H; subst. eauto. Qed.

Lemma derive_Matches c r w :
  Matches (RegExp.derive c r) w <-> Matches r (String c w).
Proof.
  revert w. induction r; intros w; simpl.
  - split; intros H; inversion H.
  - split; intros H; inversion H.
  - split; intros H.
    + destruct (p c) eqn:E; inversion H; subst. now constructor.
    + apply Matches_Class_inv in H as (c' & [= <- ->] & Hp).
      rewrite Hp. constructor.
  - assert (Hleft : forall w, Matches (RegExp.Cat (RegExp.derive c r1) r2) w ->
                              Matches (RegExp.Cat r1 r2) (String c w)).
    { intros w0 H0. apply Matches_Cat_inv in H0 as (u & v & -> & Hu & Hv).
      change (String c (u ++ v)) with (String c u ++ v).
      constructor; [now apply IHr1 | assumption]. }
    split.
    + intros H.
      destruct (RegExp.nullable r1) eqn:E; [|now apply Hleft].
      apply Matches_Alt_inv in H as [H|H]; [now apply Hleft|].
      change (String c w) with ("" ++ String c w).
      constructor; [now apply nullable_Matches | now apply IHr2].
    + intros H. apply Matches_Cat_inv in H as (u & v & Hw & Hu & Hv).
      destruct u as [|c' u]; simpl in Hw.
      * assert (RegExp.nullable r1 = true) as -> by now apply nullable_Matches.
        apply MatchesAltR. apply IHr2. now rewrite Hw.
      * inversion Hw; subst.
        assert (Matches (RegExp.Cat (RegExp.derive c' r1) r2) (u ++ v))
          by (constructor; [now apply IHr1 | assumption]).
        destruct (RegExp.nullable r1); [now apply MatchesAltL | assumption].
  - split; intros H; apply Matches_Alt_inv in H as [H|H].
    + apply MatchesAltL. now apply IHr1.
    + apply MatchesAltR. now apply IHr2.
    + apply MatchesAltL. now apply IHr1.
    + apply MatchesAltR. now apply IHr2.
  - split.
    + intros H. apply Matches_Cat_inv in H as (u & v & -> & Hu & Hv).
      change (String c (u ++ v)) with (String c u ++ v).
      constructor; [now apply IHr | assumption].
    + intros H. apply Matches_Star_cons in H as (u & v & -> & Hu & Hv).
      constructor; [now apply IHr | assumption].
Qed.

(** [test] decides the words of the pattern. *)
Lemma test_Matches r w : RegExp.test r w = true <-> Matches r w.
Proof.
  revert r. induction w as [|c w IH]; intros r; simpl.
  - apply nullable_Matches.
  - rewrite IH. apply derive_Matches.
Qed.

Lemma Matches_Star_Class p w :
  Matches (RegExp.Star (RegExp.Class p)) w <-> allChars p w = true.
Proof.
  split.
  - intros H. remember (RegExp.Star (RegExp.Class p)) as star eqn:Hstar.
    induction H; try discriminate; [reflexivity|].
    inversion Hstar; subst.
    apply Matches_Class_inv in H as (c & -> & Hc). simpl.
    rewrite Hc. now apply IHMatches2.
  - induction w as [|c w IH]; simpl; intros H; [constructor|].
    apply andb_true_iff in H as [Hc Hw].
    change (String c w) with (String c "" ++ w).
    constructor; [now constructor | now apply IH].
Qed.

Lemma Matches_Plus_Class p w :
  Matches (RegExp.Plus (RegExp.Class p)) w <-> w <> "" /\ allChars p w = true.
Proof.
  unfold RegExp.Plus. split.
  - intros H. apply Matches_Cat_inv in H as (u & v & -> & Hu & Hv).
    apply Matches_Class_inv in Hu as (c & -> & Hc).
    apply Matches_Star_Class in Hv. simpl. rewrite Hc, Hv.
    split; [discriminate | reflexivity].
  - intros [Hne Hall]. destruct w as [|c w]; [contradiction|].
    simpl in Hall. apply andb_true_iff in Hall as [Hc Hw].
    change (String c w) with (String c "" ++ w).
    constructor; [now constructor | now apply Matches_Star_Class].
Qed.

Lemma Matches_char c w :
  Matches (RegExp.Class (Ascii.eqb c)) w <-> w = String c "".
Proof.
  split.
  - intros H. apply Matches_Class_inv in H as (c' & -> & Hc).
    apply Ascii.eqb_eq in Hc. now subst.
  - intros ->. constructor. apply Ascii.eqb_refl.
Qed.

(** The words of the pattern of [validateUser]. *)
Lemma emailPattern_spec s :
  RegExp.test Validation.emailPattern s = true <-> emailForm s.
Proof.
  rewrite test_Matches. unfold Validation.emailPattern, emailForm, plainWord.
  split.
  - intros H.
    apply Matches_Cat_inv in H as (a & w1 & -> & Ha & H).
    apply Matches_Cat_inv in H as (x & w2 & -> & Hx & H).
    apply Matches_Cat_inv in H as (b & w3 & -> & Hb & H).
    apply Matches_Cat_inv in H as (y & c & -> & Hy & Hc).
    apply Matches_char in Hx, Hy. subst.
    apply Matches_Plus_Class in Ha, Hb, Hc.
    exists a, b, c. auto.
  - intros (a & b & c & -> & Ha & Hb & Hc).
    apply Matches_Plus_Class in Ha, Hb, Hc.
    repeat (constructor; auto); now apply Matches_char.
Qed.

(** ** The validator *)

Lemma requiredString_accepts v f required notString :
  Validation.requiredString v f required notString = [] <-> nonEmptyString v.
Proof.
  unfold Validation.requiredString, nonEmptyString.
  destruct v; simpl; try (split; [discriminate | intros (s0 & [=] & _)]).
  - destruct b; simpl; split; try discriminate; intros (s & [=] & _).
  - destruct (n =? 0); simpl; split; try discriminate; intros (s & [=] & _).
  - destruct (String.eqb_spec s ""); simpl.
    + split; [discriminate | intros (s0 & [= <-] & Hne); contradiction].
    + split; [eauto | reflexivity].
Qed.

Lemma checkEmail_accepts v :
  Validation.checkEmail v = [] <-> exists s, v = VStr s /\ emailForm s.
Proof.
  unfold Validation.checkEmail.
  destruct v; simpl; try (split; [discriminate | intros (s0 & [=] & _)]).
  - destruct b; simpl; split; try discriminate; intros (s & [=] & _).
  - destruct (n =? 0); simpl; split; try discriminate; intros (s & [=] & _).
  - destruct (String.eqb_spec s "") as [->|Hne]; simpl.
    + split; [discriminate|]. intros (s0 & [= <-] & Hform).
      apply emailPattern_spec in Hform. discriminate.
    + destruct (RegExp.test Validation.emailPattern s) eqn:E; simpl.
      * split; [|reflexivity]. intros _. exists s. split; [reflexivity|].
        now apply emailPattern_spec.
      * split; [discriminate|]. intros (s0 & [= <-] & Hform).
        apply emailPattern_spec in Hform. congruence.
Qed.

Lemma checkTags_accepts v : Validation.checkTags v = [] <-> acceptableTags v.
Proof.
  unfold Validation.checkTags, acceptableTags.
  destruct v; simpl; try (split; [auto | reflexivity]).
  - destruct b; simpl; split; auto; try discriminate.
    intros [H|H]; discriminate.
  - destruct (n =? 0); simpl; split; auto; try discriminate.
    intros [H|H]; discriminate.
  - destruct (String.eqb s ""); simpl; split; auto; try discriminate.
    intros [H|H]; discriminate.
Qed.

(** X6.  [validateUser] reports no error exactly when [username] is a
    non-empty string, [email] is a string of the form
    [local@domain.tld] whose three parts are non-empty and hold neither
    white space nor [@], and [tags] is falsy or an object. *)
Theorem validateUser_accepts (user : Obj) :
  Validation.validateUser user = []
  <-> nonEmptyString (prop user "username")
      /\ (exists email, prop user "email" = VStr email /\ emailForm email)
      /\ acceptableTags (prop user "tags").
Proof.
  unfold Validation.validateUser.
  rewrite <- requiredString_accepts, <- checkEmail_accepts, <- checkTags_accepts.
  split.
  - intros H. apply app_eq_nil in H as [H1 H]. apply app_eq_nil in H as [H2 H3].
    eauto.
  - intros (H1 & H2 & H3). rewrite H1, H2, H3. reflexivity.
Qed.

(** X7.  [validateRole] reports no error exactly when [name] is a
    non-empty string, [description] is falsy or a string, and [tags] is falsy or
    an object. *)
Theorem validateRole_accepts (role : Obj) :
  Validation.validateRole role = []
  <-> nonEmptyString (prop role "name")
      /\ (Validation.truthy (prop role "description") = false
          \/ exists s, prop role "description" = VStr s)
      /\ acceptableTags (prop role "tags").
Proof.
  unfold Validation.validateRole.
  rewrite <- requiredString_accepts, <- checkTags_accepts.
  assert (Hd : (if Validation.truthy (prop role "description")
                   && negb (String.eqb
                              (Validation.typeof (prop role "description"))
                              "string")
                then [Validation.error "description" "Description must be a string"]
                else []) = []
               <-> Validation.truthy (prop role "description") = false
                   \/ exists s, prop role "description" = VStr s).
  { destruct (prop role "description") as [| |b|n|s|d|t]; simpl.
    - split; [auto | reflexivity].
    - split; [auto | reflexivity].
    - destruct b; simpl; split; auto; try discriminate.
      intros [H|[s [=]]]; discriminate.
    - destruct (n =? 0); simpl; split; auto; try discriminate.
      intros [H|[s [=]]]; discriminate.
    - rewrite andb_false_r. split; [eauto | reflexivity].
    - split; [discriminate | intros [H|[s [=]]]; discriminate].
    - split; [discriminate | intros [H|[s [=]]]; discriminate]. }
  rewrite <- Hd. cbv zeta. split.
  - intros H. apply app_eq_nil in H as [H1 H]. apply app_eq_nil in H as [H2 H3].
    eauto.
  - intros (H1 & H2 & H3). rewrite H1, H2, H3. reflexivity.
Qed.

(** ** Identifiers *)

Lemma validateId_accepts id : Validation.validateId id = None <-> id <> "".
Proof.
  unfold Validation.validateId.
  destruct (String.eqb_spec id ""); split; congruence.
Qed.

(** Decimal digits. *)
Lemma digits_string_of_uint (d : Decimal.uint) :
  noHyphen (NilEmpty.string_of_uint d) = true
  /\ noColon (NilEmpty.string_of_uint d) = true.
Proof. induction d; simpl; auto. Qed.

Lemma digits_NilZero (d : Decimal.uint) :
  noHyphen (NilZero.string_of_uint d) = true
  /\ noColon (NilZero.string_of_uint d) = true
  /\ NilZero.string_of_uint d <> "".
Proof.
  destruct (digits_string_of_uint d) as [Hh Hc].
  destruct d; simpl in *; repeat split; auto; discriminate.
Qed.

Lemma Number_toString_shape (n : Z) :
  noColon (Number_toString n) = true /\ Number_toString n <> "".
Proof.
  unfold Number_toString.
  destruct (Z.to_int n) as [d|d]; simpl;
    destruct (digits_NilZero d) as (_ & Hc & Hne); auto.
  split; [exact Hc | discriminate].
Qed.

Lemma Number_toString_noHyphen (n : Z) :
  0 <= n -> noHyphen (Number_toString n) = true.
Proof.
  intros Hn. unfold Number_toString.
  destruct n as [|p|p]; simpl; [reflexivity| |lia].
  apply digits_NilZero.
Qed.

Lemma Number_toString_inj (n m : Z) :
  Number_toString n = Number_toString m -> n = m.
Proof.
  unfold Number_toString. intros H. apply to_int_inj.
  assert (Hok : forall z, NilZero.int_of_string
                            (NilZero.string_of_int (Z.to_int z))
                          = Some (Z.to_int z)).
  { intros z. apply NilZero.isi; destruct z; simpl; try discriminate;
      intros [= Hnil]; now apply Unsigned.to_uint_nonnil in Hnil. }
  pose proof (Hok n) as Hn. rewrite H, Hok in Hn. congruence.
Qed.

Lemma noColon_app (s t : string) :
  noColon (s ++ t) = noColon s && noColon t.
Proof.
  induction s as [|c s IH]; simpl; [reflexivity|].
  now rewrite IH, andb_assoc.
Qed.

Lemma noHyphen_after_hyphen (s t : string) :
  noHyphen (s ++ String "-" t) = false.
Proof.
  induction s as [|c s IH]; simpl; [reflexivity|].
  rewrite IH. apply andb_false_r.
Qed.

(** What follows the last hyphen of a string is determined by the string. *)
Lemma last_field_inj (a a' c c' : string) :
  noHyphen c = true -> noHyphen c' = true ->
  a ++ "-" ++ c = a' ++ "-" ++ c' -> c = c'.
Proof.
  intros Hc Hc'. revert a'.
  induction a as [|x a IH]; intros [|y a'] H; simpl in H.
  - now injection H.
  - injection H as _ H. rewrite H in Hc.
    now rewrite noHyphen_after_hyphen in Hc.
  - injection H as _ H. rewrite <- H in Hc'.
    now rewrite noHyphen_after_hyphen in Hc'.
  - injection H as _ H. now apply IH in H.
Qed.

Lemma numbered_inj (k k' : Z) (id : string) :
  0 <= k -> 0 <= k' -> numbered k id -> numbered k' id -> k = k'.
Proof.
  intros Hk Hk' [a ->] [a' H].
  apply Number_toString_inj.
  apply (@last_field_inj a a'); auto using Number_toString_noHyphen.
Qed.

Lemma generate_run (timestamp random : Z) (counter : IdGenerator.State) :
  IdGenerator.generate timestamp random counter
  = (Ok (Number_toString timestamp ++ "-" ++ Number_toString random ++ "-"
         ++ Number_toString (counter + 1)),
     counter + 1).
Proof. reflexivity. Qed.

Lemma generated_numbered (timestamp random k : Z) :
  numbered k (Number_toString timestamp ++ "-" ++ Number_toString random ++ "-"
              ++ Number_toString k).
Proof.
  exists (Number_toString timestamp ++ "-" ++ Number_toString random).
  now rewrite !append_assoc.
Qed.

Lemma generateAll_run (inputs : list (Z * Z)) (counter : Z) :
  exists ids,
    generateAll inputs counter
    = (Ok ids, counter + Z.of_nat (List.length inputs))
    /\ List.length ids = List.length inputs
    /\ forall id, In id ids ->
         (exists k, counter < k /\ numbered k id)
         /\ Validation.validateId id = None
         /\ noColon id = true.
Proof.
  revert counter. induction inputs as [|[timestamp random] rest IH]; intros counter.
  - exists []. simpl. unfold ret. rewrite Z.add_0_r.
    split; [reflexivity | split; [reflexivity | intros id []]].
  - destruct (IH (counter + 1)) as (ids & Hrun & Hlen & Hids).
    eexists. cbn [generateAll]. unfold bind at 1. rewrite generate_run.
    unfold bind at 1. rewrite Hrun. unfold ret.
    split; [|split].
    + f_equal. rewrite length_cons. lia.
    + simpl. now rewrite Hlen.
    + intros id [<-|Hin].
      * split; [|split].
        -- exists (counter + 1). split; [lia | apply generated_numbered].
        -- apply validateId_accepts.
           destruct (Number_toString_shape timestamp) as [_ Hne].
           destruct (Number_toString timestamp); [contradiction | discriminate].
        -- rewrite !noColon_app.
           destruct (Number_toString_shape timestamp) as [-> _].
           destruct (Number_toString_shape random) as [-> _].
           destruct (Number_toString_shape (counter + 1)) as [-> _].
           reflexivity.
      * destruct (Hids id Hin) as ((k & Hk & Hnum) & Hrest).
        split; [|exact Hrest]. exists k. split; [lia | exact Hnum].
Qed.

(** X8.  Identifiers drawn from the generator, whatever the clock and
    the random numbers: while the counter stays a safe integer, they
    are pairwise distinct, none is empty (so that [validateId] accepts
    each of them) and none holds a colon. *)
Theorem generated_ids_are_distinct (counter : Z) (inputs : list (Z * Z)) :
  0 <= counter ->
  counter + Z.of_nat (List.length inputs) <= maxSafeInteger ->
  exists ids,
    generateAll inputs counter
    = (Ok ids, counter + Z.of_nat (List.length inputs))
    /\ List.length ids = List.length inputs
    /\ NoDup ids
    /\ forall id, In id ids ->
         Validation.validateId id = None /\ noColon id = true.
Proof.
  intros Hcounter _. revert counter Hcounter.
  induction inputs as [|[timestamp random] rest IH]; intros counter Hcounter.
  - exists []. simpl. unfold ret. rewrite Z.add_0_r.
    split; [reflexivity | split; [reflexivity | split; [constructor | intros id []]]].
  - destruct (IH (counter + 1)) as (ids & Hrun & Hlen & Hnd & Hids); [lia|].
    destruct (generateAll_run rest (counter + 1)) as (ids' & Hrun' & _ & Hnum).
    rewrite Hrun in Hrun'. injection Hrun' as <-.
    eexists. cbn [generateAll]. unfold bind at 1. rewrite generate_run.
    unfold bind at 1. rewrite Hrun. unfold ret.
    split; [|split; [|split]].
    + f_equal. rewrite length_cons. lia.
    + simpl. now rewrite Hlen.
    + constructor; [|exact Hnd].
      intros Hin. destruct (Hnum _ Hin) as ((k & Hk & Hnumbered) & _).
      assert (k = counter + 1); [|lia].
      eapply numbered_inj; eauto using generated_numbered; lia.
    + intros id [<-|Hin]; [|now apply Hids].
      destruct (generateAll_run [(timestamp, random)] counter)
        as (one & Hone & _ & Hshape).
      cbn [generateAll] in Hone. unfold bind at 1 in Hone.
      rewrite generate_run in Hone. simpl in Hone. unfold bind, ret in Hone.
      injection Hone as <-.
      apply Hshape. now left.
Qed.

Lemma generated_ids_are_distinct_witness :
  exists ids,
    generateAll [(1700000000000, 417); (1700000000000, 417)] 0 = (Ok ids, 2)
    /\ List.length ids = 2%nat
    /\ NoDup ids
    /\ forall id, In id ids ->
         Validation.validateId id = None /\ noColon id = true.
Proof.
  apply (@generated_ids_are_distinct 0 [(1700000000000, 417); (1700000000000, 417)]).
  - lia.
  - vm_compute. discriminate.
Defined.

(** ** Calls that throw *)

Lemma failIfAny_cases {S} errors (s : S) :
  (errors = [] /\ failIfAny errors s = (Ok tt, s))
  \/ (errors <> [] /\ exists e, failIfAny errors s = (Throw e, s)).
Proof.
  destruct errors; [left | right]; split; try discriminate; try reflexivity.
  eexists. reflexivity.
Qed.

Lemma failIfSome_cases {S} error (s : S) :
  (error = None /\ failIfSome error s = (Ok tt, s))
  \/ (error <> None /\ exists e, failIfSome error s = (Throw e, s)).
Proof.
  destruct error; [right | left]; split; try discriminate; try reflexivity.
  eexists. reflexivity.
Qed.

Lemma failIfEither_cases {S} e1 e2 (s : S) :
  (e1 = None /\ e2 = None /\ failIfEither e1 e2 s = (Ok tt, s))
  \/ ((e1 <> None \/ e2 <> None)
      /\ exists e, failIfEither e1 e2 s = (Throw e, s)).
Proof.
  destruct e1, e2; [right | right | right | left];
    repeat split; try reflexivity;
    try (eexists; reflexivity); try (left; discriminate); right; discriminate.
Qed.

(** Runs the checks that open a method. *)
Ltac checks :=
  repeat match goal with
         | |- context [failIfAny ?errors ?s] =>
             let H := fresh "Hcheck" in
             destruct (failIfAny_cases errors s) as [[? H]|[? [? H]]];
             rewrite H; clear H
         | |- context [failIfSome ?error ?s] =>
             let H := fresh "Hcheck" in
             destruct (failIfSome_cases error s) as [[? H]|[? [? H]]];
             rewrite H; clear H
         | |- context [failIfEither ?e1 ?e2 ?s] =>
             let H := fresh "Hcheck" in
             destruct (failIfEither_cases e1 e2 s) as [[? [? H]]|[? [? H]]];
             rewrite H; clear H
         end.

Ltac innermost x :=
  lazymatch x with
  | context [match ?y with _ => _ end] => innermost y
  | _ => destruct x eqn:?
  end.

(** Takes a method apart along the checks and tests it makes. *)
Ltac by_cases :=
  unfold FileSystemAdapter.saveUnlessInTransaction, FileSystemAdapter.saveData,
    FileSystemAdapter.writeFile,
    FileSystemAdapter._getUsers, FileSystemAdapter._getRoles,
    FileSystemAdapter._getUserRoles;
  unfold bind, gets, modify, ret, throw;
  repeat first
    [ progress checks
    | match goal with
      | |- context [match ?x with _ => _ end] => innermost x
      end ].


(** X9.  Every mutating operation of both adapters, and every
    transaction operation, whatever the validator and the disk: when a
    check of the operation throws, the adapter is as the call found it,
    for the checks come before the first change of the state.  The
    memory adapter throws in no other way.  The file-system adapter
    also throws when the disk refuses the write that ends the
    operation: the data are then as the call changed them. *)
Theorem failed_call_changes_nothing (V : Validator)
    (D : FileSystemAdapter.Disk) (c : Call) :
  atomic (perform StorageAdapter.memory c)
  /\ atomicUpToWrite (perform StorageAdapter.file c)
  /\ (accepting D -> atomic (perform StorageAdapter.file c))
  /\ atomic MemoryAdapter.beginTransaction
  /\ atomic MemoryAdapter.commit
  /\ atomic MemoryAdapter.rollback
  /\ atomic FileSystemAdapter.beginTransaction
  /\ atomicUpToWrite FileSystemAdapter.commit
  /\ (accepting D -> atomic FileSystemAdapter.commit)
  /\ atomic FileSystemAdapter.rollback.
Proof.
  repeat apply conj.
  - intros s. destruct c; simpl;
      unfold MemoryAdapter.createUser, MemoryAdapter.updateUser,
        MemoryAdapter.deleteUser, MemoryAdapter.createRole,
        MemoryAdapter.updateRole, MemoryAdapter.deleteRole,
        MemoryAdapter.assignRole, MemoryAdapter.removeRole;
      by_cases; eauto.
  - intros s. destruct c; simpl;
      unfold FileSystemAdapter.createUser, FileSystemAdapter.updateUser,
        FileSystemAdapter.deleteUser, FileSystemAdapter.createRole,
        FileSystemAdapter.updateRole, FileSystemAdapter.deleteRole,
        FileSystemAdapter.assignRole, FileSystemAdapter.removeRole;
      by_cases; eauto.
    all: right; right; do 2 eexists; split; [reflexivity|];
      unfold writeRefused; simpl; auto.
  - intros Haccept s. destruct c; simpl;
      unfold FileSystemAdapter.createUser, FileSystemAdapter.updateUser,
        FileSystemAdapter.deleteUser, FileSystemAdapter.createRole,
        FileSystemAdapter.updateRole, FileSystemAdapter.deleteRole,
        FileSystemAdapter.assignRole, FileSystemAdapter.removeRole;
      by_cases; eauto;
      match goal with
      | H : FileSystemAdapter.refuses _ _ _ = Some _ |- _ =>
          rewrite Haccept in H; discriminate H
      end.
  - intros s. unfold MemoryAdapter.beginTransaction; by_cases; eauto.
  - intros s. unfold MemoryAdapter.commit; by_cases; eauto.
  - intros s. unfold MemoryAdapter.rollback; by_cases; eauto.
  - intros s. unfold FileSystemAdapter.beginTransaction; by_cases; eauto.
  - intros s. unfold FileSystemAdapter.commit; by_cases; eauto.
    right; right; do 2 eexists; split; [reflexivity|].
    unfold writeRefused; simpl; auto.
  - intros Haccept s. unfold FileSystemAdapter.commit; by_cases; eauto.
    match goal with
    | H : FileSystemAdapter.refuses _ _ _ = Some _ |- _ =>
        rewrite Haccept in H; discriminate H
    end.
  - intros s. unfold FileSystemAdapter.rollback; by_cases; eauto.
Qed.

(** On a full disk [createUser] throws what the disk answers, and the
    user is in the data all the same; the data file is as it was. *)
Example refused_write_leaves_the_change :
  let st := threeUsersOnDisk in
  exists st',
    FileSystemAdapter.createUser (V := acceptAll) (D := fullDisk)
      alice "u4" 4000 st
    = (Throw "ENOSPC: no space left on device", st')
    /\ FileSystemAdapter.users (FileSystemAdapter.data st')
       = (FileSystemAdapter.users (FileSystemAdapter.data st)
          ++ [stamped alice "u4" 4000])%list
    /\ FileSystemAdapter.files st' = FileSystemAdapter.files st
    /\ synced st
    /\ ~ synced st'.
Proof.
  eexists. split; [vm_compute; reflexivity|].
  split; [reflexivity|]. split; [reflexivity|]. split; [reflexivity|].
  vm_compute. intros H. discriminate H.
Qed.

(** ** Writing the data file *)

Lemma filter_same_length {A} (p : A -> bool) (l : list A) :
  Nat.ltb (List.length (List.filter p l)) (List.length l) = false ->
  List.filter p l = l.
Proof.
  intros H. apply Nat.ltb_ge in H.
  induction l as [|x l IH]; simpl in *; [reflexivity|].
  pose proof (filter_length_le p l) as Hle.
  destruct (p x); simpl in *.
  - f_equal. apply IH. lia.
  - lia.
Qed.

Lemma settled_saved st d :
  FileSystemAdapter.inTransaction st = false ->
  settled {|
    FileSystemAdapter.dataDir := FileSystemAdapter.dataDir st;
    FileSystemAdapter.dataPath := FileSystemAdapter.dataPath st;
    FileSystemAdapter.data := d;
    FileSystemAdapter.inTransaction := FileSystemAdapter.inTransaction st;
    FileSystemAdapter.transactionData := FileSystemAdapter.transactionData st;
    FileSystemAdapter.files :=
      OMap.set (FileSystemAdapter.files st) (FileSystemAdapter.dataPath st)
               (FileSystemAdapter.jsonCopy d);
  |}.
Proof.
  intros Hin. split; [exact Hin|]. unfold synced. simpl. apply get_set_same.
Qed.

(** A call that returns leaves the data file up to date, whatever the
    disk; a call that throws leaves the state, or the disk refused the
    write. *)
Lemma file_call_settled {V : Validator} {D : FileSystemAdapter.Disk}
    (c : Call) st :
  settled st ->
  match perform StorageAdapter.file c st with
  | (Ok _, st') => settled st'
  | (Throw e, st') => st' = st \/ writeRefused e st st'
  end.
Proof.
  intros Hst. pose proof Hst as [Hin Hsync].
  destruct c; simpl;
    unfold FileSystemAdapter.createUser, FileSystemAdapter.updateUser,
      FileSystemAdapter.deleteUser, FileSystemAdapter.createRole,
      FileSystemAdapter.updateRole, FileSystemAdapter.deleteRole,
      FileSystemAdapter.assignRole, FileSystemAdapter.removeRole;
    by_cases; simpl in *; try exact Hst; try congruence;
    try (now apply settled_saved); try (now left);
    try (right; unfold writeRefused; simpl; now auto).
  (* removeRole when no association was removed *)
  rewrite Hin, andb_true_r in Heqb.
  apply filter_same_length in Heqb.
  unfold FileSystemAdapter.withData, FileSystemAdapter.withUserRoles.
  rewrite Heqb. destruct st as [? ? [] ? ? ?]; exact Hst.
Qed.

Lemma file_call_settled_accepting {V : Validator} {D : FileSystemAdapter.Disk}
    (c : Call) :
  accepting D -> preserves settled (perform StorageAdapter.file c).
Proof.
  intros Haccept st Hst. pose proof (file_call_settled c Hst) as H.
  destruct (perform StorageAdapter.file c st) as [[a|e] st']; simpl; [exact H|].
  destruct H as [->|[Hrefused _]]; [exact Hst|].
  rewrite Haccept in Hrefused. discriminate Hrefused.
Qed.

Lemma file_calls_settled {V : Validator} {D : FileSystemAdapter.Disk}
    (calls : list Call) st :
  accepting D -> settled st -> settled (performAll StorageAdapter.file calls st).
Proof.
  intros Haccept. revert st.
  induction calls as [|c calls IH]; intros st H; simpl; [exact H|].
  apply IH. now apply file_call_settled_accepting.
Qed.

(** X10.  Outside a transaction the file-system adapter writes through.
    When the data file holds the JSON of the data, then, whatever the
    disk, it still does after a mutating call that returns, and no
    transaction is open; a call that throws has left the adapter as it
    found it, unless the disk refused the write.  On a disk that accepts
    every write this holds after any sequence of mutating calls, whether
    they return or throw. *)
Theorem file_writes_through (V : Validator) (D : FileSystemAdapter.Disk)
    (calls : list Call) (st : FileSystemAdapter.State) :
  FileSystemAdapter.inTransaction st = false ->
  synced st ->
  (forall c,
     match perform StorageAdapter.file c st with
     | (Ok _, st') => synced st' /\ FileSystemAdapter.inTransaction st' = false
     | (Throw e, st') => st' = st \/ writeRefused e st st'
     end)
  /\ (accepting D ->
      let st' := performAll StorageAdapter.file calls st in
      synced st' /\ FileSystemAdapter.inTransaction st' = false).
Proof.
  intros Hin Hsync. split.
  - intros c. pose proof (@file_call_settled V D c st (conj Hin Hsync)) as H.
    destruct (perform StorageAdapter.file c st) as [[a|e] st']; [|exact H].
    destruct H; now split.
  - intros Haccept st'.
    destruct (@file_calls_settled V D calls st Haccept) as [Hin' Hsync'];
      [now split|].
    now split.
Qed.

Lemma file_writes_through_witness :
  let calls := [UpdateUser "u1" newEmail 5000; DeleteUser "u2";
                RemoveRole "u1" "r1"; DeleteUser ""] in
  let st' := performAll (StorageAdapter.file (V := acceptAll)) calls
                        threeUsersOnDisk in
  synced st' /\ FileSystemAdapter.inTransaction st' = false.
Proof.
  apply (@file_writes_through acceptAll FileSystemAdapter.reliable
           [UpdateUser "u1" newEmail 5000; DeleteUser "u2";
            RemoveRole "u1" "r1"; DeleteUser ""] threeUsersOnDisk).
  - reflexivity.
  - reflexivity.
  - intros path document fs. reflexivity.
Defined.

(** X11.  A transaction of the file-system adapter writes once: between
    [beginTransaction] and [commit] no call touches the files, whatever
    the disk.  When the disk accepts the write, [commit] succeeds, keeps
    the data, writes its JSON to the data file and closes the
    transaction.  When the disk refuses it, [commit] throws what the
    disk answers and the transaction stays open, with the data and the
    snapshot it had. *)
Theorem file_commit_writes_the_data (V : Validator)
    (D : FileSystemAdapter.Disk) (calls : list Call)
    (st : FileSystemAdapter.State) :
  FileSystemAdapter.inTransaction st = false ->
  let opened := stateAfter FileSystemAdapter.beginTransaction st in
  let worked := performAll StorageAdapter.file calls opened in
  FileSystemAdapter.files worked = FileSystemAdapter.files st
  /\ match FileSystemAdapter.refuses (FileSystemAdapter.dataPath st)
             (FileSystemAdapter.jsonCopy (FileSystemAdapter.data worked))
             (FileSystemAdapter.files st) with
     | None =>
         exists st',
           FileSystemAdapter.commit worked = (Ok tt, st')
           /\ FileSystemAdapter.data st' = FileSystemAdapter.data worked
           /\ FileSystemAdapter.files st'
              = OMap.set (FileSystemAdapter.files st) (FileSystemAdapter.dataPath st)
                  (FileSystemAdapter.jsonCopy (FileSystemAdapter.data worked))
           /\ synced st'
           /\ FileSystemAdapter.inTransaction st' = false
           /\ FileSystemAdapter.transactionData st' = None
     | Some (e, fs) =>
         exists st',
           FileSystemAdapter.commit worked = (Throw e, st')
           /\ FileSystemAdapter.data st' = FileSystemAdapter.data worked
           /\ FileSystemAdapter.files st' = fs
           /\ FileSystemAdapter.inTransaction st' = true
           /\ FileSystemAdapter.transactionData st'
              = Some (FileSystemAdapter.jsonCopy (FileSystemAdapter.data st))
     end.
Proof.
  intros Hin opened worked.
  assert (Hopen : snapshotKept st opened).
  { unfold opened, stateAfter, FileSystemAdapter.beginTransaction, bind, gets.
    rewrite Hin. simpl. unfold snapshotKept. simpl. repeat split. }
  pose proof (file_performAll_keeps_snapshot calls Hopen) as H.
  fold worked in H. destruct H as (Hin' & Htd & Hf & Hd & Hp).
  clearbody worked. clear opened Hopen.
  split; [exact Hf|].
  destruct (FileSystemAdapter.refuses (FileSystemAdapter.dataPath st)
              (FileSystemAdapter.jsonCopy (FileSystemAdapter.data worked))
              (FileSystemAdapter.files st)) as [[e fs]|] eqn:Hdisk;
    eexists; unfold FileSystemAdapter.commit, FileSystemAdapter.saveData,
      FileSystemAdapter.writeFile, bind, gets, modify;
    rewrite Hin'; simpl; rewrite Hf, Hp, Hdisk; simpl.
  - repeat split; auto.
  - split; [reflexivity|]. simpl. 
    repeat split. unfold synced. simpl. apply get_set_same.
Qed.

Lemma file_commit_writes_the_data_witness :
  let calls := [CreateRole admin "r1" 4000; AssignRole "u1" "r1" 5000] in
  let opened := stateAfter FileSystemAdapter.beginTransaction threeUsersOnDisk in
  let worked := performAll (StorageAdapter.file (V := acceptAll)) calls opened in
  FileSystemAdapter.files worked = FileSystemAdapter.files threeUsersOnDisk
  /\ exists st',
       FileSystemAdapter.commit worked = (Ok tt, st')
       /\ FileSystemAdapter.data st' = FileSystemAdapter.data worked
       /\ FileSystemAdapter.files st'
          = OMap.set (FileSystemAdapter.files threeUsersOnDisk)
              (FileSystemAdapter.dataPath threeUsersOnDisk)
              (FileSystemAdapter.jsonCopy (FileSystemAdapter.data worked))
       /\ synced st'
       /\ FileSystemAdapter.inTransaction st' = false
       /\ FileSystemAdapter.transactionData st' = None.
Proof.
  apply (@file_commit_writes_the_data acceptAll FileSystemAdapter.reliable
           [CreateRole admin "r1" 4000; AssignRole "u1" "r1" 5000]
           threeUsersOnDisk).
  reflexivity.
Defined.

(** On a full disk [commit] throws and the transaction stays open. *)
Example refused_commit_leaves_the_transaction_open :
  let opened := stateAfter FileSystemAdapter.beginTransaction threeUsersOnDisk in
  let worked :=
    performAll (StorageAdapter.file (V := acceptAll) (D := fullDisk))
               [CreateRole admin "r1" 4000] opened in
  FileSystemAdapter.commit (D := fullDisk) worked
  = (Throw "ENOSPC: no space left on device", worked)
  /\ FileSystemAdapter.inTransaction worked = true.
Proof. split; vm_compute; reflexivity. Qed.

(** ** Transactions, once more *)

Lemma memory_opened st :
  MemoryAdapter.inTransaction st = false ->
  liveKept st (stateAfter MemoryAdapter.beginTransaction st).
Proof.
  intros Hin.
  unfold stateAfter, MemoryAdapter.beginTransaction, bind, gets.
  rewrite Hin. simpl. unfold liveKept. simpl. repeat split; congruence.
Qed.

Lemma file_opened st :
  FileSystemAdapter.inTransaction st = false ->
  snapshotKept st (stateAfter FileSystemAdapter.beginTransaction st).
Proof.
  intros Hin.
  unfold stateAfter, FileSystemAdapter.beginTransaction, bind, gets.
  rewrite Hin. simpl. unfold snapshotKept. simpl. repeat split.
Qed.

(** X12.  In the memory adapter, [rollback] after [beginTransaction]
    and any sequence of mutating calls gives back the very state that
    [beginTransaction] found. *)
Theorem memory_rollback_discards_the_transaction (V : Validator)
    (st : MemoryAdapter.State) (calls : list Call) :
  MemoryAdapter.inTransaction st = false ->
  MemoryAdapter.transactionData st = None ->
  let opened := stateAfter MemoryAdapter.beginTransaction st in
  let worked := performAll StorageAdapter.memory calls opened in
  MemoryAdapter.rollback worked = (Ok tt, st).
Proof.
  intros Hin Htd opened worked.
  pose proof (memory_performAll_keeps_live calls (memory_opened st Hin)) as H.
  fold opened in H. fold worked in H.
  destruct H as (Hu & Hr & Hur & Hin' & Htd').
  unfold MemoryAdapter.rollback, bind, gets. rewrite Hin'.
  destruct (MemoryAdapter.transactionData worked); [|congruence].
  unfold modify. f_equal. destruct st; simpl in *. congruence.
Qed.

Lemma memory_rollback_discards_the_transaction_witness :
  let calls := [DeleteUser "u1"; CreateRole admin "r1" 4000;
                AssignRole "u2" "r1" 5000] in
  let opened := stateAfter MemoryAdapter.beginTransaction threeUsers in
  let worked := performAll (StorageAdapter.memory (V := acceptAll)) calls opened in
  MemoryAdapter.rollback worked = (Ok tt, threeUsers).
Proof.
  apply (@memory_rollback_discards_the_transaction acceptAll threeUsers
           [DeleteUser "u1"; CreateRole admin "r1" 4000;
            AssignRole "u2" "r1" 5000]); reflexivity.
Defined.

(** X13.  In the memory adapter, [commit] after [beginTransaction] and
    any sequence of mutating calls succeeds, closes the transaction,
    and leaves as the live maps what the transaction showed: every read
    finds afterwards what it found just before the commit. *)
Theorem memory_commit_keeps_the_transaction (V : Validator)
    (st : MemoryAdapter.State) (calls : list Call) :
  MemoryAdapter.inTransaction st = false ->
  let opened := stateAfter MemoryAdapter.beginTransaction st in
  let worked := performAll StorageAdapter.memory calls opened in
  exists st',
    MemoryAdapter.commit worked = (Ok tt, st')
    /\ MemoryAdapter.inTransaction st' = false
    /\ MemoryAdapter.transactionData st' = None
    /\ shown st' = shown worked
    /\ (MemoryAdapter.users st', MemoryAdapter.roles st',
        MemoryAdapter.userRoles st') = shown worked.
Proof.
  intros Hin opened worked.
  pose proof (memory_performAll_keeps_live calls (memory_opened st Hin)) as H.
  fold opened in H. fold worked in H.
  destruct H as (Hu & Hr & Hur & Hin' & Htd').
  clearbody worked. clear opened.
  unfold MemoryAdapter.commit, bind, gets, shown, MemoryAdapter.getUserMap,
    MemoryAdapter.getRoleMap, MemoryAdapter.getUserRoleMap.
  rewrite Hin'.
  destruct (MemoryAdapter.transactionData worked) as [td|]; [|congruence].
  eexists. split; [reflexivity|]. simpl. repeat split.
Qed.

Lemma memory_commit_keeps_the_transaction_witness :
  let calls := [DeleteUser "u1"; CreateRole admin "r1" 4000;
                AssignRole "u2" "r1" 5000] in
  let opened := stateAfter MemoryAdapter.beginTransaction threeUsers in
  let worked := performAll (StorageAdapter.memory (V := acceptAll)) calls opened in
  exists st',
    MemoryAdapter.commit worked = (Ok tt, st')
    /\ MemoryAdapter.inTransaction st' = false
    /\ MemoryAdapter.transactionData st' = None
    /\ shown st' = shown worked
    /\ (MemoryAdapter.users st', MemoryAdapter.roles st',
        MemoryAdapter.userRoles st') = shown worked.
Proof.
  apply (@memory_commit_keeps_the_transaction acceptAll threeUsers
           [DeleteUser "u1"; CreateRole admin "r1" 4000;
            AssignRole "u2" "r1" 5000]); reflexivity.
Defined.

(** X14.  In the file-system adapter, [rollback] after
    [beginTransaction] and any sequence of mutating calls succeeds,
    writes nothing, closes the transaction, and installs as the data
    what [JSON.parse(JSON.stringify(...))] made of the data that
    [beginTransaction] found. *)
Theorem file_rollback_installs_the_json_copy (V : Validator)
    (st : FileSystemAdapter.State) (calls : list Call) :
  FileSystemAdapter.inTransaction st = false ->
  let opened := stateAfter FileSystemAdapter.beginTransaction st in
  let worked := performAll StorageAdapter.file calls opened in
  FileSystemAdapter.rollback worked
  = (Ok tt, restoredTo (FileSystemAdapter.jsonCopy (FileSystemAdapter.data st)) st).
Proof.
  intros Hin opened worked.
  pose proof (file_performAll_keeps_snapshot calls (file_opened st Hin)) as H.
  fold opened in H. fold worked in H. destruct H as (Hin' & Htd & Hf & Hd & Hp).
  unfold FileSystemAdapter.rollback, bind, gets. rewrite Hin', Htd.
  unfold modify, restoredTo. rewrite Hf, Hd, Hp. reflexivity.
Qed.

Lemma file_rollback_installs_the_json_copy_witness :
  let calls := [DeleteUser "u1"; CreateRole admin "r1" 4000;
                AssignRole "u2" "r1" 5000] in
  let opened := stateAfter FileSystemAdapter.beginTransaction threeUsersOnDisk in
  let worked := performAll (StorageAdapter.file (V := acceptAll)) calls opened in
  FileSystemAdapter.rollback worked
  = (Ok tt,
     restoredTo (FileSystemAdapter.jsonCopy (FileSystemAdapter.data threeUsersOnDisk))
                threeUsersOnDisk).
Proof.
  apply (@file_rollback_installs_the_json_copy acceptAll threeUsersOnDisk
           [DeleteUser "u1"; CreateRole admin "r1" 4000;
            AssignRole "u2" "r1" 5000]); reflexivity.
Defined.

(** X15.  Transactions do not nest and do not close twice, in either
    adapter: after [beginTransaction] and any sequence of mutating
    calls a second [beginTransaction] throws, and once the transaction
    is committed or rolled back a further [commit] or [rollback]
    throws; none of these failed calls changes the state. *)
Theorem transactions_do_not_nest (V : Validator) (calls : list Call)
    (st : MemoryAdapter.State) (fs : FileSystemAdapter.State) :
  MemoryAdapter.inTransaction st = false ->
  FileSystemAdapter.inTransaction fs = false ->
  let worked :=
    performAll StorageAdapter.memory calls
      (stateAfter MemoryAdapter.beginTransaction st) in
  let workedOnDisk :=
    performAll StorageAdapter.file calls
      (stateAfter FileSystemAdapter.beginTransaction fs) in
  MemoryAdapter.beginTransaction worked
    = (Throw "Transaction already in progress", worked)
  /\ FileSystemAdapter.beginTransaction workedOnDisk
     = (Throw "Transaction already in progress", workedOnDisk)
  /\ (forall close, In close [MemoryAdapter.commit; MemoryAdapter.rollback] ->
      forall again, In again [MemoryAdapter.commit; MemoryAdapter.rollback] ->
      exists closed,
        close worked = (Ok tt, closed)
        /\ again closed = (Throw "No transaction in progress", closed))
  /\ (forall close,
      In close [FileSystemAdapter.commit; FileSystemAdapter.rollback] ->
      forall again,
      In again [FileSystemAdapter.commit; FileSystemAdapter.rollback] ->
      exists closed,
        close workedOnDisk = (Ok tt, closed)
        /\ again closed = (Throw "No transaction in progress", closed)).
Proof.
  intros Hin Hfin worked workedOnDisk.
  pose proof (memory_performAll_keeps_live calls (memory_opened st Hin)) as H.
  fold worked in H. destruct H as (_ & _ & _ & Hin' & Htd').
  pose proof (file_performAll_keeps_snapshot calls (file_opened fs Hfin)) as H.
  fold workedOnDisk in H. destruct H as (Hfin' & Hftd & _).
  clearbody worked workedOnDisk.
  split; [|split; [|split]].
  - unfold MemoryAdapter.beginTransaction, bind, gets. now rewrite Hin'.
  - unfold FileSystemAdapter.beginTransaction, bind, gets. now rewrite Hfin'.
  - destruct (MemoryAdapter.transactionData worked) as [td|] eqn:Htd;
      [|congruence].
    intros close [<-|[<-|[]]] again [<-|[<-|[]]];
      unfold MemoryAdapter.commit, MemoryAdapter.rollback, bind, gets, modify;
      rewrite Hin', Htd; eexists; (split; [reflexivity|]); reflexivity.
  - intros close [<-|[<-|[]]] again [<-|[<-|[]]];
      unfold FileSystemAdapter.commit, FileSystemAdapter.rollback,
        FileSystemAdapter.saveData, bind, gets, modify;
      rewrite Hfin', ?Hftd; eexists; (split; [reflexivity|]); reflexivity.
Qed.

Lemma transactions_do_not_nest_witness :
  let calls := [DeleteUser "u1"; CreateRole admin "r1" 4000] in
  let worked :=
    performAll (StorageAdapter.memory (V := acceptAll)) calls
      (stateAfter MemoryAdapter.beginTransaction threeUsers) in
  MemoryAdapter.beginTransaction worked
  = (Throw "Transaction already in progress", worked).
Proof.
  exact (proj1 (@transactions_do_not_nest acceptAll
                  [DeleteUser "u1"; CreateRole admin "r1" 4000]
                  threeUsers threeUsersOnDisk eq_refl eq_refl)).
Defined.

(** ** Records created, updated and deleted *)

Lemma get_absent_keys {V} (m : OMap.t V) k :
  ~ In k (OMap.keys m) -> OMap.get m k = None.
Proof.
  induction m as [|[k' v'] m IH]; simpl; intros H; [reflexivity|].
  destruct (String.eqb_spec k' k) as [->|Hk]; [tauto|].
  apply IH. tauto.
Qed.

Lemma get_spread_present {V} (a b : OMap.t V) k v :
  NoDup (OMap.keys b) ->
  OMap.get b k = Some v -> OMap.get (OMap.spread a b) k = Some v.
Proof.
  unfold OMap.spread. revert a.
  induction b as [|[k' v'] b IH]; intros a Hnd H; simpl in *; [discriminate|].
  inversion Hnd as [|? ? Hnotin Hnd']; subst.
  destruct (String.eqb_spec k' k) as [->|Hk].
  - injection H as ->.
    pose proof (@get_spread_absent _ (OMap.set a k v) b k
                  (get_absent_keys b k Hnotin)) as Habs.
    unfold OMap.spread in Habs. rewrite Habs. apply get_set_same.
  - now apply IH.
Qed.

Lemma delete_absent {V} (m : OMap.t V) k :
  OMap.get m k = None -> OMap.delete m k = m.
Proof.
  induction m as [|[k' v'] m IH]; simpl; intros H; [reflexivity|].
  destruct (String.eqb_spec k' k) as [->|Hk]; [discriminate|].
  simpl. f_equal. now apply IH.
Qed.

Lemma delete_set_absent {V} (m : OMap.t V) k v :
  OMap.get m k = None -> OMap.delete (OMap.set m k v) k = m.
Proof.
  induction m as [|[k' v'] m IH]; simpl; intros H.
  - now rewrite String.eqb_refl.
  - destruct (String.eqb_spec k' k) as [->|Hk]; [discriminate|].
    simpl. destruct (String.eqb_spec k' k); [contradiction|].
    simpl. f_equal. now apply IH.
Qed.

(** The record literals. *)
Lemma stamped_props data id now :
  prop (stamped data id now) "id" = VStr id
  /\ prop (stamped data id now) "createdAt" = VDate now
  /\ prop (stamped data id now) "updatedAt" = VDate now
  /\ forall k,
       k <> "id" -> k <> "createdAt" -> k <> "updatedAt" ->
       prop (stamped data id now) k = prop data k.
Proof.
  unfold stamped, prop. repeat apply conj.
  - rewrite !get_set_other by discriminate. now rewrite get_set_same.
  - rewrite get_set_other by discriminate. now rewrite get_set_same.
  - now rewrite get_set_same.
  - intros k H1 H2 H3. now rewrite !get_set_other by congruence.
Qed.

Lemma merged_props old data now :
  NoDup (OMap.keys data) ->
  prop (merged old data now) "updatedAt" = VDate now
  /\ (forall k v,
        k <> "updatedAt" -> OMap.get data k = Some v ->
        prop (merged old data now) k = v)
  /\ (forall k,
        k <> "updatedAt" -> OMap.get data k = None ->
        prop (merged old data now) k = prop old k).
Proof.
  intros Hnd. unfold merged, prop. repeat apply conj.
  - now rewrite get_set_same.
  - intros k v Hk Hget. rewrite get_set_other by congruence.
    now rewrite (@get_spread_present _ old data k v Hnd Hget).
  - intros k Hk Hget. rewrite get_set_other by congruence.
    now rewrite get_spread_absent.
Qed.

Lemma find_push_other id other data now records :
  other <> id ->
  find (FileSystemAdapter.hasId other) (records ++ [stamped data id now])%list
  = find (FileSystemAdapter.hasId other) records.
Proof.
  intros Hne. induction records as [|x xs IH]; simpl.
  - unfold FileSystemAdapter.hasId. rewrite prop_stamped_id. simpl.
    destruct (String.eqb_spec id other); [congruence | reflexivity].
  - destruct (FileSystemAdapter.hasId other x); [reflexivity | exact IH].
Qed.

Lemma memory_created {V : Validator} data id now st
    (create : Obj -> string -> Z -> M MemoryAdapter.State Obj)
    (getById : string -> M MemoryAdapter.State (option Obj))
    (validate : Obj -> list ValidationError)
    (getMap : MemoryAdapter.State -> OMap.t Obj)
    (onMap : (OMap.t Obj -> OMap.t Obj) -> MemoryAdapter.State
             -> MemoryAdapter.State) :
  (forall f s, getMap (onMap f s) = f (getMap s)) ->
  (forall d i n,
     create d i n
     = (failIfAny (validate d) ;;
        modify (onMap (fun m => OMap.set m i (stamped d i n))) ;;
        ret (stamped d i n))) ->
  (forall i,
     getById i
     = (failIfSome (validateId i) ;; m <- gets getMap ;; ret (OMap.get m i))) ->
  validate data = [] -> validateId id = None ->
  createsAndFinds create getById data id now st.
Proof.
  intros Hmap Hcreate Hget Hvalid Hid.
  eexists. rewrite Hcreate, !Hget. unfold outcome.
  split; [|split].
  - run. rewrite Hvalid. reflexivity.
  - run. rewrite Hid. simpl. rewrite Hmap, get_set_same. reflexivity.
  - intros other Hne. rewrite Hget. run.
    destruct (validateId other); simpl; [reflexivity|].
    rewrite Hmap, get_set_other by congruence. reflexivity.
Qed.

Lemma file_created {V : Validator} data id now fs
    (create : Obj -> string -> Z -> M FileSystemAdapter.State Obj)
    (getById : string -> M FileSystemAdapter.State (option Obj))
    (validate : Obj -> list ValidationError)
    (get : FileSystemAdapter.FileSystemData -> list Obj)
    (withRecords : (list Obj -> list Obj) -> FileSystemAdapter.FileSystemData
                   -> FileSystemAdapter.FileSystemData) :
  (forall f d, get (withRecords f d) = f (get d)) ->
  (forall d i n,
     create d i n
     = (failIfAny (validate d) ;;
        modify (FileSystemAdapter.withData
                  (withRecords (fun rs => (rs ++ [stamped d i n])%list))) ;;
        FileSystemAdapter.saveUnlessInTransaction ;;
        ret (stamped d i n))) ->
  (forall i,
     getById i
     = (failIfSome (validateId i) ;;
        rs <- gets (fun st => get (FileSystemAdapter.data st)) ;;
        ret (find (FileSystemAdapter.hasId i) rs))) ->
  validate data = [] -> validateId id = None ->
  existsb (FileSystemAdapter.hasId id) (get (FileSystemAdapter.data fs)) = false ->
  createsAndFinds create getById data id now fs.
Proof.
  intros Hget Hcreate HgetById Hvalid Hid Hfresh.
  exists (stateAfter (create data id now) fs).
  rewrite Hcreate, !HgetById. unfold outcome, stateAfter.
  split; [|split].
  - run. rewrite Hvalid. simpl.
    destruct (FileSystemAdapter.inTransaction fs); reflexivity.
  - run. rewrite Hvalid, Hid. simpl.
    destruct (FileSystemAdapter.inTransaction fs); simpl;
      (rewrite Hget, find_push;
       [reflexivity | now apply find_none_existsb
       | apply hasId_true, prop_stamped_id]).
  - intros other Hne. rewrite HgetById. run. rewrite Hvalid.
    destruct (validateId other); simpl; [reflexivity|].
    destruct (FileSystemAdapter.inTransaction fs); simpl;
      now rewrite Hget, find_push_other.
Qed.

(** X16.  A created record is found: in both adapters, [createUser]
    and [createRole] of data that pass validation return the data with
    the drawn [id] and the time of the call as [createdAt] and
    [updatedAt]; [getUserById] and [getRoleById] then find that record
    under its [id] and find under every other identifier what they
    found before.  In the file-system adapter the drawn identifier has
    to be one that no stored record of the kind carries. *)
Theorem created_record_is_found (V : Validator) (userData roleData : Obj)
    (id : string) (now : Z)
    (st : MemoryAdapter.State) (fs : FileSystemAdapter.State) :
  validateUser userData = [] ->
  validateRole roleData = [] ->
  validateId id = None ->
  existsb (FileSystemAdapter.hasId id)
          (FileSystemAdapter.users (FileSystemAdapter.data fs)) = false ->
  existsb (FileSystemAdapter.hasId id)
          (FileSystemAdapter.roles (FileSystemAdapter.data fs)) = false ->
  createsAndFinds MemoryAdapter.createUser MemoryAdapter.getUserById
    userData id now st
  /\ createsAndFinds MemoryAdapter.createRole MemoryAdapter.getRoleById
       roleData id now st
  /\ createsAndFinds FileSystemAdapter.createUser FileSystemAdapter.getUserById
       userData id now fs
  /\ createsAndFinds FileSystemAdapter.createRole FileSystemAdapter.getRoleById
       roleData id now fs
  /\ (forall data,
        prop (stamped data id now) "id" = VStr id
        /\ prop (stamped data id now) "createdAt" = VDate now
        /\ prop (stamped data id now) "updatedAt" = VDate now
        /\ forall k,
             k <> "id" -> k <> "createdAt" -> k <> "updatedAt" ->
             prop (stamped data id now) k = prop data k).
Proof.
  intros Huser Hrole Hid Hfresh Hfresh'.
  split; [|split; [|split; [|split]]].
  - eapply memory_created with (validate := validateUser)
      (getMap := MemoryAdapter.getUserMap) (onMap := MemoryAdapter.onUserMap);
      auto using getUserMap_onUserMap.
  - eapply memory_created with (validate := validateRole)
      (getMap := MemoryAdapter.getRoleMap) (onMap := MemoryAdapter.onRoleMap);
      auto using getRoleMap_onRoleMap.
  - eapply file_created with (validate := validateUser)
      (get := FileSystemAdapter.users)
      (withRecords := FileSystemAdapter.withUsers); auto.
  - eapply file_created with (validate := validateRole)
      (get := FileSystemAdapter.roles)
      (withRecords := FileSystemAdapter.withRoles); auto.
  - intros data. apply stamped_props.
Qed.

Lemma created_record_is_found_witness :
  createsAndFinds (MemoryAdapter.createUser (V := Validation.checks))
    (MemoryAdapter.getUserById (V := Validation.checks))
    alice "u4" 6000 threeUsers
  /\ createsAndFinds (FileSystemAdapter.createRole (V := Validation.checks))
       (FileSystemAdapter.getRoleById (V := Validation.checks))
       admin "u4" 6000 threeUsersOnDisk.
Proof.
  destruct (@created_record_is_found Validation.checks alice admin "u4" 6000
              threeUsers threeUsersOnDisk)
    as (Hu & _ & _ & Hr & _); try reflexivity.
  split; [exact Hu | exact Hr].
Defined.

(** X17.  An update merges: in both adapters, [updateUser] and
    [updateRole] of a stored record, with a payload that names each
    property once and a merge that passes validation, return a record
    whose [updatedAt] is the time of the call, that has every property
    of the payload and every other property as the stored record has
    it; [createdAt] among them, unless the payload gives one.  The
    memory adapter validates the merge before it sets [updatedAt], the
    file-system adapter after. *)
Theorem update_merges_the_payload (V : Validator) (id : string)
    (data old : Obj) (now : Z) :
  validateId id = None ->
  NoDup (OMap.keys data) ->
  (forall st,
     MemoryAdapter.getUserById id st = (Ok (Some old), st) ->
     validateUser (OMap.spread old data) = [] ->
     mergesInto MemoryAdapter.updateUser id data old now st)
  /\ (forall st,
        MemoryAdapter.getRoleById id st = (Ok (Some old), st) ->
        validateRole (OMap.spread old data) = [] ->
        mergesInto MemoryAdapter.updateRole id data old now st)
  /\ (forall fs,
        FileSystemAdapter.getUserById id fs = (Ok (Some old), fs) ->
        validateUser (merged old data now) = [] ->
        mergesInto FileSystemAdapter.updateUser id data old now fs)
  /\ (forall fs,
        FileSystemAdapter.getRoleById id fs = (Ok (Some old), fs) ->
        validateRole (merged old data now) = [] ->
        mergesInto FileSystemAdapter.updateRole id data old now fs).
Proof.
  intros Hid Hnd.
  pose proof (@merged_props old data now Hnd) as Hprops.
  split; [|split; [|split]].
  - intros st Hget Hvalid.
    unfold MemoryAdapter.getUserById in Hget. revert Hget. run.
    rewrite Hid. simpl. intros [= Hget].
    exists (merged old data now). eexists. split; [|exact Hprops].
    unfold MemoryAdapter.updateUser. run. rewrite Hid. simpl.
    rewrite Hget. simpl. rewrite Hvalid. reflexivity.
  - intros st Hget Hvalid.
    unfold MemoryAdapter.getRoleById in Hget. revert Hget. run.
    rewrite Hid. simpl. intros [= Hget].
    exists (merged old data now). eexists. split; [|exact Hprops].
    unfold MemoryAdapter.updateRole. run. rewrite Hid. simpl.
    rewrite Hget. simpl. rewrite Hvalid. reflexivity.
  - intros fs Hget Hvalid.
    unfold FileSystemAdapter.getUserById in Hget. revert Hget. run.
    rewrite Hid. simpl. intros [= Hget].
    destruct (find_findIndex _ _ Hget) as (i & Hi & Hnth).
    exists (merged old data now),
      (stateAfter (FileSystemAdapter.updateUser id data now) fs).
    split; [|exact Hprops].
    unfold stateAfter, FileSystemAdapter.updateUser. run. rewrite Hid. simpl.
    rewrite Hi. simpl. rewrite (Hnth []), Hvalid. simpl.
    destruct (FileSystemAdapter.inTransaction fs); reflexivity.
  - intros fs Hget Hvalid.
    unfold FileSystemAdapter.getRoleById in Hget. revert Hget. run.
    rewrite Hid. simpl. intros [= Hget].
    destruct (find_findIndex _ _ Hget) as (i & Hi & Hnth).
    exists (merged old data now),
      (stateAfter (FileSystemAdapter.updateRole id data now) fs).
    split; [|exact Hprops].
    unfold stateAfter, FileSystemAdapter.updateRole. run. rewrite Hid. simpl.
    rewrite Hi. simpl. rewrite (Hnth []), Hvalid. simpl.
    destruct (FileSystemAdapter.inTransaction fs); reflexivity.
Qed.

Lemma update_merges_the_payload_witness :
  mergesInto (MemoryAdapter.updateUser (V := Validation.checks))
    "u1" newEmail (stamped alice "u1" 1000) 5000 threeUsers
  /\ mergesInto (FileSystemAdapter.updateUser (V := Validation.checks))
       "u1" newEmail (stamped alice "u1" 1000) 5000 threeUsersOnDisk.
Proof.
  destruct (@update_merges_the_payload Validation.checks "u1" newEmail
              (stamped alice "u1" 1000) 5000)
    as (Hm & _ & Hf & _).
  - reflexivity.
  - repeat constructor; simpl; tauto.
  - split; [apply (Hm threeUsers) | apply (Hf threeUsersOnDisk)]; reflexivity.
Defined.

Lemma onUserMap_same st f :
  f (MemoryAdapter.getUserMap st) = MemoryAdapter.getUserMap st ->
  MemoryAdapter.onUserMap f st = st.
Proof.
  unfold MemoryAdapter.getUserMap, MemoryAdapter.onUserMap.
  destruct st as [us rs urs [] [[tu tr tur]|]]; simpl; intros ->; reflexivity.
Qed.

Lemma onRoleMap_same st f :
  f (MemoryAdapter.getRoleMap st) = MemoryAdapter.getRoleMap st ->
  MemoryAdapter.onRoleMap f st = st.
Proof.
  unfold MemoryAdapter.getRoleMap, MemoryAdapter.onRoleMap.
  destruct st as [us rs urs [] [[tu tr tur]|]]; simpl; intros ->; reflexivity.
Qed.

Lemma onUserRoleMap_same st f :
  f (MemoryAdapter.getUserRoleMap st) = MemoryAdapter.getUserRoleMap st ->
  MemoryAdapter.onUserRoleMap f st = st.
Proof.
  unfold MemoryAdapter.getUserRoleMap, MemoryAdapter.onUserRoleMap.
  destruct st as [us rs urs [] [[tu tr tur]|]]; simpl; intros ->; reflexivity.
Qed.

Lemma has_false_get {V} (m : OMap.t V) k :
  OMap.get m k = None -> OMap.has m k = false.
Proof. unfold OMap.has. now intros ->. Qed.

(** X18.  An identifier under which nothing is stored: in both
    adapters [updateUser] and [updateRole] return [null] and change
    nothing.  [deleteUser] and [deleteRole] return [false]; the
    file-system adapter then changes nothing and writes nothing, the
    memory adapter keeps its users and its roles. *)
Theorem unknown_id_changes_nothing (V : Validator) (id : string)
    (st : MemoryAdapter.State) (fs : FileSystemAdapter.State) :
  MemoryAdapter.getUserById id st = (Ok None, st) ->
  MemoryAdapter.getRoleById id st = (Ok None, st) ->
  FileSystemAdapter.getUserById id fs = (Ok None, fs) ->
  FileSystemAdapter.getRoleById id fs = (Ok None, fs) ->
  unknownIsIgnored MemoryAdapter.updateUser MemoryAdapter.deleteUser
    sameRecords id st
  /\ unknownIsIgnored MemoryAdapter.updateRole MemoryAdapter.deleteRole
       sameRecords id st
  /\ unknownIsIgnored FileSystemAdapter.updateUser FileSystemAdapter.deleteUser
       eq id fs
  /\ unknownIsIgnored FileSystemAdapter.updateRole FileSystemAdapter.deleteRole
       eq id fs.
Proof.
  unfold MemoryAdapter.getUserById, MemoryAdapter.getRoleById,
    FileSystemAdapter.getUserById, FileSystemAdapter.getRoleById. run.
  destruct (validateId id) eqn:Hid; simpl; [discriminate|].
  intros [= Hu] [= Hr] [= Hfu] [= Hfr].
  assert (Hiu : FileSystemAdapter.findIndex (FileSystemAdapter.hasId id)
                  (FileSystemAdapter.users (FileSystemAdapter.data fs)) = None).
  { apply findIndex_none.
    destruct (existsb _ _) eqn:E; [|reflexivity].
    apply find_existsb in E as [x Hx]. congruence. }
  assert (Hir : FileSystemAdapter.findIndex (FileSystemAdapter.hasId id)
                  (FileSystemAdapter.roles (FileSystemAdapter.data fs)) = None).
  { apply findIndex_none.
    destruct (existsb _ _) eqn:E; [|reflexivity].
    apply find_existsb in E as [x Hx]. congruence. }
  unfold unknownIsIgnored. split; [|split; [|split]]; split.
  - intros data now. unfold MemoryAdapter.updateUser. run.
    rewrite Hid. simpl. now rewrite Hu.
  - eexists. split.
    + unfold MemoryAdapter.deleteUser. run. rewrite Hid. simpl.
      rewrite getUserMap_onUserRoleMap, (has_false_get _ _ Hu). reflexivity.
    + split.
      * rewrite getUserMap_onUserMap, getUserMap_onUserRoleMap.
        now apply delete_absent.
      * now rewrite getRoleMap_onUserMap, getRoleMap_onUserRoleMap.
  - intros data now. unfold MemoryAdapter.updateRole. run.
    rewrite Hid. simpl. now rewrite Hr.
  - eexists. split.
    + unfold MemoryAdapter.deleteRole. run. rewrite Hid. simpl.
      rewrite getRoleMap_onUserRoleMap, (has_false_get _ _ Hr). reflexivity.
    + split.
      * now rewrite getUserMap_onRoleMap, getUserMap_onUserRoleMap.
      * rewrite getRoleMap_onRoleMap, getRoleMap_onUserRoleMap.
        now apply delete_absent.
  - intros data now. unfold FileSystemAdapter.updateUser. run.
    rewrite Hid. simpl. now rewrite Hiu.
  - exists fs. split; [|reflexivity].
    unfold FileSystemAdapter.deleteUser. run. rewrite Hid. simpl. now rewrite Hiu.
  - intros data now. unfold FileSystemAdapter.updateRole. run.
    rewrite Hid. simpl. now rewrite Hir.
  - exists fs. split; [|reflexivity].
    unfold FileSystemAdapter.deleteRole. run. rewrite Hid. simpl. now rewrite Hir.
Qed.

Lemma unknown_id_changes_nothing_witness :
  unknownIsIgnored (MemoryAdapter.updateUser (V := Validation.checks))
    (MemoryAdapter.deleteUser (V := Validation.checks)) sameRecords
    "u9" threeUsers
  /\ unknownIsIgnored (FileSystemAdapter.updateUser (V := Validation.checks))
       (FileSystemAdapter.deleteUser (V := Validation.checks)) eq
       "u9" threeUsersOnDisk.
Proof.
  destruct (@unknown_id_changes_nothing Validation.checks "u9"
              threeUsers threeUsersOnDisk eq_refl eq_refl eq_refl eq_refl)
    as (Hm & _ & Hf & _).
  split; [exact Hm | exact Hf].
Defined.

(** ** Associations removed *)

Lemma filter_none_found {A} (p : A -> bool) (xs : list A) :
  find p xs = None -> List.filter (fun x => negb (p x)) xs = xs.
Proof.
  induction xs as [|x xs IH]; simpl; [reflexivity|].
  destruct (p x); [discriminate|]. simpl. intros H. f_equal. now apply IH.
Qed.

Lemma filter_pushed {A} (p : A -> bool) (xs : list A) (x : A) :
  find p xs = None -> p x = true ->
  List.filter (fun y => negb (p y)) (xs ++ [x])%list = xs.
Proof.
  intros Hnone Hx. rewrite filter_app, filter_none_found by exact Hnone.
  simpl. rewrite Hx. simpl. apply app_nil_r.
Qed.

Lemma onUserRoleMap_twice f g st :
  MemoryAdapter.onUserRoleMap g (MemoryAdapter.onUserRoleMap f st)
  = MemoryAdapter.onUserRoleMap (fun m => g (f m)) st.
Proof.
  unfold MemoryAdapter.onUserRoleMap.
  destruct st as [us rs urs [] [[tu tr tur]|]]; reflexivity.
Qed.

Lemma file_removeRole_run {V : Validator} u r st :
  validateId u = None -> validateId r = None ->
  let kept :=
    List.filter (fun userRole => negb (FileSystemAdapter.links u r userRole))
      (FileSystemAdapter.userRoles (FileSystemAdapter.data st)) in
  exists st',
    FileSystemAdapter.removeRole u r st
    = (Ok (Nat.ltb (List.length kept)
                   (List.length (FileSystemAdapter.userRoles
                                   (FileSystemAdapter.data st)))), st')
    /\ FileSystemAdapter.data st'
       = FileSystemAdapter.withUserRoles
           (List.filter (fun userRole =>
              negb (FileSystemAdapter.links u r userRole)))
           (FileSystemAdapter.data st)
    /\ FileSystemAdapter.inTransaction st' = FileSystemAdapter.inTransaction st
    /\ FileSystemAdapter.transactionData st'
       = FileSystemAdapter.transactionData st
    /\ (kept = FileSystemAdapter.userRoles (FileSystemAdapter.data st) ->
        st' = st).
Proof.
  intros Hu Hr kept.
  exists (stateAfter (FileSystemAdapter.removeRole u r) st).
  unfold stateAfter, FileSystemAdapter.removeRole, failIfEither.
  rewrite Hu, Hr. unfold bind, gets, modify, ret,
    FileSystemAdapter.saveData.
  destruct st as [dir path [us rs urs] inTx td files]. simpl in *. fold kept.
  destruct (Nat.ltb _ _) eqn:Hlt; destruct inTx; simpl;
    (split; [reflexivity | split; [reflexivity | split; [reflexivity
      | split; [reflexivity | intros Hkept]]]]);
    try (rewrite Hkept, Nat.ltb_irrefl in Hlt; discriminate);
    unfold FileSystemAdapter.withData, FileSystemAdapter.withUserRoles;
    simpl; fold kept; rewrite Hkept; reflexivity.
Qed.

(** X19.  [removeRole] undoes [assignRole]: in both adapters, when
    the user and the role are found and the pair is not yet associated,
    [assignRole(u, r)] stores a new association, [removeRole(u, r)]
    then returns [true], and a [removeRole(u, r)] of a pair that is not
    associated returns [false] and changes nothing.  The memory adapter
    is back in the very state it started from; the file-system adapter
    has the data it started from. *)
Theorem removeRole_undoes_assignRole (V : Validator) (u r : string) (now : Z)
    (st : MemoryAdapter.State) (fs : FileSystemAdapter.State) :
  validateId u = None ->
  validateId r = None ->
  MemoryAdapter.userExists st u = true ->
  MemoryAdapter.roleExists st r = true ->
  OMap.get (MemoryAdapter.getUserRoleMap st) (u ++ ":" ++ r) = None ->
  existsb (FileSystemAdapter.hasId u)
          (FileSystemAdapter.users (FileSystemAdapter.data fs)) = true ->
  existsb (FileSystemAdapter.hasId r)
          (FileSystemAdapter.roles (FileSystemAdapter.data fs)) = true ->
  find (FileSystemAdapter.links u r)
       (FileSystemAdapter.userRoles (FileSystemAdapter.data fs)) = None ->
  undoes MemoryAdapter.assignRole MemoryAdapter.removeRole eq u r now st
  /\ undoes FileSystemAdapter.assignRole FileSystemAdapter.removeRole sameData
       u r now fs.
Proof.
  intros Hu Hr Hue Hre Hnone Hfu Hfr Hfnone. split.
  - exists (MemoryAdapter.onUserRoleMap
              (fun m => OMap.set m (u ++ ":" ++ r) (association u r now)) st),
           st.
    split; [|split; [|split]].
    + rewrite memory_assignRole_eq by assumption.
      rewrite Hue, Hre. cbn [negb orb]. now rewrite Hnone.
    + unfold MemoryAdapter.removeRole. unfold failIfEither. rewrite Hu, Hr.
      unfold bind, gets, modify, ret.
      rewrite getUserRoleMap_onUserRoleMap, onUserRoleMap_twice.
      unfold OMap.has. rewrite get_set_same. f_equal.
      apply onUserRoleMap_same. now apply delete_set_absent.
    + reflexivity.
    + unfold MemoryAdapter.removeRole. unfold failIfEither. rewrite Hu, Hr.
      unfold bind, gets, modify, ret.
      rewrite (has_false_get _ _ Hnone). f_equal.
      apply onUserRoleMap_same. now apply delete_absent.
  - assert (Hlink : FileSystemAdapter.links u r (association u r now) = true)
      by now apply links_association.
    set (st1 := stateAfter FileSystemAdapter.saveUnlessInTransaction
                  (FileSystemAdapter.withData
                     (FileSystemAdapter.withUserRoles
                        (fun urs => (urs ++ [association u r now])%list)) fs)).
    destruct (file_removeRole_run u r st1 Hu Hr)
      as (st2 & Hremove & Hdata2 & Hin2 & Htd2 & _).
    destruct (file_removeRole_run u r fs Hu Hr)
      as (fs' & Hremove' & Hdata' & Hin' & Htd' & Hsame').
    assert (Hdata1 : FileSystemAdapter.data st1
                     = FileSystemAdapter.withUserRoles
                         (fun urs => (urs ++ [association u r now])%list)
                         (FileSystemAdapter.data fs)).
    { unfold st1. now rewrite data_saveUnlessInTransaction. }
    assert (Hst1 : FileSystemAdapter.inTransaction st1
                   = FileSystemAdapter.inTransaction fs
                   /\ FileSystemAdapter.transactionData st1
                      = FileSystemAdapter.transactionData fs).
    { unfold st1, stateAfter. run.
      destruct (FileSystemAdapter.inTransaction fs) eqn:E; simpl; auto. }
    exists st1, st2. split; [|split; [|split]].
    + rewrite file_assignRole_eq by assumption.
      unfold FileSystemAdapter._getUsers, FileSystemAdapter._getRoles,
        FileSystemAdapter._getUserRoles.
      rewrite Hfu, Hfr, Hfnone. reflexivity.
    + rewrite Hremove. f_equal. f_equal. rewrite Hdata1. simpl.
      rewrite filter_pushed by assumption. rewrite length_app. simpl.
      apply Nat.ltb_lt. lia.
    + unfold sameData. rewrite Hdata2, Hdata1, Hin2, Htd2.
      destruct Hst1 as [-> ->]. repeat split.
      destruct (FileSystemAdapter.data fs) as [us rs urs]; simpl in *.
      unfold FileSystemAdapter.withUserRoles. simpl.
      now rewrite filter_pushed.
    + rewrite Hremove'. rewrite filter_none_found by assumption.
      rewrite Nat.ltb_irrefl. f_equal. apply Hsame'.
      now apply filter_none_found.
Qed.

Lemma removeRole_undoes_assignRole_witness :
  undoes (MemoryAdapter.assignRole (V := Validation.checks))
    (MemoryAdapter.removeRole (V := Validation.checks)) eq
    "u2" "r1" 7000 usersAndAdmin
  /\ undoes (FileSystemAdapter.assignRole (V := Validation.checks))
       (FileSystemAdapter.removeRole (V := Validation.checks)) sameData
       "u2" "r1" 7000 usersAndAdminOnDisk.
Proof.
  apply (@removeRole_undoes_assignRole Validation.checks "u2" "r1" 7000
           usersAndAdmin usersAndAdminOnDisk); reflexivity.
Defined.

(** ** The plugin manager *)

Lemma registerAdapter_get {C} (name : string) (adapter : C) st other :
  OMap.get (PluginManager.adapters
              (stateAfter (PluginManager.registerAdapter name adapter) st)) other
  = match OMap.get (PluginManager.adapters st) other with
    | Some a => Some a
    | None => if String.eqb name other then Some adapter else None
    end.
Proof.
  unfold stateAfter, PluginManager.registerAdapter, bind, gets, modify, throw,
    OMap.has.
  destruct (OMap.get (PluginManager.adapters st) name) eqn:Hname; simpl.
  - destruct (OMap.get (PluginManager.adapters st) other) eqn:Hother;
      [reflexivity|].
    destruct (String.eqb_spec name other); [congruence | reflexivity].
  - destruct (String.eqb_spec name other) as [->|Hne].
    + now rewrite get_set_same, Hname.
    + rewrite get_set_other by exact Hne.
      now destruct (OMap.get (PluginManager.adapters st) other).
Qed.

Lemma registerAll_get {C} (calls : list (string * C)) st name :
  OMap.get
    (PluginManager.adapters
       (fold_left
          (fun st call =>
             stateAfter (PluginManager.registerAdapter (fst call) (snd call)) st)
          calls st)) name
  = match OMap.get (PluginManager.adapters st) name with
    | Some a => Some a
    | None => firstRegistered calls name
    end.
Proof.
  revert st. induction calls as [|[k c] calls IH]; intros st; simpl.
  - now destruct (OMap.get (PluginManager.adapters st) name).
  - rewrite IH, registerAdapter_get. simpl.
    destruct (OMap.get (PluginManager.adapters st) name); [reflexivity|].
    now destruct (String.eqb k name).
Qed.

(** X20.  An adapter name is bound once.  On a new plugin manager and
    after any sequence of [registerAdapter] calls, [getAdapter] returns
    the built-in class for [memory] and for [file], for any other name
    the class of the first call that gave that name, and throws when no
    call gave it; a later registration of a name never replaces the
    class, and [getAdapter] changes nothing. *)
Theorem adapter_names_are_bound_once (C : Type) (memoryAdapter fileSystemAdapter : C)
    (calls : list (string * C)) (name : string) :
  let st := registerAll memoryAdapter fileSystemAdapter calls in
  PluginManager.getAdapter name st
  = match (if String.eqb name "memory" then Some memoryAdapter
           else if String.eqb name "file" then Some fileSystemAdapter
           else firstRegistered calls name) with
    | Some adapter => (Ok adapter, st)
    | None => (Throw ("Adapter " ++ quote ++ name ++ quote ++ " not found"), st)
    end.
Proof.
  intros st. unfold PluginManager.getAdapter, bind, gets.
  assert (Hbuilt : OMap.get (PluginManager.adapters
                               (PluginManager.create memoryAdapter
                                                     fileSystemAdapter)) name
                   = if String.eqb "memory" name then Some memoryAdapter
                     else if String.eqb "file" name then Some fileSystemAdapter
                     else None) by reflexivity.
  unfold st at 1 2 3. unfold registerAll at 1 2 3.
  rewrite registerAll_get, Hbuilt.
  rewrite (String.eqb_sym "memory" name), (String.eqb_sym "file" name).
  destruct (String.eqb name "memory"); [reflexivity|].
  destruct (String.eqb name "file"); [reflexivity|].
  destruct (firstRegistered calls name); reflexivity.
Qed.

Lemma named_create {C} (memoryAdapter fileSystemAdapter : C) :
  named (PluginManager.create memoryAdapter fileSystemAdapter).
Proof. split; constructor. Qed.

Lemma named_registerPlugin {C} (plugin : PluginManager.Plugin)
    (st : PluginManager.State C) :
  named st -> named (stateAfter (PluginManager.registerPlugin plugin) st).
Proof.
  intros [Hnd Hnames].
  unfold stateAfter, PluginManager.registerPlugin, bind, gets, modify, throw.
  destruct (OMap.has _ _) eqn:Hhas; simpl; [now split|].
  split; unfold pluginNames; simpl.
  - now apply NoDup_keys_set.
  - clear Hnd Hhas. induction (PluginManager.plugins st) as [|[k p] ps IH]; simpl.
    + repeat constructor.
    + inversion Hnames; subst.
      destruct (String.eqb k (PluginManager.name plugin));
        constructor; auto.
Qed.




Lemma withPlugins_same {C} (st : PluginManager.State C) :
  withPlugins (PluginManager.plugins st) st = st.
Proof. now destruct st. Qed.

Lemma forEach_unloadPlugin {C} (ps : OMap.t PluginManager.Plugin) :
  forall st : PluginManager.State C,
  PluginManager.plugins st = ps ->
  NoDup (OMap.keys ps) ->
  (forallb (fun e => shutsDown (snd e)) ps = true ->
   PluginManager.forEach PluginManager.unloadPlugin (OMap.keys ps) st
   = (Ok tt, withPlugins [] st))
  /\ (forall before k plugin after e,
        ps = (before ++ (k, plugin) :: after)%list ->
        forallb (fun e => shutsDown (snd e)) before = true ->
        PluginManager.shutdown plugin = Throw e ->
        PluginManager.forEach PluginManager.unloadPlugin (OMap.keys ps) st
        = (Throw (failure "unload" k e),
           withPlugins ((k, plugin) :: after) st)).
Proof.
  induction ps as [|[k0 p0] ps IH]; intros st Hps Hnd.
  - split.
    + intros _. simpl. unfold ret. now rewrite <- Hps, withPlugins_same.
    + intros [|] ? ? ? ? [=].
  - inversion Hnd as [|? ? Hnotin Hnd']; subst.
    assert (Hstep :
              PluginManager.unloadPlugin k0 st
              = match PluginManager.shutdown p0 with
                | Ok _ => (Ok tt, withPlugins ps st)
                | Throw e => (Throw (failure "unload" k0 e), st)
                end).
    { unfold PluginManager.unloadPlugin, bind, gets. rewrite Hps. simpl.
      rewrite String.eqb_refl.
      unfold tryCatch, PluginManager.settle, modify, throw.
      destruct (PluginManager.shutdown p0) as [[]|e]; [|reflexivity].
      unfold withPlugins. rewrite Hps. simpl. rewrite String.eqb_refl. simpl.
      fold (OMap.delete ps k0).
      rewrite delete_absent by now apply get_absent_keys. reflexivity. }
    destruct (IH (withPlugins ps st) eq_refl Hnd') as [IHall IHfail].
    split.
    + simpl. intros Hall. apply andb_true_iff in Hall as [Hp0 Hall].
      unfold bind. rewrite Hstep. unfold shutsDown in Hp0.
      destruct (PluginManager.shutdown p0); [|discriminate].
      now rewrite IHall.
    + intros before k plugin after e Hsplit Hbefore Hfail.
      simpl. unfold bind. rewrite Hstep.
      destruct before as [|[k1 p1] before]; simpl in Hsplit.
      * injection Hsplit as <- <- <-. rewrite Hfail.
        now rewrite <- Hps, withPlugins_same.
      * injection Hsplit as <- <- ->. simpl in Hbefore.
        apply andb_true_iff in Hbefore as [Hp0 Hbefore].
        unfold shutsDown in Hp0.
        destruct (PluginManager.shutdown p0); [|discriminate].
        now rewrite (IHfail before k plugin after e).
Qed.

(** X22.  [unloadAllPlugins] shuts the plugins down in the order of
    their registration and removes each one it has shut down.  It stops
    at the first whose [shutdown] throws: it then throws an error that
    names that plugin and carries its error, and that plugin and those
    after it stay registered.  When all shut down, no plugin is left.
    The adapter classes are kept. *)
Theorem unloadAllPlugins_removes_what_it_shut_down (C : Type)
    (st : PluginManager.State C) :
  NoDup (pluginNames st) ->
  (forallb (fun e => shutsDown (snd e)) (PluginManager.plugins st) = true ->
   PluginManager.unloadAllPlugins st = (Ok tt, withPlugins [] st))
  /\ (forall before k plugin after e,
        PluginManager.plugins st = (before ++ (k, plugin) :: after)%list ->
        forallb (fun e => shutsDown (snd e)) before = true ->
        PluginManager.shutdown plugin = Throw e ->
        PluginManager.unloadAllPlugins st
        = (Throw (failure "unload" k e),
           withPlugins ((k, plugin) :: after) st)).
Proof.
  intros Hnd. unfold PluginManager.unloadAllPlugins. unfold bind, gets.
  exact (forEach_unloadPlugin st eq_refl Hnd).
Qed.

Lemma unloadAllPlugins_removes_what_it_shut_down_witness :
  PluginManager.unloadAllPlugins threePlugins
  = (Throw (failure "unload" "broken" "busy"),
     withPlugins [("broken", brokenPlugin); ("cache", cachePlugin)] threePlugins).
Proof.
  destruct (@unloadAllPlugins_removes_what_it_shut_down string threePlugins)
    as [_ Hfails].
  - repeat constructor; simpl; intuition discriminate.
  - apply (Hfails [("audit", auditPlugin)] "broken" brokenPlugin
             [("cache", cachePlugin)] "busy"); reflexivity.
Defined.

(** ** The managers without hooks, and the facade before [initialize] *)

Lemma awaitHooks_unhooked {S} (event : string) (data : HookEvent) (env : Env S) :
  hooksFor (hookManager env) event = [] ->
  awaitHooks event data env
  = (Ok {| returned := OMap.spread [] data; handedBack := OMap.spread [] data |},
     env).
Proof.
  intros H. unfold awaitHooks, bind, onHooks.
  rewrite executeHooks_hooksFor, H. unfold hooksFor in H. simpl. rewrite H.
  simpl. rewrite view_start. now destruct env.
Qed.

Opaque awaitHooks.

(** Runs a wrapped operation for which no hook is registered. *)
Ltac unhooked_run Hpre Hpost :=
  unfold bind; rewrite awaitHooks_unhooked by exact Hpre; simpl;
  unfold onAdapter;
  match goal with
  | |- context [match ?x with _ => _ end] => innermost x
  end;
  match goal with
  | |- match ?r with _ => _ end = _ => destruct r as [result|e]
  end;
  [ rewrite awaitHooks_unhooked by exact Hpost;
    try match goal with
        | |- context [theNullable _ _ ?x] => destruct x
        end;
    reflexivity
  | reflexivity ].

(** X23.  Without hooks the managers are the adapter: when no hook is
    registered for the two events of a wrapped operation, the
    operation of [UserManager] or [RoleManager] returns what the
    adapter call returns, throws what it throws, leaves the adapter as
    that call leaves it, and leaves the registry as it is. *)
Theorem managers_without_hooks_are_the_adapter (S : Type)
    (A : StorageAdapter.t S) (data : Obj) (id : string) (now : Z)
    (options : option QueryOptions) :
  transparent ["user.preCreate"; "user.postCreate"]
    (UserManager.createUser A data id now) (StorageAdapter.createUser A data id now)
  /\ transparent ["user.preGet"; "user.postGet"]
       (UserManager.getUserById A id) (StorageAdapter.getUserById A id)
  /\ transparent ["user.preGetAll"; "user.postGetAll"]
       (UserManager.getUsers A options) (StorageAdapter.getUsers A options)
  /\ transparent ["user.preUpdate"; "user.postUpdate"]
       (UserManager.updateUser A id data now)
       (StorageAdapter.updateUser A id data now)
  /\ transparent ["user.preDelete"; "user.postDelete"]
       (UserManager.deleteUser A id) (StorageAdapter.deleteUser A id)
  /\ transparent ["user.preGetRoles"; "user.postGetRoles"]
       (UserManager.getUserRoles A id) (StorageAdapter.getUserRoles A id)
  /\ transparent ["role.preCreate"; "role.postCreate"]
       (RoleManager.createRole A data id now)
       (StorageAdapter.createRole A data id now)
  /\ transparent ["role.preGet"; "role.postGet"]
       (RoleManager.getRoleById A id) (StorageAdapter.getRoleById A id)
  /\ transparent ["role.preGetAll"; "role.postGetAll"]
       (RoleManager.getRoles A options) (StorageAdapter.getRoles A options)
  /\ transparent ["role.preUpdate"; "role.postUpdate"]
       (RoleManager.updateRole A id data now)
       (StorageAdapter.updateRole A id data now)
  /\ transparent ["role.preDelete"; "role.postDelete"]
       (RoleManager.deleteRole A id) (StorageAdapter.deleteRole A id)
  /\ transparent ["role.preGetUsers"; "role.postGetUsers"]
       (RoleManager.getRoleUsers A id) (StorageAdapter.getRoleUsers A id).
Proof.
  repeat apply conj; intros env Hnone;
    (assert (Hpre := Hnone _ (or_introl eq_refl));
     assert (Hpost := Hnone _ (or_intror (or_introl eq_refl))));
    [ unfold UserManager.createUser | unfold UserManager.getUserById
    | unfold UserManager.getUsers | unfold UserManager.updateUser
    | unfold UserManager.deleteUser | unfold UserManager.getUserRoles
    | unfold RoleManager.createRole | unfold RoleManager.getRoleById
    | unfold RoleManager.getRoles | unfold RoleManager.updateRole
    | unfold RoleManager.deleteRole | unfold RoleManager.getRoleUsers ];
    unhooked_run Hpre Hpost.
Qed.

Lemma managers_without_hooks_are_the_adapter_witness :
  UserManager.createUser (StorageAdapter.memory (V := Validation.checks))
    alice "u1" 1000
    {| hookManager := HookManager.create; adapter := MemoryAdapter.create |}
  = onAdapter (MemoryAdapter.createUser (V := Validation.checks) alice "u1" 1000)
      {| hookManager := HookManager.create; adapter := MemoryAdapter.create |}.
Proof.
  destruct (@managers_without_hooks_are_the_adapter MemoryAdapter.State
              (StorageAdapter.memory (V := Validation.checks))
              alice "u1" 1000 None) as [Hcreate _].
  apply Hcreate. intros event _. reflexivity.
Defined.

Transparent awaitHooks.

(** X24.  Before [initialize()] the facade refuses: [assignRole],
    [removeRole], [beginTransaction], [commit], [rollback] and the
    operations reached through [users] and [roles] throw
    'UserManagement not initialized. Call initialize() first.'; no hook
    runs and neither the adapter nor the registry changes. *)
Theorem facade_refuses_before_initialize (S : Type) (A : StorageAdapter.t S)
    (st : UserManagement.State S) (u r id : string) (data : Obj) (now : Z) :
  UserManagement.initialized st = false ->
  refused (UserManagement.assignRole A u r now) st
  /\ refused (UserManagement.removeRole A u r) st
  /\ refused (UserManagement.beginTransaction A) st
  /\ refused (UserManagement.commit A) st
  /\ refused (UserManagement.rollback A) st
  /\ refused (UserManagement.users_createUser A data id now) st
  /\ refused (UserManagement.roles_createRole A data id now) st.
Proof.
  intros Hinit.
  assert (Hguard : UserManagement.ensureInitialized st
                   = (Throw "UserManagement not initialized. Call initialize() first.",
                      st)).
  { unfold UserManagement.ensureInitialized, bind, gets. now rewrite Hinit. }
  unfold refused, UserManagement.assignRole, UserManagement.removeRole,
    UserManagement.beginTransaction, UserManagement.commit,
    UserManagement.rollback, UserManagement.users_createUser,
    UserManagement.roles_createRole.
  repeat apply conj; unfold bind at 1; now rewrite Hguard.
Qed.

Lemma facade_refuses_before_initialize_witness :
  refused (UserManagement.assignRole
             (StorageAdapter.memory (V := Validation.checks)) "u1" "r1" 5000)
          dormant
  /\ refused (UserManagement.users_createUser
                (StorageAdapter.memory (V := Validation.checks)) alice "u1" 1000)
             dormant.
Proof.
  destruct (@facade_refuses_before_initialize MemoryAdapter.State
              (StorageAdapter.memory (V := Validation.checks))
              dormant "u1" "r1" "u1" alice 1000 eq_refl)
    as (Hassign & _ & _ & _ & _ & Hcreate & _).
  split; [exact Hassign | exact Hcreate].
Defined.

(** ** What every reachable state satisfies *)

Lemma memory_stepAll_wellFormed {V : Validator} (steps : list Step) st :
  wellFormed st -> Forall admissibleStep steps ->
  wellFormed (stepAll StorageAdapter.memory steps st).
Proof.
  intros Hwf Hall. revert st Hwf.
  induction Hall as [|s steps Hs _ IH]; intros st Hwf; simpl; [exact Hwf|].
  apply IH. destruct s; simpl.
  - now apply memory_call_wellFormed.
  - now apply memory_transactions_wellFormed.
  - now apply memory_transactions_wellFormed.
  - now apply memory_transactions_wellFormed.
Qed.

(** X25.  What a memory adapter holds, after any sequence of mutating
    calls and transaction operations on a new adapter, given that the
    identifiers drawn for users hold no colon and that updates do not
    name an [id]: every user and every role that is found under an
    identifier carries that identifier, and no pair of a user and a
    role is associated twice. *)
Theorem memory_adapter_stays_consistent (V : Validator) (steps : list Step) :
  Forall admissibleStep steps ->
  let st := stepAll StorageAdapter.memory steps MemoryAdapter.create in
  findsById MemoryAdapter.getUserById st
  /\ findsById MemoryAdapter.getRoleById st
  /\ pairsUnique (OMap.values (MemoryAdapter.getUserRoleMap st)).
Proof.
  intros Hall st.
  pose proof (memory_stepAll_wellFormed wellFormed_create Hall) as Hwf.
  fold st in Hwf.
  destruct (wellFormed_visible Hwf) as (Hku & _ & Hkr & Hl).
  split; [|split].
  - intros id record. unfold MemoryAdapter.getUserById. run.
    destruct (validateId id); simpl; [discriminate|].
    intros [= Hget]. now apply Hku.
  - intros id record. unfold MemoryAdapter.getRoleById. run.
    destruct (validateId id); simpl; [discriminate|].
    intros [= Hget]. now apply Hkr.
  - now apply linked_pairsUnique.
Qed.

Lemma memory_adapter_stays_consistent_witness :
  let steps := [Do (CreateUser alice "u1" 1000); Begin;
                Do (CreateRole admin "r1" 2000);
                Do (AssignRole "u1" "r1" 3000);
                Do (UpdateUser "u1" newEmail 4000); Commit;
                Do (AssignRole "u1" "r1" 5000); Rollback] in
  let st := stepAll (StorageAdapter.memory (V := Validation.checks)) steps
                    MemoryAdapter.create in
  findsById (MemoryAdapter.getUserById (V := Validation.checks)) st
  /\ findsById (MemoryAdapter.getRoleById (V := Validation.checks)) st
  /\ pairsUnique (OMap.values (MemoryAdapter.getUserRoleMap st)).
Proof.
  apply (@memory_adapter_stays_consistent Validation.checks
           [Do (CreateUser alice "u1" 1000); Begin;
            Do (CreateRole admin "r1" 2000);
            Do (AssignRole "u1" "r1" 3000);
            Do (UpdateUser "u1" newEmail 4000); Commit;
            Do (AssignRole "u1" "r1" 5000); Rollback]).
  repeat (apply Forall_cons; [vm_compute; auto|]). apply Forall_nil.
Defined.

Lemma file_performAll_wellFormed {V : Validator} (calls : list Call) st :
  wellFormedData (FileSystemAdapter.data st) ->
  admissibleFrom calls st ->
  wellFormedData
    (FileSystemAdapter.data (performAll StorageAdapter.file calls st)).
Proof.
  revert st. induction calls as [|c calls IH]; intros st Hwf Hadm; simpl;
    [exact Hwf|].
  destruct Hadm as [Hc Hrest]. apply IH; [|exact Hrest].
  now apply file_call_wellFormed.
Qed.

(** X26.  What a file-system adapter holds, after any sequence of
    mutating calls on data in which identifiers are unique, given that
    every identifier drawn is one that no stored record of the kind
    carries and that updates do not name an [id]: no two users and no
    two roles carry the same identifier, and no pair of a user and a
    role is associated twice. *)
Theorem file_adapter_stays_consistent (V : Validator) (calls : list Call)
    (st : FileSystemAdapter.State) :
  wellFormedData (FileSystemAdapter.data st) ->
  admissibleFrom calls st ->
  let st' := performAll StorageAdapter.file calls st in
  uniqueIds (FileSystemAdapter.users (FileSystemAdapter.data st'))
  /\ uniqueIds (FileSystemAdapter.roles (FileSystemAdapter.data st'))
  /\ pairsUnique (FileSystemAdapter.userRoles (FileSystemAdapter.data st')).
Proof.
  intros Hwf Hadm st'. exact (file_performAll_wellFormed calls st Hwf Hadm).
Qed.

Lemma file_adapter_stays_consistent_witness :
  let calls := [CreateUser alice "u1" 1000; CreateRole admin "r1" 2000;
                AssignRole "u1" "r1" 3000; UpdateUser "u1" newEmail 4000;
                AssignRole "u1" "r1" 5000; CreateUser bob "u2" 6000;
                DeleteUser "u1"] in
  let st' := performAll (StorageAdapter.file (V := Validation.checks)) calls
                        (FileSystemAdapter.create "/data" OMap.empty) in
  uniqueIds (FileSystemAdapter.users (FileSystemAdapter.data st'))
  /\ uniqueIds (FileSystemAdapter.roles (FileSystemAdapter.data st'))
  /\ pairsUnique (FileSystemAdapter.userRoles (FileSystemAdapter.data st')).
Proof.
  apply (@file_adapter_stays_consistent Validation.checks
           [CreateUser alice "u1" 1000; CreateRole admin "r1" 2000;
            AssignRole "u1" "r1" 3000; UpdateUser "u1" newEmail 4000;
            AssignRole "u1" "r1" 5000; CreateUser bob "u2" 6000;
            DeleteUser "u1"]
           (FileSystemAdapter.create "/data" OMap.empty)).
  - apply wellFormedData_empty.
  - vm_compute. repeat split.
Defined.

(** ** Linked entities *)

Lemma strict_eq_str_l s v : strict_eq (VStr s) v = true <-> v = VStr s.
Proof.
  destruct v; simpl; try (split; [discriminate | intros [=]]).
  split.
  - intros H. apply String.eqb_eq in H. now subst.
  - intros [= ->]. apply String.eqb_refl.
Qed.

Lemma Set_add_In_str k v ids :
  In (VStr k) (MemoryAdapter.Set_add ids v) <-> In (VStr k) ids \/ v = VStr k.
Proof.
  unfold MemoryAdapter.Set_add.
  destruct (existsb (strict_eq v) ids) eqn:E.
  - split; [auto|]. intros [H| ->]; [exact H|].
    apply existsb_exists in E as [y [Hy Heq]].
    apply strict_eq_str_l in Heq. now subst.
  - rewrite in_app_iff. simpl. intuition.
Qed.

Lemma memory_linkedIds_In field other id (m : OMap.t Obj) k :
  In (VStr k) (MemoryAdapter.linkedIds field other id m)
  <-> associated field other id (OMap.values m) (VStr k).
Proof.
  unfold MemoryAdapter.linkedIds, associated.
  generalize (OMap.values m) as l. clear m. intros l.
  set (step := fun ids userRole =>
                 if strict_eq (prop userRole field) (VStr id)
                 then MemoryAdapter.Set_add ids (prop userRole other) else ids).
  assert (Hfold : forall acc,
             In (VStr k) (fold_left step l acc)
             <-> In (VStr k) acc
                 \/ exists userRole,
                      In userRole l /\ prop userRole field = VStr id
                      /\ strict_eq (VStr k) (prop userRole other) = true).
  { induction l as [|x l IH]; intros acc; simpl.
    - split; [auto | intros [H|(ur & [] & _)]; exact H].
    - rewrite IH. unfold step.
      destruct (strict_eq (prop x field) (VStr id)) eqn:E.
      + apply strict_eq_str in E. rewrite Set_add_In_str. split.
        * intros [[H|H]|(ur & Hin & Hf & Ho)].
          -- now left.
          -- right. exists x. split; [now left|]. split; [exact E|].
             now apply strict_eq_str_l.
          -- right. exists ur. auto.
        * intros [H|(ur & [<-|Hin] & Hf & Ho)].
          -- left. now left.
          -- left. right. now apply strict_eq_str_l in Ho.
          -- right. exists ur. auto.
      + split.
        * intros [H|(ur & Hin & Hf & Ho)]; [now left|].
          right. exists ur. auto.
        * intros [H|(ur & [<-|Hin] & Hf & Ho)]; [now left| |].
          -- apply strict_eq_str in Hf. congruence.
          -- right. exists ur. auto. }
  rewrite Hfold. simpl. intuition.
Qed.

Lemma memory_lookupAll_In (m : OMap.t Obj) ids record :
  In record (MemoryAdapter.lookupAll m ids)
  <-> exists k, In (VStr k) ids /\ OMap.get m k = Some record.
Proof.
  split; [apply lookupAll_In|].
  intros (k & Hin & Hget). unfold MemoryAdapter.lookupAll.
  apply in_flat_map. exists (VStr k). split; [exact Hin|].
  simpl. rewrite Hget. now left.
Qed.

Lemma file_linkedIds_existsb field other id userRoles key :
  existsb (strict_eq key) (FileSystemAdapter.linkedIds field other id userRoles)
  = true
  <-> associated field other id userRoles key.
Proof.
  unfold FileSystemAdapter.linkedIds, associated.
  rewrite existsb_exists. split.
  - intros (v & Hin & Heq). apply in_map_iff in Hin as (ur & <- & Hin).
    apply filter_In in Hin as [Hin Hf]. apply strict_eq_str in Hf. eauto.
  - intros (ur & Hin & Hf & Heq). exists (prop ur other). split; [|exact Heq].
    apply (in_map (fun userRole => prop userRole other)).
    apply filter_In. split; [exact Hin|].
    now apply strict_eq_str.
Qed.

(** X27.  The linked entities are the associated ones.  With an
    identifier that passes validation, [getUserRoles(u)] returns, in
    both adapters, exactly the stored roles for which an association
    with the user [u] is stored, and [getRoleUsers(r)] exactly the
    stored users for which an association with the role [r] is stored;
    neither changes the state.  The memory adapter looks the roles and
    users up by their key, the file-system adapter by the [id] they
    carry. *)
Theorem linked_entities_are_the_associated_ones (V : Validator) (id : string)
    (st : MemoryAdapter.State) (fs : FileSystemAdapter.State) :
  validateId id = None ->
  returnsThe MemoryAdapter.getUserRoles id
    (fun role => exists k,
       OMap.get (MemoryAdapter.getRoleMap st) k = Some role
       /\ associated "userId" "roleId" id
            (OMap.values (MemoryAdapter.getUserRoleMap st)) (VStr k)) st
  /\ returnsThe MemoryAdapter.getRoleUsers id
       (fun user => exists k,
          OMap.get (MemoryAdapter.getUserMap st) k = Some user
          /\ associated "roleId" "userId" id
               (OMap.values (MemoryAdapter.getUserRoleMap st)) (VStr k)) st
  /\ returnsThe FileSystemAdapter.getUserRoles id
       (fun role =>
          In role (FileSystemAdapter.roles (FileSystemAdapter.data fs))
          /\ associated "userId" "roleId" id
               (FileSystemAdapter.userRoles (FileSystemAdapter.data fs))
               (prop role "id")) fs
  /\ returnsThe FileSystemAdapter.getRoleUsers id
       (fun user =>
          In user (FileSystemAdapter.users (FileSystemAdapter.data fs))
          /\ associated "roleId" "userId" id
               (FileSystemAdapter.userRoles (FileSystemAdapter.data fs))
               (prop user "id")) fs.
Proof.
  intros Hid. unfold returnsThe.
  split; [|split; [|split]]; eexists;
    (split;
     [ unfold MemoryAdapter.getUserRoles, MemoryAdapter.getRoleUsers,
         FileSystemAdapter.getUserRoles, FileSystemAdapter.getRoleUsers;
       run; rewrite Hid; reflexivity | ]);
    intros record.
  - rewrite memory_lookupAll_In. split.
    + intros (k & Hin & Hget). exists k. split; [exact Hget|].
      now apply memory_linkedIds_In.
    + intros (k & Hget & Hassoc). exists k. split; [|exact Hget].
      now apply memory_linkedIds_In.
  - rewrite memory_lookupAll_In. split.
    + intros (k & Hin & Hget). exists k. split; [exact Hget|].
      now apply memory_linkedIds_In.
    + intros (k & Hget & Hassoc). exists k. split; [|exact Hget].
      now apply memory_linkedIds_In.
  - unfold FileSystemAdapter.selectByIds. rewrite filter_In.
    now rewrite file_linkedIds_existsb.
  - unfold FileSystemAdapter.selectByIds. rewrite filter_In.
    now rewrite file_linkedIds_existsb.
Qed.

Lemma linked_entities_are_the_associated_ones_witness :
  returnsThe (FileSystemAdapter.getUserRoles (V := Validation.checks)) "u1"
    (fun role =>
       In role (FileSystemAdapter.roles (FileSystemAdapter.data aliceIsAdminOnDisk))
       /\ associated "userId" "roleId" "u1"
            (FileSystemAdapter.userRoles
               (FileSystemAdapter.data aliceIsAdminOnDisk))
            (prop role "id")) aliceIsAdminOnDisk.
Proof.
  destruct (@linked_entities_are_the_associated_ones Validation.checks "u1"
              aliceIsAdmin aliceIsAdminOnDisk eq_refl) as (_ & _ & H & _).
  exact H.
Defined.

(** ** The life cycle of the facade *)




Section FacadeLifeCycle.

Context {S : Type}.

Implicit Types (st : Facade.State S) (c : AdapterClass S).




End FacadeLifeCycle.





Lemma unloadAllPlugins_run {C} (pm : PluginManager.State C) :
  NoDup (pluginNames pm) ->
  (forallb (fun e => shutsDown (snd e)) (PluginManager.plugins pm) = true ->
   PluginManager.unloadAllPlugins pm = (Ok tt, withPlugins [] pm))
  /\ (forall before k plugin after e,
        PluginManager.plugins pm = (before ++ (k, plugin) :: after)%list ->
        forallb (fun e => shutsDown (snd e)) before = true ->
        PluginManager.shutdown plugin = Throw e ->
        PluginManager.unloadAllPlugins pm
        = (Throw (failure "unload" k e),
           withPlugins ((k, plugin) :: after) pm)).
Proof.
  intros Hnd. unfold PluginManager.unloadAllPlugins. unfold bind, gets.
  exact (forEach_unloadPlugin pm eq_refl Hnd).
Qed.

(** X30.  [shutdown()] does nothing on a facade that is not
    initialized.  On an initialized one it shuts the adapter down, then
    the plugins: when all of that returns, the facade is left without
    plugin, adapter object and managers and is no longer initialized,
    while its configuration, its hooks and its adapter classes stay.
    When a plugin cannot be shut down, or the adapter cannot, the error
    is thrown and the facade stays initialized, with the adapter as its
    [shutdown] left it and the plugins that were not shut down. *)
Theorem shutdown_stops_at_the_first_failure (S : Type) (st : Facade.State S) :
  (Facade.initialized st = false -> Facade.shutdown st = (Ok tt, st))
  /\ (forall a fields,
        Facade.initialized st = true ->
        Facade.adapter st = Some a ->
        NoDup (pluginNames (Facade.pluginManager st)) ->
        adapterShutdown (classOf a) (instance a) = (Ok tt, fields) ->
        (forallb (fun e => shutsDown (snd e)) (pluginsOf st) = true ->
         Facade.shutdown st = (Ok tt, stopped st))
        /\ (forall before k plugin after e,
              pluginsOf st = (before ++ (k, plugin) :: after)%list ->
              forallb (fun e => shutsDown (snd e)) before = true ->
              PluginManager.shutdown plugin = Throw e ->
              let st' := keeping ((k, plugin) :: after)
                                 (holding (classOf a) fields st) in
              Facade.shutdown st = (Throw (failure "unload" k e), st')
              /\ Facade.initialized st' = true))
  /\ (forall a e fields,
        Facade.initialized st = true ->
        Facade.adapter st = Some a ->
        adapterShutdown (classOf a) (instance a) = (Throw e, fields) ->
        Facade.shutdown st = (Throw e, holding (classOf a) fields st)
        /\ Facade.initialized (holding (classOf a) fields st) = true).
Proof.
  split; [|split].
  - intros Hinit. unfold Facade.shutdown, bind, gets. now rewrite Hinit.
  - intros a fields Hinit Ha Hnd Hadapter.
    destruct (@unloadAllPlugins_run _ (Facade.pluginManager st) Hnd) as [Hall Hfail].
    split.
    + intros Hplugins.
      unfold Facade.shutdown, bind, gets, Facade.onAdapter, Facade.onPlugins,
        modify.
      rewrite Hinit. simpl. rewrite Ha, Hadapter. simpl.
      unfold pluginsOf in Hplugins. rewrite (Hall Hplugins). reflexivity.
    + intros before k plugin after e Hsplit Hbefore Hthrows st'.
      unfold Facade.shutdown, bind, gets, Facade.onAdapter, Facade.onPlugins,
        modify.
      rewrite Hinit. simpl. rewrite Ha, Hadapter. simpl.
      unfold pluginsOf in Hsplit.
      rewrite (Hfail before k plugin after e Hsplit Hbefore Hthrows).
      split; [reflexivity | exact Hinit].
  - intros a e fields Hinit Ha Hadapter.
    unfold Facade.shutdown, bind, gets, Facade.onAdapter, modify.
    rewrite Hinit. simpl. rewrite Ha, Hadapter.
    split; [reflexivity | exact Hinit].
Qed.

Lemma shutdown_stops_at_the_first_failure_witness :
  let st := ready memoryClass (OfMemory MemoryAdapter.create)
                  (facadeWith [auditPlugin; stuckPlugin; cachePlugin]) in
  let st' := keeping [("stuck", stuckPlugin); ("cache", cachePlugin)] st in
  Facade.shutdown st = (Throw (failure "unload" "stuck" "busy"), st')
  /\ Facade.initialized st' = true.
Proof.
  destruct (@shutdown_stops_at_the_first_failure BuiltIn
              (ready memoryClass (OfMemory MemoryAdapter.create)
                     (facadeWith [auditPlugin; stuckPlugin; cachePlugin])))
    as (_ & Hplugins & _).
  destruct (Hplugins {| classOf := memoryClass;
                        instance := OfMemory MemoryAdapter.create |}
                     (OfMemory MemoryAdapter.create))
    as [_ Hstuck]; try reflexivity.
  - repeat constructor; simpl; intuition discriminate.
  - apply (Hstuck [("audit", auditPlugin)] "stuck" stuckPlugin
             [("cache", cachePlugin)] "busy"); reflexivity.
Defined.
